(** * FinanStar: the statement reclassification engine of cases 1, 2 and 7

    A shallow embedding of the helpers of [case1.py], [case2.py] and
    [case7.py] that parse amounts and dates, normalise text, filter rows by
    a date range and reclassify transaction codes, followed by the
    properties proved about them.

    Conventions.
    - A Python [str] is a list of Unicode code points ([ustr]).
    - A number held by a cell is the rational it denotes ([Q]), rounding
      to binary64 left out. The floats of case 7, which come from [float]
      applied to the text of a cell, are numbers, infinities or nan
      ([pyfloat]); the amounts of case 1 are numbers, its parser handing to
      [float] digits, separators and minus signs only.
    - The Python library functions the code calls ([unicodedata.normalize],
      [str.lower], [float], [datetime.strptime], ...) are fields of the
      class [PyLib]; [RefLib] is an instance covering ASCII and the accented
      Latin letters, used to evaluate closed examples. *)

From Stdlib Require Import ZArith NArith QArith Qround Qabs Lia Lqa String Ascii List Bool.
From Stdlib Require Import Sorted.
From stdpp Require Import base list gmap strings.

Set Default Proof Using "Type".
Local Open Scope nat_scope.

(** ** Unicode strings *)

Abbreviation ustr := (list N).

Fixpoint utf8_decode (bs : list N) : ustr :=
  match bs with
  | [] => []
  | b :: r =>
      if (b <? 128)%N then b :: utf8_decode r
      else if (b <? 224)%N then
        match r with
        | b1 :: r1 => ((b mod 32) * 64 + b1 mod 64)%N :: utf8_decode r1
        | _ => []
        end
      else if (b <? 240)%N then
        match r with
        | b1 :: b2 :: r2 =>
            ((b mod 16) * 4096 + (b1 mod 64) * 64 + b2 mod 64)%N :: utf8_decode r2
        | _ => []
        end
      else
        match r with
        | b1 :: b2 :: b3 :: r3 =>
            ((b mod 8) * 262144 + (b1 mod 64) * 4096 + (b2 mod 64) * 64 + b3 mod 64)%N
              :: utf8_decode r3
        | _ => []
        end
  end.

(** [U "..."] is the Python string written by the (UTF-8) literal. *)
Definition U (s : string) : ustr :=
  utf8_decode (map N_of_ascii (list_ascii_of_string s)).

(** [str.isspace] on one code point. *)
Definition isspace (c : N) : bool :=
  ((9 <=? c) && (c <=? 13) || (28 <=? c) && (c <=? 32) || (c =? 0x85) || (c =? 0xA0)
   || (c =? 0x1680) || (0x2000 <=? c) && (c <=? 0x200A) || (c =? 0x2028) || (c =? 0x2029)
   || (c =? 0x202F) || (c =? 0x205F) || (c =? 0x3000))%N.

Fixpoint lstrip (s : ustr) : ustr :=
  match s with
  | c :: r => if isspace c then lstrip r else s
  | [] => []
  end.

Definition rstrip (s : ustr) : ustr := rev (lstrip (rev s)).

(** [s.strip()] *)
Definition strip (s : ustr) : ustr := rstrip (lstrip s).

(** [s.replace(chr(c), '')] *)
Definition remove_char (c : N) (s : ustr) : ustr :=
  List.filter (fun x => negb (x =? c)%N) s.

(** [s.replace(chr(a), chr(b))] *)
Definition replace_char (a b : N) (s : ustr) : ustr :=
  map (fun x => if (x =? a)%N then b else x) s.

(** [s.count(chr(c))] *)
Definition count_char (c : N) (s : ustr) : nat :=
  length (List.filter (fun x => (x =? c)%N) s).

(** [chr(c) in s] *)
Definition has_char (c : N) (s : ustr) : bool := existsb (fun x => (x =? c)%N) s.

(** [s.rfind(chr(c))]: the last index of [c] in [s], or [-1]. *)
Fixpoint rfind_from (c : N) (s : ustr) (i : Z) (found : Z) : Z :=
  match s with
  | [] => found
  | x :: r => rfind_from c r (i + 1)%Z (if (x =? c)%N then i else found)
  end.

Definition rfind_char (c : N) (s : ustr) : Z := rfind_from c s 0%Z (-1)%Z.

Definition ustr_eqb (a b : ustr) : bool := bool_decide (a = b).

Fixpoint starts_with (p s : ustr) : bool :=
  match p, s with
  | [], _ => true
  | a :: p', b :: s' => (a =? b)%N && starts_with p' s'
  | _ :: _, [] => false
  end.

(** [p in s] for strings: [p] occurs as a contiguous substring of [s]. *)
Fixpoint contains (p s : ustr) : bool :=
  starts_with p s ||
  match s with
  | [] => false
  | _ :: s' => contains p s'
  end.

(** ** Dates

    A [datetime] is a proleptic Gregorian ordinal (day 1 is 0001-01-01) and
    the microseconds elapsed in that day. *)

Record datetime := mk_datetime { dt_ordinal : Z; dt_micros : Z }.

#[global] Instance datetime_eq_dec : EqDecision datetime.
Proof. solve_decision. Defined.

Definition us_per_day : Z := 86400000000.
Definition MINORDINAL : Z := 1.
Definition MAXORDINAL : Z := 3652059.

(** [datetime.year], after [_ord2ymd] of the standard library. *)
Definition year_of_ordinal (ord : Z) : Z :=
  let n := (ord - 1)%Z in
  let n400 := (n / 146097)%Z in
  let n := (n mod 146097)%Z in
  let n100 := (n / 36524)%Z in
  let n := (n mod 36524)%Z in
  let n4 := (n / 1461)%Z in
  let n := (n mod 1461)%Z in
  let n1 := (n / 365)%Z in
  let year := (n400 * 400 + 1 + n100 * 100 + n4 * 4 + n1)%Z in
  if ((n1 =? 4) || (n100 =? 4))%Z then (year - 1)%Z else year.

Definition dt_year (d : datetime) : Z := year_of_ordinal (dt_ordinal d).

Definition is_leap (y : Z) : bool :=
  ((y mod 4 =? 0) && (negb (y mod 100 =? 0) || (y mod 400 =? 0)))%Z.

Definition days_in_month (y m : Z) : Z :=
  if (m =? 2)%Z then (if is_leap y then 29 else 28)%Z
  else if ((m =? 4) || (m =? 6) || (m =? 9) || (m =? 11))%Z then 30%Z else 31%Z.

Definition days_before_year (y : Z) : Z :=
  let p := (y - 1)%Z in (p * 365 + p / 4 - p / 100 + p / 400)%Z.

Definition days_before_month (y m : Z) : Z :=
  fold_right Z.add 0%Z
    (map (days_in_month y) (map Z.of_nat (seq 1 (Z.to_nat (m - 1))))).

(** [datetime(y, m, d)]; [None] stands for [ValueError]. *)
Definition make_date (y m d : Z) : option datetime :=
  if ((1 <=? y) && (y <=? 9999) && (1 <=? m) && (m <=? 12)
      && (1 <=? d) && (d <=? days_in_month y m))%Z
  then Some (mk_datetime (days_before_year y + days_before_month y m + d) 0)
  else None.

(** [d.date()] compared with [<=]. *)
Definition date_le (a b : datetime) : bool := (dt_ordinal a <=? dt_ordinal b)%Z.

(** [a > b] on datetimes. *)
Definition datetime_gt (a b : datetime) : bool :=
  ((dt_ordinal b <? dt_ordinal a)
   || (dt_ordinal b =? dt_ordinal a) && (dt_micros b <? dt_micros a))%Z.

(** Rounding to the nearest integer, ties to even, as [timedelta] does for
    microseconds. *)
Definition round_half_even (q : Q) : Z :=
  let f := Qfloor q in
  let r := (q - inject_Z f)%Q in
  match (r ?= 1 # 2)%Q with
  | Lt => f
  | Gt => (f + 1)%Z
  | Eq => if Z.even f then f else (f + 1)%Z
  end.

(** [datetime(1899, 12, 30) + timedelta(days=float(value))]; [None] stands
    for the [OverflowError] raised when the sum leaves years 1..9999 or the
    [timedelta] exceeds 999999999 days. *)
Definition EXCEL_EPOCH : Z := 693594.

Definition from_serial (q : Q) : option datetime :=
  let us := round_half_even (q * inject_Z us_per_day)%Q in
  let days := (us / us_per_day)%Z in
  let ord := (EXCEL_EPOCH + days)%Z in
  if ((-999999999 <=? days) && (days <=? 999999999)
      && (MINORDINAL <=? ord) && (ord <=? MAXORDINAL))%Z
  then Some (mk_datetime ord (us mod us_per_day))
  else None.

(** ** Cell values *)

Inductive value :=
| VNone
| VStr (s : ustr)
| VNum (q : Q)
| VBool (b : bool)
| VDatetime (d : datetime)
| VDate (ord : Z)
| VOther (tag : nat).

(** Truth value of a cell content, as [if value:] tests it. *)
Definition truthy (v : value) : bool :=
  match v with
  | VNone => false
  | VStr s => negb (ustr_eqb s [])
  | VNum q => negb (Qeq_bool q 0)
  | VBool b => b
  | VDatetime _ | VDate _ | VOther _ => true
  end.

(** [value in (None, '')] *)
Definition is_blank (v : value) : bool :=
  match v with
  | VNone => true
  | VStr [] => true
  | _ => false
  end.

(** [value == s] for a string [s] *)
Definition value_is_str (v : value) (s : ustr) : bool :=
  match v with
  | VStr t => ustr_eqb t s
  | _ => false
  end.

(** ** Exceptions *)

Inductive exn := DateRangeNotFoundError | OverflowError.

(** The result of a call that may raise. *)
Inductive result (A : Type) :=
| Ok (a : A)
| Raise (e : exn).
Arguments Ok {A} a.
Arguments Raise {A} e.

(** ** Containers

    A worksheet is the list of its rows; the dictionaries of the code are
    association lists where their order of insertion matters and finite
    maps otherwise. *)

Abbreviation worksheet := (list (list value)).
Abbreviation header_map := (list (ustr * nat)).
Abbreviation reference_groups := (list (ustr * list nat)).
Abbreviation code_map := (gmap ustr ustr).
Abbreviation row_data := (gmap string value).

(** ** The Python library *)

Class PyLib := {
  (** [unicodedata.normalize('NFKD', s)] *)
  nfkd : ustr -> ustr;
  (** [unicodedata.combining(c)] *)
  combining : N -> N;
  (** [s.lower()] and [s.upper()] *)
  lower : ustr -> ustr;
  upper : ustr -> ustr;
  (** the class [\d] of [re] *)
  is_digit : N -> bool;
  (** [float(s)] for a text that spells a number, as that number, rounding
      left out; [None] stands for [ValueError]. The texts that [float]
      reads as an infinity or as nan are those of [float_special]. *)
  py_float : ustr -> option Q;
  (** [str(v)] for a value that is not a string *)
  py_repr : value -> ustr;
  (** [datetime.strptime(s, fmt)]; [None] stands for [ValueError] *)
  strptime : ustr -> ustr -> option datetime
}.

Section Engine.
Context {L : PyLib}.

(** [str(v)] *)
Definition py_str (v : value) : ustr :=
  match v with
  | VStr s => s
  | _ => py_repr v
  end.

(** [''.join(ch for ch in unicodedata.normalize('NFKD', s)
             if not unicodedata.combining(ch))] *)
Definition strip_marks (s : ustr) : ustr :=
  List.filter (fun c => (combining c =? 0)%N) (nfkd s).

(** case1.py, [_normalize_text] *)
Definition normalize_text (v : value) : ustr :=
  match v with
  | VStr text => strip (lower (strip_marks text))
  | _ => []
  end.

(** case7.py, [_normalize_text] *)
Definition normalize_text7 (v : value) : ustr :=
  match v with
  | VStr text => remove_char 32 (lower (strip_marks text))
  | _ => []
  end.

(** ** Amounts *)

Definition COMMA : N := 44.
Definition DOT : N := 46.
Definition MINUS : N := 45.
Definition SPACE : N := 32.
Definition NBSP : N := 160.

(** [1e-9] *)
Definition EPS : Q := 1 # 1000000000.

(** [a > b] on numbers. *)
Definition Qgtb (a b : Q) : bool := negb (Qle_bool a b).

(** [float(value)] for a Python [bool], which is an [int]. *)
Definition Q_of_bool (b : bool) : Q := if b then 1%Q else 0%Q.

(** A [float]: a number, an infinity or nan. *)
Inductive pyfloat :=
| Finite (q : Q)
| PosInf
| NegInf
| NaN.

(** [x > c] for a float [x] and a number [c]; false for nan. *)
Definition float_gt (x : pyfloat) (c : Q) : bool :=
  match x with
  | Finite q => Qgtb q c
  | PosInf => true
  | NegInf => false
  | NaN => false
  end.

(** [x <= c] for a float [x] and a number [c]; false for nan. *)
Definition float_le (x : pyfloat) (c : Q) : bool :=
  match x with
  | Finite q => Qle_bool q c
  | PosInf => false
  | NegInf => true
  | NaN => false
  end.

(** [abs(x)] *)
Definition float_abs (x : pyfloat) : pyfloat :=
  match x with
  | Finite q => Finite (Qabs q)
  | PosInf => PosInf
  | NegInf => PosInf
  | NaN => NaN
  end.

(** A letter of ASCII in lower case. *)
Definition ascii_lower (c : N) : N :=
  if ((65 <=? c) && (c <=? 90))%N then (c + 32)%N else c.

(** The texts that [float] reads as an infinity or as nan: [inf],
    [infinity] or [nan], in either case, after an optional sign and
    between white space. *)
Definition float_special (s : ustr) : option pyfloat :=
  let text := map ascii_lower (strip s) in
  let negative := match text with c :: _ => (c =? 45)%N | [] => false end in
  let body :=
    match text with
    | c :: rest => if ((c =? 45) || (c =? 43))%N then rest else text
    | [] => []
    end in
  if ustr_eqb body (U "inf") || ustr_eqb body (U "infinity")
  then Some (if negative then NegInf else PosInf)
  else if ustr_eqb body (U "nan") then Some NaN
  else None.

(** [float(s)] for a text; [None] stands for [ValueError]. *)
Definition float_of_text (s : ustr) : option pyfloat :=
  match float_special s with
  | Some x => Some x
  | None => Finite <$> py_float s
  end.

(** The characters kept by [re.sub(r'[^0-9,.-]', '', text)]. *)
Definition numeric_char (c : N) : bool :=
  ((48 <=? c) && (c <=? 57) || (c =? COMMA) || (c =? DOT) || (c =? MINUS))%N.

(** [text[:last].replace(sep, '') + '.' + text[last + 1:]] with
    [last = text.rfind(sep)] *)
Definition last_sep_as_point (sep : N) (text : ustr) : ustr :=
  let last := Z.to_nat (rfind_char sep text) in
  remove_char sep (take last text) ++ DOT :: drop (S last) text.

(** The separator disambiguation of [_parse_decimal], on the cleaned text. *)
Definition disambiguate_separators (text : ustr) : ustr :=
  if (1 <? count_char COMMA text) && negb (has_char DOT text)
  then last_sep_as_point COMMA text
  else if (1 <? count_char DOT text) && negb (has_char COMMA text)
  then last_sep_as_point DOT text
  else if (count_char COMMA text =? 1) && negb (has_char DOT text)
  then replace_char COMMA DOT text
  else if (count_char DOT text =? 1) && (count_char COMMA text =? 1)
  then
    if (rfind_char DOT text <? rfind_char COMMA text)%Z
    then replace_char COMMA DOT (remove_char DOT text)
    else remove_char COMMA text
  else text.

(** case1.py, [_parse_decimal] *)
Definition parse_decimal (v : value) : option Q :=
  match v with
  | VNone => None
  | VNum q => Some q
  | VBool b => Some (Q_of_bool b)
  | VStr s =>
      let text := strip s in
      if ustr_eqb text [] || ustr_eqb text (U "-") || ustr_eqb text (U "--") then None
      else
        let text := remove_char SPACE (remove_char NBSP text) in
        let text := List.filter numeric_char text in
        if ustr_eqb text [] then None
        else py_float (disambiguate_separators text)
  | _ => None
  end.

(** case1.py, [_is_positive] *)
Definition is_positive (amount : option Q) : bool :=
  match amount with
  | Some q => Qgtb q EPS
  | None => false
  end.

(** The text that [_to_number] hands to [float], from the stripped cell
    text. *)
Definition number_text (cleaned : ustr) : ustr :=
  let cleaned := remove_char SPACE cleaned in
  if has_char COMMA cleaned && has_char DOT cleaned
  then
    if (rfind_char DOT cleaned <? rfind_char COMMA cleaned)%Z
    then replace_char COMMA DOT (remove_char DOT cleaned)
    else remove_char COMMA cleaned
  else if has_char COMMA cleaned
  then replace_char COMMA DOT cleaned
  else remove_char COMMA cleaned.

(** case7.py, [_to_number] *)
Definition to_number (v : value) : pyfloat :=
  match v with
  | VNone => Finite 0
  | VNum q => Finite q
  | VBool b => Finite (Q_of_bool b)
  | VStr s =>
      let cleaned := strip s in
      if ustr_eqb cleaned [] then Finite 0
      else
        match float_of_text (number_text cleaned) with
        | Some x => x
        | None => Finite 0
        end
  | _ => Finite 0
  end.

(** ** Date parsers *)

Definition DATE_FORMATS : list ustr := [U "%d/%m/%Y"; U "%d-%m-%Y"; U "%Y-%m-%d"].

(** The loop [for fmt in (...): try: return strptime(cleaned, fmt)
    except ValueError: continue]. *)
Fixpoint try_formats (cleaned : ustr) (fmts : list ustr) : option datetime :=
  match fmts with
  | [] => None
  | fmt :: rest =>
      match strptime cleaned fmt with
      | Some d => Some d
      | None => try_formats cleaned rest
      end
  end.

Definition plausible_year (d : datetime) : bool :=
  ((1900 <=? dt_year d) && (dt_year d <=? 9999))%Z.

(** The branch of [_parse_date_value] for an [int] or [float]. *)
Definition parse_serial (q : Q) : option datetime :=
  match from_serial q with
  | Some converted => if plausible_year converted then Some converted else None
  | None => None
  end.

(** case1.py, [_parse_date_value] *)
Definition parse_date_value (v : value) : option datetime :=
  match v with
  | VDatetime d => Some d
  | VNum q => parse_serial q
  | VBool b => parse_serial (Q_of_bool b)
  | VStr s =>
      let cleaned := strip s in
      if ustr_eqb cleaned [] then None else try_formats cleaned DATE_FORMATS
  | _ => None
  end.

(** The regular expression [-?\d+(\.\d+)?], matched against a whole string. *)
Fixpoint digits_then (k : ustr -> bool) (s : ustr) : bool :=
  match s with
  | c :: r => is_digit c && (k r || digits_then k r)
  | [] => false
  end.

Definition fraction_opt (s : ustr) : bool :=
  match s with
  | [] => true
  | c :: f => (c =? DOT)%N && digits_then (fun r => ustr_eqb r []) f
  end.

Definition fullmatch_number (s : ustr) : bool :=
  digits_then fraction_opt s ||
  match s with
  | c :: r => (c =? MINUS)%N && digits_then fraction_opt r
  | [] => false
  end.

(** The branch of case 2's [_parse_date_from_value] for an [int] or
    [float]: any exception is swallowed. *)
Definition parse_serial2 (q : Q) : option datetime :=
  if Qgtb q 0 then from_serial q else None.

(** case2.py, [_parse_date_from_value]. The last branch catches only
    [ValueError], so an [OverflowError] of the date arithmetic escapes. *)
Definition parse_date_from_value (v : value) : result (option datetime) :=
  match v with
  | VDatetime d => Ok (Some d)
  | VDate ord => Ok (Some (mk_datetime ord 0))
  | VNum q => Ok (parse_serial2 q)
  | VBool b => Ok (parse_serial2 (Q_of_bool b))
  | VStr s =>
      let cleaned := strip s in
      if ustr_eqb cleaned [] then Ok None
      else
        match try_formats cleaned DATE_FORMATS with
        | Some d => Ok (Some d)
        | None =>
            let numeric_candidate := replace_char COMMA DOT cleaned in
            if fullmatch_number numeric_candidate then
              match py_float numeric_candidate with
              | Some serial =>
                  if Qgtb serial 0 then
                    match from_serial serial with
                    | Some d => Ok (Some d)
                    | None => Raise OverflowError
                    end
                  else Ok None
              | None => Ok None
              end
            else Ok None
        end
  | _ => Ok None
  end.

(** ** Worksheets

    Rows and columns are numbered from 1 and a cell that was never written
    reads [None]. *)

Definition max_row (ws : worksheet) : nat := length ws.

Definition max_column (ws : worksheet) : nat :=
  fold_right Nat.max 0 (map (@length value) ws).

(** [worksheet.cell(row=r, column=c).value] *)
Definition cell (ws : worksheet) (r c : nat) : value :=
  match r, c with
  | S r', S c' => nth c' (nth r' ws []) VNone
  | _, _ => VNone
  end.

(** Writing position [i] of a list, extending it with [d] when needed. *)
Fixpoint write_nth {A} (d : A) (i : nat) (x : A) (l : list A) : list A :=
  match i, l with
  | 0, [] => [x]
  | 0, _ :: t => x :: t
  | S i', [] => d :: write_nth d i' x []
  | S i', h :: t => h :: write_nth d i' x t
  end.

(** [worksheet.cell(row=r, column=c).value = v] *)
Definition set_cell (ws : worksheet) (r c : nat) (v : value) : worksheet :=
  match r, c with
  | S r', S c' => write_nth [] r' (write_nth VNone c' v (nth r' ws [])) ws
  | _, _ => ws
  end.

(** [worksheet.delete_rows(idx)] *)
Definition delete_rows (ws : worksheet) (idx : nat) : worksheet :=
  delete (idx - 1) ws.

(** The header map: a [dict] from normalised header to column, in
    insertion order. *)
Definition hm_get (k : ustr) (hm : header_map) : option nat :=
  snd <$> List.find (fun p => ustr_eqb (fst p) k) hm.

Definition hm_set (k : ustr) (c : nat) (hm : header_map) : header_map :=
  if existsb (fun p => ustr_eqb (fst p) k) hm
  then map (fun p => if ustr_eqb (fst p) k then (k, c) else p) hm
  else hm ++ [(k, c)].

Definition HEADER_ROW : nat := 14.
Definition DATA_START_ROW : nat := 16.

(** case1.py, [_extract_header_map] *)
Definition extract_header_map (ws : worksheet) (max_cols : nat) : header_map :=
  if max_row ws <? HEADER_ROW then []
  else
    fold_left
      (fun headers col_idx =>
         match cell ws HEADER_ROW col_idx with
         | VStr s =>
             let normalized := normalize_text (VStr s) in
             if ustr_eqb normalized [] then headers else hm_set normalized col_idx headers
         | _ => headers
         end)
      (seq 1 max_cols) [].

(** A column index as [if not column:] accepts it. *)
Definition valid_column (o : option nat) : option nat :=
  match o with
  | Some (S c) => Some (S c)
  | _ => None
  end.

(** case1.py and case2.py, [_locate_date_column] *)
Definition locate_date_column (hm : header_map) : option nat :=
  snd <$> List.find (fun p => contains (U "fecha") (fst p)) hm.

Definition row_has_text (ws : worksheet) (target : ustr) (row_idx : nat) : bool :=
  existsb
    (fun col_idx =>
       match cell ws row_idx col_idx with
       | VStr s => ustr_eqb (normalize_text (VStr s)) target
       | _ => false
       end)
    (seq 1 (max_column ws)).

(** case1.py, [_find_row_with_text] *)
Definition find_row_with_text (ws : worksheet) (text : ustr) : option nat :=
  if ustr_eqb text [] then None
  else List.find (row_has_text ws (normalize_text (VStr text))) (seq 1 (max_row ws)).

Definition SUMMARY_TITLE : ustr := U "Cuadro de Resumen".

(** [summary_row - 2 if summary_row else worksheet.max_row] *)
Definition data_end_row (ws : worksheet) : nat :=
  match find_row_with_text ws SUMMARY_TITLE with
  | Some summary_row => summary_row - 2
  | None => max_row ws
  end.

(** [range(first, last + 1)] *)
Definition row_range (first last : nat) : list nat := seq first (S last - first).

(** ** The date range filter *)

Inductive log_entry :=
| LogNoDateColumn
| LogRowsDeleted (n : nat)
| LogNoMovementsInRange (start end_ : datetime).

(** What a call leaves behind: the worksheet as mutated, the messages
    logged, and whether it returned or raised. *)
Record outcome := mk_outcome {
  out_ws : worksheet;
  out_log : list log_entry;
  out_result : result unit
}.

Definition in_range (start end_ d : datetime) : bool :=
  date_le start d && date_le d end_.

(** [if start > end: start, end = end, start] *)
Definition normalize_range (r : datetime * datetime) : datetime * datetime :=
  if datetime_gt (fst r) (snd r) then (snd r, fst r) else r.

(** One iteration of the scan of the data region: the rows to delete and
    the count of rows in range so far. *)
Definition scan_step (parsed : option datetime) (start end_ : datetime)
    (row_idx : nat) (acc : list nat * nat) : list nat * nat :=
  match parsed with
  | None => acc
  | Some d =>
      if in_range start end_ d then (fst acc, S (snd acc))
      else (fst acc ++ [row_idx], snd acc)
  end.

Definition scan_rows1 (ws : worksheet) (date_column : nat) (start end_ : datetime)
    (rows : list nat) : list nat * nat :=
  fold_left
    (fun acc row_idx =>
       scan_step (parse_date_value (cell ws row_idx date_column)) start end_ row_idx acc)
    rows ([], 0).

(** [for row_idx in reversed(rows_to_delete): worksheet.delete_rows(row_idx)] *)
Definition delete_all (ws : worksheet) (rows_to_delete : list nat) : worksheet :=
  fold_left delete_rows (rev rows_to_delete) ws.

Definition deletion_log (rows_to_delete : list nat) : list log_entry :=
  match rows_to_delete with
  | [] => []
  | _ => [LogRowsDeleted (length rows_to_delete)]
  end.

(** case1.py, [_filter_rows_by_date_range]: an empty result is only
    logged. *)
Definition filter_rows_by_date_range1 (ws : worksheet)
    (date_range : option (datetime * datetime)) : outcome :=
  match date_range with
  | None => mk_outcome ws [] (Ok tt)
  | Some range =>
      if max_row ws <? DATA_START_ROW then mk_outcome ws [] (Ok tt)
      else
        let (start, end_) := normalize_range range in
        let hm := extract_header_map ws (max_column ws) in
        match valid_column (locate_date_column hm) with
        | None => mk_outcome ws [LogNoDateColumn] (Ok tt)
        | Some date_column =>
            let last := data_end_row ws in
            if last <? DATA_START_ROW then mk_outcome ws [] (Ok tt)
            else
              let (rows_to_delete, rows_in_range) :=
                scan_rows1 ws date_column start end_ (row_range DATA_START_ROW last) in
              mk_outcome (delete_all ws rows_to_delete)
                (deletion_log rows_to_delete
                 ++ (if rows_in_range =? 0 then [LogNoMovementsInRange start end_] else []))
                (Ok tt)
        end
  end.

(** The scan of case 2: parsing a cell may raise. *)
Fixpoint scan_rows2 (ws : worksheet) (date_column : nat) (start end_ : datetime)
    (rows : list nat) (acc : list nat * nat) : result (list nat * nat) :=
  match rows with
  | [] => Ok acc
  | row_idx :: rest =>
      match parse_date_from_value (cell ws row_idx date_column) with
      | Raise e => Raise e
      | Ok parsed =>
          scan_rows2 ws date_column start end_ rest
            (scan_step parsed start end_ row_idx acc)
      end
  end.

(** case2.py, [_filter_rows_by_date_range]: an empty result raises
    [DateRangeNotFoundError]. *)
Definition filter_rows_by_date_range2 (ws : worksheet)
    (date_range : option (datetime * datetime)) : outcome :=
  match date_range with
  | None => mk_outcome ws [] (Ok tt)
  | Some range =>
      let (start, end_) := normalize_range range in
      let hm := extract_header_map ws (max_column ws) in
      match valid_column (locate_date_column hm) with
      | None => mk_outcome ws [LogNoDateColumn] (Ok tt)
      | Some date_column =>
          let last := data_end_row ws in
          if (max_row ws <? DATA_START_ROW) || (last <? DATA_START_ROW)
          then mk_outcome ws [] (Ok tt)
          else
            match scan_rows2 ws date_column start end_
                    (row_range DATA_START_ROW last) ([], 0) with
            | Raise e => mk_outcome ws [] (Raise e)
            | Ok (rows_to_delete, rows_in_range) =>
                mk_outcome (delete_all ws rows_to_delete)
                  (deletion_log rows_to_delete)
                  (if rows_in_range =? 0 then Raise DateRangeNotFoundError else Ok tt)
            end
      end
  end.

(** ** Duplicate references (case 1) *)

(** [str(v).strip().upper() if v else ''] *)
Definition norm_code (v : value) : ustr :=
  if truthy v then upper (strip (py_str v)) else [].

(** [str(v).strip() if v else ''] *)
Definition stripped_text (v : value) : ustr :=
  if truthy v then strip (py_str v) else [].

(** The key under which a row is grouped, if it has one. *)
Definition reference_key (v : value) : option ustr :=
  if is_blank v then None
  else
    let reference_str := strip (py_str v) in
    if ustr_eqb reference_str [] then None else Some reference_str.

(** [reference_groups]: a [dict] from reference to row indices, in
    insertion order. *)
Definition group_append (k : ustr) (row_idx : nat) (groups : reference_groups)
    : reference_groups :=
  if existsb (fun g => ustr_eqb (fst g) k) groups
  then map (fun g => if ustr_eqb (fst g) k then (fst g, snd g ++ [row_idx]) else g) groups
  else groups ++ [(k, [row_idx])].

Definition collect_references (ws : worksheet) (reference_column : nat)
    (rows : list nat) : reference_groups :=
  fold_left
    (fun groups row_idx =>
       match reference_key (cell ws row_idx reference_column) with
       | Some k => group_append k row_idx groups
       | None => groups
       end)
    rows [].

Definition WD : ustr := U "WD".
Definition WC : ustr := U "WC".
Definition THREE_V : ustr := U "3V".
Definition T_D : ustr := U "T/D".
Definition T_C : ustr := U "T/C".
Definition O_D : ustr := U "O/D".
Definition COMMISSION_LABEL : ustr := U "Comisión bancaria ".

Definition is_wd_wc (code : ustr) : bool := ustr_eqb code WD || ustr_eqb code WC.

(** Which row of a pair is the WD/WC one and which the 3V one. *)
Definition pair_roles (row1 row2 : nat) (code1 code2 : ustr)
    : option (nat * nat * ustr) :=
  if is_wd_wc code1 && ustr_eqb code2 THREE_V then Some (row1, row2, code1)
  else if is_wd_wc code2 && ustr_eqb code1 THREE_V then Some (row2, row1, code2)
  else None.

(** The body of the loop over [reference_groups.items()]. *)
Definition process_group (code_column description_column : nat)
    (ws : worksheet) (group : ustr * list nat) : worksheet :=
  match snd group with
  | [row1; row2] =>
      let code1 := norm_code (cell ws row1 code_column) in
      let code2 := norm_code (cell ws row2 code_column) in
      match pair_roles row1 row2 code1 code2 with
      | None => ws
      | Some (wd_wc_row, three_v_row, wd_wc_code) =>
          let ws :=
            if ustr_eqb wd_wc_code WD then set_cell ws wd_wc_row code_column (VStr T_D)
            else if ustr_eqb wd_wc_code WC then set_cell ws wd_wc_row code_column (VStr T_C)
            else ws in
          let ws := set_cell ws three_v_row code_column (VStr O_D) in
          let wd_wc_description := stripped_text (cell ws wd_wc_row description_column) in
          set_cell ws three_v_row description_column
            (VStr (COMMISSION_LABEL ++ wd_wc_description))
      end
  | _ => ws
  end.

(** case1.py, [_process_duplicate_references] *)
Definition process_duplicate_references (ws : worksheet) : worksheet :=
  if max_row ws <? HEADER_ROW then ws
  else
    let hm := extract_header_map ws (max_column ws) in
    match valid_column (hm_get (U "referencia") hm),
          valid_column (hm_get (U "codigo") hm),
          valid_column (hm_get (U "descripcion") hm) with
    | Some reference_column, Some code_column, Some description_column =>
        if max_row ws <? DATA_START_ROW then ws
        else
          let groups :=
            collect_references ws reference_column
              (row_range DATA_START_ROW (data_end_row ws)) in
          fold_left (process_group code_column description_column) groups ws
    | _, _, _ => ws
    end.

(** ** The sign-exclusive remap (case 1) *)

(** What one iteration writes in the code cell, if anything. [amount] is
    the amount of the pass and [other] the opposite one. *)
Definition remap_decision1 (replacement_map : code_map) (amount other : option Q)
    (code : value) : option ustr :=
  if negb (is_positive amount) then None
  else if is_positive other then None
  else if is_blank code then None
  else
    let current_code := upper (strip (py_str code)) in
    match replacement_map !! current_code with
    | Some new_code =>
        if negb (ustr_eqb new_code []) && negb (value_is_str code new_code)
        then Some new_code
        else None
    | None => None
    end.

Definition optional_amount (ws : worksheet) (row_idx : nat) (column : option nat)
    : option Q :=
  match column with
  | Some c => parse_decimal (cell ws row_idx c)
  | None => None
  end.

(** The loop shared by [_update_codes_for_positive_debits] and
    [_update_codes_for_non_negative_credits]. *)
Definition remap_rows1 (replacement_map : code_map) (code_column amount_column : nat)
    (other_column : option nat) (rows : list nat) (ws : worksheet) : worksheet :=
  fold_left
    (fun ws row_idx =>
       let amount := parse_decimal (cell ws row_idx amount_column) in
       let other := optional_amount ws row_idx other_column in
       match remap_decision1 replacement_map amount other (cell ws row_idx code_column) with
       | Some new_code => set_cell ws row_idx code_column (VStr new_code)
       | None => ws
       end)
    rows ws.

Definition map_is_empty (m : code_map) : bool := bool_decide (m = ∅).

(** case1.py, [_update_codes_for_positive_debits] *)
Definition update_codes_for_positive_debits1 (replacement_map : code_map)
    (ws : worksheet) (hm : header_map) (start_row end_row : nat) : worksheet :=
  match valid_column (hm_get (U "codigo") hm), valid_column (hm_get (U "debitos") hm) with
  | Some code_column, Some debit_column =>
      if map_is_empty replacement_map then ws
      else
        remap_rows1 replacement_map code_column debit_column
          (valid_column (hm_get (U "creditos") hm)) (row_range start_row end_row) ws
  | _, _ => ws
  end.

(** case1.py, [_update_codes_for_non_negative_credits] *)
Definition update_codes_for_non_negative_credits1 (replacement_map : code_map)
    (ws : worksheet) (hm : header_map) (start_row end_row : nat) : worksheet :=
  match valid_column (hm_get (U "codigo") hm), valid_column (hm_get (U "creditos") hm) with
  | Some code_column, Some credit_column =>
      if map_is_empty replacement_map then ws
      else
        remap_rows1 replacement_map code_column credit_column
          (valid_column (hm_get (U "debitos") hm)) (row_range start_row end_row) ws
  | _, _ => ws
  end.

(** The two calls as [_apply_styles] makes them. *)
Definition sign_exclusive_remap1 (debit_map credit_map : code_map)
    (ws : worksheet) (hm : header_map) (start_row end_row : nat) : worksheet :=
  let ws :=
    match valid_column (hm_get (U "debitos") hm) with
    | Some _ => update_codes_for_positive_debits1 debit_map ws hm start_row end_row
    | None => ws
    end in
  match valid_column (hm_get (U "creditos") hm) with
  | Some _ => update_codes_for_non_negative_credits1 credit_map ws hm start_row end_row
  | None => ws
  end.

(** ** Attachments (cases 1 and 2)

    The steps of [_create_formatted_workbook] before the filter
    ([prepare]) and after it ([finish], which ends in the saved workbook, or
    in nothing when a step fails), and the summary workbook of case 1, are
    parameters. An attachment is the matrix read from its content, or
    nothing when it has no content. *)

Section Attachments.
Context {artifact : Type}.
Variable prepare : worksheet -> worksheet.
Variable finish : worksheet -> option artifact.
Variable summarize : artifact -> option artifact.

(** case1.py, [_create_formatted_workbook] *)
Definition create_formatted_workbook1 (data_rows : worksheet)
    (date_range : option (datetime * datetime)) : option artifact :=
  match data_rows with
  | [] => None
  | _ => finish (out_ws (filter_rows_by_date_range1 (prepare data_rows) date_range))
  end.

(** case1.py, [_enhance_excel_attachment] *)
Definition enhance_excel_attachment1 (content : option worksheet)
    (date_range : option (datetime * datetime)) : option (list artifact) :=
  match content with
  | None => None
  | Some data_rows =>
      match create_formatted_workbook1 data_rows date_range with
      | None => None
      | Some workbook =>
          Some (workbook :: match summarize workbook with
                            | Some summary => [summary]
                            | None => []
                            end)
      end
  end.

(** case2.py, [_create_formatted_workbook] *)
Definition create_formatted_workbook2 (data_rows : worksheet)
    (date_range : option (datetime * datetime)) : result (option artifact) :=
  match data_rows with
  | [] => Ok None
  | _ =>
      let o := filter_rows_by_date_range2 (prepare data_rows) date_range in
      match out_result o with
      | Raise e => Raise e
      | Ok _ => Ok (finish (out_ws o))
      end
  end.

(** case2.py, [_enhance_excel_attachment]: only [DateRangeNotFoundError]
    is raised again. *)
Definition enhance_excel_attachment2 (content : option worksheet)
    (date_range : option (datetime * datetime)) : result (option artifact) :=
  match content with
  | None => Ok None
  | Some data_rows =>
      match create_formatted_workbook2 data_rows date_range with
      | Raise DateRangeNotFoundError => Raise DateRangeNotFoundError
      | Raise _ => Ok None
      | Ok processed => Ok processed
      end
  end.

(** The loop of case 2's [process_email] over the attachments:
    [processed_files] and [files_with_invalid_range]. *)
Definition collect_processed (attachments : list (option worksheet))
    (date_range : option (datetime * datetime)) : list artifact * nat :=
  fold_left
    (fun acc attachment =>
       match enhance_excel_attachment2 attachment date_range with
       | Ok (Some processed) => (fst acc ++ [processed], snd acc)
       | Ok None => acc
       | Raise _ => (fst acc, S (snd acc))
       end)
    attachments ([], 0).

Inductive response :=
| NoResponse
| InvalidRangeResponse (start end_ : datetime)
| Response (attachments : list artifact).

(** case2.py, [process_email], from the Excel attachments on. *)
Definition process_email2 (excel_attachments : list (option worksheet))
    (date_range : option (datetime * datetime)) : response :=
  match excel_attachments with
  | [] => NoResponse
  | _ =>
      let (processed_files, files_with_invalid_range) :=
        collect_processed excel_attachments date_range in
      match date_range, processed_files with
      | Some (start, end_), [] =>
          if 0 <? files_with_invalid_range then InvalidRangeResponse start end_
          else NoResponse
      | _, [] => NoResponse
      | _, _ => Response processed_files
      end
  end.

End Attachments.

(** ** Classification of case 7 *)

(** [row_data.get(key)] on a row of case 7, a [dict] from column title
    to value. *)
Definition row_get (row : row_data) (key : string) : value :=
  default VNone (row !! key).

Definition K_DESCRIPCION : string := "Descripción".
Definition K_DEBITOS : string := "Débitos".
Definition K_CREDITOS : string := "Créditos".
Definition K_CODIGO : string := "Código".

(** The prepared rules: (normalised search text, code) pairs. *)
Record codification_rules := mk_rules {
  credit_rules : list (ustr * ustr);
  debit_rules : list (ustr * ustr)
}.

(** case7.py, [_match_codification] *)
Fixpoint match_codification (normalized_description : ustr)
    (rules : list (ustr * ustr)) : ustr :=
  match rules with
  | [] => []
  | (search_text, code) :: rest =>
      if negb (ustr_eqb search_text []) && negb (ustr_eqb code [])
         && contains search_text normalized_description
      then code
      else match_codification normalized_description rest
  end.

(** case7.py, [_determine_codification] *)
Definition determine_codification (row : row_data) (rules : codification_rules) : ustr :=
  match row_get row K_DESCRIPCION with
  | VStr description =>
      let normalized_description := normalize_text7 (VStr description) in
      if ustr_eqb normalized_description [] then []
      else
        let credit_amount := to_number (row_get row K_CREDITOS) in
        let debit_amount := to_number (row_get row K_DEBITOS) in
        let code :=
          if float_gt credit_amount 0
          then match_codification normalized_description (credit_rules rules)
          else [] in
        if negb (ustr_eqb code []) then code
        else if float_gt debit_amount 0
        then match_codification normalized_description (debit_rules rules)
        else []
  | _ => []
  end.

(** [value or ''] *)
Definition or_empty (v : value) : value := if truthy v then v else VStr [].

(** The body of the loop of [_assign_codes_by_description]. *)
Definition assign_code (rules : codification_rules) (row : row_data) : row_data :=
  let code := determine_codification row rules in
  if negb (ustr_eqb code []) then <[K_CODIGO := VStr code]> row
  else <[K_CODIGO := or_empty (default (VStr []) (row !! K_CODIGO))]> row.

(** case7.py, [_assign_codes_by_description] *)
Definition assign_codes_by_description (rules : codification_rules)
    (data_rows : list row_data) : list row_data :=
  map (assign_code rules) data_rows.

Definition has_key (row : row_data) (key : string) : bool :=
  bool_decide (is_Some (row !! key)).

(** [self._to_number(row.get(key)) if key in row else 0.0] *)
Definition amount_if_present (row : row_data) (key : string) : pyfloat :=
  if has_key row key then to_number (row_get row key) else Finite 0.

(** What one iteration of a remap of case 7 stores under ['Código'], if
    anything: the row is skipped when [amount <= 1e-9] and when
    [other > 1e-9], tests that are both false for nan. *)
Definition remap_decision7 (replacement_map : code_map) (amount other : pyfloat)
    (code : value) : option ustr :=
  if float_le amount EPS then None
  else if float_gt other EPS then None
  else
    let current_code := upper (strip (py_str (or_empty code))) in
    if ustr_eqb current_code [] then None
    else
      match replacement_map !! current_code with
      | Some new_code =>
          if negb (ustr_eqb new_code []) && negb (ustr_eqb current_code new_code)
          then Some new_code
          else None
      | None => None
      end.

Definition remap_row7 (replacement_map : code_map) (amount_key other_key : string)
    (row : row_data) : row_data :=
  match remap_decision7 replacement_map (to_number (row_get row amount_key))
          (amount_if_present row other_key) (row_get row K_CODIGO) with
  | Some new_code => <[K_CODIGO := VStr new_code]> row
  | None => row
  end.

Definition first_has_keys (data_rows : list row_data) (k1 k2 : string) : bool :=
  match data_rows with
  | [] => false
  | first :: _ => has_key first k1 && has_key first k2
  end.

(** case7.py, [_update_codes_for_positive_debits] *)
Definition update_codes_for_positive_debits7 (replacement_map : code_map)
    (data_rows : list row_data) : list row_data :=
  if negb (first_has_keys data_rows K_CODIGO K_DEBITOS) then data_rows
  else if map_is_empty replacement_map then data_rows
  else map (remap_row7 replacement_map K_DEBITOS K_CREDITOS) data_rows.

(** case7.py, [_update_codes_for_non_negative_credits] *)
Definition update_codes_for_non_negative_credits7 (replacement_map : code_map)
    (data_rows : list row_data) : list row_data :=
  if negb (first_has_keys data_rows K_CODIGO K_CREDITOS) then data_rows
  else if map_is_empty replacement_map then data_rows
  else map (remap_row7 replacement_map K_CREDITOS K_DEBITOS) data_rows.

(** The two remaps as [_apply_code_replacement_rules] chains them. *)
Definition sign_exclusive_remap7 (debit_map credit_map : code_map)
    (data_rows : list row_data) : list row_data :=
  update_codes_for_non_negative_credits7 credit_map
    (update_codes_for_positive_debits7 debit_map data_rows).

End Engine.

(** ** Further passes of cases 1, 2 and 7 *)

(** The messages these passes log. *)
Inductive pass_log :=
| LogZeroRowsDeleted (n : nat)
| LogSummaryRemoved
| LogBalanceColumnRemoved
| LogDebitColumnRemoved
| LogRowsFilteredOut (n : nat) (start end_ : datetime)
| LogCodesOverridden (n : nat)
| LogCodesResolved (n : nat).

Section Passes.
Context {L : PyLib}.

(** The local function [is_zero] of [_remove_zero_credit_rows]:
    [amount is None or abs(amount) < 1e-9] *)
Definition is_zero (amount : option Q) : bool :=
  match amount with
  | None => true
  | Some q => negb (Qle_bool EPS (Qabs q))
  end.

(** Both amounts of a row are zero, for the columns that were found. *)
Definition zero_movement (ws : worksheet) (debit_column credit_column : option nat)
    (row_idx : nat) : bool :=
  is_zero (optional_amount ws row_idx debit_column)
  && is_zero (optional_amount ws row_idx credit_column).

(** The rows a loop [for row_idx in rows: if test(row_idx):
    rows_to_delete.append(row_idx)] collects. *)
Definition collect_rows (test : nat -> bool) (rows : list nat) : list nat :=
  fold_left (fun rows_to_delete row_idx =>
               if test row_idx then rows_to_delete ++ [row_idx] else rows_to_delete)
    rows [].

(** case1.py, [_remove_zero_credit_rows] *)
Definition remove_zero_credit_rows (ws : worksheet) : worksheet * list pass_log :=
  if max_row ws <? DATA_START_ROW then (ws, [])
  else
    let hm := extract_header_map ws (max_column ws) in
    let debit_column := valid_column (hm_get (U "debitos") hm) in
    let credit_column := valid_column (hm_get (U "creditos") hm) in
    match debit_column, credit_column with
    | None, None => (ws, [])
    | _, _ =>
        let last := data_end_row ws in
        if last <? DATA_START_ROW then (ws, [])
        else
          let rows_to_delete :=
            collect_rows (zero_movement ws debit_column credit_column)
              (row_range DATA_START_ROW last) in
          (delete_all ws rows_to_delete,
           match rows_to_delete with
           | [] => []
           | _ => [LogZeroRowsDeleted (length rows_to_delete)]
           end)
    end.

(** [worksheet.delete_rows(idx, amount)] *)
Definition delete_rows_amount (ws : worksheet) (idx amount : nat) : worksheet :=
  take (idx - 1) ws ++ drop (idx - 1 + amount) ws.

(** case2.py, [_remove_summary_section] *)
Definition remove_summary_section (ws : worksheet) : worksheet * list pass_log :=
  match find_row_with_text ws SUMMARY_TITLE with
  | Some (S r) =>
      let summary_row := S r in
      let rows_to_remove := max_row ws - summary_row + 1 in
      (delete_rows_amount ws summary_row rows_to_remove, [LogSummaryRemoved])
  | _ => (ws, [])
  end.

(** *** The date filter of case 7 *)

Definition DATE_FORMATS7 : list ustr :=
  [U "%d/%m/%Y"; U "%d/%m/%y"; U "%m/%d/%Y"; U "%Y/%m/%d"].

Definition SLASH : N := 47.
Definition EN_DASH : N := 0x2013.

(** case7.py, [_parse_date_string] *)
Definition parse_date_string (s : ustr) : option datetime :=
  let cleaned := strip s in
  if ustr_eqb cleaned [] then None
  else
    let cleaned :=
      replace_char EN_DASH SLASH (replace_char MINUS SLASH (replace_char DOT SLASH cleaned)) in
    try_formats cleaned DATE_FORMATS7.

(** The branch of case 7's [_parse_date_from_value] for an [int] or
    [float]. *)
Definition parse_serial7 (q : Q) : option datetime :=
  if Qgtb q 0 then parse_serial q else None.

(** case7.py, [_parse_date_from_value] *)
Definition parse_date_from_value7 (v : value) : option datetime :=
  match v with
  | VDatetime d => Some d
  | VDate ord => Some (mk_datetime ord 0)
  | VNum q => parse_serial7 q
  | VBool b => parse_serial7 (Q_of_bool b)
  | VStr s => parse_date_string s
  | _ => None
  end.

Definition K_FECHA : string := "Fecha".

(** One iteration of the loop of [_filter_data_rows_by_date_range]:
    [filtered_rows] and [rows_filtered_out] so far. *)
Definition filter_step7 (start end_ : datetime) (acc : list row_data * nat)
    (row : row_data) : list row_data * nat :=
  match parse_date_from_value7 (row_get row K_FECHA) with
  | None => (fst acc ++ [row], snd acc)
  | Some d =>
      if in_range start end_ d then (fst acc ++ [row], snd acc)
      else (fst acc, S (snd acc))
  end.

(** case7.py, [_filter_data_rows_by_date_range] *)
Definition filter_data_rows_by_date_range7 (data_rows : list row_data)
    (date_range : option (datetime * datetime)) : list row_data * list pass_log :=
  match date_range with
  | None => (data_rows, [])
  | Some range =>
      let (start, end_) := normalize_range range in
      let (filtered_rows, rows_filtered_out) :=
        fold_left (filter_step7 start end_) data_rows ([], 0) in
      (filtered_rows,
       if 0 <? rows_filtered_out then [LogRowsFilteredOut rows_filtered_out start end_]
       else [])
  end.

End Passes.

(** ** Description overrides (cases 1 and 7)

    The rules are the (search text, code) pairs that
    [get_description_override_rules] returns. *)

Section Overrides.
Context {L : PyLib}.

(** The list [normalized_rules], [normalize] being the [_normalize_text]
    of the case. *)
Definition normalize_override_rules (normalize : value -> ustr)
    (rules : list (ustr * ustr)) : list (ustr * ustr) :=
  map (fun rule => (normalize (VStr (fst rule)), upper (strip (snd rule))))
    (List.filter
       (fun rule => negb (ustr_eqb (normalize (VStr (fst rule))) [])
                    && negb (ustr_eqb (strip (snd rule)) []))
       rules).

(** The loop of case 1 over the rules, for one row: the code to write, if
    any. The code of the row is read at the first rule that applies. *)
Fixpoint override_decision1 (normalized_description current_code : ustr)
    (normalized_rules : list (ustr * ustr)) : option ustr :=
  match normalized_rules with
  | [] => None
  | (search_text, new_code) :: rest =>
      if negb (contains search_text normalized_description)
      then override_decision1 normalized_description current_code rest
      else if ustr_eqb new_code []
      then override_decision1 normalized_description current_code rest
      else if ustr_eqb current_code new_code then None
      else Some new_code
  end.

(** One iteration of the loop of case 1 over the rows: the worksheet and
    [overrides] so far. *)
Definition override_row1 (normalized_rules : list (ustr * ustr))
    (code_column description_column : nat) (acc : worksheet * nat) (row_idx : nat)
    : worksheet * nat :=
  let ws := fst acc in
  let description_value := cell ws row_idx description_column in
  if is_blank description_value then acc
  else
    let normalized_description := normalize_text description_value in
    if ustr_eqb normalized_description [] then acc
    else
      match override_decision1 normalized_description
              (norm_code (cell ws row_idx code_column)) normalized_rules with
      | Some new_code => (set_cell ws row_idx code_column (VStr new_code), S (snd acc))
      | None => acc
      end.

(** case1.py, [_override_codes_by_description] *)
Definition override_codes_by_description1 (rules : list (ustr * ustr))
    (ws : worksheet) (hm : header_map) (start_row end_row : nat)
    : worksheet * list pass_log :=
  match valid_column (hm_get (U "codigo") hm),
        valid_column (hm_get (U "descripcion") hm) with
  | Some code_column, Some description_column =>
      match normalize_override_rules normalize_text rules with
      | [] => (ws, [])
      | normalized_rules =>
          let (ws', overrides) :=
            fold_left (override_row1 normalized_rules code_column description_column)
              (row_range start_row end_row) (ws, 0) in
          (ws', if 0 <? overrides then [LogCodesOverridden overrides] else [])
      end
  | _, _ => (ws, [])
  end.

(** The loop of case 7 over the rules, for one row. *)
Fixpoint override_decision7 (normalized_description current_code : ustr)
    (normalized_rules : list (ustr * ustr)) : option ustr :=
  match normalized_rules with
  | [] => None
  | (search_text, new_code) :: rest =>
      if negb (contains search_text normalized_description)
      then override_decision7 normalized_description current_code rest
      else if ustr_eqb current_code new_code then None
      else Some new_code
  end.

(** [str(row_data.get('Código') or '').strip().upper()] *)
Definition current_code7 (row : row_data) : ustr :=
  upper (strip (py_str (or_empty (row_get row K_CODIGO)))).

(** The code that the override of case 7 stores in a row, if any. *)
Definition override_target7 (normalized_rules : list (ustr * ustr)) (row : row_data)
    : option ustr :=
  let description_value := row_get row K_DESCRIPCION in
  if is_blank description_value then None
  else
    let normalized_description := normalize_text7 (VStr (py_str description_value)) in
    if ustr_eqb normalized_description [] then None
    else override_decision7 normalized_description (current_code7 row) normalized_rules.

(** One iteration of the loop of case 7 over the rows: the rows seen and
    [overrides] so far. *)
Definition override_step7 (normalized_rules : list (ustr * ustr))
    (acc : list row_data * nat) (row : row_data) : list row_data * nat :=
  match override_target7 normalized_rules row with
  | Some new_code => (fst acc ++ [<[K_CODIGO := VStr new_code]> row], S (snd acc))
  | None => (fst acc ++ [row], snd acc)
  end.

(** case7.py, [_override_codes_by_description] *)
Definition override_codes_by_description7 (rules : list (ustr * ustr))
    (data_rows : list row_data) : list row_data * list pass_log :=
  if negb (first_has_keys data_rows K_CODIGO K_DESCRIPCION) then (data_rows, [])
  else
    match normalize_override_rules normalize_text7 rules with
    | [] => (data_rows, [])
    | normalized_rules =>
        let (rows, overrides) :=
          fold_left (override_step7 normalized_rules) data_rows ([], 0) in
        (rows, if 0 <? overrides then [LogCodesOverridden overrides] else [])
    end.

(** case7.py, [_apply_code_replacement_rules]: the rows after the three
    passes. *)
Definition apply_code_replacement_rules7 (debit_map credit_map : code_map)
    (rules : list (ustr * ustr)) (data_rows : list row_data) : list row_data :=
  match data_rows with
  | [] => []
  | _ =>
      fst (override_codes_by_description7 rules
             (update_codes_for_non_negative_credits7 credit_map
                (update_codes_for_positive_debits7 debit_map data_rows)))
  end.

End Overrides.

(** ** Columns (cases 1 and 2) *)

Section Columns.
Context {L : PyLib}.

(** [worksheet.delete_cols(idx)] *)
Definition delete_cols (ws : worksheet) (idx : nat) : worksheet :=
  map (delete (idx - 1)) ws.

(** The test of [_remove_empty_columns] on a cell: text that is not
    blank, or a value other than [None]. *)
Definition has_content (v : value) : bool :=
  match v with
  | VStr s => negb (ustr_eqb (strip s) [])
  | VNone => false
  | _ => true
  end.

Definition column_has_content (ws : worksheet) (max_row col_idx : nat) : bool :=
  existsb (fun row_idx => has_content (cell ws row_idx col_idx)) (seq 1 max_row).

(** case1.py, [_remove_empty_columns] *)
Definition remove_empty_columns (ws : worksheet) : worksheet :=
  let max_row := max_row ws in
  fold_left
    (fun ws col_idx =>
       if column_has_content ws max_row col_idx then ws else delete_cols ws col_idx)
    (rev (seq 1 (max_column ws))) ws.

(** The header of a column starts with ['balance']. *)
Definition is_balance_header (ws : worksheet) (col_idx : nat) : bool :=
  match cell ws HEADER_ROW col_idx with
  | VStr s => starts_with (U "balance") (normalize_text (VStr s))
  | _ => false
  end.

(** case2.py, [_remove_balance_columns] *)
Definition remove_balance_columns (ws : worksheet) : worksheet * list pass_log :=
  if max_row ws <? HEADER_ROW then (ws, [])
  else
    let columns_to_remove :=
      collect_rows (is_balance_header ws) (rev (seq 1 (max_column ws))) in
    (fold_left delete_cols columns_to_remove ws,
     map (fun _ => LogBalanceColumnRemoved) columns_to_remove).

(** The header of a column is ['debitos']. *)
Definition is_debit_header (ws : worksheet) (col_idx : nat) : bool :=
  match cell ws HEADER_ROW col_idx with
  | VStr s => ustr_eqb (normalize_text (VStr s)) (U "debitos")
  | _ => false
  end.

(** The body of the loop of [_remove_debit_column] over the rows: the
    cells from the debit column on take the value of their right
    neighbour, and the last one is emptied. *)
Definition shift_row_left (debit_column max_column : nat) (ws : worksheet)
    (row_idx : nat) : worksheet :=
  let ws :=
    fold_left
      (fun ws col_idx =>
         let source_col := col_idx + 1 in
         set_cell ws row_idx col_idx
           (if source_col <=? max_column then cell ws row_idx source_col else VNone))
      (seq debit_column (max_column - debit_column)) ws in
  set_cell ws row_idx max_column VNone.

(** case2.py, [_remove_debit_column] *)
Definition remove_debit_column (ws : worksheet) : worksheet * list pass_log :=
  if max_row ws <? HEADER_ROW then (ws, [])
  else
    match List.find (is_debit_header ws) (seq 1 (max_column ws)) with
    | Some (S d) =>
        let debit_column := S d in
        let max_column := max_column ws in
        (fold_left (shift_row_left debit_column max_column)
           (row_range HEADER_ROW (max_row ws)) ws,
         [LogDebitColumnRemoved])
    | _ => (ws, [])
    end.

End Columns.

(** ** Duplicate references with code PP (case 1) *)

Section ResolveDuplicates.
Context {L : PyLib}.

Definition PP : ustr := U "PP".

(** [str(v).strip().upper()] *)
Definition code_text (v : value) : ustr := upper (strip (py_str v)).

(** The entry that the first loop of [_resolve_duplicate_reference_codes]
    files for a row, and the key it files it under, if any. *)
Definition pp_entry (ws : worksheet) (code_column reference_column debit_column : nat)
    (row_idx : nat) : option (ustr * (nat * option Q)) :=
  let code_value := cell ws row_idx code_column in
  if is_blank code_value then None
  else if negb (ustr_eqb (code_text code_value) PP) then None
  else
    let reference_value := cell ws row_idx reference_column in
    if is_blank reference_value then None
    else
      let debit_amount := parse_decimal (cell ws row_idx debit_column) in
      Some (strip (py_str reference_value), (row_idx, debit_amount)).

(** [groups.setdefault(k, []).append(e)] on a [dict] in insertion order. *)
Definition group_add {E} (k : ustr) (e : E) (groups : list (ustr * list E))
    : list (ustr * list E) :=
  if existsb (fun g => ustr_eqb (fst g) k) groups
  then map (fun g => if ustr_eqb (fst g) k then (fst g, snd g ++ [e]) else g) groups
  else groups ++ [(k, [e])].

(** The [dict] that a loop over rows fills, [entry_of] giving the key and
    the entry of a row. *)
Definition group_rows {E} (entry_of : nat -> option (ustr * E)) (rows : list nat)
    : list (ustr * list E) :=
  fold_left
    (fun groups row_idx =>
       match entry_of row_idx with
       | Some (k, e) => group_add k e groups
       | None => groups
       end)
    rows [].

(** [[entry for entry in entries if entry[1] is not None]] *)
Definition valid_entries (entries : list (nat * option Q)) : list (nat * Q) :=
  flat_map (fun entry => match snd entry with
                         | Some amount => [(fst entry, amount)]
                         | None => []
                         end) entries.

(** [(a[1], a[0]) < (b[1], b[0])] *)
Definition entry_lt (a b : nat * Q) : bool :=
  Qgtb (snd b) (snd a) || (Qeq_bool (snd a) (snd b) && (fst a <? fst b)).

(** [sorted(entries, key=lambda item: (item[1], item[0]))], a stable sort:
    each entry goes after the entries that are not greater. *)
Fixpoint insert_entry (x : nat * Q) (l : list (nat * Q)) : list (nat * Q) :=
  match l with
  | [] => [x]
  | y :: rest => if entry_lt x y then x :: l else y :: insert_entry x rest
  end.

Definition sorted_entries (l : list (nat * Q)) : list (nat * Q) :=
  fold_left (fun sorted x => insert_entry x sorted) l [].

(** [if str(cell.value).strip().upper() != code: cell.value = code;
    updates += 1]: the worksheet and the number of updates. *)
Definition write_code (ws : worksheet) (row_idx code_column : nat) (code : ustr)
    : worksheet * nat :=
  if negb (ustr_eqb (code_text (cell ws row_idx code_column)) code)
  then (set_cell ws row_idx code_column (VStr code), 1)
  else (ws, 0).

(** The body of the loop over [grouped_rows.items()]: the worksheet and
    the number of updates it makes. *)
Definition resolve_group (code_column : nat) (ws : worksheet)
    (entries : list (nat * option Q)) : worksheet * nat :=
  match valid_entries entries with
  | [] => (ws, 0)
  | [(row_idx, debit_amount)] =>
      if is_positive (Some debit_amount) then write_code ws row_idx code_column T_D
      else (ws, 0)
  | valid =>
      let sorted := sorted_entries valid in
      match head sorted, last sorted with
      | Some lowest_entry, Some highest_entry =>
          if fst highest_entry =? fst lowest_entry then (ws, 0)
          else
            let (ws1, n1) := write_code ws (fst highest_entry) code_column T_D in
            let (ws2, n2) := write_code ws1 (fst lowest_entry) code_column O_D in
            (ws2, n1 + n2)
      | _, _ => (ws, 0)
      end
  end.

(** case1.py, [_resolve_duplicate_reference_codes] *)
Definition resolve_duplicate_reference_codes (ws : worksheet) (hm : header_map)
    (start_row end_row : nat) : worksheet * list pass_log :=
  match valid_column (hm_get (U "codigo") hm),
        valid_column (hm_get (U "referencia") hm),
        valid_column (hm_get (U "debitos") hm) with
  | Some code_column, Some reference_column, Some debit_column =>
      let grouped_rows :=
        group_rows (pp_entry ws code_column reference_column debit_column)
          (row_range start_row end_row) in
      let (ws', updates) :=
        fold_left
          (fun acc group =>
             let (ws1, n) := resolve_group code_column (fst acc) (snd group) in
             (ws1, snd acc + n))
          grouped_rows (ws, 0) in
      (ws', if 0 <? updates then [LogCodesResolved updates] else [])
  | _, _, _ => (ws, [])
  end.

End ResolveDuplicates.

(** ** File names (case 1) *)

Section FileNames.
Context {L : PyLib}.

Definition UNDERSCORE : N := 95.

(** The class [[A-Za-z0-9._ -]] *)
Definition filename_char (c : N) : bool :=
  ((65 <=? c) && (c <=? 90) || (97 <=? c) && (c <=? 122) || (48 <=? c) && (c <=? 57)
   || (c =? DOT) || (c =? UNDERSCORE) || (c =? SPACE) || (c =? MINUS))%N.

(** [re.sub(r"[class]+", "_", s)]: every maximal run of characters of the
    class becomes one underscore. [in_run] tells that the character
    before was of the class. *)
Fixpoint replace_runs (in_class : N -> bool) (in_run : bool) (s : ustr) : ustr :=
  match s with
  | [] => []
  | c :: rest =>
      if in_class c then
        if in_run then replace_runs in_class true rest
        else UNDERSCORE :: replace_runs in_class true rest
      else c :: replace_runs in_class false rest
  end.

(** [s.lstrip(chars)] and [s.strip(chars)] *)
Fixpoint lstrip_chars (chars : N -> bool) (s : ustr) : ustr :=
  match s with
  | c :: r => if chars c then lstrip_chars chars r else s
  | [] => []
  end.

Definition strip_chars (chars : N -> bool) (s : ustr) : ustr :=
  rev (lstrip_chars chars (rev (lstrip_chars chars s))).

(** case1.py, [_sanitize_filename_component] *)
Definition sanitize_filename_component (text : value) : ustr :=
  match text with
  | VStr text =>
      let sanitized := strip text in
      let sanitized := strip_marks sanitized in
      let sanitized := replace_runs (fun c => negb (filename_char c)) false sanitized in
      let sanitized := replace_runs (fun c => (c =? UNDERSCORE)%N) false sanitized in
      let sanitized :=
        strip_chars (fun c => (c =? SPACE)%N || (c =? UNDERSCORE)%N) sanitized in
      take 100 sanitized
  | _ => []
  end.

End FileNames.

(** ** The table of a statement of case 7 *)

Section Table7.
Context {L : PyLib}.

Definition HEADERS : list string :=
  ["Fecha"; "Documento"; "Descripción"; "Débitos"; "Créditos"; "Saldo"]%string.
Definition OPTIONAL_HEADERS : list string := ["Código"]%string.
Definition K_REVISAR : string := "Revisar".

(** [str] value of a Python literal used as a key. *)
Definition ustr_of_key (key : string) : ustr := U key.

(** The characters kept by [re.sub(r'[^a-z0-9]+', '', text)]. *)
Definition header_char (c : N) : bool :=
  ((97 <=? c) && (c <=? 122) || (48 <=? c) && (c <=? 57))%N.

(** case7.py, [_simplify_header] *)
Definition simplify_header (text : value) : ustr :=
  match text with
  | VStr s => List.filter header_char (normalize_text7 (VStr s))
  | _ => []
  end.

(** The set [target_headers], without repetitions. *)
Definition target_headers : list ustr :=
  remove_dups (map (fun h => simplify_header (VStr (ustr_of_key h)))
                 (HEADERS ++ OPTIONAL_HEADERS)).

(** The inner loop of [_find_header_row] over the columns of a row:
    [current_map] and [matches]. *)
Definition header_scan (ws : worksheet) (row_idx : nat) : header_map * nat :=
  fold_left
    (fun acc col_idx =>
       match cell ws row_idx col_idx with
       | VStr s =>
           let simplified := simplify_header (VStr s) in
           if ustr_eqb simplified [] then acc
           else
             (hm_set simplified col_idx (fst acc),
              if bool_decide (simplified ∈ target_headers) then S (snd acc) else snd acc)
       | _ => acc
       end)
    (seq 1 (max_column ws)) ([], 0).

(** The outer loop of [_find_header_row]: [best_row], [best_matches] and
    [header_map] so far; it stops after a row with as many matches as
    there are target headers. *)
Fixpoint find_header_loop (ws : worksheet) (rows : list nat)
    (best : option nat * nat * header_map) : option nat * nat * header_map :=
  match rows with
  | [] => best
  | row_idx :: rest =>
      let (current_map, matches) := header_scan ws row_idx in
      let best :=
        if snd (fst best) <? matches then (Some row_idx, matches, current_map)
        else best in
      if matches =? length target_headers then best
      else find_header_loop ws rest best
  end.

(** case7.py, [_find_header_row] *)
Definition find_header_row (ws : worksheet) : option nat * header_map :=
  let max_row := Nat.min (max_row ws) 80 in
  let '(best_row, best_matches, header_map) :=
    find_header_loop ws (seq 1 max_row) (None, 0, []) in
  match valid_column best_row with
  | Some r => if best_matches =? 0 then (None, []) else (Some r, header_map)
  | None => (None, [])
  end.

(** The column of a header, as [if col_idx:] accepts it. *)
Definition header_column (hm : header_map) (header : string) : option nat :=
  valid_column (hm_get (simplify_header (VStr (ustr_of_key header))) hm).

(** The value stored under a required header. *)
Definition required_value (ws : worksheet) (hm : header_map) (row_idx : nat)
    (header : string) : value :=
  match header_column hm header with
  | Some col_idx => cell ws row_idx col_idx
  | None => VNone
  end.

(** The value stored under an optional header. *)
Definition optional_value (ws : worksheet) (hm : header_map) (row_idx : nat)
    (header : string) : value :=
  match header_column hm header with
  | Some col_idx => cell ws row_idx col_idx
  | None => VStr []
  end.

(** The body of the loop of [_extract_table_rows]: [row_data] and
    [empty]. *)
Definition table_row (ws : worksheet) (hm : header_map) (row_idx : nat)
    : row_data * bool :=
  let row_data :=
    fold_left (fun row header => <[header := required_value ws hm row_idx header]> row)
      HEADERS ∅ in
  let empty := forallb (fun header => is_blank (required_value ws hm row_idx header))
                 HEADERS in
  let row_data :=
    fold_left (fun row header => <[header := optional_value ws hm row_idx header]> row)
      OPTIONAL_HEADERS row_data in
  (<[K_REVISAR := VStr []]> row_data, empty).

(** The loop [while row_idx <= max_row and empty_streak < 3], over the
    rows that are left. *)
Fixpoint scan_table (build : nat -> row_data * bool) (rows : list nat)
    (empty_streak : nat) : list row_data :=
  match rows with
  | [] => []
  | row_idx :: rest =>
      if 3 <=? empty_streak then []
      else
        let (row_data, empty) := build row_idx in
        if empty then scan_table build rest (S empty_streak)
        else row_data :: scan_table build rest 0
  end.

(** case7.py, [_extract_table_rows] *)
Definition extract_table_rows (ws : worksheet) : list row_data :=
  let (header_row, header_map) := find_header_row ws in
  match valid_column header_row, header_map with
  | Some header_row, _ :: _ =>
      scan_table (table_row ws header_map)
        (seq (header_row + 1) (max_row ws - header_row)) 0
  | _, _ => []
  end.

End Table7.

(** ** The redesign of an attachment (case 7) and the replies (cases 1 and 7)

    The codification rules and the code maps come from the
    configuration; reading the workbook from the bytes of an attachment
    and writing the two workbooks from the rows are parameters. *)

Section Redesign7.
Context {L : PyLib} {artifact : Type}.
Variable codification : codification_rules.
Variable debit_map credit_map : code_map.
Variable override_rules : list (ustr * ustr).
(** The steps of [_create_redesigned_workbook] after the codes are set:
    the saved workbook and the summary, or nothing when a step raises. *)
Variable render : list row_data -> option (artifact * option artifact).

(** case7.py, [_create_redesigned_workbook], from the active sheet to the
    rows that are written. *)
Definition redesigned_rows7 (source_ws : worksheet)
    (date_range : option (datetime * datetime)) : option (list row_data) :=
  let data_rows := extract_table_rows source_ws in
  match data_rows with
  | [] => None
  | _ =>
      let data_rows :=
        match date_range with
        | Some _ => fst (filter_data_rows_by_date_range7 data_rows date_range)
        | None => data_rows
        end in
      match date_range, data_rows with
      | Some _, [] => None
      | _, _ =>
          Some (match data_rows with
                | [] => data_rows
                | _ =>
                    apply_code_replacement_rules7 debit_map credit_map override_rules
                      (assign_codes_by_description codification data_rows)
                end)
      end
  end.

(** What [load_workbook] makes of the bytes of an attachment. *)
Inductive source7 :=
| Corrupt
| Unreadable
| Sheet (source_ws : worksheet).

(** The results of [_create_redesigned_workbook] and of
    [_redesign_excel_attachment]. *)
Inductive redesign7 :=
| CORRUPTED
| NoFiles
| Files (attachments_list : list artifact).

(** case7.py, [_redesign_excel_attachment] with
    [_create_redesigned_workbook]; an attachment is what its content
    loads to, or nothing when it has no content. *)
Definition redesign_excel_attachment7 (content : option source7)
    (date_range : option (datetime * datetime)) : redesign7 :=
  match content with
  | None => NoFiles
  | Some Corrupt => CORRUPTED
  | Some Unreadable => NoFiles
  | Some (Sheet source_ws) =>
      match redesigned_rows7 source_ws date_range with
      | None => NoFiles
      | Some data_rows =>
          match render data_rows with
          | None => NoFiles
          | Some (workbook, summary) =>
              Files (workbook :: match summary with
                                 | Some summary => [summary]
                                 | None => []
                                 end)
          end
      end
  end.

Inductive response7 :=
| NoResponse7
| CorruptedFileResponse
| Response7 (attachments : list artifact).

(** The loop of [process_email] over the attachments: [processed_files]
    and the number of [corrupted_files]. *)
Definition collect_redesigned (excel_attachments : list (option source7))
    (date_range : option (datetime * datetime)) : list artifact * nat :=
  fold_left
    (fun acc attachment =>
       match redesign_excel_attachment7 attachment date_range with
       | CORRUPTED => (fst acc, S (snd acc))
       | Files result => (fst acc ++ result, snd acc)
       | NoFiles => acc
       end)
    excel_attachments ([], 0).

(** case7.py, [process_email], from the Excel attachments on. *)
Definition process_email7 (excel_attachments : list (option source7))
    (date_range : option (datetime * datetime)) : response7 :=
  match excel_attachments with
  | [] => NoResponse7
  | _ =>
      let (processed_files, corrupted_files) :=
        collect_redesigned excel_attachments date_range in
      if 0 <? corrupted_files then CorruptedFileResponse
      else
        match processed_files with
        | [] => NoResponse7
        | _ => Response7 processed_files
        end
  end.

End Redesign7.

Section Email1.
Context {L : PyLib} {artifact : Type}.
Variable prepare : worksheet -> worksheet.
Variable finish : worksheet -> option artifact.
Variable summarize : artifact -> option artifact.

(** case1.py, [process_email], from the Excel attachments on. *)
Definition process_email1 (excel_attachments : list (option worksheet))
    (date_range : option (datetime * datetime)) : @response artifact :=
  match excel_attachments with
  | [] => NoResponse
  | _ =>
      let processed_files :=
        fold_left
          (fun processed_files attachment =>
             match enhance_excel_attachment1 prepare finish summarize attachment
                     date_range with
             | Some processed => processed_files ++ processed
             | None => processed_files
             end)
          excel_attachments [] in
      match processed_files with
      | [] => NoResponse
      | _ => Response processed_files
      end
  end.

End Email1.

(** ** The accounting summaries (cases 1 and 7)

    A summary sheet is the list of the rows appended to it. *)

Section Summaries.
Context {L : PyLib}.

Definition SUMMARY_HEADERS : list value :=
  [ VStr (U "Cuenta Bancaria"); VStr (U "Tipo Documento"); VStr (U "Número");
    VStr (U "Monto"); VStr (U "Fecha documento") ].

(** [amount is not None and abs(amount) > 1e-9] *)
Definition is_nonzero (amount : option Q) : bool :=
  match amount with
  | Some q => Qgtb (Qabs q) EPS
  | None => false
  end.

(** The amount of a row of the summary of case 1, if it gets one. *)
Definition summary_amount1 (credit_amount debit_amount : option Q) : option Q :=
  if is_positive credit_amount then credit_amount
  else if is_positive debit_amount then debit_amount
  else if is_nonzero credit_amount then credit_amount
  else if is_nonzero debit_amount then debit_amount
  else None.

(** [summary_row_values] of case 1. *)
Definition summary_row_values1 (sheet : worksheet)
    (code_column reference_column date_column : nat) (account_number : option ustr)
    (amount : Q) (row_idx : nat) : list value :=
  let code_value := cell sheet row_idx code_column in
  let reference_value := cell sheet row_idx reference_column in
  let date_value := cell sheet row_idx date_column in
  [ VStr (default [] account_number);
    VStr (if is_blank code_value then [] else strip (py_str code_value));
    (if is_blank reference_value then VStr [] else reference_value);
    VNum amount;
    match parse_date_value date_value with
    | Some parsed_date => VDatetime parsed_date
    | None => date_value
    end ].

(** case1.py, [_create_summary_workbook], from the sheet of the formatted
    workbook to the sheet of the summary. *)
Definition create_summary_workbook1 (sheet : worksheet) (account_number : option ustr)
    : option worksheet :=
  let header_map := extract_header_map sheet (max_column sheet) in
  let code_column := valid_column (hm_get (U "codigo") header_map) in
  let reference_column := valid_column (hm_get (U "referencia") header_map) in
  let debit_column := valid_column (hm_get (U "debitos") header_map) in
  let credit_column := valid_column (hm_get (U "creditos") header_map) in
  let date_column := valid_column (hm_get (U "fecha") header_map) in
  match code_column, reference_column, date_column with
  | Some code_column, Some reference_column, Some date_column =>
      match debit_column, credit_column with
      | None, None => None
      | _, _ =>
          let data_end_row := data_end_row sheet in
          let data_start_row := if 16 <=? max_row sheet then 16 else 1 in
          Some
            (fold_left
               (fun summary_ws row_idx =>
                  match summary_amount1 (optional_amount sheet row_idx credit_column)
                          (optional_amount sheet row_idx debit_column) with
                  | Some amount =>
                      summary_ws
                        ++ [summary_row_values1 sheet code_column reference_column
                              date_column account_number amount row_idx]
                  | None => summary_ws
                  end)
               (row_range data_start_row data_end_row) [SUMMARY_HEADERS])
      end
  | _, _, _ => None
  end.

(** case7.py, [_has_numeric_data] *)
Definition has_numeric_data (v : value) : bool :=
  if is_blank v then false
  else
    match v with
    | VNum q => Qgtb (Qabs q) EPS
    | VBool b => Qgtb (Qabs (Q_of_bool b)) EPS
    | VStr s => existsb is_digit s
    | _ => false
    end.

(** The amount of a row of the summary of case 7, if it gets one. *)
Definition summary_amount7 (credit_value debit_value : value) : option pyfloat :=
  let debit_number := to_number debit_value in
  let credit_number := to_number credit_value in
  if float_gt credit_number 0 then Some credit_number
  else if float_gt debit_number 0 then Some debit_number
  else if has_numeric_data credit_value && float_gt (float_abs credit_number) EPS
  then Some credit_number
  else if has_numeric_data debit_value && float_gt (float_abs debit_number) EPS
  then Some debit_number
  else if has_numeric_data credit_value then Some credit_number
  else if has_numeric_data debit_value then Some debit_number
  else None.

(** [re.findall(r'\d+', s)]: the runs of digits of [s]; [run] is the run
    being read. *)
Fixpoint digit_runs (s : ustr) (run : ustr) : list ustr :=
  match s with
  | [] => match run with [] => [] | _ => [run] end
  | c :: rest =>
      if is_digit c then digit_runs rest (run ++ [c])
      else match run with
           | [] => digit_runs rest []
           | _ => run :: digit_runs rest []
           end
  end.

(** [max(digits, key=len)]: the first of the longest. *)
Definition longest (first : ustr) (others : list ustr) : ustr :=
  fold_left (fun best x => if length best <? length x then x else best) others first.

(** case7.py, [_extract_account_number] *)
Definition extract_account_number7 (account_text : value) : ustr :=
  if negb (truthy account_text) then []
  else
    match digit_runs (py_str account_text) [] with
    | [] => []
    | first :: others => longest first others
    end.

Definition K_DOCUMENTO : string := "Documento".

(** The cell that is given a float: the numbers of the cells are
    rationals, and an infinity or nan is an object of its own. *)
Definition float_cell (x : pyfloat) : value :=
  match x with
  | Finite q => VNum q
  | PosInf => VOther 1
  | NegInf => VOther 2
  | NaN => VOther 3
  end.

(** [summary_row] of case 7. *)
Definition summary_row7 (account_number : ustr) (amount : pyfloat) (row : row_data)
    : list value :=
  let date_value := row_get row K_FECHA in
  [ VStr account_number;
    VStr (strip (py_str (or_empty (row_get row K_CODIGO))));
    or_empty (row_get row K_DOCUMENTO);
    float_cell amount;
    match parse_date_from_value7 date_value with
    | Some parsed_date => VDatetime parsed_date
    | None => date_value
    end ].

(** case7.py, [_create_summary_workbook], from the rows to the sheet of
    the summary. *)
Definition create_summary_workbook7 (data_rows : list row_data) (account_text : value)
    : option worksheet :=
  match data_rows with
  | [] => None
  | _ =>
      let account_number := extract_account_number7 account_text in
      let summary_ws :=
        fold_left
          (fun summary_ws row =>
             match summary_amount7 (row_get row K_CREDITOS) (row_get row K_DEBITOS) with
             | Some amount => summary_ws ++ [summary_row7 account_number amount row]
             | None => summary_ws
             end)
          data_rows [SUMMARY_HEADERS] in
      if max_row summary_ws =? 1 then None else Some summary_ws
  end.

End Summaries.

(** ** Rows to review (cases 1, 2 and 7)

    The fill of a highlighted row is not a cell value: the pass returns
    the sheet and the rows it highlighted, whose number it logs. *)

Section Highlight.
Context {L : PyLib}.

Definition REVISAR : ustr := U "Revisar".

(** [[normalize(f) for f in filters if normalize(f)]] *)
Definition normalize_filters (normalize : value -> ustr) (filters : list ustr)
    : list ustr :=
  List.filter (fun f => negb (ustr_eqb f [])) (map (fun f => normalize (VStr f)) filters).

(** The test of the loop on the description cell of a row. *)
Definition filter_matches (normalize : value -> ustr) (normalized_filters : list ustr)
    (cell_value : value) : bool :=
  if is_blank cell_value then false
  else
    let normalized_value := normalize (VStr (py_str cell_value)) in
    if ustr_eqb normalized_value [] then false
    else existsb (fun filter_text => contains filter_text normalized_value)
           normalized_filters.

(** One iteration of the loop over the rows: the sheet and the
    highlighted rows so far. *)
Definition highlight_step (normalize : value -> ustr) (normalized_filters : list ustr)
    (description_column : nat) (review_column : option nat)
    (acc : worksheet * list nat) (row_idx : nat) : worksheet * list nat :=
  if filter_matches normalize normalized_filters
       (cell (fst acc) row_idx description_column)
  then
    (match review_column with
     | Some review_column => set_cell (fst acc) row_idx review_column (VStr REVISAR)
     | None => fst acc
     end,
     snd acc ++ [row_idx])
  else acc.

(** case1.py and case2.py, [_highlight_rows_by_filters] *)
Definition highlight_rows_by_filters1 (filters : list ustr) (ws : worksheet)
    (hm : header_map) (start_row end_row : option nat) : worksheet * list nat :=
  match valid_column start_row, valid_column end_row with
  | Some start_row, Some end_row =>
      if end_row <? start_row then (ws, [])
      else
        match normalize_filters normalize_text filters with
        | [] => (ws, [])
        | normalized_filters =>
            match valid_column (hm_get (U "descripcion") hm) with
            | None => (ws, [])
            | Some description_column =>
                let review_column := valid_column (hm_get (U "revisar") hm) in
                fold_left
                  (highlight_step normalize_text normalized_filters description_column
                     review_column)
                  (row_range start_row end_row) (ws, [])
            end
        end
  | _, _ => (ws, [])
  end.

(** The columns of ['Descripción'] and ['Revisar'] in [column_map], the
    positions of the titles in [OUTPUT_HEADERS]. *)
Definition DESCRIPTION_COLUMN7 : nat := 3.
Definition REVIEW_COLUMN7 : nat := 8.

(** case7.py, [_highlight_rows_by_filters] *)
Definition highlight_rows_by_filters7 (filters : list ustr) (ws : worksheet)
    (start_row end_row : nat) : worksheet * list nat :=
  match normalize_filters normalize_text7 filters with
  | [] => (ws, [])
  | normalized_filters =>
      fold_left
        (highlight_step normalize_text7 normalized_filters DESCRIPTION_COLUMN7
           (Some REVIEW_COLUMN7))
        (row_range start_row end_row) (ws, [])
  end.

End Highlight.

(** ** The review column (case 1) *)

Section ReviewColumn.
Context {L : PyLib}.

(** [worksheet.insert_cols(idx)]: the cells from column [idx] on move one
    column to the right. *)
Definition insert_cols (ws : worksheet) (idx : nat) : worksheet :=
  map (fun row =>
         if length row <? idx then row
         else take (idx - 1) row ++ VNone :: drop (idx - 1) row)
    ws.

(** case1.py, [_ensure_review_column]: the sheet and the column
    returned. *)
Definition ensure_review_column (ws : worksheet) : worksheet * option nat :=
  if max_row ws <? HEADER_ROW then (ws, None)
  else
    let header_map := extract_header_map ws (max_column ws) in
    match valid_column (hm_get (U "revisar") header_map) with
    | Some review_column => (ws, Some review_column)
    | None =>
        match valid_column (hm_get (U "creditos") header_map) with
        | None => (ws, None)
        | Some credit_column =>
            let insert_position := credit_column + 1 in
            (set_cell (insert_cols ws insert_position) HEADER_ROW insert_position
               (VStr REVISAR),
             Some insert_position)
        end
    end.

End ReviewColumn.

(** ** The date range of the subject (cases 1, 2 and 7) *)

Section DateRange.
Context {L : PyLib}.

(** [re.findall] for a pattern without empty matches: [match_at s] is the
    length of the match that starts at the head of [s], if there is one;
    [skip] characters of the last match are still to be passed. *)
Fixpoint findall (match_at : ustr -> option nat) (s : ustr) (skip : nat) : list ustr :=
  match s with
  | [] => []
  | _ :: rest =>
      match skip with
      | S k => findall match_at rest k
      | 0 =>
          match match_at s with
          | Some (S n) => take (S n) s :: findall match_at rest n
          | _ => findall match_at rest 0
          end
      end
  end.

(** [s] starts with [n] characters of the class [\d]. *)
Definition digits_at (n : nat) (s : ustr) : bool :=
  (n <=? length s) && forallb is_digit (take n s).

(** [s] starts with [day] digits, a slash, [month] digits, a slash and
    four digits. *)
Definition date_at (day month : nat) (s : ustr) : bool :=
  digits_at day s
  && bool_decide (head (drop day s) = Some SLASH)
  && digits_at month (drop (day + 1) s)
  && bool_decide (head (drop (day + 1 + month) s) = Some SLASH)
  && digits_at 4 (drop (day + 1 + month + 1) s).

(** The pattern [\d{2}/\d{2}/\d{4}] at the head of [s]. *)
Definition match_date1 (s : ustr) : option nat :=
  if date_at 2 2 s then Some 10 else None.

(** The pattern [\d{1,2}/\d{1,2}/\d{4}] at the head of [s]: the longer
    alternatives are tried first. *)
Definition match_date7 (s : ustr) : option nat :=
  if date_at 2 2 s then Some 10
  else if date_at 2 1 s then Some 9
  else if date_at 1 2 s then Some 9
  else if date_at 1 1 s then Some 8
  else None.

Definition DMY : ustr := U "%d/%m/%Y".

(** The body shared by the three [_extract_date_range]. *)
Definition date_range_of (match_at : ustr -> option nat) (subject : ustr)
    : option (datetime * datetime) :=
  match subject with
  | [] => None
  | _ =>
      match findall match_at subject 0 with
      | first :: second :: _ =>
          match strptime first DMY with
          | Some start =>
              match strptime second DMY with
              | Some end_ => Some (start, end_)
              | None => None
              end
          | None => None
          end
      | _ => None
      end
  end.

(** case1.py and case2.py, [_extract_date_range] *)
Definition extract_date_range1 (subject : ustr) : option (datetime * datetime) :=
  date_range_of match_date1 subject.

(** case7.py, [_extract_date_range] *)
Definition extract_date_range7 (subject : ustr) : option (datetime * datetime) :=
  date_range_of match_date7 subject.

End DateRange.

(** ** The code maps of the configuration

    The section [code_rules] of the configuration file holds, under
    ['positive_debits'] and ['non_negative_credits'], one dictionary for
    each case.  A Python [dict] is the list of its items in insertion
    order, with one item for each key. *)

Section CodeMaps.
Context {L : PyLib}.

(** [d[k] = v] *)
Definition dict_set {V : Type} (k : ustr) (v : V) (d : list (ustr * V))
    : list (ustr * V) :=
  if existsb (fun p => ustr_eqb (fst p) k) d
  then map (fun p => if ustr_eqb (fst p) k then (k, v) else p) d
  else d ++ [(k, v)].

(** One item of the comprehension
    [{str(key).strip().upper(): str(value).strip().upper() for key, value
      in items if str(key).strip() and str(value).strip()}]. *)
Definition clean_code_entry (entry : value * value) : option (ustr * ustr) :=
  let key := strip (py_str (fst entry)) in
  let value := strip (py_str (snd entry)) in
  if negb (ustr_eqb key []) && negb (ustr_eqb value [])
  then Some (upper key, upper value)
  else None.

(** The comprehension. *)
Definition clean_code_dict (items : list (value * value)) : list (ustr * ustr) :=
  fold_left
    (fun d entry =>
       match clean_code_entry entry with
       | Some (k, v) => dict_set k v d
       | None => d
       end)
    items [].

(** The dictionary as the passes use it. *)
Definition code_map_of (d : list (ustr * ustr)) : code_map := list_to_map d.

(** What the file holds under a case key: a dictionary, or something
    else. *)
Inductive stored_map :=
| NotADict
| Dict (items : list (value * value)).

(** What [code_rules] holds under the name of a category. *)
Inductive stored_category :=
| Missing
| NotACategory
| Category (cases : gmap string stored_map).

Definition DEFAULT_POSITIVE_DEBIT_CODES : code_map :=
  code_map_of
    [ (U "DP", U "DEP"); (U "TF", U "T/D"); (U "WD", U "T/D"); (U "3V", U "O/D");
      (U "3Y", U "TEF"); (U "PE", U "T/D"); (U "MD", U "T/D"); (U "PT", U "T/D") ].

Definition DEFAULT_NON_NEGATIVE_CREDIT_CODES : code_map :=
  code_map_of
    [ (U "DP", U "DEP"); (U "AR", U "DEP"); (U "TF", U "T/C"); (U "MC", U "T/C");
      (U "PP", U "T/C"); (U "WC", U "T/C") ].

(** config_manager.py, [get_positive_debit_code_map] and
    [get_non_negative_credit_code_map], from the category read from the
    file on. *)
Definition get_code_map (defaults : code_map) (category : stored_category)
    (case_key : string) : code_map :=
  match category with
  | Category cases =>
      match cases !! case_key with
      | Some (Dict items) => code_map_of (clean_code_dict items)
      | Some NotADict => ∅
      | None => defaults
      end
  | _ => defaults
  end.

(** config_manager.py, [set_positive_debit_code_map] and
    [set_non_negative_credit_code_map]: the category that is saved;
    there is none when the file holds something else than a dictionary
    under the name of the category, the assignment raising then. *)
Definition set_code_map (category : stored_category) (case_key : string)
    (mapping : list (value * value)) : option stored_category :=
  let cleaned_map :=
    Dict (map (fun p => (VStr (fst p), VStr (snd p))) (clean_code_dict mapping)) in
  match category with
  | Missing => Some (Category (<[case_key := cleaned_map]> ∅))
  | Category cases => Some (Category (<[case_key := cleaned_map]> cases))
  | NotACategory => None
  end.

End CodeMaps.

(** ** The codification rules of the configuration (case 7) *)

Section CodificationRules.
Context {L : PyLib}.

(** An item of a list of rules of the file: a dictionary, with what
    [item.get('search_text', '')] and [item.get('code', '')] give, or
    something else. *)
Inductive stored_rule :=
| NotARule
| Rule (search_text code : value).

(** What the file holds under the key of the rules of a case: a
    dictionary, with what it holds under ['debit'] and ['credit'] when
    that is a list, or something else. *)
Inductive stored_rules :=
| NotRules
| Rules (debit credit : option (list stored_rule)).

(** config_manager.py, the local function [_clean_entries] *)
Definition clean_entries (entries : option (list stored_rule)) : list (ustr * ustr) :=
  match entries with
  | None => []
  | Some entries =>
      fold_left
        (fun cleaned item =>
           match item with
           | Rule (VStr search_text) (VStr code) =>
               let search_text := strip search_text in
               let code := strip code in
               if negb (ustr_eqb search_text []) && negb (ustr_eqb code [])
               then cleaned ++ [(search_text, code)]
               else cleaned
           | _ => cleaned
           end)
        entries []
  end.

(** config_manager.py, [get_case7_codification_rules] with
    [_get_case_specific_codification_rules]: the debit and the credit
    rules; [rules.get] raises when the file holds something else than a
    dictionary. *)
Definition get_case7_codification_rules (stored : stored_rules)
    : option (list (ustr * ustr) * list (ustr * ustr)) :=
  match stored with
  | NotRules => None
  | Rules debit credit => Some (clean_entries debit, clean_entries credit)
  end.

(** The loop of [_get_codification_rules] over the entries of one key. *)
Definition prepare_entries (entries : list (ustr * ustr)) : list (ustr * ustr) :=
  fold_left
    (fun prepared item =>
       let normalized_search := normalize_text7 (VStr (fst item)) in
       if negb (ustr_eqb normalized_search []) && negb (ustr_eqb (strip (snd item)) [])
       then prepared ++ [(normalized_search, strip (snd item))]
       else prepared)
    entries [].

(** case7.py, [_get_codification_rules] *)
Definition get_codification_rules (stored : stored_rules) : option codification_rules :=
  match get_case7_codification_rules stored with
  | Some (debit, credit) => Some (mk_rules (prepare_entries credit) (prepare_entries debit))
  | None => None
  end.

End CodificationRules.

(** ** A reference instance of the Python library

    [RefLib] agrees with Python on strings made of ASCII characters, the
    no-break space and the accented letters of [DECOMPOSITIONS]; it serves
    to evaluate the definitions above on closed inputs. Its [float] reads
    plain decimal numerals, its [strptime] the three formats of
    [DATE_FORMATS], and its [str] prints integers. *)

Module Ref.

(** Compatibility decompositions: letter, base letter, combining mark. *)
Definition DECOMPOSITIONS : list (N * list N) :=
  [ (0xC1, [0x41; 0x301]); (0xC9, [0x45; 0x301]); (0xCD, [0x49; 0x301]);
    (0xD3, [0x4F; 0x301]); (0xDA, [0x55; 0x301]); (0xDC, [0x55; 0x308]);
    (0xD1, [0x4E; 0x303]); (0xC7, [0x43; 0x327]);
    (0xE1, [0x61; 0x301]); (0xE9, [0x65; 0x301]); (0xED, [0x69; 0x301]);
    (0xF3, [0x6F; 0x301]); (0xFA, [0x75; 0x301]); (0xFC, [0x75; 0x308]);
    (0xF1, [0x6E; 0x303]); (0xE7, [0x63; 0x327]);
    (0xA0, [0x20]) ]%N.

Fixpoint assoc (c : N) (table : list (N * list N)) : option (list N) :=
  match table with
  | [] => None
  | (k, v) :: rest => if (c =? k)%N then Some v else assoc c rest
  end.

Definition decompose (c : N) : list N :=
  match assoc c DECOMPOSITIONS with
  | Some l => l
  | None => [c]
  end.

Definition nfkd (s : ustr) : ustr := flat_map decompose s.

Definition combining (c : N) : N :=
  if ((0x300 <=? c) && (c <=? 0x36F))%N then 230%N else 0%N.

Definition lower_char (c : N) : N :=
  if ((65 <=? c) && (c <=? 90))%N then (c + 32)%N else c.

Definition upper_char (c : N) : N :=
  if ((97 <=? c) && (c <=? 122))%N then (c - 32)%N else c.

Definition lower (s : ustr) : ustr := map lower_char s.
Definition upper (s : ustr) : ustr := map upper_char s.

Definition is_digit (c : N) : bool := ((48 <=? c) && (c <=? 57))%N.

(** The value of a non-empty string of digits. *)
Definition digits_value (s : ustr) : option Z :=
  match s with
  | [] => None
  | _ =>
      if forallb is_digit s
      then Some (fold_left (fun acc c => (acc * 10 + Z.of_N (c - 48))%Z) s 0%Z)
      else None
  end.

(** The text before the first [sep] and the text after it. *)
Fixpoint split_at (sep : N) (s : ustr) : ustr * option ustr :=
  match s with
  | [] => ([], None)
  | c :: r =>
      if (c =? sep)%N then ([], Some r)
      else let (a, b) := split_at sep r in (c :: a, b)
  end.

Definition unsigned_decimal (s : ustr) : option Q :=
  match split_at 46 s with
  | (int_part, None) => inject_Z <$> digits_value int_part
  | (int_part, Some frac_part) =>
      match int_part, frac_part with
      | [], [] => None
      | _, _ =>
          let i := match int_part with [] => Some 0%Z | _ => digits_value int_part end in
          let f := match frac_part with [] => Some 0%Z | _ => digits_value frac_part end in
          match i, f with
          | Some i, Some f =>
              let scale := (10 ^ Z.of_nat (length frac_part))%Z in
              Some (Qred (Qmake (i * scale + f) (Z.to_pos scale)))
          | _, _ => None
          end
      end
  end.

(** [float(s)] for a plain decimal numeral with an optional sign. *)
Definition py_float (s : ustr) : option Q :=
  match strip s with
  | 45 :: r => Qopp <$> unsigned_decimal r
  | 43 :: r => unsigned_decimal r
  | r => unsigned_decimal r
  end%N.

Fixpoint digits_of (fuel : nat) (n : Z) (acc : ustr) : ustr :=
  match fuel with
  | 0 => acc
  | S fuel' =>
      let acc := (48 + Z.to_N (n mod 10))%N :: acc in
      if (n <? 10)%Z then acc else digits_of fuel' (n / 10)%Z acc
  end.

Definition str_of_Z (n : Z) : ustr :=
  if (n <? 0)%Z then 45%N :: digits_of (Z.to_nat (- n)) (- n)%Z []
  else digits_of (S (Z.to_nat n)) n [].

Definition py_repr (v : value) : ustr :=
  match v with
  | VNone => U "None"
  | VBool true => U "True"
  | VBool false => U "False"
  | VNum q => str_of_Z (Qfloor q)
  | _ => []
  end.

Definition field (min_len max_len : nat) (s : ustr) : option Z :=
  if (min_len <=? length s) && (length s <=? max_len) then digits_value s else None.

(** The three fields of [s] separated by [sep]. *)
Definition three_fields (sep : N) (s : ustr) : option (ustr * ustr * ustr) :=
  match split_at sep s with
  | (a, Some r) =>
      match split_at sep r with
      | (b, Some c) => Some (a, b, c)
      | _ => None
      end
  | _ => None
  end.

Definition strptime (s fmt : ustr) : option datetime :=
  if ustr_eqb fmt (U "%d/%m/%Y") || ustr_eqb fmt (U "%d-%m-%Y") then
    let sep := if ustr_eqb fmt (U "%d/%m/%Y") then 47%N else 45%N in
    match three_fields sep s with
    | Some (d, m, y) =>
        match field 1 2 d, field 1 2 m, field 4 4 y with
        | Some d, Some m, Some y => make_date y m d
        | _, _, _ => None
        end
    | None => None
    end
  else if ustr_eqb fmt (U "%Y-%m-%d") then
    match three_fields 45 s with
    | Some (y, m, d) =>
        match field 1 2 d, field 1 2 m, field 4 4 y with
        | Some d, Some m, Some y => make_date y m d
        | _, _, _ => None
        end
    | None => None
    end
  else None.

End Ref.

Definition RefLib : PyLib := {|
  nfkd := Ref.nfkd;
  combining := Ref.combining;
  lower := Ref.lower;
  upper := Ref.upper;
  is_digit := Ref.is_digit;
  py_float := Ref.py_float;
  py_repr := Ref.py_repr;
  strptime := Ref.strptime
|}.

(** [datetime(y, m, d)] for a valid date. *)
Definition date_of (y m d : Z) : datetime :=
  default (mk_datetime 1 0) (make_date y m d).

(** ** Vocabulary of the properties *)

Section Vocabulary.
Context {L : PyLib}.


(** A rule that [_match_codification] accepts for a description. *)
Definition rule_matches (normalized_description : ustr) (rule : ustr * ustr) : bool :=
  negb (ustr_eqb (fst rule) []) && negb (ustr_eqb (snd rule) [])
  && contains (fst rule) normalized_description.

(** The code of the first rule that matches, or [''] *)
Definition first_match (normalized_description : ustr) (rules : list (ustr * ustr)) : ustr :=
  match List.find (rule_matches normalized_description) rules with
  | Some rule => snd rule
  | None => []
  end.

(** Keyword codification as the specification words it: the credit rules
    if credit > 0, else the debit rules if debit > 0. *)
Definition spec_determine_codification (row : row_data) (rules : codification_rules)
    : ustr :=
  match row_get row K_DESCRIPCION with
  | VStr description =>
      let normalized_description := normalize_text7 (VStr description) in
      if float_gt (to_number (row_get row K_CREDITOS)) 0
      then first_match normalized_description (credit_rules rules)
      else if float_gt (to_number (row_get row K_DEBITOS)) 0
      then first_match normalized_description (debit_rules rules)
      else []
  | _ => []
  end.

(** The amount of a pass is positive and the opposite one is not. *)
Definition exclusively_positive (amount other : pyfloat) : bool :=
  float_gt amount EPS && negb (float_gt other EPS).

End Vocabulary.

(** The iterations of a loop over [items] touch pairwise disjoint rows,
    [foot i] being the rows that iteration [i] reads or writes. *)
Definition disjoint_feet {I : Type} (foot : I -> list nat) (items : list I) : Prop :=
  ForallOrdPairs (fun i j => forall r, In r (foot i) -> ~ In r (foot j)) items.

Section RemapVocabulary.
Context {L : PyLib}.

(** What the sign-exclusive remap of case 7 may do to a row: nothing, or
    replace the code through the debit map when only the debit is
    positive, or through the credit map when only the credit is. *)
Definition remap_outcome7 (debit_map credit_map : code_map) (row row' : row_data) : Prop :=
  let debit := to_number (row_get row K_DEBITOS) in
  let credit := to_number (row_get row K_CREDITOS) in
  let current_code := upper (strip (py_str (row_get row K_CODIGO))) in
  row' = row
  \/ (exclusively_positive debit credit = true
      /\ truthy (row_get row K_CODIGO) = true
      /\ exists new_code, debit_map !! current_code = Some new_code
                          /\ row' = <[K_CODIGO := VStr new_code]> row)
  \/ (exclusively_positive credit debit = true
      /\ truthy (row_get row K_CODIGO) = true
      /\ exists new_code, credit_map !! current_code = Some new_code
                          /\ row' = <[K_CODIGO := VStr new_code]> row).

End RemapVocabulary.

Section RemapVocabulary1.
Context {L : PyLib}.

(** What the sign-exclusive remap of case 1 may have done to the cell
    [(r, c)] of [ws], [out] being the worksheet after it: nothing, or, in
    the code column of a data row with a non-blank code, the replacement
    through the debit map when only the debit is positive, or through the
    credit map when only the credit is. *)
Definition remap_outcome1 (debit_map credit_map : code_map) (ws out : worksheet)
    (hm : header_map) (start_row end_row r c : nat) : Prop :=
  let debit := optional_amount ws r (valid_column (hm_get (U "debitos") hm)) in
  let credit := optional_amount ws r (valid_column (hm_get (U "creditos") hm)) in
  let current_code := upper (strip (py_str (cell ws r c))) in
  cell out r c = cell ws r c
  \/ (valid_column (hm_get (U "codigo") hm) = Some c
      /\ start_row <= r <= end_row
      /\ is_blank (cell ws r c) = false
      /\ ((is_positive debit = true /\ is_positive credit = false
           /\ exists new_code, debit_map !! current_code = Some new_code
                               /\ cell out r c = VStr new_code)
          \/ (is_positive credit = true /\ is_positive debit = false
              /\ exists new_code, credit_map !! current_code = Some new_code
                                  /\ cell out r c = VStr new_code))).

End RemapVocabulary1.

Section UnicodeVocabulary.
Context {L : PyLib}.

(** A string that stripping the marks leaves as it is: decomposed and
    without combining marks. *)
Definition plain (s : ustr) : Prop := strip_marks s = s.

(** A string that [lower] leaves as it is. *)
Definition lowered (s : ustr) : Prop := lower s = s.

(** The facts about [unicodedata] and [str.lower] that idempotence rests
    on: stripping the marks gives a plain string; lower-casing keeps a
    plain string plain and gives a lowered string; deleting characters
    keeps a string plain and lowered. *)
Record unicode_laws : Prop := {
  strip_marks_plain : forall s, plain (strip_marks s);
  lower_plain : forall s, plain s -> plain (lower s);
  plain_sublist : forall s t, sublist t s -> plain s -> plain t;
  lower_lowered : forall s, lowered (lower s);
  lowered_sublist : forall s t, sublist t s -> lowered s -> lowered t
}.

End UnicodeVocabulary.

(** A character that the reference decomposition leaves alone and that is
    not a combining mark. *)
Definition ref_stable (c : N) : Prop :=
  Ref.decompose c = [c] /\ (Ref.combining c =? 0)%N = true.

(** The first character of a string, if any, is not white space. *)
Definition no_leading_space (s : ustr) : Prop :=
  match s with
  | c :: _ => isspace c = false
  | [] => True
  end.

(** The check that every entry of [Ref.DECOMPOSITIONS] decomposes into at
    most one character that is not a mark, different from the entry's own
    and itself without a decomposition. *)
Definition ref_nonmark (c : N) : bool := (Ref.combining c =? 0)%N.

Definition ref_entry_ok (entry : N * list N) : bool :=
  let base := List.filter ref_nonmark (snd entry) in
  (length base <=? 1)
  && forallb (fun c => match Ref.assoc c Ref.DECOMPOSITIONS with
                       | None => true
                       | Some _ => false
                       end) base
  && negb (bool_decide (base = [fst entry])).

(** The rows of a worksheet that a deletion leaves, in order: [del r]
    tells whether row [r] is deleted, the first row of [ws] having index
    [i]. *)
Fixpoint keep_rows_from (i : nat) (del : nat -> bool) (ws : worksheet) : worksheet :=
  match ws with
  | [] => []
  | row :: rest =>
      if del i then keep_rows_from (S i) del rest
      else row :: keep_rows_from (S i) del rest
  end.

(** A list of row indices in strictly increasing order, all at least [i]. *)
Fixpoint increasing_from (i : nat) (rows : list nat) : Prop :=
  match rows with
  | [] => True
  | r :: rest => i <= r /\ increasing_from (S r) rest
  end.

Definition row_in (rows : list nat) (r : nat) : bool := existsb (Nat.eqb r) rows.

Section FilterVocabulary.
Context {L : PyLib}.

(** The date of a cell lies outside the range: the rows case 1 deletes. *)
Definition outside_range1 (ws : worksheet) (date_column : nat) (start end_ : datetime)
    (r : nat) : bool :=
  match parse_date_value (cell ws r date_column) with
  | Some d => negb (in_range start end_ d)
  | None => false
  end.

(** The date of a cell lies inside the range: the rows case 1 counts. *)
Definition inside_range1 (ws : worksheet) (date_column : nat) (start end_ : datetime)
    (r : nat) : bool :=
  match parse_date_value (cell ws r date_column) with
  | Some d => in_range start end_ d
  | None => false
  end.

Definition outside_range2 (ws : worksheet) (date_column : nat) (start end_ : datetime)
    (r : nat) : bool :=
  match parse_date_from_value (cell ws r date_column) with
  | Ok (Some d) => negb (in_range start end_ d)
  | _ => false
  end.

Definition inside_range2 (ws : worksheet) (date_column : nat) (start end_ : datetime)
    (r : nat) : bool :=
  match parse_date_from_value (cell ws r date_column) with
  | Ok (Some d) => in_range start end_ d
  | _ => false
  end.

(** No date cell of the rows makes the parser of case 2 raise. *)
Definition parses2 (ws : worksheet) (date_column : nat) (rows : list nat) : Prop :=
  forall r, In r rows -> exists parsed,
    parse_date_from_value (cell ws r date_column) = Ok parsed.

(** The data region: rows 16 to [data_end_row]. *)
Definition data_region (ws : worksheet) : list nat :=
  row_range DATA_START_ROW (data_end_row ws).

(** The date column the filter works on. *)
Definition date_column_of (ws : worksheet) : option nat :=
  valid_column (locate_date_column (extract_header_map ws (max_column ws))).

End FilterVocabulary.

Section DuplicateVocabulary.
Context {L : PyLib}.

(** Row [r] is grouped under the reference [k]. *)
Definition key_is (ws : worksheet) (reference_column : nat) (k : ustr) (r : nat) : bool :=
  match reference_key (cell ws r reference_column) with
  | Some k' => ustr_eqb k' k
  | None => false
  end.

(** The rows of the data region grouped under [k], in file order. *)
Definition rows_with_reference (ws : worksheet) (reference_column : nat) (k : ustr)
    : list nat :=
  List.filter (key_is ws reference_column k) (data_region ws).

(** The three columns that [_process_duplicate_references] needs. *)
Definition duplicate_columns (ws : worksheet) (rc cc dc : nat) : Prop :=
  let hm := extract_header_map ws (max_column ws) in
  valid_column (hm_get (U "referencia") hm) = Some rc
  /\ valid_column (hm_get (U "codigo") hm) = Some cc
  /\ valid_column (hm_get (U "descripcion") hm) = Some dc.

(** The standard tag of a WD or WC code. *)
Definition transfer_tag (code : ustr) : ustr :=
  if ustr_eqb code WD then T_D else T_C.

(** The value of cell [(r, c)] after a pair of rows was processed, from
    the values [read] before. *)
Definition pair_cell (cc dc : nat) (read : nat -> nat -> value) (row1 row2 r c : nat)
    : value :=
  match pair_roles row1 row2 (norm_code (read row1 cc)) (norm_code (read row2 cc)) with
  | None => read r c
  | Some (wd_wc_row, three_v_row, wd_wc_code) =>
      if (r =? three_v_row) && (c =? dc)
      then VStr (COMMISSION_LABEL ++ stripped_text (read wd_wc_row dc))
      else if (r =? three_v_row) && (c =? cc) then VStr O_D
      else if (r =? wd_wc_row) && (c =? cc) then VStr (transfer_tag wd_wc_code)
      else read r c
  end.

(** A group whose rows, if they are two, are distinct rows of the sheet. *)
Definition good_group (group : ustr * list nat) : Prop :=
  match snd group with
  | [row1; row2] => 1 <= row1 /\ 1 <= row2 /\ row1 <> row2
  | _ => True
  end.

End DuplicateVocabulary.

Section DuplicateCells.
Context {L : PyLib}.

(** The value of cell [(r, c)] after [_process_duplicate_references]: a
    data row whose reference is shared by exactly one other data row is
    rewritten as a pair, every other cell is as before. *)
Definition duplicates_cell (ws : worksheet) (rc cc dc r c : nat) : value :=
  match reference_key (cell ws r rc) with
  | Some k =>
      if row_in (data_region ws) r then
        match rows_with_reference ws rc k with
        | [row1; row2] => pair_cell cc dc (cell ws) row1 row2 r c
        | _ => cell ws r c
        end
      else cell ws r c
  | None => cell ws r c
  end.

End DuplicateCells.

(** ** Sample data *)

Definition sample_rules : codification_rules :=
  mk_rules [(U "transferencia", U "T/C")] [(U "pago", U "T/D")].

(** A row with both amounts positive. *)
Definition sample_row_both : row_data :=
  <[K_DESCRIPCION := VStr (U "Pago de servicios")]>
    (<[K_CREDITOS := VNum 5]> (<[K_DEBITOS := VNum 5]> (<[K_CODIGO := VStr (U "AB")]> ∅))).


(** A debit row. *)
Definition sample_row_debit : row_data :=
  <[K_DESCRIPCION := VStr (U "Pago de servicios")]>
    (<[K_CREDITOS := VNone]> (<[K_DEBITOS := VStr (U "1.500,00")]>
       (<[K_CODIGO := VStr (U "wd")]> ∅))).

(** A row whose debit cell holds the text [nan]. *)
Definition sample_row_nan_debit : row_data :=
  <[K_DESCRIPCION := VStr (U "Pago de servicios")]>
    (<[K_CREDITOS := VNone]> (<[K_DEBITOS := VStr (U "nan")]>
       (<[K_CODIGO := VStr (U "WD")]> ∅))).


Definition sample_debit_map : code_map := <[U "WD" := U "T/D"]> (<[U "3V" := U "O/D"]> ∅).
Definition sample_credit_map : code_map := <[U "WC" := U "T/C"]> (<[U "DP" := U "DEP"]> ∅).

(** A statement of case 1: thirteen rows of preamble, the header in row
    14, a secondary header in row 15 and the movements from row 16 on. *)
Definition sample_header : list value :=
  [VStr (U "Fecha"); VStr (U "Referencia"); VStr (U "Código"); VStr (U "Descripción");
   VStr (U "Débitos"); VStr (U "Créditos")].

Definition sample_sheet (movements : list (list value)) : worksheet :=
  replicate 13 [] ++ [sample_header; []] ++ movements.

Definition movement (date reference code description debit credit : value) : list value :=
  [date; reference; code; description; debit; credit].

(** A withdrawal and its commission under one reference, and a deposit
    without a date. *)
Definition sample_october : worksheet :=
  sample_sheet
    [ movement (VStr (U "15/10/2025")) (VStr (U "REF1")) (VStr (U "WD"))
        (VStr (U " Retiro cajero ")) (VNum 100) VNone;
      movement (VStr (U "16/10/2025")) (VStr (U "REF1")) (VStr (U "3V"))
        (VStr (U "Cargo")) (VNum 2) VNone;
      movement (VStr (U "sin fecha")) (VStr (U "REF2")) (VStr (U "DP"))
        (VStr (U "Depósito")) VNone (VNum 50) ].

(** The statement of October under a header without a description
    column. *)
Definition sample_undescribed : worksheet :=
  replicate 13 []
  ++ [ [VStr (U "Fecha"); VStr (U "Referencia"); VStr (U "Código");
        VStr (U "Detalle"); VStr (U "Débitos"); VStr (U "Créditos")]; [] ]
  ++ drop 15 sample_october.

(** The range 01/10/2025 - 31/10/2025. *)
Definition october_2025 : datetime * datetime :=
  (date_of 2025 10 1, date_of 2025 10 31).

(** A statement whose second movement has, as its date, the text of a
    number of days that leads past the year 9999. *)
Definition sample_overflow : worksheet :=
  sample_sheet
    [ movement (VStr (U "15/10/2025")) (VStr (U "REF1")) (VStr (U "WD"))
        (VStr (U "Retiro cajero")) (VNum 100) VNone;
      movement (VStr (U "3000000")) (VStr (U "REF2")) (VStr (U "DP"))
        (VStr (U "Depósito")) VNone (VNum 50) ].

(** A statement of case 1 whose only movement has the text [nan] in its
    debit cell. *)
Definition sample_nan_sheet : worksheet :=
  sample_sheet
    [ movement (VStr (U "15/10/2025")) (VStr (U "REF1")) (VStr (U "WD"))
        (VStr (U "Retiro cajero")) (VStr (U "nan")) VNone ].

(** The same statement under a header without a date column. *)
Definition sample_undated : worksheet :=
  replicate 13 []
  ++ [VStr (U "Movimiento") :: tail sample_header; []]
  ++ drop 15 sample_october.

(** The range 01/11/2025 - 30/11/2025. *)
Definition november_2025 : datetime * datetime :=
  (date_of 2025 11 1, date_of 2025 11 30).

(** The range 01/10/2025 - 15/10/2025, written in reverse. *)
Definition early_october_2025 : datetime * datetime :=
  (date_of 2025 10 15, date_of 2025 10 1).


(** The statement of October with the commission before the withdrawal. *)
Definition sample_swapped : worksheet :=
  sample_sheet
    [ movement (VStr (U "16/10/2025")) (VStr (U "REF1")) (VStr (U "3V"))
        (VStr (U "Cargo")) (VNum 2) VNone;
      movement (VStr (U "15/10/2025")) (VStr (U "REF1")) (VStr (U "WD"))
        (VStr (U " Retiro cajero ")) (VNum 100) VNone;
      movement (VStr (U "sin fecha")) (VStr (U "REF2")) (VStr (U "DP"))
        (VStr (U "Depósito")) VNone (VNum 50) ].

(** A pair whose codes are written in lower case and padded. *)
Definition sample_lowercase : worksheet :=
  sample_sheet
    [ movement (VStr (U "15/10/2025")) (VStr (U "REF1")) (VStr (U " wc "))
        (VStr (U "Cargo tarjeta")) VNone (VNum 100);
      movement (VStr (U "16/10/2025")) (VStr (U "REF1")) (VStr (U "3v"))
        (VStr (U "Cargo")) (VNum 2) VNone ].

(** ** Vocabulary of the further passes *)

(** The elements of a list that a deletion leaves, in order: [del i]
    tells whether the element of index [i] is deleted, the first element
    having index [i]. *)
Fixpoint keep_from {A} (i : nat) (del : nat -> bool) (l : list A) : list A :=
  match l with
  | [] => []
  | x :: rest =>
      if del i then keep_from (S i) del rest
      else x :: keep_from (S i) del rest
  end.

Section PassVocabulary.
Context {L : PyLib}.

(** The debit and credit columns of a sheet, as the passes look them up. *)
Definition debit_column_of (ws : worksheet) : option nat :=
  valid_column (hm_get (U "debitos") (extract_header_map ws (max_column ws))).

Definition credit_column_of (ws : worksheet) : option nat :=
  valid_column (hm_get (U "creditos") (extract_header_map ws (max_column ws))).

(** [_remove_zero_credit_rows] goes past its guards: 16 rows or more, one
    of the amount columns found, a data region that is not empty. *)
Definition zero_pass_applies (ws : worksheet) : bool :=
  (DATA_START_ROW <=? max_row ws)
  && (bool_decide (is_Some (debit_column_of ws)) || bool_decide (is_Some (credit_column_of ws)))
  && (DATA_START_ROW <=? data_end_row ws).

(** Row [r] is a data row without movement. *)
Definition zero_row (ws : worksheet) (r : nat) : bool :=
  zero_pass_applies ws
  && ((DATA_START_ROW <=? r) && (r <=? data_end_row ws))
  && zero_movement ws (debit_column_of ws) (credit_column_of ws) r.

(** A row that the date filter of case 7 keeps. *)
Definition keeps7 (start end_ : datetime) (row : row_data) : bool :=
  match parse_date_from_value7 (row_get row K_FECHA) with
  | None => true
  | Some d => in_range start end_ d
  end.

End PassVocabulary.

(** A statement with two rows without movement. *)
Definition sample_idle : worksheet :=
  sample_sheet
    [ movement (VStr (U "15/10/2025")) (VStr (U "REF1")) (VStr (U "WD"))
        (VStr (U "Retiro")) (VNum 100) VNone;
      movement (VStr (U "16/10/2025")) (VStr (U "REF2")) (VStr (U "NT"))
        (VStr (U "Nota")) (VStr (U "0,00")) (VStr (U "-"));
      movement (VStr (U "17/10/2025")) (VStr (U "REF3")) (VStr (U "NT"))
        (VStr (U "Nota")) VNone VNone;
      movement (VStr (U "18/10/2025")) (VStr (U "REF4")) (VStr (U "DP"))
        (VStr (U "Depósito")) (VNum 0) (VNum 50) ].

(** A statement followed by its summary section. *)
Definition sample_with_summary : worksheet :=
  sample_october
  ++ [ []; [VStr (U "Cuadro de Resumen")]; [VStr (U "Débitos"); VStr (U "Créditos")];
       [VNum 102; VNum 50] ].

Section OverrideVocabulary.
Context {L : PyLib}.

(** Normalising a code twice is normalising it once: [upper] maps
    character by character, is idempotent and makes no white space. *)
Definition code_normal_form_law : Prop :=
  forall s, upper (strip (upper (strip s))) = upper (strip s).

(** The code of the first rule whose search text occurs in a normalised
    description (case 7), and of the first such rule with a code
    (case 1). *)
Definition first_hit (normalized_description : ustr)
    (normalized_rules : list (ustr * ustr)) : option ustr :=
  snd <$> List.find (fun rule => contains (fst rule) normalized_description)
            normalized_rules.

Definition first_hit1 (normalized_description : ustr)
    (normalized_rules : list (ustr * ustr)) : option ustr :=
  snd <$> List.find
            (fun rule => contains (fst rule) normalized_description
                         && negb (ustr_eqb (snd rule) []))
            normalized_rules.

(** The normalised description of a row of case 7, [''] when the cell is
    blank. *)
Definition description_key7 (row : row_data) : ustr :=
  let description_value := row_get row K_DESCRIPCION in
  if is_blank description_value then []
  else normalize_text7 (VStr (py_str description_value)).

(** The rule that decides the code of a row of case 7, if any. *)
Definition deciding_code7 (normalized_rules : list (ustr * ustr)) (row : row_data)
    : option ustr :=
  if ustr_eqb (description_key7 row) [] then None
  else first_hit (description_key7 row) normalized_rules.

(** A row whose normalised code is not yet the one of the deciding rule. *)
Definition needs_override7 (normalized_rules : list (ustr * ustr)) (row : row_data)
    : bool :=
  match deciding_code7 normalized_rules row with
  | Some c => negb (ustr_eqb (current_code7 row) c)
  | None => false
  end.

(** The normalised description of a row of a sheet of case 1. *)
Definition description_key1 (ws : worksheet) (description_column r : nat) : ustr :=
  let description_value := cell ws r description_column in
  if is_blank description_value then [] else normalize_text description_value.

Definition deciding_code1 (normalized_rules : list (ustr * ustr)) (ws : worksheet)
    (description_column r : nat) : option ustr :=
  if ustr_eqb (description_key1 ws description_column r) [] then None
  else first_hit1 (description_key1 ws description_column r) normalized_rules.

(** A row of case 1 whose normalised code is not yet the one of the
    deciding rule. *)
Definition needs_override1 (normalized_rules : list (ustr * ustr)) (ws : worksheet)
    (code_column description_column r : nat) : bool :=
  match deciding_code1 normalized_rules ws description_column r with
  | Some c => negb (ustr_eqb (norm_code (cell ws r code_column)) c)
  | None => false
  end.

End OverrideVocabulary.

(** An iteration of a loop over rows that rewrites the sheet or leaves
    it, and counts the rows it rewrites. *)
Definition counting_step (upd : worksheet -> nat -> option worksheet)
    (acc : worksheet * nat) (i : nat) : worksheet * nat :=
  match upd (fst acc) i with
  | Some ws' => (ws', S (snd acc))
  | None => acc
  end.

(** [(a[1], a[0]) <= (b[1], b[0])]: the order that [sorted] puts the
    entries in. *)
Definition entry_le (a b : nat * Q) : Prop :=
  (snd a < snd b)%Q \/ ((snd a == snd b)%Q /\ fst a <= fst b).

(** The entries filed under the key [k] by a loop over [rows], in the
    order of the rows. *)
Definition entries_of {E} (entry_of : nat -> option (ustr * E)) (k : ustr)
    (rows : list nat) : list E :=
  flat_map (fun r => match entry_of r with
                     | Some (k', e) => if ustr_eqb k' k then [e] else []
                     | None => []
                     end) rows.

Section ResolveVocabulary.
Context {L : PyLib}.

(** Row [r] carries the code PP and the reference text [k]. *)
Definition pp_key_is (ws : worksheet) (cc rc dc : nat) (k : ustr) (r : nat) : bool :=
  match pp_entry ws cc rc dc r with
  | Some (k', _) => ustr_eqb k' k
  | None => false
  end.

(** The rows among [rows] with code PP and reference [k], in order. *)
Definition pp_rows (ws : worksheet) (cc rc dc : nat) (k : ustr) (rows : list nat)
    : list nat :=
  List.filter (pp_key_is ws cc rc dc k) rows.

(** The debit of a row, as [_parse_decimal] reads it. *)
Definition debit_of (ws : worksheet) (dc r : nat) : option Q :=
  parse_decimal (cell ws r dc).

End ResolveVocabulary.

(** A statement with three payments under one reference. *)
Definition sample_payments : worksheet :=
  sample_sheet
    [ movement (VStr (U "15/10/2025")) (VStr (U "P-7")) (VStr (U "PP"))
        (VStr (U "Pago")) (VNum 40) VNone;
      movement (VStr (U "15/10/2025")) (VStr (U "P-7")) (VStr (U "pp"))
        (VStr (U "Pago")) (VStr (U "1.500,00")) VNone;
      movement (VStr (U "15/10/2025")) (VStr (U " P-7 ")) (VStr (U "PP"))
        (VStr (U "Comisión")) (VNum 2) VNone;
      movement (VStr (U "16/10/2025")) (VStr (U "P-8")) (VStr (U "PP"))
        (VStr (U "Pago")) (VNum 10) VNone ].

(** The column that [_remove_debit_column] works on, if any. *)
Definition debit_column_found {L : PyLib} (ws : worksheet) : option nat :=
  if max_row ws <? HEADER_ROW then None
  else valid_column (List.find (is_debit_header ws) (seq 1 (max_column ws))).

(** A statement of case 2 with two balance columns. *)
Definition sample_balances : worksheet :=
  replicate 13 [VStr (U "Banco"); VNone; VStr (U "x"); VNone; VStr (U "y")]
  ++ [ [VStr (U "Fecha"); VStr (U "Balance"); VStr (U "Débitos"); VStr (U "Créditos");
        VStr (U " BALANCE final ")];
       [];
       [VStr (U "15/10/2025"); VNum 10; VNum 3; VNone; VNum 7];
       [VStr (U "16/10/2025"); VNum 7; VNone; VNum 5; VNum 12] ].

Section OverrideRows.
Context {L : PyLib}.

(** A row of case 7 after the override pass. *)
Definition overridden7 (normalized_rules : list (ustr * ustr)) (row : row_data)
    : row_data :=
  match override_target7 normalized_rules row with
  | Some new_code => <[K_CODIGO := VStr new_code]> row
  | None => row
  end.

(** The rewriting of a row of case 1 by the override pass, if any. *)
Definition override_update1 (normalized_rules : list (ustr * ustr))
    (code_column description_column : nat) (ws : worksheet) (row_idx : nat)
    : option worksheet :=
  let description_value := cell ws row_idx description_column in
  if is_blank description_value then None
  else
    let normalized_description := normalize_text description_value in
    if ustr_eqb normalized_description [] then None
    else
      match override_decision1 normalized_description
              (norm_code (cell ws row_idx code_column)) normalized_rules with
      | Some new_code => Some (set_cell ws row_idx code_column (VStr new_code))
      | None => None
      end.

End OverrideRows.

(** A function on rows that can only store a code. *)
Definition code_only (g : row_data -> row_data) : Prop :=
  forall row, g row = row \/ exists c, g row = <[K_CODIGO := VStr c]> row.

(** The header map of the sample statements. *)
Definition sample_header_map : header_map :=
  [ (U "fecha", 1); (U "referencia", 2); (U "codigo", 3); (U "descripcion", 4);
    (U "debitos", 5); (U "creditos", 6) ].

(** Override rules in the spelling of a user. *)
Definition sample_overrides : list (ustr * ustr) :=
  [ (U "Pendiente en Cámara", U " o/c "); (U "   ", U "XX"); (U "retiro", U "ret") ].

(** Rows of case 7: a deposit held in the clearing house, and a
    withdrawal. *)
Definition sample_rows7 : list row_data :=
  [ <[K_DESCRIPCION := VStr (U "DEPOSITO PENDIENTE EN CAMARA DCD")]>
      (<[K_CREDITOS := VNum 75]> (<[K_DEBITOS := VNone]>
         (<[K_CODIGO := VStr (U "DP")]> ∅)));
    <[K_DESCRIPCION := VStr (U "Retiro cajero")]>
      (<[K_CREDITOS := VNone]> (<[K_DEBITOS := VNum 20]>
         (<[K_CODIGO := VStr (U "WD")]> ∅))) ].

(** Two characters [c] stand side by side in a string. *)
Fixpoint adjacent (c : N) (s : ustr) : bool :=
  match s with
  | x :: rest =>
      match rest with
      | y :: _ => ((x =? c) && (y =? c))%N || adjacent c rest
      | [] => false
      end
  | [] => false
  end.

(** ** Vocabulary of the table of case 7 *)

(** The number of target headers a row holds. *)
Definition header_matches `{PyLib} (ws : worksheet) (row_idx : nat) : nat :=
  snd (header_scan ws row_idx).

(** The rows below the header row of a sheet of case 7. *)
Definition data_rows7 `{PyLib} (ws : worksheet) : list nat :=
  match valid_column (fst (find_header_row ws)), snd (find_header_row ws) with
  | Some header_row, _ :: _ => seq (header_row + 1) (max_row ws - header_row)
  | _, _ => []
  end.

(** A row all of whose six required values are blank. *)
Definition empty_row7 `{PyLib} (ws : worksheet) (row_idx : nat) : bool :=
  forallb
    (fun header => is_blank (required_value ws (snd (find_header_row ws)) row_idx header))
    HEADERS.

(** The rows up to the first three empty rows in a row. *)
Fixpoint before_gap (empty : nat -> bool) (rows : list nat) : list nat :=
  match rows with
  | a :: rest =>
      match rest with
      | b :: c :: _ =>
          if empty a && empty b && empty c then [] else a :: before_gap empty rest
      | _ => rows
      end
  | [] => []
  end.

(** A cell that counts as a match in the search for the header row. *)
Definition target_cell `{PyLib} (ws : worksheet) (row_idx col_idx : nat) : bool :=
  match cell ws row_idx col_idx with
  | VStr s =>
      negb (ustr_eqb (simplify_header (VStr s)) [])
      && bool_decide (simplify_header (VStr s) ∈ target_headers)
  | _ => false
  end.

(** A statement of case 7: a title, the header row, two movements with an
    empty row between them, three empty rows, and a line below them. *)
Definition sample_statement7 : worksheet :=
  [ [VStr (U "Estado de cuenta")];
    [VStr (U "Fecha"); VStr (U "Documento"); VStr (U "Descripción");
     VStr (U "Débitos"); VStr (U "Créditos"); VStr (U "Saldo")];
    [VStr (U "01/02/2024"); VStr (U "11"); VStr (U "Retiro"); VNum 20; VNone; VNum 80];
    [];
    [VNone; VNone; VStr (U "Depósito"); VNone; VNum 5; VNum 85];
    [VNone; VStr []];
    [];
    [VNone; VNone; VNone; VNone; VNone; VNone; VStr (U "nota")];
    [VStr (U "Total"); VNone; VNone; VNum 20; VNum 5; VNone] ].

(** ** Vocabulary of the replies *)

(** The files that the redesign of one attachment contributes. *)
Definition files_of7 {artifact : Type} (r : @redesign7 artifact) : list artifact :=
  match r with
  | Files attachments_list => attachments_list
  | _ => []
  end.

Definition is_corrupted7 {artifact : Type} (r : @redesign7 artifact) : bool :=
  match r with
  | CORRUPTED => true
  | _ => false
  end.


(** ** Vocabulary of the summaries *)

(** The column of a normalised title of the header row, as the passes of
    case 1 look it up. *)
Definition named_column `{PyLib} (sheet : worksheet) (title : string) : option nat :=
  valid_column (hm_get (U title) (extract_header_map sheet (max_column sheet))).

(** The rows that the summary of case 1 goes through. *)
Definition summary_rows1 `{PyLib} (sheet : worksheet) : list nat :=
  row_range (if 16 <=? max_row sheet then 16 else 1) (data_end_row sheet).

Definition credit_amount1 `{PyLib} (sheet : worksheet) (row_idx : nat) : option Q :=
  optional_amount sheet row_idx (named_column sheet "creditos").

Definition debit_amount1 `{PyLib} (sheet : worksheet) (row_idx : nat) : option Q :=
  optional_amount sheet row_idx (named_column sheet "debitos").

(** A row that has an amount other than zero. *)
Definition moves1 `{PyLib} (sheet : worksheet) (row_idx : nat) : bool :=
  is_nonzero (credit_amount1 sheet row_idx) || is_nonzero (debit_amount1 sheet row_idx).

(** A row of case 7 that the summary lists: an amount above zero, or a
    cell with numeric data. *)
Definition moves7 `{PyLib} (row : row_data) : bool :=
  float_gt (to_number (row_get row K_CREDITOS)) 0
  || float_gt (to_number (row_get row K_DEBITOS)) 0
  || has_numeric_data (row_get row K_CREDITOS)
  || has_numeric_data (row_get row K_DEBITOS).

(** [s] occurs in [text] between two characters that are not digits, or
    the ends. *)
Definition whole_run `{PyLib} (s text : ustr) : Prop :=
  exists before after,
    text = before ++ s ++ after
    /\ (forall c, last before = Some c -> is_digit c = false)
    /\ (forall c, head after = Some c -> is_digit c = false).

(** ** Vocabulary of the rows to review *)

(** The rows of cases 1 and 2 whose description matches a filter, when
    the pass goes past its guards. *)
Definition flagged_rows1 `{PyLib} (filters : list ustr) (ws : worksheet)
    (hm : header_map) (start_row end_row : option nat) : list nat :=
  match valid_column start_row, valid_column end_row,
        valid_column (hm_get (U "descripcion") hm) with
  | Some start_row, Some end_row, Some description_column =>
      List.filter
        (fun r => filter_matches normalize_text (normalize_filters normalize_text filters)
                    (cell ws r description_column))
        (row_range start_row end_row)
  | _, _, _ => []
  end.

Definition flagged_rows7 `{PyLib} (filters : list ustr) (ws : worksheet)
    (start_row end_row : nat) : list nat :=
  List.filter
    (fun r => filter_matches normalize_text7 (normalize_filters normalize_text7 filters)
                (cell ws r DESCRIPTION_COLUMN7))
    (row_range start_row end_row).

(** The key that a column gets in the header map: the normalised text of
    its cell in the header row, empty when the cell gives none. *)
Definition header_key `{PyLib} (ws : worksheet) (col_idx : nat) : ustr :=
  match cell ws HEADER_ROW col_idx with
  | VStr s => normalize_text (VStr s)
  | _ => []
  end.

(** ** Vocabulary of the code maps *)

(** Two facts of [str.strip] and [str.upper]: a code that was stripped and
    put in upper case is not changed by doing so again, and is not empty
    when the stripped text was not. *)
Definition clean_code_laws `{PyLib} : Prop :=
  (forall s, upper (strip (upper (strip s))) = upper (strip s))
  /\ (forall s, strip s <> [] -> strip (upper (strip s)) <> []).

(** A code as the configuration hands it out. *)
Definition clean_code `{PyLib} (code : ustr) : Prop :=
  code <> [] /\ upper (strip code) = code.

(** ** Vocabulary of the codification rules *)

(** The rule of the pass that a rule of the file gives, if it gives
    one. *)
Definition prepared_rule `{PyLib} (item : stored_rule) : option (ustr * ustr) :=
  match item with
  | Rule (VStr search_text) (VStr code) =>
      if negb (ustr_eqb (strip search_text) [])
         && negb (ustr_eqb (strip code) [])
         && negb (ustr_eqb (normalize_text7 (VStr (strip search_text))) [])
      then Some (normalize_text7 (VStr (strip search_text)), strip code)
      else None
  | _ => None
  end.

(** The code of the first rule whose search text occurs in the
    description, or the empty string. *)
Definition first_occurring (normalized_description : ustr) (rules : list (ustr * ustr))
    : ustr :=
  match List.find (fun rule => contains (fst rule) normalized_description) rules with
  | Some rule => snd rule
  | None => []
  end.

(** * Properties *)

(** ** The reference instance on small inputs *)

Example ref_normalize : @normalize_text RefLib (VStr (U " DÉBITOS ")) = U "debitos".
Proof. vm_compute. reflexivity. Qed.
Example ref_float : @parse_decimal RefLib (VStr (U "1.234,56")) = Some (30864 # 25)%Q.
Proof. vm_compute. reflexivity. Qed.
Example ref_date : Ref.strptime (U "31/10/2025") (U "%d/%m/%Y") = Some (date_of 2025 10 31).
Proof. vm_compute. reflexivity. Qed.
Example ref_year : dt_year (date_of 2025 10 31) = 2025%Z.
Proof. vm_compute. reflexivity. Qed.
Example ref_epoch : make_date 1899 12 30 = Some (mk_datetime EXCEL_EPOCH 0).
Proof. vm_compute. reflexivity. Qed.
Example ref_str : Ref.str_of_Z 1205 = U "1205".
Proof. vm_compute. reflexivity. Qed.

(** ** Amount parsing (case 1) *)

(** The documented examples of [_parse_decimal]: the text handed to
    [float] is ["1234.56"] for the three spellings, and the placeholders
    give [None] without calling [float]. *)
Lemma parse_decimal_examples (L : PyLib) :
  parse_decimal (VStr (U "1.234,56")) = py_float (U "1234.56")
  /\ parse_decimal (VStr (U "1,234.56")) = py_float (U "1234.56")
  /\ parse_decimal (VStr (U "1" ++ [NBSP] ++ U "234,56")) = py_float (U "1234.56")
  /\ parse_decimal (VStr (U "-")) = None
  /\ parse_decimal (VStr (U "--")) = None
  /\ parse_decimal (VStr []) = None
  /\ parse_decimal VNone = None.
Proof. repeat split; vm_compute; reflexivity. Qed.

Lemma parse_decimal_examples_ref :
  @parse_decimal RefLib (VStr (U "1.234,56")) = Some (30864 # 25)%Q
  /\ @parse_decimal RefLib (VStr (U "1,234.56")) = Some (30864 # 25)%Q
  /\ (30864 # 25 == 123456 # 100)%Q.
Proof. repeat split; vm_compute; reflexivity. Qed.

(** C5 (the code misses a case). With both separators present and the
    thousands separator repeated, no branch of the separator
    disambiguation applies: the text reaches [float] with its commas, so
    ["1,234,567.89"] and ["1.234.567,89"] give [None] although the later
    separator should have been taken as the decimal one. *)
Theorem parse_decimal_repeated_thousands_separator :
  (forall L : PyLib,
      @parse_decimal L (VStr (U "1,234,567.89")) = @py_float L (U "1,234,567.89")
      /\ @parse_decimal L (VStr (U "1.234.567,89")) = @py_float L (U "1.234.567,89"))
  /\ @parse_decimal RefLib (VStr (U "1,234,567.89")) = None
  /\ @parse_decimal RefLib (VStr (U "1.234.567,89")) = None
  /\ @to_number RefLib (VStr (U "1,234,567.89")) = Finite (123456789 # 100).
Proof. repeat split; vm_compute; reflexivity. Qed.

(** ** Date serials *)

Lemma year_of_ordinal_bounds (ord : Z) :
  (1900 <= year_of_ordinal ord <= 9999)%Z <-> (693596 <= ord <= 3652059)%Z.
Proof.
  unfold year_of_ordinal.
  destruct (_ || _) eqn:E.
  - apply orb_true_iff in E. rewrite !Z.eqb_eq in E.
    split; intros H; Z.div_mod_to_equations; lia.
  - apply orb_false_iff in E. rewrite !Z.eqb_neq in E.
    split; intros H; Z.div_mod_to_equations; lia.
Qed.

(** Case 1 accepts a serial only when the converted year is plausible. *)
Lemma parse_date_value_serial (L : PyLib) (q : Q) (d : datetime) :
  parse_date_value (VNum q) = Some d <->
  from_serial q = Some d /\ (693596 <= dt_ordinal d <= 3652059)%Z.
Proof.
  simpl. unfold parse_serial, plausible_year.
  rewrite <- year_of_ordinal_bounds. fold (dt_year d).
  destruct (from_serial q) as [c|]; [|intuition congruence].
  destruct (_ && _) eqn:E.
  - apply andb_true_iff in E. rewrite !Z.leb_le in E.
    split; [intros [= <-]; auto | intros [[= <-] _]; reflexivity].
  - split; [discriminate|]. intros [[= ->] H].
    apply andb_false_iff in E. rewrite !Z.leb_nle in E. lia.
Qed.

Lemma parse_date_value_serial_year (L : PyLib) (q : Q) (d : datetime) :
  parse_date_value (VNum q) = Some d -> (1900 <= dt_year d <= 9999)%Z.
Proof.
  intros H. apply parse_date_value_serial in H as [_ H].
  unfold dt_year. apply year_of_ordinal_bounds, H.
Qed.

(** C6 (the code misses the bound in case 2). The parser of case 2 turns
    the serial [1] into 31 December 1899 and the serial [1/2] into noon of
    30 December 1899: it checks that the serial is positive, not that the
    year lies in 1900..9999, where the parser of case 1 returns [None]. *)
Theorem case2_serial_without_year_bound (L : PyLib) :
  parse_date_from_value (VNum 1) = Ok (Some (mk_datetime 693595 0))
  /\ dt_year (mk_datetime 693595 0) = 1899%Z
  /\ make_date 1899 12 31 = Some (mk_datetime 693595 0)
  /\ parse_date_value (VNum 1) = None
  /\ parse_date_from_value (VNum (1 # 2)) = Ok (Some (mk_datetime 693594 43200000000))
  /\ parse_date_value (VNum (1 # 2)) = None.
Proof. repeat split; vm_compute; reflexivity. Qed.

(** ** Keyword codification (case 7) *)

Section Codification.
Context {L : PyLib}.

Lemma match_codification_first_match (nd : ustr) (rules : list (ustr * ustr)) :
  match_codification nd rules = first_match nd rules.
Proof.
  unfold first_match. induction rules as [|[s c] rules IH]; simpl; [reflexivity|].
  unfold rule_matches at 1. simpl.
  destruct (_ && _); [reflexivity | exact IH].
Qed.

Lemma first_match_none (nd : ustr) (rules : list (ustr * ustr)) :
  (forall r, In r rules -> rule_matches nd r = false) -> first_match nd rules = [].
Proof.
  intros H. unfold first_match.
  destruct (List.find _ rules) as [r|] eqn:E; [|reflexivity].
  apply find_some in E as [Hin Hm]. rewrite (H r Hin) in Hm. discriminate.
Qed.

Lemma first_match_empty_description (rules : list (ustr * ustr)) :
  first_match [] rules = [].
Proof.
  apply first_match_none. intros [s c] _. unfold rule_matches. simpl.
  destruct s; simpl; [reflexivity | apply andb_false_r].
Qed.

Lemma determine_codification_eq (row : row_data) (rules : codification_rules)
    (description : ustr) :
  row_get row K_DESCRIPCION = VStr description ->
  let nd := normalize_text7 (VStr description) in
  determine_codification row rules =
    if float_gt (to_number (row_get row K_CREDITOS)) 0
       && negb (ustr_eqb (first_match nd (credit_rules rules)) [])
    then first_match nd (credit_rules rules)
    else if float_gt (to_number (row_get row K_DEBITOS)) 0
    then first_match nd (debit_rules rules)
    else [].
Proof.
  intros Hd nd. unfold determine_codification. rewrite Hd. fold nd.
  rewrite !match_codification_first_match.
  destruct (ustr_eqb nd []) eqn:Hnd.
  - apply bool_decide_eq_true in Hnd. rewrite Hnd, !first_match_empty_description.
    simpl. rewrite andb_false_r. destruct (float_gt _ 0); reflexivity.
  - destruct (float_gt (to_number (row_get row K_CREDITOS)) 0); simpl.
    + destruct (ustr_eqb (first_match nd (credit_rules rules)) []); reflexivity.
    + reflexivity.
Qed.

End Codification.

(** C3 (as stated, with "else if"): on a row whose credit and debit are
    both positive and whose description matches no credit rule, the code
    is taken from a debit rule, where the credit-else-debit reading assigns
    nothing. *)
Lemma codification_falls_through_to_debit_rules :
  float_gt (@to_number RefLib (row_get sample_row_both K_CREDITOS)) 0 = true
  /\ float_gt (@to_number RefLib (row_get sample_row_both K_DEBITOS)) 0 = true
  /\ @determine_codification RefLib sample_row_both sample_rules = U "T/D"
  /\ @spec_determine_codification RefLib sample_row_both sample_rules = []
  /\ row_get (@assign_code RefLib sample_rules sample_row_both) K_CODIGO = VStr (U "T/D")
  /\ @determine_codification RefLib sample_row_both sample_rules
     <> @spec_determine_codification RefLib sample_row_both sample_rules.
Proof. repeat split; vm_compute; try reflexivity. discriminate. Qed.

(** C3 (amended). For a row with a text description: when credit > 0 and
    a credit rule matches, the first matching credit rule gives the code;
    when credit > 0 and no credit rule matches, or credit is not > 0, the
    debit rules are tried if debit > 0 and the first match gives the code;
    with credit > 0 and debit not > 0 only the credit rules decide; and
    when no rule matches, the code is stored as it was, an empty or missing
    code as the empty string. *)
Theorem determine_codification_cascade (L : PyLib) (row : row_data)
    (rules : codification_rules) (description : ustr) :
  row_get row K_DESCRIPCION = VStr description ->
  let nd := normalize_text7 (VStr description) in
  let credit := to_number (row_get row K_CREDITOS) in
  let debit := to_number (row_get row K_DEBITOS) in
  let code := determine_codification row rules in
  (float_gt credit 0 = true -> first_match nd (credit_rules rules) <> [] ->
   code = first_match nd (credit_rules rules))
  /\ (float_gt credit 0 = true -> first_match nd (credit_rules rules) = [] ->
      float_gt debit 0 = true -> code = first_match nd (debit_rules rules))
  /\ (float_gt credit 0 = false -> float_gt debit 0 = true ->
      code = first_match nd (debit_rules rules))
  /\ (float_gt credit 0 = true -> float_gt debit 0 = false ->
      code = first_match nd (credit_rules rules))
  /\ ((forall r, In r (credit_rules rules ++ debit_rules rules) ->
                 rule_matches nd r = false) ->
      code = []
      /\ assign_code rules row
         = <[K_CODIGO := or_empty (default (VStr []) (row !! K_CODIGO))]> row
      /\ forall v, row !! K_CODIGO = Some v -> truthy v = true ->
                   assign_code rules row = row).
Proof.
  intros Hd nd credit debit code.
  assert (Hc : code =
    if float_gt credit 0 && negb (ustr_eqb (first_match nd (credit_rules rules)) [])
    then first_match nd (credit_rules rules)
    else if float_gt debit 0 then first_match nd (debit_rules rules) else [])
    by exact (determine_codification_eq row rules description Hd).
  repeat split.
  - intros H1 H2. rewrite Hc, H1. simpl.
    unfold ustr_eqb. rewrite bool_decide_eq_false_2 by exact H2. reflexivity.
  - intros H1 H2 H3. rewrite Hc, H1, H2, H3. reflexivity.
  - intros H1 H3. rewrite Hc, H1, H3. reflexivity.
  - intros H1 H3. rewrite Hc, H1, H3. simpl.
    destruct (ustr_eqb _ []) eqn:E; simpl; [|reflexivity].
    apply bool_decide_eq_true in E. symmetry. exact E.
  - rewrite Hc.
    rewrite (first_match_none nd (credit_rules rules)), (first_match_none nd (debit_rules rules)).
    + simpl. rewrite andb_false_r. destruct (float_gt debit 0); reflexivity.
    + intros r Hr. apply H, in_or_app. right. exact Hr.
    + intros r Hr. apply H, in_or_app. left. exact Hr.
  - assert (Hnil : code = []).
    { rewrite Hc.
      rewrite (first_match_none nd (credit_rules rules)), (first_match_none nd (debit_rules rules)).
      - simpl. rewrite andb_false_r. destruct (float_gt debit 0); reflexivity.
      - intros r Hr. apply H, in_or_app. right. exact Hr.
      - intros r Hr. apply H, in_or_app. left. exact Hr. }
    unfold assign_code. fold code. rewrite Hnil. reflexivity.
  - intros v Hv Ht.
    assert (Hnil : code = []).
    { rewrite Hc.
      rewrite (first_match_none nd (credit_rules rules)), (first_match_none nd (debit_rules rules)).
      - simpl. rewrite andb_false_r. destruct (float_gt debit 0); reflexivity.
      - intros r Hr. apply H, in_or_app. right. exact Hr.
      - intros r Hr. apply H, in_or_app. left. exact Hr. }
    unfold assign_code. fold code. rewrite Hnil. simpl.
    rewrite Hv. simpl. unfold or_empty. rewrite Ht.
    apply insert_id. exact Hv.
Qed.

Lemma determine_codification_cascade_witness :
  row_get sample_row_debit K_DESCRIPCION = VStr (U "Pago de servicios")
  /\ (float_gt (@to_number RefLib (row_get sample_row_debit K_CREDITOS)) 0 = false ->
      float_gt (@to_number RefLib (row_get sample_row_debit K_DEBITOS)) 0 = true ->
      @determine_codification RefLib sample_row_debit sample_rules
      = first_match (@normalize_text7 RefLib (VStr (U "Pago de servicios")))
          (debit_rules sample_rules)).
Proof.
  split; [vm_compute; reflexivity|].
  apply (determine_codification_cascade RefLib sample_row_debit sample_rules
           (U "Pago de servicios")).
  vm_compute; reflexivity.
Defined.

(** ** The texts that [float] reads as an infinity or as nan

    Such a text has a letter, so that what [_parse_decimal] hands to
    [float], which keeps digits, separators and minus signs only, is never
    one of them: the amounts of case 1 are numbers. *)

Section SpecialFloats.
Context {L : PyLib}.

Lemma In_lstrip (c : N) (s : ustr) : In c (lstrip s) -> In c s.
Proof.
  induction s as [|x s IH]; simpl; [tauto|].
  destruct (isspace x); [right; apply IH; assumption|tauto].
Qed.

Lemma In_strip (c : N) (s : ustr) : In c (strip s) -> In c s.
Proof.
  unfold strip, rstrip. intros H. apply In_lstrip.
  apply in_rev in H. apply In_lstrip in H. apply in_rev in H. exact H.
Qed.

Lemma float_special_has_letter (s : ustr) (x : pyfloat) :
  float_special s = Some x -> exists c, In c s /\ numeric_char c = false.
Proof.
  unfold float_special.
  set (text := map ascii_lower (strip s)).
  set (body := match text with
               | c :: rest => if ((c =? 45) || (c =? 43))%N then rest else text
               | [] => []
               end).
  intros H.
  assert (Hletter : In 105%N body \/ In 110%N body).
  { destruct (ustr_eqb body (U "inf")) eqn:E1.
    { apply bool_decide_eq_true in E1. rewrite E1. left. vm_compute. auto. }
    destruct (ustr_eqb body (U "infinity")) eqn:E2.
    { apply bool_decide_eq_true in E2. rewrite E2. left. vm_compute. auto. }
    simpl in H.
    destruct (ustr_eqb body (U "nan")) eqn:E3; [|discriminate].
    apply bool_decide_eq_true in E3. rewrite E3. right. vm_compute. auto. }
  assert (Hsub : forall c, In c body -> In c text).
  { intros c. subst body. destruct text as [|c0 rest]; [tauto|].
    destruct ((c0 =? 45) || (c0 =? 43))%N; [right; assumption|tauto]. }
  assert (Hlow : exists c, In c (strip s) /\ (ascii_lower c = 105 \/ ascii_lower c = 110)%N).
  { destruct Hletter as [Hl|Hl]; apply Hsub in Hl; subst text;
      apply in_map_iff in Hl as (c & Hc & Hin); exists c; auto. }
  destruct Hlow as (c & Hin & Hc). exists c. split; [apply In_strip, Hin|].
  unfold ascii_lower in Hc. unfold numeric_char, COMMA, DOT, MINUS.
  destruct ((65 <=? c) && (c <=? 90))%N eqn:Eu.
  - apply andb_true_iff in Eu as [E1 E2].
    apply N.leb_le in E1. apply N.leb_le in E2.
    repeat rewrite orb_false_iff. repeat split;
      try (apply N.eqb_neq; lia).
    apply andb_false_iff. right. apply N.leb_gt. lia.
  - assert (Hv : (c = 105 \/ c = 110)%N) by tauto.
    destruct Hv as [-> | ->]; reflexivity.
Qed.

Lemma numeric_last_sep_as_point (sep : N) (text : ustr) :
  Forall (fun c => numeric_char c = true) text ->
  Forall (fun c => numeric_char c = true) (last_sep_as_point sep text).
Proof.
  intros H. unfold last_sep_as_point. apply Forall_app. split.
  - unfold remove_char. apply List.Forall_forall. intros c Hc.
    apply filter_In in Hc as [Hc _].
    assert (Ht : Forall (fun c => numeric_char c = true)
                   (take (Z.to_nat (rfind_char sep text)) text))
      by (apply Forall_take; exact H).
    apply (proj1 (List.Forall_forall _ _) Ht), Hc.
  - apply Forall_cons. split; [reflexivity|]. apply Forall_drop. exact H.
Qed.

Lemma numeric_remove_char (sep : N) (text : ustr) :
  Forall (fun c => numeric_char c = true) text ->
  Forall (fun c => numeric_char c = true) (remove_char sep text).
Proof.
  intros H. unfold remove_char. apply List.Forall_forall. intros c Hc.
  apply filter_In in Hc as [Hc _]. apply (proj1 (List.Forall_forall _ _) H), Hc.
Qed.

Lemma numeric_replace_comma (text : ustr) :
  Forall (fun c => numeric_char c = true) text ->
  Forall (fun c => numeric_char c = true) (replace_char COMMA DOT text).
Proof.
  intros H. unfold replace_char. apply List.Forall_forall. intros c Hc.
  apply in_map_iff in Hc as (x & <- & Hx).
  destruct (x =? COMMA)%N; [reflexivity|].
  apply (proj1 (List.Forall_forall _ _) H), Hx.
Qed.

Lemma numeric_disambiguate_separators (text : ustr) :
  Forall (fun c => numeric_char c = true) text ->
  Forall (fun c => numeric_char c = true) (disambiguate_separators text).
Proof.
  intros H. unfold disambiguate_separators.
  repeat match goal with
         | |- Forall _ (if ?b then _ else _) => destruct b
         end;
    auto using numeric_last_sep_as_point, numeric_remove_char, numeric_replace_comma.
Qed.

(** The text that [_parse_decimal] hands to [float] is read as a number
    or rejected. *)
Lemma parse_decimal_text_is_not_special (s : ustr) :
  let text := disambiguate_separators (List.filter numeric_char s) in
  float_special text = None /\ float_of_text text = Finite <$> py_float text.
Proof.
  intros text.
  assert (Hn : float_special text = None).
  { destruct (float_special text) as [x|] eqn:E; [|reflexivity].
    apply float_special_has_letter in E as (c & Hin & Hc).
    assert (Hall : Forall (fun c => numeric_char c = true) text).
    { apply numeric_disambiguate_separators, List.Forall_forall.
      intros y Hy. apply filter_In in Hy as [_ Hy]. exact Hy. }
    rewrite (proj1 (List.Forall_forall _ _) Hall c Hin) in Hc. discriminate. }
  split; [exact Hn|]. unfold float_of_text. rewrite Hn. reflexivity.
Qed.

End SpecialFloats.

(** ** Amounts in case 7 *)

Section Amounts7.
Context {L : PyLib}.




Lemma amount_if_present_eq (row : row_data) (key : string) :
  amount_if_present row key = to_number (row_get row key).
Proof.
  unfold amount_if_present, has_key, row_get.
  destruct (row !! key) as [v|]; reflexivity.
Qed.

Lemma map_lookup {A B} (f : A -> B) (l : list A) (i : nat) :
  map f l !! i = f <$> (l !! i).
Proof. revert i. induction l as [|x l IH]; intros [|i]; simpl; auto. Qed.


Lemma update_debits7_lookup (m : code_map) (rows : list row_data) (i : nat)
    (row : row_data) :
  rows !! i = Some row ->
  update_codes_for_positive_debits7 m rows !! i = Some row
  \/ update_codes_for_positive_debits7 m rows !! i
     = Some (remap_row7 m K_DEBITOS K_CREDITOS row).
Proof.
  intros H. unfold update_codes_for_positive_debits7.
  destruct (negb _); [left; exact H|].
  destruct (map_is_empty m); [left; exact H|].
  right. rewrite map_lookup, H. reflexivity.
Qed.

Lemma update_credits7_lookup (m : code_map) (rows : list row_data) (i : nat)
    (row : row_data) :
  rows !! i = Some row ->
  update_codes_for_non_negative_credits7 m rows !! i = Some row
  \/ update_codes_for_non_negative_credits7 m rows !! i
     = Some (remap_row7 m K_CREDITOS K_DEBITOS row).
Proof.
  intros H. unfold update_codes_for_non_negative_credits7.
  destruct (negb _); [left; exact H|].
  destruct (map_is_empty m); [left; exact H|].
  right. rewrite map_lookup, H. reflexivity.
Qed.





End Amounts7.




(** ** Reading and writing cells *)

Lemma nth_write_nth {A} (d : A) (i j : nat) (x : A) (l : list A) :
  nth j (write_nth d i x l) d = if i =? j then x else nth j l d.
Proof.
  revert j l. induction i as [|i IH]; intros [|j] [|h t]; simpl; try reflexivity.
  - destruct j; reflexivity.
  - rewrite IH. destruct (i =? j); [reflexivity | destruct j; reflexivity].
  - apply IH.
Qed.

Lemma length_write_nth {A} (d : A) (i : nat) (x : A) (l : list A) :
  length (write_nth d i x l) = Nat.max (length l) (S i).
Proof.
  revert l. induction i as [|i IH]; intros [|h t]; simpl; try reflexivity.
  - lia.
  - rewrite IH. simpl. reflexivity.
  - rewrite IH. reflexivity.
Qed.

Lemma cell_set_cell_same (ws : worksheet) (r c : nat) (v : value) :
  1 <= r -> 1 <= c -> cell (set_cell ws r c v) r c = v.
Proof.
  intros Hr Hc. destruct r as [|r]; [lia|]. destruct c as [|c]; [lia|].
  unfold cell, set_cell.
  rewrite (nth_write_nth [] r r), Nat.eqb_refl.
  rewrite (nth_write_nth VNone c c), Nat.eqb_refl. reflexivity.
Qed.

Lemma cell_set_cell_other (ws : worksheet) (r c r' c' : nat) (v : value) :
  r <> r' \/ c <> c' -> cell (set_cell ws r c v) r' c' = cell ws r' c'.
Proof.
  intros H. destruct r as [|r]; [reflexivity|]. destruct c as [|c]; [reflexivity|].
  destruct r' as [|r']; [reflexivity|]. destruct c' as [|c']; [reflexivity|].
  unfold cell, set_cell. rewrite (nth_write_nth [] r r').
  destruct (r =? r') eqn:Er; [|reflexivity].
  apply Nat.eqb_eq in Er. subst r'.
  rewrite (nth_write_nth VNone c c').
  destruct (c =? c') eqn:Ec; [|reflexivity].
  apply Nat.eqb_eq in Ec. subst c'. destruct H; congruence.
Qed.

Lemma max_row_set_cell (ws : worksheet) (r c : nat) (v : value) :
  r <= max_row ws -> max_row (set_cell ws r c v) = max_row ws.
Proof.
  intros H. destruct r as [|r]; [reflexivity|]. destruct c as [|c]; [reflexivity|].
  unfold set_cell, max_row in *. rewrite length_write_nth. lia.
Qed.

(** ** Loops whose iterations touch disjoint rows *)

Section DisjointLoop.
Context {I : Type}.
Variable step : worksheet -> I -> worksheet.
Variable foot : I -> list nat.
Variable good : I -> Prop.

Hypothesis step_frame : forall ws i r c,
  good i -> ~ In r (foot i) -> cell (step ws i) r c = cell ws r c.
Hypothesis step_local : forall ws ws' i,
  good i ->
  (forall r c, In r (foot i) -> cell ws r c = cell ws' r c) ->
  forall r c, In r (foot i) -> cell (step ws i) r c = cell (step ws' i) r c.

Lemma fold_disjoint_cell (items : list I) :
  Forall good items ->
  disjoint_feet foot items ->
  forall ws r c,
    (forall i, In i items -> In r (foot i) ->
               cell (fold_left step items ws) r c = cell (step ws i) r c)
    /\ ((forall i, In i items -> ~ In r (foot i)) ->
        cell (fold_left step items ws) r c = cell ws r c).
Proof using step_frame step_local.
  induction items as [|a rest IH]; intros Hg Hd ws r c.
  - split; [intros i []|reflexivity].
  - inversion Hd as [|? ? Ha Hrest]; subst. inversion Hg as [|? ? Hga Hgrest]; subst.
    simpl.
    destruct (IH Hgrest Hrest (step ws a) r c) as [IH1 IH2].
    assert (Ha' : forall x, In x rest -> forall r, In r (foot a) -> In r (foot x) -> False).
    { rewrite Forall_forall in Ha. intros x Hx. apply Ha, list_elem_of_In, Hx. }
    assert (Hgood : forall x, In x rest -> good x).
    { rewrite Forall_forall in Hgrest. intros x Hx. apply Hgrest, list_elem_of_In, Hx. }
    split.
    + intros i [<-|Hi] Hr.
      * apply IH2. intros j Hj Hrj. exact (Ha' j Hj r Hr Hrj).
      * rewrite (IH1 i Hi Hr).
        apply step_local; [apply Hgood, Hi| |exact Hr].
        intros r' c' Hr'. apply step_frame; [exact Hga|].
        intros Hra'. exact (Ha' i Hi r' Hra' Hr').
    + intros Hn. rewrite IH2.
      * apply step_frame; [exact Hga|]. apply Hn. left. reflexivity.
      * intros j Hj. apply Hn. right. exact Hj.
Qed.

End DisjointLoop.

(** ** The header map *)

Section HeaderMap.
Context {L : PyLib}.

Lemma ustr_eqb_eq (a b : ustr) : ustr_eqb a b = true <-> a = b.
Proof. unfold ustr_eqb. apply bool_decide_eq_true. Qed.

Lemma ustr_eqb_neq (a b : ustr) : ustr_eqb a b = false <-> a <> b.
Proof. unfold ustr_eqb. apply bool_decide_eq_false. Qed.

Lemma hm_get_In (k : ustr) (hm : header_map) (c : nat) :
  hm_get k hm = Some c -> In (k, c) hm.
Proof.
  unfold hm_get. destruct (List.find _ hm) as [[k' c']|] eqn:E; [|discriminate].
  simpl. intros [= <-]. apply find_some in E as [Hin Hk].
  simpl in Hk. apply ustr_eqb_eq in Hk. subst k'. exact Hin.
Qed.

Lemma hm_set_In (k : ustr) (c : nat) (hm : header_map) (p : ustr * nat) :
  In p (hm_set k c hm) -> p = (k, c) \/ In p hm.
Proof.
  unfold hm_set. destruct (existsb _ hm).
  - rewrite in_map_iff. intros [q [Hq Hin]].
    destruct (ustr_eqb (fst q) k); [left; congruence | right; congruence].
  - rewrite in_app_iff. simpl. intuition.
Qed.

(** Every entry of the header map comes from a text cell of the header
    row whose normalised text is the key. *)
Lemma extract_header_map_In (ws : worksheet) (n : nat) (k : ustr) (c : nat) :
  In (k, c) (extract_header_map ws n) ->
  1 <= c <= n /\ exists s, cell ws HEADER_ROW c = VStr s /\ normalize_text (VStr s) = k.
Proof.
  unfold extract_header_map. destruct (max_row ws <? HEADER_ROW); [intros []|].
  assert (H : forall cols acc,
    (forall x, In x cols -> 1 <= x <= n) ->
    (forall p, In p acc -> 1 <= snd p <= n /\
       exists s, cell ws HEADER_ROW (snd p) = VStr s /\ normalize_text (VStr s) = fst p) ->
    forall p,
      In p (fold_left
              (fun headers col_idx =>
                 match cell ws HEADER_ROW col_idx with
                 | VStr s =>
                     let normalized := normalize_text (VStr s) in
                     if ustr_eqb normalized [] then headers
                     else hm_set normalized col_idx headers
                 | _ => headers
                 end) cols acc) ->
      1 <= snd p <= n /\
      exists s, cell ws HEADER_ROW (snd p) = VStr s /\ normalize_text (VStr s) = fst p).
  { induction cols as [|x cols IH]; intros acc Hcols Hacc p; cbn [fold_left]; [apply Hacc|].
    apply IH; [intros y Hy; apply Hcols; right; exact Hy|].
    intros q Hq. destruct (cell ws HEADER_ROW x) as [|s| | | | |] eqn:Ex; try (apply Hacc, Hq).
    cbv zeta in Hq. destruct (ustr_eqb _ []); [apply Hacc, Hq|].
    apply hm_set_In in Hq as [->|Hq]; [|apply Hacc, Hq].
    cbn [fst snd]. split; [apply Hcols; left; reflexivity|].
    exists s. split; [exact Ex|reflexivity]. }
  intros Hin. apply (H (seq 1 n) [] ) in Hin; [exact Hin| |intros p []].
  intros x Hx. apply in_seq in Hx. lia.
Qed.

Lemma header_columns_distinct (ws : worksheet) (n : nat) (k1 k2 : ustr) (c1 c2 : nat) :
  hm_get k1 (extract_header_map ws n) = Some c1 ->
  hm_get k2 (extract_header_map ws n) = Some c2 ->
  k1 <> k2 -> c1 <> c2.
Proof.
  intros H1 H2 Hk <-.
  apply hm_get_In, extract_header_map_In in H1 as [_ [s1 [E1 N1]]].
  apply hm_get_In, extract_header_map_In in H2 as [_ [s2 [E2 N2]]].
  congruence.
Qed.

Lemma valid_column_Some (o : option nat) (c : nat) :
  valid_column o = Some c <-> o = Some c /\ 1 <= c.
Proof.
  destruct o as [[|x]|]; simpl; split; try discriminate; try (intros [[= <-] H]; lia).
  - intros [= <-]. split; [reflexivity|lia].
  - intros [[= <-] _]. reflexivity.
Qed.

End HeaderMap.

(** ** The sign-exclusive remap of case 1 *)

Section Remap1.
Context {L : PyLib}.

Lemma In_row_range (first last r : nat) :
  In r (row_range first last) <-> first <= r <= last.
Proof. unfold row_range. rewrite in_seq. lia. Qed.

Lemma NoDup_row_range (first last : nat) : List.NoDup (row_range first last).
Proof. apply seq_NoDup. Qed.

Lemma disjoint_feet_rows (rows : list nat) :
  List.NoDup rows -> disjoint_feet (fun r => [r]) rows.
Proof.
  induction 1 as [|x l Hx _ IH]; constructor; [|exact IH].
  apply Forall_forall. intros y Hy r [<-|[]] [->|[]].
  apply Hx, list_elem_of_In, Hy.
Qed.

(** One iteration of the loop of [remap_rows1]. *)
Lemma remap_rows1_cell (m : code_map) (cc ac : nat) (oc : option nat)
    (rows : list nat) (ws : worksheet) (r c : nat) :
  List.NoDup rows -> 1 <= cc -> (forall x, In x rows -> 1 <= x) ->
  let out := remap_rows1 m cc ac oc rows ws in
  cell out r c = cell ws r c
  \/ (c = cc /\ In r rows
      /\ exists new_code,
           remap_decision1 m (parse_decimal (cell ws r ac)) (optional_amount ws r oc)
             (cell ws r cc) = Some new_code
           /\ cell out r c = VStr new_code).
Proof.
  intros Hnd Hcc Hrows out.
  set (step := fun (ws : worksheet) (row_idx : nat) =>
    match remap_decision1 m (parse_decimal (cell ws row_idx ac))
            (optional_amount ws row_idx oc) (cell ws row_idx cc) with
    | Some new_code => set_cell ws row_idx cc (VStr new_code)
    | None => ws
    end).
  assert (Hframe : forall ws i r c, True -> ~ In r [i] -> cell (step ws i) r c = cell ws r c).
  { intros w i r' c' _ Hn. unfold step. destruct (remap_decision1 _ _ _ _); [|reflexivity].
    apply cell_set_cell_other. left. intros ->. apply Hn. left. reflexivity. }
  assert (Hdec : forall w w' i, (forall c, cell w i c = cell w' i c) ->
    remap_decision1 m (parse_decimal (cell w i ac)) (optional_amount w i oc) (cell w i cc)
    = remap_decision1 m (parse_decimal (cell w' i ac)) (optional_amount w' i oc) (cell w' i cc)).
  { intros w w' i H. unfold optional_amount. rewrite !H.
    destruct oc; [rewrite H|]; reflexivity. }
  assert (Hlocal : forall w w' i, True ->
    (forall r c, In r [i] -> cell w r c = cell w' r c) ->
    forall r c, In r [i] -> cell (step w i) r c = cell (step w' i) r c).
  { intros w w' i _ H r' c' [<-|[]]. unfold step.
    rewrite (Hdec w w' i) by (intros; apply H; left; reflexivity).
    destruct (remap_decision1 _ _ _ _) as [new|]; [|apply H; left; reflexivity].
    destruct (Nat.eq_dec cc c') as [<-|Hne].
    - destruct i as [|i]; [apply H; left; reflexivity|].
      rewrite !cell_set_cell_same by lia. reflexivity.
    - rewrite !cell_set_cell_other by (right; exact Hne). apply H. left. reflexivity. }
  destruct (fold_disjoint_cell step (fun r => [r]) (fun _ => True) Hframe Hlocal rows
              (proj2 (Forall_forall _ _) (fun _ _ => I))
              (disjoint_feet_rows rows Hnd) ws r c) as [H1 H2].
  subst out. change (remap_rows1 m cc ac oc rows ws) with (fold_left step rows ws).
  destruct (in_dec Nat.eq_dec r rows) as [Hin|Hnin].
  - rewrite (H1 r Hin (or_introl eq_refl)). unfold step.
    destruct (remap_decision1 _ _ _ _) as [new|] eqn:E; [|left; reflexivity].
    destruct (Nat.eq_dec cc c) as [<-|Hne].
    + right. split; [reflexivity|]. split; [exact Hin|]. exists new.
      split; [reflexivity|]. apply cell_set_cell_same; [apply Hrows, Hin|exact Hcc].
    + left. apply cell_set_cell_other. right. exact Hne.
  - left. apply H2. intros i Hi [->|[]]. contradiction.
Qed.

Lemma remap_decision1_Some (m : code_map) (amount other : option Q) (code : value)
    (new_code : ustr) :
  remap_decision1 m amount other code = Some new_code ->
  is_positive amount = true /\ is_positive other = false /\ is_blank code = false
  /\ m !! upper (strip (py_str code)) = Some new_code.
Proof.
  unfold remap_decision1.
  destruct (is_positive amount); simpl; [|discriminate].
  destruct (is_positive other); [discriminate|].
  destruct (is_blank code); [discriminate|].
  destruct (m !! _) as [n|]; [|discriminate].
  destruct (_ && _); [|discriminate]. intros [= ->]. auto.
Qed.

Lemma update_debits1_cell (m : code_map) (ws : worksheet) (hm : header_map)
    (start_row end_row r c : nat) :
  1 <= start_row ->
  let out := update_codes_for_positive_debits1 m ws hm start_row end_row in
  cell out r c = cell ws r c
  \/ (valid_column (hm_get (U "codigo") hm) = Some c
      /\ start_row <= r <= end_row
      /\ exists dc new_code,
           valid_column (hm_get (U "debitos") hm) = Some dc
           /\ remap_decision1 m (parse_decimal (cell ws r dc))
                (optional_amount ws r (valid_column (hm_get (U "creditos") hm)))
                (cell ws r c) = Some new_code
           /\ cell out r c = VStr new_code).
Proof.
  intros Hs out. subst out. unfold update_codes_for_positive_debits1.
  destruct (valid_column (hm_get (U "codigo") hm)) as [cc|] eqn:Ecc; [|left; reflexivity].
  destruct (valid_column (hm_get (U "debitos") hm)) as [dc|] eqn:Edc; [|left; reflexivity].
  destruct (map_is_empty m); [left; reflexivity|].
  apply valid_column_Some in Ecc as [_ Hcc].
  destruct (remap_rows1_cell m cc dc (valid_column (hm_get (U "creditos") hm))
              (row_range start_row end_row) ws r c (NoDup_row_range _ _) Hcc)
    as [H|(-> & Hin & new & Hd & Hout)].
  - intros x Hx. apply In_row_range in Hx. lia.
  - left. exact H.
  - right. split; [reflexivity|]. split; [apply In_row_range, Hin|].
    exists dc, new. auto.
Qed.

Lemma update_credits1_cell (m : code_map) (ws : worksheet) (hm : header_map)
    (start_row end_row r c : nat) :
  1 <= start_row ->
  let out := update_codes_for_non_negative_credits1 m ws hm start_row end_row in
  cell out r c = cell ws r c
  \/ (valid_column (hm_get (U "codigo") hm) = Some c
      /\ start_row <= r <= end_row
      /\ exists kc new_code,
           valid_column (hm_get (U "creditos") hm) = Some kc
           /\ remap_decision1 m (parse_decimal (cell ws r kc))
                (optional_amount ws r (valid_column (hm_get (U "debitos") hm)))
                (cell ws r c) = Some new_code
           /\ cell out r c = VStr new_code).
Proof.
  intros Hs out. subst out. unfold update_codes_for_non_negative_credits1.
  destruct (valid_column (hm_get (U "codigo") hm)) as [cc|] eqn:Ecc; [|left; reflexivity].
  destruct (valid_column (hm_get (U "creditos") hm)) as [kc|] eqn:Ekc; [|left; reflexivity].
  destruct (map_is_empty m); [left; reflexivity|].
  apply valid_column_Some in Ecc as [_ Hcc].
  destruct (remap_rows1_cell m cc kc (valid_column (hm_get (U "debitos") hm))
              (row_range start_row end_row) ws r c (NoDup_row_range _ _) Hcc)
    as [H|(-> & Hin & new & Hd & Hout)].
  - intros x Hx. apply In_row_range in Hx. lia.
  - left. exact H.
  - right. split; [reflexivity|]. split; [apply In_row_range, Hin|].
    exists kc, new. auto.
Qed.

Lemma valid_columns_distinct (ws0 : worksheet) (n : nat) (k1 k2 : ustr) (c1 c2 : nat) :
  valid_column (hm_get k1 (extract_header_map ws0 n)) = Some c1 ->
  valid_column (hm_get k2 (extract_header_map ws0 n)) = Some c2 ->
  k1 <> k2 -> c1 <> c2.
Proof.
  intros H1 H2. apply valid_column_Some in H1 as [H1 _], H2 as [H2 _].
  exact (header_columns_distinct ws0 n k1 k2 c1 c2 H1 H2).
Qed.

(** The two passes of case 1 together. *)
Lemma sign_exclusive_remap1_outcome (debit_map credit_map : code_map)
    (ws ws0 : worksheet) (n start_row end_row r c : nat) :
  1 <= start_row ->
  let hm := extract_header_map ws0 n in
  remap_outcome1 debit_map credit_map ws
    (sign_exclusive_remap1 debit_map credit_map ws hm start_row end_row)
    hm start_row end_row r c.
Proof.
  intros Hs hm. unfold remap_outcome1, sign_exclusive_remap1.
  set (ws1 := match valid_column (hm_get (U "debitos") hm) with
              | Some _ => update_codes_for_positive_debits1 debit_map ws hm start_row end_row
              | None => ws
              end).
  assert (H1 : forall r c,
    cell ws1 r c = cell ws r c
    \/ (valid_column (hm_get (U "codigo") hm) = Some c
        /\ start_row <= r <= end_row
        /\ exists dc new_code,
             valid_column (hm_get (U "debitos") hm) = Some dc
             /\ remap_decision1 debit_map (parse_decimal (cell ws r dc))
                  (optional_amount ws r (valid_column (hm_get (U "creditos") hm)))
                  (cell ws r c) = Some new_code
             /\ cell ws1 r c = VStr new_code)).
  { intros r' c'. subst ws1.
    destruct (valid_column (hm_get (U "debitos") hm)) eqn:E; [|left; reflexivity].
    rewrite <- E. apply update_debits1_cell, Hs. }
  assert (H2 : forall r c,
    cell (match valid_column (hm_get (U "creditos") hm) with
          | Some _ => update_codes_for_non_negative_credits1 credit_map ws1 hm
                        start_row end_row
          | None => ws1
          end) r c = cell ws1 r c
    \/ (valid_column (hm_get (U "codigo") hm) = Some c
        /\ start_row <= r <= end_row
        /\ exists kc new_code,
             valid_column (hm_get (U "creditos") hm) = Some kc
             /\ remap_decision1 credit_map (parse_decimal (cell ws1 r kc))
                  (optional_amount ws1 r (valid_column (hm_get (U "debitos") hm)))
                  (cell ws1 r c) = Some new_code
             /\ cell (match valid_column (hm_get (U "creditos") hm) with
                      | Some _ => update_codes_for_non_negative_credits1 credit_map ws1 hm
                                    start_row end_row
                      | None => ws1
                      end) r c = VStr new_code)).
  { intros r' c'.
    destruct (valid_column (hm_get (U "creditos") hm)) eqn:E; [|left; reflexivity].
    rewrite <- E. apply update_credits1_cell, Hs. }
  set (out := match valid_column (hm_get (U "creditos") hm) with
              | Some _ => update_codes_for_non_negative_credits1 credit_map ws1 hm
                            start_row end_row
              | None => ws1
              end) in *.
  (* cells outside the code column are never written by the first pass *)
  assert (Hother : forall x, valid_column (hm_get (U "codigo") hm) <> Some x ->
                             cell ws1 r x = cell ws r x).
  { intros x Hx. destruct (H1 r x) as [H|[H _]]; [exact H|contradiction]. }
  destruct (H2 r c) as [E2|(Hcc & Hr & kc & new & Hkc & Hd & Hout)].
  - rewrite E2. destruct (H1 r c) as [E1|(Hcc & Hr & dc & new & Hdc & Hd & Hout)].
    + left. exact E1.
    + right. split; [exact Hcc|]. split; [exact Hr|].
      apply remap_decision1_Some in Hd as (Hp & Ho & Hb & Hm).
      split; [exact Hb|]. left. rewrite Hdc. simpl.
      split; [exact Hp|]. split; [exact Ho|]. exists new. split; [exact Hm|]. exact Hout.
  - right. split; [exact Hcc|]. split; [exact Hr|].
    apply remap_decision1_Some in Hd as (Hp & Ho & Hb & Hm).
    assert (Ekc : cell ws1 r kc = cell ws r kc).
    { apply Hother. rewrite Hcc. intros [= E].
      apply (valid_columns_distinct ws0 n (U "codigo") (U "creditos") c kc Hcc Hkc);
        [vm_compute; discriminate | exact E]. }
    assert (Edebit : optional_amount ws1 r (valid_column (hm_get (U "debitos") hm))
                     = optional_amount ws r (valid_column (hm_get (U "debitos") hm))).
    { destruct (valid_column (hm_get (U "debitos") hm)) as [dc|] eqn:Edc; [|reflexivity].
      simpl. f_equal. apply Hother. rewrite Hcc. intros [= E].
      apply (valid_columns_distinct ws0 n (U "codigo") (U "debitos") c dc Hcc Edc);
        [vm_compute; discriminate | exact E]. }
    rewrite Ekc in Hp. rewrite Edebit in Ho.
    assert (Ecode : cell ws1 r c = cell ws r c).
    { destruct (H1 r c) as [E1|(_ & _ & dc & new' & Hdc & Hd' & _)]; [exact E1|].
      apply remap_decision1_Some in Hd' as (Hp' & _).
      rewrite Hdc in Ho. simpl in Ho. congruence. }
    rewrite Ecode in Hb, Hm.
    split; [exact Hb|]. right. rewrite Hkc. simpl.
    split; [exact Hp|]. split; [exact Ho|]. exists new. split; [exact Hm|]. exact Hout.
Qed.

End Remap1.

(** ** The sign-exclusive remap of case 7 *)

Section Remap7.
Context {L : PyLib}.
Hypothesis upper_empty : upper [] = [].

(** For a float that is not nan, [x <= c] is the negation of [x > c]. *)
Lemma float_le_gt (x : pyfloat) (c : Q) :
  x <> NaN -> float_le x c = negb (float_gt x c).
Proof.
  destruct x; simpl; intros H; try reflexivity; [|congruence].
  unfold Qgtb. rewrite negb_involutive. reflexivity.
Qed.

(** What a pass of case 7 does to a row, from the two tests of its loop. *)
Lemma remap_row7_guards (m : code_map) (amount_key other_key : string)
    (row : row_data) :
  remap_row7 m amount_key other_key row = row
  \/ (float_le (to_number (row_get row amount_key)) EPS = false
      /\ float_gt (to_number (row_get row other_key)) EPS = false
      /\ truthy (row_get row K_CODIGO) = true
      /\ exists new_code,
           m !! upper (strip (py_str (row_get row K_CODIGO))) = Some new_code
           /\ remap_row7 m amount_key other_key row = <[K_CODIGO := VStr new_code]> row).
Proof using upper_empty.
  unfold remap_row7, remap_decision7.
  rewrite amount_if_present_eq.
  destruct (float_le (to_number (row_get row amount_key)) EPS); [left; reflexivity|].
  destruct (float_gt (to_number (row_get row other_key)) EPS); [left; reflexivity|].
  unfold or_empty.
  destruct (truthy (row_get row K_CODIGO)) eqn:Et.
  - destruct (ustr_eqb _ []); [left; reflexivity|].
    destruct (m !! _) as [new|] eqn:Em; [|left; reflexivity].
    destruct (_ && _); [|left; reflexivity].
    right. split; [reflexivity|]. split; [reflexivity|]. split; [reflexivity|].
    exists new. auto.
  - left. change (strip (py_str (VStr []))) with (@nil N).
    rewrite upper_empty. reflexivity.
Qed.

Lemma remap_row7_outcome (m : code_map) (amount_key other_key : string)
    (row : row_data) :
  to_number (row_get row amount_key) <> NaN ->
  remap_row7 m amount_key other_key row = row
  \/ (exclusively_positive (to_number (row_get row amount_key))
        (to_number (row_get row other_key)) = true
      /\ truthy (row_get row K_CODIGO) = true
      /\ exists new_code,
           m !! upper (strip (py_str (row_get row K_CODIGO))) = Some new_code
           /\ remap_row7 m amount_key other_key row = <[K_CODIGO := VStr new_code]> row).
Proof using upper_empty.
  intros Hn.
  destruct (remap_row7_guards m amount_key other_key row)
    as [H|(Ha & Ho & Ht & Hnew)]; [left; exact H|].
  right. split; [|split; [exact Ht|exact Hnew]].
  unfold exclusively_positive. rewrite Ho.
  rewrite (float_le_gt _ _ Hn) in Ha. apply negb_false_iff in Ha. rewrite Ha.
  reflexivity.
Qed.

(** A row whose amount reads as nan passes the first test of the loop. *)
Lemma remap_row7_nan (m : code_map) (amount_key other_key : string)
    (row : row_data) (new_code : ustr) :
  to_number (row_get row amount_key) = NaN ->
  float_gt (to_number (row_get row other_key)) EPS = false ->
  let current_code := upper (strip (py_str (or_empty (row_get row K_CODIGO)))) in
  current_code <> [] ->
  m !! current_code = Some new_code ->
  new_code <> [] ->
  new_code <> current_code ->
  remap_row7 m amount_key other_key row = <[K_CODIGO := VStr new_code]> row.
Proof.
  intros Ha Ho current_code Hc Hm Hn Hd.
  unfold remap_row7, remap_decision7. rewrite amount_if_present_eq, Ha, Ho.
  simpl. fold current_code. rewrite Hm.
  unfold ustr_eqb. rewrite !bool_decide_eq_false_2 by congruence. reflexivity.
Qed.

Lemma sign_exclusive_remap7_outcome (debit_map credit_map : code_map)
    (rows : list row_data) (i : nat) (row : row_data) :
  rows !! i = Some row ->
  exists row', sign_exclusive_remap7 debit_map credit_map rows !! i = Some row'
               /\ (truthy (row_get row K_CODIGO) = false -> row' = row)
               /\ (to_number (row_get row K_DEBITOS) <> NaN ->
                   to_number (row_get row K_CREDITOS) <> NaN ->
                   remap_outcome7 debit_map credit_map row row').
Proof using upper_empty.
  intros Hi. unfold sign_exclusive_remap7, remap_outcome7.
  assert (H1 : exists row1,
    update_codes_for_positive_debits7 debit_map rows !! i = Some row1
    /\ (row1 = row \/ row1 = remap_row7 debit_map K_DEBITOS K_CREDITOS row)).
  { destruct (update_debits7_lookup debit_map rows i row Hi) as [H|H]; eauto. }
  destruct H1 as (row1 & Hrow1 & Hcase1).
  assert (H2 : exists row2,
    update_codes_for_non_negative_credits7 credit_map
      (update_codes_for_positive_debits7 debit_map rows) !! i = Some row2
    /\ (row2 = row1 \/ row2 = remap_row7 credit_map K_CREDITOS K_DEBITOS row1)).
  { destruct (update_credits7_lookup credit_map _ i row1 Hrow1) as [H|H]; eauto. }
  destruct H2 as (row2 & Hrow2 & Hcase2).
  exists row2. split; [exact Hrow2|]. split.
  - intros Ht.
    assert (E1 : row1 = row).
    { destruct Hcase1 as [->| ->]; [reflexivity|].
      destruct (remap_row7_guards debit_map K_DEBITOS K_CREDITOS row)
        as [H|(_ & _ & Ht' & _)]; [exact H|congruence]. }
    subst row1. destruct Hcase2 as [->| ->]; [reflexivity|].
    destruct (remap_row7_guards credit_map K_CREDITOS K_DEBITOS row)
      as [H|(_ & _ & Ht' & _)]; [exact H|congruence].
  - intros Nd Nc.
    assert (Hd : row1 = row
      \/ (exclusively_positive (to_number (row_get row K_DEBITOS))
            (to_number (row_get row K_CREDITOS)) = true
          /\ truthy (row_get row K_CODIGO) = true
          /\ exists new_code,
               debit_map !! upper (strip (py_str (row_get row K_CODIGO))) = Some new_code
               /\ row1 = <[K_CODIGO := VStr new_code]> row)).
    { destruct Hcase1 as [->| ->]; [left; reflexivity|].
      destruct (remap_row7_outcome debit_map K_DEBITOS K_CREDITOS row Nd)
        as [H|(Hx & Ht & new & Hm & H)]; [left; exact H|].
      right. split; [exact Hx|]. split; [exact Ht|]. exists new. auto. }
    destruct Hd as [->|(Hx & Ht & new & Hm & ->)].
    + destruct Hcase2 as [->| ->]; [left; reflexivity|].
      destruct (remap_row7_outcome credit_map K_CREDITOS K_DEBITOS row Nc)
        as [H|(Hx & Ht & new & Hm & H)]; [left; exact H|].
      right. right. split; [exact Hx|]. split; [exact Ht|]. exists new. auto.
    + assert (Hsame : row2 = <[K_CODIGO := VStr new]> row).
      { destruct Hcase2 as [->| ->]; [reflexivity|].
        assert (Nc' : to_number (row_get (<[K_CODIGO := VStr new]> row) K_CREDITOS) <> NaN).
        { unfold row_get. rewrite lookup_insert_ne by discriminate. exact Nc. }
        destruct (remap_row7_outcome credit_map K_CREDITOS K_DEBITOS
                    (<[K_CODIGO := VStr new]> row) Nc')
          as [H|(Hx' & _)]; [exact H|].
        exfalso. unfold row_get in Hx'.
        rewrite !lookup_insert_ne in Hx' by discriminate.
        fold (row_get row K_CREDITOS) in Hx'. fold (row_get row K_DEBITOS) in Hx'.
        unfold exclusively_positive in Hx, Hx'.
        apply andb_true_iff in Hx as [Ha _]. apply andb_true_iff in Hx' as [_ Hb].
        rewrite Ha in Hb. discriminate. }
      right. left. split; [exact Hx|]. split; [exact Ht|]. exists new. auto.
Qed.

End Remap7.

(** C4 (the code misses a case). The loop of a remap of case 7 skips a
    row when [amount <= 1e-9], a test that is false for nan: a row whose
    debit cell holds the text [nan], with no credit, has its code rewritten
    through [positiveDebitCodeMap] although its debit is not above zero,
    and so has every row whose amount reads as nan when the opposite
    amount is not above 1e-9. Case 1 tests [not _is_positive(amount)] and
    leaves such a row alone. On every row of case 1, and on every row of
    case 7 whose amounts are not nan, the remap changes at most the code,
    and only to the entry of [positiveDebitCodeMap] for its current code
    when debit > 1e-9 and credit is not, or to the entry of
    [nonNegativeCreditCodeMap] when credit > 1e-9 and debit is not; a row
    whose code is empty or absent, or whose debit and credit are both
    positive, keeps its code. *)
Theorem nan_amount_passes_the_remap_of_case7 :
  (@to_number RefLib (row_get sample_row_nan_debit K_DEBITOS) = NaN
   /\ float_gt (@to_number RefLib (row_get sample_row_nan_debit K_DEBITOS)) 0 = false
   /\ float_gt (@to_number RefLib (row_get sample_row_nan_debit K_DEBITOS)) EPS = false
   /\ float_le (@to_number RefLib (row_get sample_row_nan_debit K_DEBITOS)) EPS = false
   /\ @sign_exclusive_remap7 RefLib sample_debit_map sample_credit_map
        [sample_row_nan_debit]
      = [<[K_CODIGO := VStr (U "T/D")]> sample_row_nan_debit]
   /\ row_get sample_row_nan_debit K_CODIGO = VStr (U "WD"))
  /\ (let hm := @extract_header_map RefLib sample_nan_sheet (max_column sample_nan_sheet) in
      let out := @sign_exclusive_remap1 RefLib sample_debit_map sample_credit_map
                   sample_nan_sheet hm 16 16 in
      cell sample_nan_sheet 16 5 = VStr (U "nan")
      /\ @optional_amount RefLib sample_nan_sheet 16 (valid_column (hm_get (U "debitos") hm))
         = None
      /\ cell out 16 3 = VStr (U "WD")
      /\ out = sample_nan_sheet)
  /\ (forall (L : PyLib) (m : code_map) (amount_key other_key : string)
             (row : row_data) (new_code : ustr),
        to_number (row_get row amount_key) = NaN ->
        float_gt (to_number (row_get row other_key)) EPS = false ->
        let current_code := upper (strip (py_str (or_empty (row_get row K_CODIGO)))) in
        current_code <> [] ->
        m !! current_code = Some new_code ->
        new_code <> [] ->
        new_code <> current_code ->
        float_gt (to_number (row_get row amount_key)) 0 = false
        /\ remap_row7 m amount_key other_key row = <[K_CODIGO := VStr new_code]> row)
  /\ (forall (L : PyLib) (debit_map credit_map : code_map)
             (ws : worksheet) (start_row end_row r c : nat)
             (rows : list row_data) (i : nat) (row : row_data),
        upper [] = [] ->
        1 <= start_row ->
        rows !! i = Some row ->
        let hm := extract_header_map ws (max_column ws) in
        let out := sign_exclusive_remap1 debit_map credit_map ws hm start_row end_row in
        let debit1 := optional_amount ws r (valid_column (hm_get (U "debitos") hm)) in
        let credit1 := optional_amount ws r (valid_column (hm_get (U "creditos") hm)) in
        let debit7 := to_number (row_get row K_DEBITOS) in
        let credit7 := to_number (row_get row K_CREDITOS) in
        (remap_outcome1 debit_map credit_map ws out hm start_row end_row r c
         /\ (is_blank (cell ws r c) = true -> cell out r c = cell ws r c)
         /\ (is_positive debit1 = true -> is_positive credit1 = true ->
             cell out r c = cell ws r c))
        /\ exists row',
             sign_exclusive_remap7 debit_map credit_map rows !! i = Some row'
             /\ (debit7 <> NaN -> credit7 <> NaN ->
                 remap_outcome7 debit_map credit_map row row')
             /\ (truthy (row_get row K_CODIGO) = false -> row' = row)
             /\ (float_gt debit7 EPS = true -> float_gt credit7 EPS = true ->
                 row' = row)).
Proof.
  split; [repeat split; vm_compute; reflexivity|].
  split; [repeat split; vm_compute; reflexivity|].
  split.
  - intros L m amount_key other_key row new_code Ha Ho current_code Hc Hm Hn Hd.
    split; [rewrite Ha; reflexivity|].
    exact (remap_row7_nan m amount_key other_key row new_code Ha Ho Hc Hm Hn Hd).
  - intros L debit_map credit_map ws start_row end_row r c rows i row Hup Hs Hi
           hm out debit1 credit1 debit7 credit7.
    pose proof (sign_exclusive_remap1_outcome debit_map credit_map ws ws (max_column ws)
                  start_row end_row r c Hs) as H1.
    cbv zeta in H1. fold hm in H1. fold out in H1.
    split.
    + split; [exact H1|]. unfold remap_outcome1 in H1. fold debit1 credit1 in H1. split.
      * intros Hb. destruct H1 as [H|(_ & _ & Hnb & _)]; [exact H|congruence].
      * intros Hd Hc.
        destruct H1 as [H|(_ & _ & _ & [(_ & Hc' & _)|(_ & Hd' & _)])];
          [exact H|congruence|congruence].
    + destruct (sign_exclusive_remap7_outcome Hup debit_map credit_map rows i row Hi)
        as (row' & Hrow' & Hempty & Hout).
      exists row'. split; [exact Hrow'|]. split; [exact Hout|].
      split; [exact Hempty|].
      intros Hd Hc.
      assert (Nd : debit7 <> NaN) by (intros E; rewrite E in Hd; discriminate).
      assert (Nc : credit7 <> NaN) by (intros E; rewrite E in Hc; discriminate).
      specialize (Hout Nd Nc). unfold remap_outcome7 in Hout.
      fold debit7 credit7 in Hout. unfold exclusively_positive in Hout.
      destruct Hout as [H|[(Hx & _)|(Hx & _)]]; [exact H| |];
        apply andb_true_iff in Hx as [_ Hx]; [rewrite Hc in Hx|rewrite Hd in Hx];
        discriminate.
Qed.

(** ** Text normalisation *)

Lemma lstrip_no_leading_space (s : ustr) : no_leading_space (lstrip s).
Proof.
  induction s as [|c s IH]; simpl; [exact I|].
  destruct (isspace c) eqn:E; [exact IH|exact E].
Qed.

Lemma lstrip_id (s : ustr) : no_leading_space s -> lstrip s = s.
Proof. destruct s as [|c s]; simpl; [reflexivity|]. intros ->. reflexivity. Qed.

Lemma lstrip_snoc (l : ustr) (c : N) :
  isspace c = false -> lstrip (l ++ [c]) = lstrip l ++ [c].
Proof.
  intros Hc. induction l as [|x l IH]; simpl.
  - rewrite Hc. reflexivity.
  - destruct (isspace x); [exact IH|reflexivity].
Qed.

Lemma rstrip_no_leading_space (s : ustr) :
  no_leading_space s -> no_leading_space (rstrip s).
Proof.
  destruct s as [|c s]; [intros _; exact I|]. simpl. intros Hc.
  unfold rstrip. simpl. rewrite lstrip_snoc by exact Hc.
  rewrite rev_app_distr. simpl. exact Hc.
Qed.

Lemma strip_idempotent (s : ustr) : strip (strip s) = strip s.
Proof.
  unfold strip.
  rewrite (lstrip_id (rstrip (lstrip s)))
    by apply rstrip_no_leading_space, lstrip_no_leading_space.
  unfold rstrip. rewrite rev_involutive.
  rewrite (lstrip_id (lstrip _)) by apply lstrip_no_leading_space. reflexivity.
Qed.

Lemma sublist_rev (a b : ustr) : sublist a b -> sublist (rev a) (rev b).
Proof.
  induction 1 as [|x l1 l2 _ IH|x l1 l2 _ IH]; simpl.
  - constructor.
  - apply sublist_app; [exact IH|]. apply sublist_skip, sublist_nil.
  - apply sublist_inserts_r, IH.
Qed.

Lemma lstrip_sublist (s : ustr) : sublist (lstrip s) s.
Proof.
  induction s as [|c s IH]; simpl; [constructor|].
  destruct (isspace c); [apply sublist_cons, IH|reflexivity].
Qed.

Lemma strip_sublist (s : ustr) : sublist (strip s) s.
Proof.
  unfold strip, rstrip. transitivity (lstrip s); [|apply lstrip_sublist].
  rewrite <- (rev_involutive (lstrip s)) at 2.
  apply sublist_rev, lstrip_sublist.
Qed.

Lemma remove_char_sublist (c : N) (s : ustr) : sublist (remove_char c s) s.
Proof.
  unfold remove_char. induction s as [|x s IH]; simpl; [constructor|].
  destruct (negb _); [apply sublist_skip, IH|apply sublist_cons, IH].
Qed.

Lemma remove_char_idempotent (c : N) (s : ustr) :
  remove_char c (remove_char c s) = remove_char c s.
Proof.
  unfold remove_char. induction s as [|x s IH]; simpl; [reflexivity|].
  destruct (negb (x =? c)%N) eqn:E; simpl; [rewrite E, IH|]; auto.
Qed.

Section Normalize.
Context {L : PyLib}.
Hypothesis laws : unicode_laws.

Lemma plain_nil : plain [].
Proof using laws.
  apply (plain_sublist laws (strip_marks [])); [apply sublist_nil_l|].
  apply (strip_marks_plain laws).
Qed.

Lemma lowered_nil : lowered [].
Proof using laws.
  apply (lowered_sublist laws (lower [])); [apply sublist_nil_l|].
  apply (lower_lowered laws).
Qed.

Lemma normalize_text_fixed (s : ustr) :
  let v := normalize_text (VStr s) in
  plain v /\ lowered v /\ strip v = v.
Proof using laws.
  simpl. set (u := lower (strip_marks s)).
  assert (Hp : plain u) by apply (lower_plain laws), (strip_marks_plain laws).
  assert (Hl : lowered u) by apply (lower_lowered laws).
  split; [|split].
  - exact (plain_sublist laws u _ (strip_sublist u) Hp).
  - exact (lowered_sublist laws u _ (strip_sublist u) Hl).
  - apply strip_idempotent.
Qed.

Lemma normalize_text7_fixed (s : ustr) :
  let v := normalize_text7 (VStr s) in
  plain v /\ lowered v /\ remove_char 32 v = v.
Proof using laws.
  simpl. set (u := lower (strip_marks s)).
  assert (Hp : plain u) by apply (lower_plain laws), (strip_marks_plain laws).
  assert (Hl : lowered u) by apply (lower_lowered laws).
  split; [|split].
  - exact (plain_sublist laws u _ (remove_char_sublist 32 u) Hp).
  - exact (lowered_sublist laws u _ (remove_char_sublist 32 u) Hl).
  - apply remove_char_idempotent.
Qed.

Lemma normalize_text_idem (x : value) :
  normalize_text (VStr (normalize_text x)) = normalize_text x.
Proof using laws.
  destruct x as [|s| | | | |];
    try (simpl; rewrite plain_nil, lowered_nil; reflexivity).
  destruct (normalize_text_fixed s) as (Hp & Hl & Hs).
  set (v := normalize_text (VStr s)) in *.
  change (strip (lower (strip_marks v)) = v). rewrite Hp, Hl. exact Hs.
Qed.

Lemma normalize_text7_idem (x : value) :
  normalize_text7 (VStr (normalize_text7 x)) = normalize_text7 x.
Proof using laws.
  destruct x as [|s| | | | |];
    try (simpl; rewrite plain_nil, lowered_nil; reflexivity).
  destruct (normalize_text7_fixed s) as (Hp & Hl & Hs).
  set (v := normalize_text7 (VStr s)) in *.
  change (remove_char 32 (lower (strip_marks v)) = v). rewrite Hp, Hl. exact Hs.
Qed.

End Normalize.

(** ** The reference instance satisfies the Unicode laws *)

Lemma ref_assoc_In (c : N) (table : list (N * list N)) (l : list N) :
  Ref.assoc c table = Some l -> In (c, l) table.
Proof.
  induction table as [|[k v] table IH]; simpl; [discriminate|].
  destruct (N.eqb_spec c k) as [->|_].
  - intros [= ->]. left. reflexivity.
  - intros H. right. apply IH, H.
Qed.

Lemma ref_table_ok : forallb ref_entry_ok Ref.DECOMPOSITIONS = true.
Proof. vm_compute. reflexivity. Qed.

Lemma ref_base_cases (c : N) :
  let base := List.filter ref_nonmark (Ref.decompose c) in
  (base = [] /\ ~ ref_stable c)
  \/ (base = [c] /\ ref_stable c)
  \/ (exists b, base = [b] /\ b <> c /\ ref_stable b).
Proof.
  unfold Ref.decompose. destruct (Ref.assoc c Ref.DECOMPOSITIONS) as [l|] eqn:E.
  - pose proof (ref_assoc_In _ _ _ E) as Hin.
    pose proof (proj1 (forallb_forall _ _) ref_table_ok _ Hin) as Hok.
    unfold ref_entry_ok in Hok. cbn [fst snd] in Hok.
    apply andb_true_iff in Hok as [Hok Hne]. apply andb_true_iff in Hok as [Hlen Hst].
    apply Nat.leb_le in Hlen. apply negb_true_iff, bool_decide_eq_false in Hne.
    destruct (List.filter ref_nonmark l) as [|b [|b' t]] eqn:Eb; simpl in Hlen; [| |lia].
    + left. split; [reflexivity|]. intros [Hd Hm].
      unfold Ref.decompose in Hd. rewrite E in Hd. subst l.
      simpl in Eb. unfold ref_nonmark in Eb. rewrite Hm in Eb. discriminate.
    + right. right. exists b. split; [reflexivity|].
      cbn [forallb] in Hst. apply andb_true_iff in Hst as [Hb _].
      split; [intros ->; apply Hne; reflexivity|].
      assert (Hbm : ref_nonmark b = true).
      { assert (In b (List.filter ref_nonmark l)) as Hb' by (rewrite Eb; left; reflexivity).
        apply filter_In in Hb' as [_ Hb']. exact Hb'. }
      split; [|exact Hbm].
      unfold Ref.decompose. revert Hb.
      destruct (Ref.assoc b Ref.DECOMPOSITIONS); [discriminate|reflexivity].
  - simpl. destruct (ref_nonmark c) eqn:Ec.
    + right. left. split; [reflexivity|]. split; [|exact Ec].
      unfold Ref.decompose. rewrite E. reflexivity.
    + left. split; [reflexivity|]. intros [_ Hm]. unfold ref_nonmark in Ec. congruence.
Qed.

Lemma ref_strip_marks_cons (c : N) (s : ustr) :
  @strip_marks RefLib (c :: s)
  = List.filter ref_nonmark (Ref.decompose c) ++ @strip_marks RefLib s.
Proof.
  change (List.filter ref_nonmark (Ref.decompose c ++ flat_map Ref.decompose s)
          = List.filter ref_nonmark (Ref.decompose c)
            ++ List.filter ref_nonmark (flat_map Ref.decompose s)).
  apply List.filter_app.
Qed.

Lemma ref_strip_marks_stable (s : ustr) : Forall ref_stable (@strip_marks RefLib s).
Proof.
  induction s as [|c s IH]; [constructor|].
  rewrite ref_strip_marks_cons.
  destruct (ref_base_cases c) as [[-> _]|[[-> Hc]|(b & -> & _ & Hb)]]; simpl; auto.
Qed.

Lemma ref_strip_marks_length (s : ustr) : length (@strip_marks RefLib s) <= length s.
Proof.
  induction s as [|c s IH]; [reflexivity|].
  rewrite ref_strip_marks_cons.
  destruct (ref_base_cases c) as [[-> _]|[[-> _]|(b & -> & _)]]; simpl; lia.
Qed.

Lemma ref_stable_plain (s : ustr) : Forall ref_stable s -> @plain RefLib s.
Proof.
  unfold plain. induction 1 as [|c s [Hd Hm] _ IH]; [reflexivity|].
  rewrite ref_strip_marks_cons, Hd, IH. simpl. unfold ref_nonmark. rewrite Hm. reflexivity.
Qed.

Lemma ref_plain_stable (s : ustr) : @plain RefLib s -> Forall ref_stable s.
Proof.
  unfold plain. induction s as [|c s IH]; [constructor|].
  rewrite ref_strip_marks_cons. pose proof (ref_strip_marks_length s) as Hlen.
  destruct (ref_base_cases c) as [[-> _]|[[-> Hc]|(b & -> & Hne & _)]]; simpl; intros H.
  - rewrite H in Hlen. simpl in Hlen. lia.
  - constructor; [exact Hc|]. apply IH. congruence.
  - congruence.
Qed.

Lemma ref_assoc_small (c : N) : (c < 0xA0)%N -> Ref.assoc c Ref.DECOMPOSITIONS = None.
Proof.
  intros H. unfold Ref.DECOMPOSITIONS. cbn [Ref.assoc].
  repeat match goal with
         | |- context [(?a =? ?b)%N] => destruct (N.eqb_spec a b); [lia|]
         end.
  reflexivity.
Qed.

Lemma ref_lower_stable (c : N) : ref_stable c -> ref_stable (Ref.lower_char c).
Proof.
  intros Hc. unfold Ref.lower_char. destruct (_ && _) eqn:E; [|exact Hc].
  apply andb_true_iff in E as [E1 E2]. apply N.leb_le in E1, E2.
  split.
  - unfold Ref.decompose. rewrite ref_assoc_small by lia. reflexivity.
  - unfold Ref.combining.
    destruct (N.leb_spec 0x300 (c + 32)); [lia|]. reflexivity.
Qed.

Lemma ref_lower_char_idem (c : N) :
  Ref.lower_char (Ref.lower_char c) = Ref.lower_char c.
Proof.
  destruct ((65 <=? c) && (c <=? 90))%N eqn:E.
  - assert (Hc : Ref.lower_char c = (c + 32)%N) by (unfold Ref.lower_char; rewrite E; reflexivity).
    rewrite Hc. apply andb_true_iff in E as [E1 E2]. apply N.leb_le in E1, E2.
    unfold Ref.lower_char.
    destruct (N.leb_spec (c + 32) 90); [lia|]. rewrite andb_false_r. reflexivity.
  - assert (Hc : Ref.lower_char c = c) by (unfold Ref.lower_char; rewrite E; reflexivity).
    rewrite !Hc. reflexivity.
Qed.

Lemma map_fixed_iff (f : N -> N) (s : ustr) : map f s = s <-> Forall (fun c => f c = c) s.
Proof.
  induction s as [|c s IH]; simpl.
  - split; [constructor|reflexivity].
  - split.
    + intros [= Hc Hs]. constructor; [exact Hc|apply IH, Hs].
    + intros H. inversion H; subst. f_equal; [assumption|apply IH; assumption].
Qed.

Lemma Forall_sublist_of {P : N -> Prop} (s t : ustr) :
  sublist t s -> Forall P s -> Forall P t.
Proof.
  induction 1 as [|x l1 l2 _ IH|x l1 l2 _ IH]; intros HP; [constructor| |];
    inversion HP; subst; auto.
Qed.

Lemma ref_unicode_laws : @unicode_laws RefLib.
Proof.
  split.
  - intros s. apply ref_stable_plain, ref_strip_marks_stable.
  - intros s Hs. apply ref_stable_plain.
    apply ref_plain_stable in Hs. change (@lower RefLib s) with (map Ref.lower_char s).
    induction Hs; simpl; constructor; auto using ref_lower_stable.
  - intros s t Hsub Hs. apply ref_stable_plain.
    apply (Forall_sublist_of s t Hsub), ref_plain_stable, Hs.
  - intros s. unfold lowered. change (@lower RefLib) with (map Ref.lower_char).
    rewrite map_map. apply map_ext. apply ref_lower_char_idem.
  - intros s t Hsub. unfold lowered. change (@lower RefLib) with (map Ref.lower_char).
    rewrite !map_fixed_iff. apply Forall_sublist_of, Hsub.
Qed.

(** C8. [_normalize_text] is idempotent in cases 1 and 7, for every
    input, given the Unicode laws; a value that is not a string gives the
    empty string; and in the reference instance ["Débitos"], ["debitos"]
    and [" DÉBITOS "] have the same normal form. *)
Theorem normalize_text_idempotent (L : PyLib) (x : value) :
  unicode_laws ->
  normalize_text (VStr (normalize_text x)) = normalize_text x
  /\ normalize_text7 (VStr (normalize_text7 x)) = normalize_text7 x
  /\ ((forall s, x <> VStr s) -> normalize_text x = [] /\ normalize_text7 x = [])
  /\ @normalize_text RefLib (VStr (U "Débitos")) = @normalize_text RefLib (VStr (U "debitos"))
  /\ @normalize_text RefLib (VStr (U "debitos"))
     = @normalize_text RefLib (VStr (U " DÉBITOS "))
  /\ @normalize_text7 RefLib (VStr (U "Débitos"))
     = @normalize_text7 RefLib (VStr (U "debitos"))
  /\ @normalize_text7 RefLib (VStr (U "debitos"))
     = @normalize_text7 RefLib (VStr (U " DÉBITOS ")).
Proof.
  intros laws. split; [apply normalize_text_idem, laws|].
  split; [apply normalize_text7_idem, laws|].
  split.
  - intros Hx. destruct x; try (split; reflexivity). exfalso. eapply Hx. reflexivity.
  - repeat split; vm_compute; reflexivity.
Qed.

Lemma normalize_text_idempotent_witness :
  @normalize_text RefLib (VStr (@normalize_text RefLib (VStr (U " DÉBITOS "))))
  = @normalize_text RefLib (VStr (U " DÉBITOS ")).
Proof.
  apply (normalize_text_idempotent RefLib (VStr (U " DÉBITOS ")) ref_unicode_laws).
Defined.

(** ** Deleting rows *)

Lemma fold_delete_cons (i : nat) (ds : list nat) (row : list value) (ws : worksheet) :
  (forall d, In d ds -> i < d) ->
  fold_left (fun w d => delete (d - i) w) ds (row :: ws)
  = row :: fold_left (fun w d => delete (d - S i) w) ds ws.
Proof.
  revert ws. induction ds as [|d ds IH]; intros ws H; simpl; [reflexivity|].
  assert (Hd : i < d) by (apply H; left; reflexivity).
  replace (d - i) with (S (d - S i)) by lia. simpl.
  apply IH. intros x Hx. apply H. right. exact Hx.
Qed.

Lemma keep_rows_from_ext (i : nat) (del del' : nat -> bool) (ws : worksheet) :
  (forall r, i <= r -> del r = del' r) ->
  keep_rows_from i del ws = keep_rows_from i del' ws.
Proof.
  revert i. induction ws as [|row ws IH]; intros i H; simpl; [reflexivity|].
  rewrite (H i (le_n i)), (IH (S i)); [reflexivity|].
  intros r Hr. apply H. lia.
Qed.

Lemma keep_rows_from_none (i : nat) (del : nat -> bool) (ws : worksheet) :
  (forall r, i <= r -> del r = false) -> keep_rows_from i del ws = ws.
Proof.
  revert i. induction ws as [|row ws IH]; intros i H; simpl; [reflexivity|].
  rewrite (H i (le_n i)), (IH (S i)); [reflexivity|].
  intros r Hr. apply H. lia.
Qed.

Lemma increasing_from_weaken (i j : nat) (rows : list nat) :
  i <= j -> increasing_from j rows -> increasing_from i rows.
Proof. destruct rows as [|r rows]; simpl; [tauto|]. intros Hij [Hr H]. split; [lia|exact H]. Qed.

Lemma increasing_from_In (i : nat) (rows : list nat) (r : nat) :
  increasing_from i rows -> In r rows -> i <= r.
Proof.
  revert i. induction rows as [|x rows IH]; intros i; simpl; [tauto|].
  intros [Hx H] [<-|Hr]; [exact Hx|]. apply (IH (S x)) in Hr; [lia|exact H].
Qed.

Lemma row_in_false (rows : list nat) (r : nat) : ~ In r rows -> row_in rows r = false.
Proof.
  intros H. unfold row_in. destruct (existsb _ rows) eqn:E; [|reflexivity].
  apply existsb_exists in E as [x [Hx Ex]]. apply Nat.eqb_eq in Ex. subst x. contradiction.
Qed.

Lemma row_in_true (rows : list nat) (r : nat) : In r rows -> row_in rows r = true.
Proof.
  intros H. unfold row_in. apply existsb_exists. exists r. split; [exact H|apply Nat.eqb_refl].
Qed.

(** Deleting an increasing list of rows from the last to the first
    removes exactly those rows. *)
Lemma delete_increasing (ws : worksheet) :
  forall i dels, increasing_from i dels ->
    fold_left (fun w d => delete (d - i) w) (rev dels) ws
    = keep_rows_from i (row_in dels) ws.
Proof.
  induction ws as [|row ws IH]; intros i dels Hinc.
  - simpl. induction (rev dels) as [|d ds IHd]; simpl; [reflexivity|exact IHd].
  - destruct dels as [|d dels].
    + simpl. f_equal. symmetry. apply keep_rows_from_none. reflexivity.
    + destruct Hinc as [Hd Hinc].
      assert (Hgt : forall x, In x dels -> i < x /\ d < x).
      { intros x Hx. apply (increasing_from_In _ _ _ Hinc) in Hx. lia. }
      destruct (Nat.eq_dec d i) as [->|Hne].
      * simpl rev. rewrite fold_left_app. simpl fold_left.
        rewrite fold_delete_cons
          by (intros x Hx; apply in_rev in Hx; apply Hgt in Hx; lia).
        rewrite Nat.sub_diag. simpl delete.
        rewrite (IH (S i) dels Hinc). simpl.
        rewrite Nat.eqb_refl. simpl.
        apply keep_rows_from_ext. intros r Hr. unfold row_in. simpl.
        destruct (Nat.eqb_spec r i); [lia|reflexivity].
      * rewrite fold_delete_cons.
        -- rewrite (IH (S i) (d :: dels)) by (simpl; split; [lia|exact Hinc]).
           simpl. fold (row_in dels i).
           destruct (Nat.eqb_spec i d); [lia|]. simpl.
           rewrite row_in_false; [reflexivity|].
           intros Hin. apply Hgt in Hin. lia.
        -- intros x Hx. apply in_rev in Hx. destruct Hx as [<-|Hx]; [lia|].
           apply Hgt in Hx. lia.
Qed.

Lemma filter_seq_increasing (P : nat -> bool) (a n : nat) :
  increasing_from a (List.filter P (seq a n)).
Proof.
  revert a. induction n as [|n IH]; intros a; simpl; [exact I|].
  destruct (P a); simpl.
  - split; [lia|apply IH].
  - apply (increasing_from_weaken a (S a)); [lia|apply IH].
Qed.

Lemma delete_all_filter (P : nat -> bool) (first last : nat) (ws : worksheet) :
  1 <= first ->
  delete_all ws (List.filter P (row_range first last))
  = keep_rows_from 1 (fun r => (first <=? r) && (r <=? last) && P r) ws.
Proof.
  intros Hf. unfold delete_all, delete_rows.
  rewrite (delete_increasing ws 1).
  - apply keep_rows_from_ext. intros r _.
    destruct ((first <=? r) && (r <=? last) && P r) eqn:E.
    + apply andb_true_iff in E as [E EP]. apply andb_true_iff in E as [E1 E2].
      apply Nat.leb_le in E1, E2. apply row_in_true, filter_In.
      split; [apply In_row_range; lia|exact EP].
    + apply row_in_false. intros Hin. apply filter_In in Hin as [Hr HP].
      apply In_row_range in Hr. rewrite HP in E.
      destruct (Nat.leb_spec first r); [|lia]. destruct (Nat.leb_spec r last); [|lia].
      discriminate.
  - apply (increasing_from_weaken 1 first); [exact Hf|]. apply filter_seq_increasing.
Qed.

(** ** The date range filter *)

Section Filter.
Context {L : PyLib}.

Lemma scan_rows1_acc (ws : worksheet) (dc : nat) (s e : datetime) (rows : list nat)
    (acc : list nat * nat) :
  fold_left
    (fun acc row_idx =>
       scan_step (parse_date_value (cell ws row_idx dc)) s e row_idx acc) rows acc
  = (fst acc ++ List.filter (outside_range1 ws dc s e) rows,
     snd acc + length (List.filter (inside_range1 ws dc s e) rows)).
Proof.
  revert acc. induction rows as [|r rows IH]; intros [dels n]; simpl.
  - rewrite app_nil_r, Nat.add_0_r. reflexivity.
  - rewrite IH. unfold scan_step, outside_range1, inside_range1.
    destruct (parse_date_value (cell ws r dc)) as [d|]; simpl; [|reflexivity].
    destruct (in_range s e d); simpl.
    + f_equal. lia.
    + rewrite <- app_assoc. reflexivity.
Qed.

Lemma scan_rows1_spec (ws : worksheet) (dc : nat) (s e : datetime) (rows : list nat) :
  scan_rows1 ws dc s e rows
  = (List.filter (outside_range1 ws dc s e) rows,
     length (List.filter (inside_range1 ws dc s e) rows)).
Proof. unfold scan_rows1. rewrite scan_rows1_acc. reflexivity. Qed.

Lemma scan_rows2_spec (ws : worksheet) (dc : nat) (s e : datetime) (rows : list nat)
    (acc : list nat * nat) :
  parses2 ws dc rows ->
  scan_rows2 ws dc s e rows acc
  = Ok (fst acc ++ List.filter (outside_range2 ws dc s e) rows,
        snd acc + length (List.filter (inside_range2 ws dc s e) rows)).
Proof.
  revert acc. induction rows as [|r rows IH]; intros [dels n] Hp; simpl.
  - rewrite app_nil_r, Nat.add_0_r. reflexivity.
  - destruct (Hp r (or_introl eq_refl)) as [parsed Hr].
    unfold outside_range2, inside_range2. rewrite Hr.
    rewrite IH by (intros x Hx; apply Hp; right; exact Hx).
    unfold scan_step. destruct parsed as [d|]; simpl; [|reflexivity].
    destruct (in_range s e d); simpl.
    + rewrite Nat.add_succ_r. reflexivity.
    + rewrite <- app_assoc. reflexivity.
Qed.

Lemma scan_rows2_raises (ws : worksheet) (dc : nat) (s e : datetime) (rows : list nat)
    (acc : list nat * nat) (r : nat) (err : exn) :
  In r rows ->
  parse_date_from_value (cell ws r dc) = Raise err ->
  exists err', scan_rows2 ws dc s e rows acc = Raise err'.
Proof.
  revert acc. induction rows as [|x rows IH]; intros acc [].
  - subst x. intros Hr. simpl. rewrite Hr. eauto.
  - intros Hr. simpl. destruct (parse_date_from_value (cell ws x dc)); [|eauto].
    apply IH; assumption.
Qed.

Lemma no_rows_inside (P : nat -> bool) (rows : list nat) :
  length (List.filter P rows) = 0 <-> forall r, In r rows -> P r = false.
Proof.
  split.
  - intros H r Hr. destruct (P r) eqn:E; [|reflexivity].
    assert (Hin : In r (List.filter P rows)) by (apply filter_In; auto).
    destruct (List.filter P rows); [destruct Hin|discriminate].
  - intros H. induction rows as [|x rows IH]; [reflexivity|]. simpl.
    rewrite (H x (or_introl eq_refl)). apply IH. intros r Hr. apply H. right. exact Hr.
Qed.

Lemma deletion_log_nil (P : nat -> bool) (rows : list nat) :
  (forall r, In r rows -> P r = false) -> List.filter P rows = [].
Proof.
  intros H. induction rows as [|x rows IH]; [reflexivity|]. simpl.
  rewrite (H x (or_introl eq_refl)). apply IH. intros r Hr. apply H. right. exact Hr.
Qed.

(** What the filter of case 1 leaves, once it applies. *)
Lemma filter1_outcome (ws : worksheet) (range : datetime * datetime) (dc : nat) :
  DATA_START_ROW <= max_row ws ->
  date_column_of ws = Some dc ->
  DATA_START_ROW <= data_end_row ws ->
  let s := fst (normalize_range range) in
  let e := snd (normalize_range range) in
  let o := filter_rows_by_date_range1 ws (Some range) in
  out_ws o
  = keep_rows_from 1
      (fun r => (DATA_START_ROW <=? r) && (r <=? data_end_row ws)
                && outside_range1 ws dc s e r) ws
  /\ out_result o = Ok tt
  /\ out_log o
     = deletion_log (List.filter (outside_range1 ws dc s e) (data_region ws))
       ++ (if length (List.filter (inside_range1 ws dc s e) (data_region ws)) =? 0
           then [LogNoMovementsInRange s e] else []).
Proof.
  intros Hmax Hdc Hend s e o. subst o s e. unfold filter_rows_by_date_range1.
  destruct (Nat.ltb_spec (max_row ws) DATA_START_ROW); [lia|].
  destruct (normalize_range range) as [s e]. simpl fst. simpl snd.
  unfold date_column_of in Hdc. rewrite Hdc.
  destruct (Nat.ltb_spec (data_end_row ws) DATA_START_ROW); [lia|].
  rewrite scan_rows1_spec. simpl.
  split; [|split; reflexivity].
  apply delete_all_filter. unfold DATA_START_ROW. lia.
Qed.

(** What the filter of case 2 leaves, once it applies and no date cell
    makes the parser raise. *)
Lemma filter2_outcome (ws : worksheet) (range : datetime * datetime) (dc : nat) :
  DATA_START_ROW <= max_row ws ->
  date_column_of ws = Some dc ->
  DATA_START_ROW <= data_end_row ws ->
  parses2 ws dc (data_region ws) ->
  let s := fst (normalize_range range) in
  let e := snd (normalize_range range) in
  let o := filter_rows_by_date_range2 ws (Some range) in
  out_ws o
  = keep_rows_from 1
      (fun r => (DATA_START_ROW <=? r) && (r <=? data_end_row ws)
                && outside_range2 ws dc s e r) ws
  /\ out_result o
     = (if length (List.filter (inside_range2 ws dc s e) (data_region ws)) =? 0
        then Raise DateRangeNotFoundError else Ok tt).
Proof.
  intros Hmax Hdc Hend Hp s e o. subst o s e. unfold filter_rows_by_date_range2.
  destruct (normalize_range range) as [s e]. simpl fst. simpl snd.
  unfold date_column_of in Hdc. rewrite Hdc.
  destruct (Nat.ltb_spec (max_row ws) DATA_START_ROW); [lia|].
  destruct (Nat.ltb_spec (data_end_row ws) DATA_START_ROW); [lia|]. simpl orb. cbv iota.
  fold (data_region ws). rewrite (scan_rows2_spec ws dc s e (data_region ws) ([], 0) Hp).
  simpl. split; [|reflexivity].
  apply delete_all_filter. unfold DATA_START_ROW. lia.
Qed.

(** The parser of case 2 raises nothing but [OverflowError]. *)
Lemma parse_date_from_value_raises (v : value) (err : exn) :
  parse_date_from_value v = Raise err -> err = OverflowError.
Proof.
  unfold parse_date_from_value. destruct v as [|s| | | | |]; try discriminate.
  destruct (ustr_eqb (strip s) []); [discriminate|].
  destruct (try_formats _ _); [discriminate|].
  destruct (fullmatch_number _); [|discriminate].
  destruct (py_float _) as [serial|]; [|discriminate].
  destruct (Qgtb serial 0); [|discriminate].
  destruct (from_serial serial); [discriminate|].
  intros [= <-]. reflexivity.
Qed.

Lemma scan_rows2_overflow (ws : worksheet) (dc : nat) (s e : datetime) (rows : list nat)
    (acc : list nat * nat) (r : nat) (err : exn) :
  In r rows ->
  parse_date_from_value (cell ws r dc) = Raise err ->
  scan_rows2 ws dc s e rows acc = Raise OverflowError.
Proof.
  revert acc. induction rows as [|x rows IH]; intros acc [].
  - subst x. intros Hr. simpl. rewrite Hr.
    rewrite (parse_date_from_value_raises _ _ Hr). reflexivity.
  - intros Hr. simpl.
    destruct (parse_date_from_value (cell ws x dc)) as [parsed|err'] eqn:E.
    + apply IH; assumption.
    + rewrite (parse_date_from_value_raises _ _ E). reflexivity.
Qed.

(** A date cell that makes the parser of case 2 raise stops the filter:
    the sheet is left as it was and the error goes up. *)
Lemma filter2_overflow (ws : worksheet) (range : datetime * datetime) (dc r : nat)
    (err : exn) :
  DATA_START_ROW <= max_row ws ->
  date_column_of ws = Some dc ->
  DATA_START_ROW <= data_end_row ws ->
  In r (data_region ws) ->
  parse_date_from_value (cell ws r dc) = Raise err ->
  let o := filter_rows_by_date_range2 ws (Some range) in
  out_ws o = ws /\ out_result o = Raise OverflowError.
Proof.
  intros Hmax Hdc Hend Hin Hr o. subst o. unfold filter_rows_by_date_range2.
  destruct (normalize_range range) as [s e].
  unfold date_column_of in Hdc. rewrite Hdc.
  destruct (Nat.ltb_spec (max_row ws) DATA_START_ROW); [lia|].
  destruct (Nat.ltb_spec (data_end_row ws) DATA_START_ROW); [lia|]. simpl orb. cbv iota.
  fold (data_region ws).
  rewrite (scan_rows2_overflow ws dc s e (data_region ws) ([], 0) r err Hin Hr).
  split; reflexivity.
Qed.

(** The filter of case 2 returns at once, leaving the sheet as it is, when
    the sheet has fewer than 16 rows, no date column or no data row. *)
Lemma filter2_guards (ws : worksheet) (range : datetime * datetime) :
  max_row ws < DATA_START_ROW \/ date_column_of ws = None
  \/ data_end_row ws < DATA_START_ROW ->
  let o := filter_rows_by_date_range2 ws (Some range) in
  out_ws o = ws /\ out_result o = Ok tt.
Proof.
  intros H o. subst o. unfold filter_rows_by_date_range2.
  destruct (normalize_range range) as [s e].
  unfold date_column_of in H.
  destruct (valid_column _) as [dc|]; [|split; reflexivity].
  destruct H as [H|[H|H]]; [|discriminate|].
  - destruct (Nat.ltb_spec (max_row ws) DATA_START_ROW); [|lia].
    split; reflexivity.
  - destruct (Nat.ltb_spec (data_end_row ws) DATA_START_ROW); [|lia].
    rewrite orb_true_r. split; reflexivity.
Qed.

(** The filter of case 1 never raises. *)
Lemma filter1_returns (ws : worksheet) (date_range : option (datetime * datetime)) :
  out_result (filter_rows_by_date_range1 ws date_range) = Ok tt.
Proof.
  unfold filter_rows_by_date_range1. destruct date_range as [range|]; [|reflexivity].
  destruct (max_row ws <? DATA_START_ROW); [reflexivity|].
  destruct (normalize_range range) as [s e].
  destruct (valid_column _); [|reflexivity].
  destruct (data_end_row ws <? DATA_START_ROW); [reflexivity|].
  destruct (scan_rows1 _ _ _ _ _). reflexivity.
Qed.

(** Case 1: the rows whose date cell cannot be parsed are kept and not
    counted. *)
Lemma filter1_keeps_unparsable (ws : worksheet) (range : datetime * datetime) (dc : nat) :
  DATA_START_ROW <= max_row ws ->
  date_column_of ws = Some dc ->
  DATA_START_ROW <= data_end_row ws ->
  let s := fst (normalize_range range) in
  let e := snd (normalize_range range) in
  let o1 := filter_rows_by_date_range1 ws (Some range) in
  let del1 := fun r => (DATA_START_ROW <=? r) && (r <=? data_end_row ws)
                       && outside_range1 ws dc s e r in
  out_ws o1 = keep_rows_from 1 del1 ws
  /\ out_result o1 = Ok tt
  /\ (forall r, parse_date_value (cell ws r dc) = None ->
                del1 r = false /\ inside_range1 ws dc s e r = false)
  /\ (In (LogNoMovementsInRange s e) (out_log o1) <->
      forall r, In r (data_region ws) -> inside_range1 ws dc s e r = false)
  /\ ((forall r, In r (data_region ws) -> parse_date_value (cell ws r dc) = None) ->
      out_ws o1 = ws /\ out_log o1 = [LogNoMovementsInRange s e]).
Proof.
  intros Hmax Hdc Hend s e o1 del1.
  destruct (filter1_outcome ws range dc Hmax Hdc Hend) as (Hw1 & Hres & Hl1).
  fold s e in Hw1, Hl1. fold o1 in Hw1, Hl1, Hres.
  split; [exact Hw1|]. split; [exact Hres|].
  split.
  { intros r Hr. unfold del1, outside_range1, inside_range1. rewrite Hr.
    split; [apply andb_false_r|reflexivity]. }
  split.
  { rewrite Hl1, <- no_rows_inside. rewrite in_app_iff. split.
    - intros [H|H].
      + unfold deletion_log in H. destruct (List.filter _ _); [destruct H|].
        destruct H as [H|[]]. discriminate.
      + destruct (length (List.filter (inside_range1 ws dc s e) (data_region ws)) =? 0)
          eqn:E; [apply Nat.eqb_eq, E|destruct H].
    - intros H. right. rewrite H. left. reflexivity. }
  intros Hnone.
  assert (Hout : forall r, In r (data_region ws) -> outside_range1 ws dc s e r = false).
  { intros r Hr. unfold outside_range1. rewrite (Hnone r Hr). reflexivity. }
  assert (Hin : forall r, In r (data_region ws) -> inside_range1 ws dc s e r = false).
  { intros r Hr. unfold inside_range1. rewrite (Hnone r Hr). reflexivity. }
  split.
  - rewrite Hw1. apply keep_rows_from_none. intros r _. unfold del1.
    destruct (Nat.leb_spec DATA_START_ROW r); [|reflexivity].
    destruct (Nat.leb_spec r (data_end_row ws)); [|reflexivity].
    simpl. apply Hout, In_row_range. lia.
  - rewrite Hl1, (deletion_log_nil _ _ Hout).
    rewrite (proj2 (no_rows_inside _ _) Hin). reflexivity.
Qed.

(** Case 2, when no date cell makes the parser raise: the rows whose date
    cell gives no date are kept and not counted. *)
Lemma filter2_keeps_unparsable (ws : worksheet) (range : datetime * datetime) (dc : nat) :
  DATA_START_ROW <= max_row ws ->
  date_column_of ws = Some dc ->
  DATA_START_ROW <= data_end_row ws ->
  parses2 ws dc (data_region ws) ->
  let s := fst (normalize_range range) in
  let e := snd (normalize_range range) in
  let o2 := filter_rows_by_date_range2 ws (Some range) in
  let del2 := fun r => (DATA_START_ROW <=? r) && (r <=? data_end_row ws)
                       && outside_range2 ws dc s e r in
  out_ws o2 = keep_rows_from 1 del2 ws
  /\ (forall r, parse_date_from_value (cell ws r dc) = Ok None ->
                del2 r = false /\ inside_range2 ws dc s e r = false)
  /\ (out_result o2 = Raise DateRangeNotFoundError <->
      forall r, In r (data_region ws) -> inside_range2 ws dc s e r = false)
  /\ ((forall r, In r (data_region ws) ->
                 parse_date_from_value (cell ws r dc) = Ok None) ->
      out_ws o2 = ws /\ out_result o2 = Raise DateRangeNotFoundError).
Proof.
  intros Hmax Hdc Hend Hp s e o2 del2.
  destruct (filter2_outcome ws range dc Hmax Hdc Hend Hp) as (Hw2 & Hr2).
  fold s e in Hw2, Hr2. fold o2 in Hw2, Hr2.
  split; [exact Hw2|].
  split.
  { intros r Hr. unfold del2, outside_range2, inside_range2. rewrite Hr.
    split; [apply andb_false_r|reflexivity]. }
  split.
  { rewrite Hr2, <- no_rows_inside. split.
    - destruct (length (List.filter (inside_range2 ws dc s e) (data_region ws)) =? 0)
        eqn:E; [intros _; apply Nat.eqb_eq, E|discriminate].
    - intros H. rewrite H. reflexivity. }
  intros Hnone.
  assert (Hout : forall r, In r (data_region ws) -> outside_range2 ws dc s e r = false).
  { intros r Hr. unfold outside_range2. rewrite (Hnone r Hr). reflexivity. }
  assert (Hin : forall r, In r (data_region ws) -> inside_range2 ws dc s e r = false).
  { intros r Hr. unfold inside_range2. rewrite (Hnone r Hr). reflexivity. }
  split.
  - rewrite Hw2. apply keep_rows_from_none. intros r _. unfold del2.
    destruct (Nat.leb_spec DATA_START_ROW r); [|reflexivity].
    destruct (Nat.leb_spec r (data_end_row ws)); [|reflexivity].
    simpl. apply Hout, In_row_range. lia.
  - rewrite Hr2, (proj2 (no_rows_inside _ _) Hin). reflexivity.
Qed.

End Filter.

Example filter1_on_sample :
  out_ws (@filter_rows_by_date_range1 RefLib sample_october (Some early_october_2025))
  = replicate 13 [] ++ [sample_header; []]
    ++ [ movement (VStr (U "15/10/2025")) (VStr (U "REF1")) (VStr (U "WD"))
           (VStr (U " Retiro cajero ")) (VNum 100) VNone;
         movement (VStr (U "sin fecha")) (VStr (U "REF2")) (VStr (U "DP"))
           (VStr (U "Depósito")) VNone (VNum 50) ].
Proof. vm_compute. reflexivity. Qed.

(** C10 (the code misses a case). The text branch of case 2's
    [_parse_date_from_value] catches only [ValueError]: a date cell whose
    text is a number of days past the year 9999, such as ["3000000"],
    makes the date arithmetic raise [OverflowError], which leaves the filter
    and [_create_formatted_workbook] and is swallowed by
    [_enhance_excel_attachment]: the attachment gives no output at all,
    where case 1 reads the same cell as no date, keeps the row and
    produces the workbook. Apart from such cells the claim holds: case 1
    always, and case 2 when no date cell makes its parser raise, delete
    exactly the data rows whose date parses to a date outside the range, so
    a row whose date cell gives no date is kept and not counted; the
    zero-rows outcome (the warning of case 1, the exception of case 2)
    occurs exactly when no data row has a date inside the range; and a
    sheet whose data rows all have such cells is left as it is and gives
    that outcome. *)
Theorem overflowing_date_text_drops_the_attachment :
  (cell sample_overflow 17 1 = VStr (U "3000000")
   /\ @parse_date_value RefLib (VStr (U "3000000")) = None
   /\ @parse_date_from_value RefLib (VStr (U "3000000")) = Raise OverflowError
   /\ List.filter
        (@inside_range1 RefLib sample_overflow 1 (fst october_2025) (snd october_2025))
        (@data_region RefLib sample_overflow) = [16]
   /\ out_ws (@filter_rows_by_date_range1 RefLib sample_overflow (Some october_2025))
      = sample_overflow
   /\ @enhance_excel_attachment1 RefLib worksheet (fun ws => ws) (fun ws => Some ws)
        (fun _ => None) (Some sample_overflow) (Some october_2025)
      = Some [sample_overflow]
   /\ out_result (@filter_rows_by_date_range2 RefLib sample_overflow (Some october_2025))
      = Raise OverflowError
   /\ @enhance_excel_attachment2 RefLib worksheet (fun ws => ws) (fun ws => Some ws)
        (Some sample_overflow) (Some october_2025)
      = Ok None
   /\ @process_email2 RefLib worksheet (fun ws => ws) (fun ws => Some ws)
        [Some sample_overflow] (Some october_2025)
      = NoResponse)
  /\ (forall (L : PyLib) (artifact : Type) (prepare : worksheet -> worksheet)
             (finish : worksheet -> option artifact) (data_rows : worksheet)
             (range : datetime * datetime) (dc r : nat) (err : exn),
        data_rows <> [] ->
        let ws := prepare data_rows in
        DATA_START_ROW <= max_row ws ->
        date_column_of ws = Some dc ->
        DATA_START_ROW <= data_end_row ws ->
        In r (data_region ws) ->
        parse_date_from_value (cell ws r dc) = Raise err ->
        out_result (filter_rows_by_date_range2 ws (Some range)) = Raise OverflowError
        /\ create_formatted_workbook2 prepare finish data_rows (Some range)
           = Raise OverflowError
        /\ enhance_excel_attachment2 prepare finish (Some data_rows) (Some range)
           = Ok None)
  /\ (forall (L : PyLib) (ws : worksheet) (range : datetime * datetime) (dc : nat),
        DATA_START_ROW <= max_row ws ->
        date_column_of ws = Some dc ->
        DATA_START_ROW <= data_end_row ws ->
        let s := fst (normalize_range range) in
        let e := snd (normalize_range range) in
        let o1 := filter_rows_by_date_range1 ws (Some range) in
        let del1 := fun r => (DATA_START_ROW <=? r) && (r <=? data_end_row ws)
                             && outside_range1 ws dc s e r in
        out_ws o1 = keep_rows_from 1 del1 ws
        /\ out_result o1 = Ok tt
        /\ (forall r, parse_date_value (cell ws r dc) = None ->
                      del1 r = false /\ inside_range1 ws dc s e r = false)
        /\ (In (LogNoMovementsInRange s e) (out_log o1) <->
            forall r, In r (data_region ws) -> inside_range1 ws dc s e r = false)
        /\ ((forall r, In r (data_region ws) ->
                       parse_date_value (cell ws r dc) = None) ->
            out_ws o1 = ws /\ out_log o1 = [LogNoMovementsInRange s e]))
  /\ (forall (L : PyLib) (ws : worksheet) (range : datetime * datetime) (dc : nat),
        DATA_START_ROW <= max_row ws ->
        date_column_of ws = Some dc ->
        DATA_START_ROW <= data_end_row ws ->
        parses2 ws dc (data_region ws) ->
        let s := fst (normalize_range range) in
        let e := snd (normalize_range range) in
        let o2 := filter_rows_by_date_range2 ws (Some range) in
        let del2 := fun r => (DATA_START_ROW <=? r) && (r <=? data_end_row ws)
                             && outside_range2 ws dc s e r in
        out_ws o2 = keep_rows_from 1 del2 ws
        /\ (forall r, parse_date_from_value (cell ws r dc) = Ok None ->
                      del2 r = false /\ inside_range2 ws dc s e r = false)
        /\ (out_result o2 = Raise DateRangeNotFoundError <->
            forall r, In r (data_region ws) -> inside_range2 ws dc s e r = false)
        /\ ((forall r, In r (data_region ws) ->
                       parse_date_from_value (cell ws r dc) = Ok None) ->
            out_ws o2 = ws /\ out_result o2 = Raise DateRangeNotFoundError)).
Proof.
  split; [repeat split; vm_compute; reflexivity|].
  split.
  { intros L artifact prepare finish data_rows range dc r err Hne ws Hmax Hdc Hend
           Hin Hr.
    destruct (filter2_overflow ws range dc r err Hmax Hdc Hend Hin Hr) as [_ Hres].
    assert (Hc : create_formatted_workbook2 prepare finish data_rows (Some range)
                 = Raise OverflowError).
    { unfold create_formatted_workbook2. destruct data_rows; [contradiction|].
      fold ws. rewrite Hres. reflexivity. }
    split; [exact Hres|]. split; [exact Hc|].
    unfold enhance_excel_attachment2. rewrite Hc. reflexivity. }
  split.
  - intros L ws range dc. exact (filter1_keeps_unparsable ws range dc).
  - intros L ws range dc. exact (filter2_keeps_unparsable ws range dc).
Qed.

(** ** Attachments without movements in the range *)

Section EmptyRange.
Context {L : PyLib} {artifact : Type}.
Variable prepare : worksheet -> worksheet.
Variable finish : worksheet -> option artifact.

Lemma collect_processed_acc (attachments : list (option worksheet))
    (date_range : option (datetime * datetime)) (acc : list artifact * nat) :
  fold_left
    (fun acc attachment =>
       match enhance_excel_attachment2 prepare finish attachment date_range with
       | Ok (Some processed) => (fst acc ++ [processed], snd acc)
       | Ok None => acc
       | Raise _ => (fst acc, S (snd acc))
       end)
    attachments acc
  = (fst acc ++ fst (collect_processed prepare finish attachments date_range),
     snd acc + snd (collect_processed prepare finish attachments date_range)).
Proof.
  unfold collect_processed. revert acc.
  induction attachments as [|a l IH]; intros [files n]; simpl.
  - rewrite app_nil_r, Nat.add_0_r. reflexivity.
  - rewrite IH. rewrite (IH (match _ with Ok (Some _) => _ | Ok None => _ | Raise _ => _ end)).
    destruct (enhance_excel_attachment2 prepare finish a date_range) as [[p|]|err]; simpl.
    + rewrite <- app_assoc. reflexivity.
    + reflexivity.
    + f_equal. lia.
Qed.

Lemma collect_processed_app (l1 l2 : list (option worksheet))
    (date_range : option (datetime * datetime)) :
  collect_processed prepare finish (l1 ++ l2) date_range
  = (fst (collect_processed prepare finish l1 date_range)
       ++ fst (collect_processed prepare finish l2 date_range),
     snd (collect_processed prepare finish l1 date_range)
       + snd (collect_processed prepare finish l2 date_range)).
Proof.
  unfold collect_processed at 1. rewrite fold_left_app.
  fold (collect_processed prepare finish l1 date_range).
  apply collect_processed_acc.
Qed.

Lemma collect_processed_raise (a : option worksheet) (l : list (option worksheet))
    (date_range : option (datetime * datetime)) (err : exn) :
  enhance_excel_attachment2 prepare finish a date_range = Raise err ->
  collect_processed prepare finish (a :: l) date_range
  = (fst (collect_processed prepare finish l date_range),
     S (snd (collect_processed prepare finish l date_range))).
Proof.
  intros H. unfold collect_processed at 1. simpl. rewrite H.
  rewrite collect_processed_acc. reflexivity.
Qed.

End EmptyRange.

(** C1 (as stated, for every sheet and both cases). The statement of
    October filtered to November has no row in the range, yet case 1 only
    logs it and returns the formatted workbook, keeping the row whose date
    cannot be parsed; and on a sheet without a date column case 2 returns
    normally with the workbook. *)
Lemma empty_range_without_failure :
  List.filter
    (@inside_range1 RefLib sample_october 1 (fst november_2025) (snd november_2025))
    (@data_region RefLib sample_october) = []
  /\ out_result (@filter_rows_by_date_range1 RefLib sample_october (Some november_2025))
     = Ok tt
  /\ out_log (@filter_rows_by_date_range1 RefLib sample_october (Some november_2025))
     = [LogRowsDeleted 2; LogNoMovementsInRange (fst november_2025) (snd november_2025)]
  /\ @enhance_excel_attachment1 RefLib worksheet (fun ws => ws) (fun ws => Some ws)
       (fun _ => None) (Some sample_october) (Some november_2025)
     = Some [replicate 13 [] ++ [sample_header; []]
             ++ [movement (VStr (U "sin fecha")) (VStr (U "REF2")) (VStr (U "DP"))
                   (VStr (U "Depósito")) VNone (VNum 50)]]
  /\ @date_column_of RefLib sample_undated = None
  /\ out_result (@filter_rows_by_date_range2 RefLib sample_undated (Some november_2025))
     = Ok tt
  /\ @enhance_excel_attachment2 RefLib worksheet (fun ws => ws) (fun ws => Some ws)
       (Some sample_undated) (Some november_2025)
     = Ok (Some sample_undated).
Proof. repeat split; vm_compute; reflexivity. Qed.

(** C1 (amended). In case 2, when a date range is supplied, the prepared
    sheet has at least 16 rows, a date column and a non-empty data region,
    no date cell makes the parser raise, and no data row has a parsable
    date inside the normalised range, the filter raises
    [DateRangeNotFoundError]; [_create_formatted_workbook] and
    [_enhance_excel_attachment] let it through, the attachment adds no
    artifact and counts as a file with an invalid range, and when no other
    attachment of the message gives a processed file the reply is the
    invalid-range response. When the sheet has fewer than 16 rows, no date
    column or an empty data region, the filter of case 2 returns without
    failing and leaves the sheet as it is. In case 1 the filter never
    fails: the workbook is produced from the filtered sheet, and a range
    without rows is only logged. *)
Theorem empty_range_raises_in_case2 (L : PyLib) (artifact : Type)
    (prepare : worksheet -> worksheet) (finish : worksheet -> option artifact)
    (data_rows : worksheet) (range : datetime * datetime)
    (before after : list (option worksheet)) :
  data_rows <> [] ->
  let ws := prepare data_rows in
  let s := fst (normalize_range range) in
  let e := snd (normalize_range range) in
  let attachments := before ++ Some data_rows :: after in
  (forall dc,
      DATA_START_ROW <= max_row ws ->
      date_column_of ws = Some dc ->
      DATA_START_ROW <= data_end_row ws ->
      parses2 ws dc (data_region ws) ->
      (forall r, In r (data_region ws) -> inside_range2 ws dc s e r = false) ->
      out_result (filter_rows_by_date_range2 ws (Some range))
      = Raise DateRangeNotFoundError
      /\ create_formatted_workbook2 prepare finish data_rows (Some range)
         = Raise DateRangeNotFoundError
      /\ enhance_excel_attachment2 prepare finish (Some data_rows) (Some range)
         = Raise DateRangeNotFoundError
      /\ collect_processed prepare finish attachments (Some range)
         = (fst (collect_processed prepare finish before (Some range))
              ++ fst (collect_processed prepare finish after (Some range)),
            snd (collect_processed prepare finish before (Some range))
              + S (snd (collect_processed prepare finish after (Some range))))
      /\ (fst (collect_processed prepare finish before (Some range)) = [] ->
          fst (collect_processed prepare finish after (Some range)) = [] ->
          process_email2 prepare finish attachments (Some range)
          = InvalidRangeResponse (fst range) (snd range)))
  /\ (max_row ws < DATA_START_ROW \/ date_column_of ws = None
      \/ data_end_row ws < DATA_START_ROW ->
      out_result (filter_rows_by_date_range2 ws (Some range)) = Ok tt
      /\ out_ws (filter_rows_by_date_range2 ws (Some range)) = ws
      /\ create_formatted_workbook2 prepare finish data_rows (Some range)
         = Ok (finish ws)
      /\ enhance_excel_attachment2 prepare finish (Some data_rows) (Some range)
         = Ok (finish ws))
  /\ out_result (filter_rows_by_date_range1 ws (Some range)) = Ok tt
  /\ create_formatted_workbook1 prepare finish data_rows (Some range)
     = finish (out_ws (filter_rows_by_date_range1 ws (Some range)))
  /\ (forall dc,
        DATA_START_ROW <= max_row ws ->
        date_column_of ws = Some dc ->
        DATA_START_ROW <= data_end_row ws ->
        (forall r, In r (data_region ws) -> inside_range1 ws dc s e r = false) ->
        In (LogNoMovementsInRange s e)
           (out_log (filter_rows_by_date_range1 ws (Some range)))).
Proof.
  intros Hne ws s e attachments.
  split; [|split; [|split; [|split]]].
  - intros dc Hmax Hdc Hend Hp Hzero.
    destruct (filter2_outcome ws range dc Hmax Hdc Hend Hp) as (_ & Hr2).
    fold s e in Hr2. rewrite (proj2 (no_rows_inside _ _) Hzero) in Hr2.
    cbn [Nat.eqb] in Hr2.
    assert (Hc : create_formatted_workbook2 prepare finish data_rows (Some range)
                 = Raise DateRangeNotFoundError).
    { unfold create_formatted_workbook2. destruct data_rows; [contradiction|].
      fold ws. rewrite Hr2. reflexivity. }
    assert (He : enhance_excel_attachment2 prepare finish (Some data_rows) (Some range)
                 = Raise DateRangeNotFoundError).
    { unfold enhance_excel_attachment2. rewrite Hc. reflexivity. }
    assert (Hcol : collect_processed prepare finish attachments (Some range)
      = (fst (collect_processed prepare finish before (Some range))
           ++ fst (collect_processed prepare finish after (Some range)),
         snd (collect_processed prepare finish before (Some range))
           + S (snd (collect_processed prepare finish after (Some range))))).
    { unfold attachments. rewrite collect_processed_app.
      rewrite (collect_processed_raise prepare finish _ _ _ _ He). reflexivity. }
    split; [exact Hr2|]. split; [exact Hc|]. split; [exact He|].
    split; [exact Hcol|].
    intros Hb Ha. unfold process_email2.
    destruct attachments as [|a0 rest] eqn:E.
    { unfold attachments in E. destruct before; discriminate. }
    rewrite Hcol, Hb, Ha. cbn [app]. destruct range as [a b]. cbn [fst snd].
    replace (0 <? _) with true by (symmetry; apply Nat.ltb_lt; lia).
    reflexivity.
  - intros Hg. destruct (filter2_guards ws range Hg) as [Hw Hr].
    split; [exact Hr|]. split; [exact Hw|].
    assert (Hc : create_formatted_workbook2 prepare finish data_rows (Some range)
                 = Ok (finish ws)).
    { unfold create_formatted_workbook2. destruct data_rows; [contradiction|].
      fold ws. rewrite Hr, Hw. reflexivity. }
    split; [exact Hc|].
    unfold enhance_excel_attachment2. rewrite Hc. reflexivity.
  - apply filter1_returns.
  - unfold create_formatted_workbook1. destruct data_rows; [contradiction|]. reflexivity.
  - intros dc Hmax Hdc Hend Hzero1.
    destruct (filter1_outcome ws range dc Hmax Hdc Hend) as (_ & _ & Hl1).
    fold s e in Hl1.
    rewrite Hl1, (proj2 (no_rows_inside _ _) Hzero1). apply in_or_app. right.
    left. reflexivity.
Qed.

Lemma empty_range_raises_in_case2_witness :
  sample_october <> []
  /\ out_result (@filter_rows_by_date_range2 RefLib sample_october (Some november_2025))
     = Raise DateRangeNotFoundError
  /\ @process_email2 RefLib worksheet (fun ws => ws) (fun ws => Some ws)
       [None; Some sample_october] (Some november_2025)
     = InvalidRangeResponse (fst november_2025) (snd november_2025)
  /\ out_result (@filter_rows_by_date_range1 RefLib sample_october (Some november_2025))
     = Ok tt.
Proof.
  assert (H0 : sample_october <> []) by discriminate.
  assert (H1 : DATA_START_ROW <= max_row sample_october) by (vm_compute; lia).
  assert (H2 : @date_column_of RefLib sample_october = Some 1)
    by (vm_compute; reflexivity).
  assert (H3 : DATA_START_ROW <= @data_end_row RefLib sample_october)
    by (vm_compute; lia).
  assert (H4 : @parses2 RefLib sample_october 1 (@data_region RefLib sample_october)).
  { intros r Hr. vm_compute in Hr.
    destruct Hr as [<-|[<-|[<-|[]]]]; eexists; vm_compute; reflexivity. }
  assert (H5 : forall r, In r (@data_region RefLib sample_october) ->
                 @inside_range2 RefLib sample_october 1
                   (fst (normalize_range november_2025))
                   (snd (normalize_range november_2025)) r = false).
  { intros r Hr. vm_compute in Hr.
    destruct Hr as [<-|[<-|[<-|[]]]]; vm_compute; reflexivity. }
  pose proof (empty_range_raises_in_case2 RefLib worksheet (fun ws => ws)
                (fun ws => Some ws) sample_october november_2025 [None] [] H0) as H.
  cbv zeta in H. destruct H as (Hraise & _ & Hone & _).
  destruct (Hraise 1 H1 H2 H3 H4 H5) as (Hr & _ & _ & _ & Hreply).
  split; [exact H0|]. split; [exact Hr|].
  split; [exact (Hreply eq_refl eq_refl)|exact Hone].
Defined.

(** ** Duplicate references *)

Section Duplicates.
Context {L : PyLib}.

Lemma group_append_In (k : ustr) (r : nat) (groups : reference_groups)
    (k' : ustr) (l' : list nat) :
  List.NoDup (map fst groups) ->
  In (k', l') (group_append k r groups) <->
  (k' <> k /\ In (k', l') groups)
  \/ (k' = k /\ exists l, l' = l ++ [r]
                          /\ (In (k, l) groups \/ (l = [] /\ ~ In k (map fst groups)))).
Proof.
  intros Hnd. unfold group_append.
  destruct (existsb _ groups) eqn:E.
  - apply existsb_exists in E as [[k0 l0] [Hin0 Hk0]]. simpl in Hk0.
    apply ustr_eqb_eq in Hk0. subst k0.
    rewrite in_map_iff. split.
    + intros [[k1 l1] [Heq Hin]]. simpl in Heq.
      destruct (ustr_eqb k1 k) eqn:Ek.
      * apply ustr_eqb_eq in Ek. subst k1. inversion Heq; subst.
        right. split; [reflexivity|]. exists l1. split; [reflexivity|]. left. exact Hin.
      * apply ustr_eqb_neq in Ek. inversion Heq; subst.
        left. split; [exact Ek|exact Hin].
    + intros [[Hne Hin]|[-> [l [-> [Hin|[-> Hnin]]]]]].
      * exists (k', l'). simpl. split; [|exact Hin].
        destruct (ustr_eqb k' k) eqn:Ek; [apply ustr_eqb_eq in Ek; contradiction|reflexivity].
      * exists (k, l). simpl. split; [|exact Hin].
        unfold ustr_eqb. rewrite bool_decide_eq_true_2 by reflexivity. reflexivity.
      * exfalso. apply Hnin. change k with (fst (k, l0)). apply in_map, Hin0.
  - assert (Hnin : ~ In k (map fst groups)).
    { intros Hin. apply in_map_iff in Hin as [[k1 l1] [Hk Hin]]. simpl in Hk. subst k1.
      assert (Hex : existsb (fun g : ustr * list nat => ustr_eqb (fst g) k) groups = true).
      { apply existsb_exists. exists (k, l1). split; [exact Hin|]. simpl.
        apply ustr_eqb_eq. reflexivity. }
      congruence. }
    rewrite in_app_iff. simpl. split.
    + intros [Hin|[Heq|[]]].
      * left. split; [|exact Hin]. intros ->. apply Hnin.
        change k with (fst (k, l')). apply in_map, Hin.
      * inversion Heq; subst. right. split; [reflexivity|]. exists []. auto.
    + intros [[Hne Hin]|[-> [l [-> [Hin|[-> _]]]]]].
      * left. exact Hin.
      * exfalso. apply Hnin. change k with (fst (k, l)). apply in_map, Hin.
      * right. left. reflexivity.
Qed.

Lemma group_append_keys (k : ustr) (r : nat) (groups : reference_groups) :
  List.NoDup (map fst groups) ->
  List.NoDup (map fst (group_append k r groups))
  /\ (forall k', In k' (map fst (group_append k r groups)) <->
                 k' = k \/ In k' (map fst groups)).
Proof.
  intros Hnd. unfold group_append.
  destruct (existsb _ groups) eqn:E.
  - assert (Hmap : map fst (map (fun g : ustr * list nat =>
        if ustr_eqb (fst g) k then (fst g, snd g ++ [r]) else g) groups) = map fst groups).
    { rewrite map_map. apply map_ext. intros [k1 l1]. simpl.
      destruct (ustr_eqb k1 k); reflexivity. }
    rewrite Hmap. split; [exact Hnd|]. intros k'. split; [auto|].
    intros [->|H]; [|exact H].
    apply existsb_exists in E as [[k0 l0] [Hin0 Hk0]]. simpl in Hk0.
    apply ustr_eqb_eq in Hk0. subst k0. change k with (fst (k, l0)). apply in_map, Hin0.
  - rewrite map_app. simpl. split.
    + apply NoDup_ListNoDup, NoDup_app. split; [apply NoDup_ListNoDup, Hnd|]. split.
      * intros x Hx Hx'. apply list_elem_of_In in Hx. apply list_elem_of_In in Hx'.
        destruct Hx' as [<-|[]].
        apply in_map_iff in Hx as [[k1 l1] [Hk Hin]]. simpl in Hk. subst k1.
        assert (Hex : existsb (fun g : ustr * list nat => ustr_eqb (fst g) k) groups = true).
        { apply existsb_exists. exists (k, l1). split; [exact Hin|]. simpl.
          apply ustr_eqb_eq. reflexivity. }
        congruence.
      * apply NoDup_singleton.
    + intros k'. rewrite in_app_iff. simpl. intuition.
Qed.

Lemma filter_snoc (P : nat -> bool) (rows : list nat) (r : nat) :
  List.filter P (rows ++ [r]) = List.filter P rows ++ (if P r then [r] else []).
Proof. rewrite List.filter_app. simpl. destruct (P r); reflexivity. Qed.

(** The groups are the non-empty lists of rows with each reference. *)
Lemma collect_references_spec (ws : worksheet) (rc : nat) (rows : list nat) :
  let groups := collect_references ws rc rows in
  List.NoDup (map fst groups)
  /\ forall k l, In (k, l) groups <->
                 l = List.filter (key_is ws rc k) rows /\ l <> [].
Proof.
  unfold collect_references.
  induction rows as [|r rows IH] using rev_ind.
  - simpl. split; [constructor|]. intros k l. split; [intros []|intros [-> H]; congruence].
  - rewrite fold_left_app. simpl.
    set (groups := fold_left _ rows []) in *.
    destruct IH as [Hnd Hin].
    destruct (reference_key (cell ws r rc)) as [k0|] eqn:Ek.
    + split; [apply group_append_keys, Hnd|].
      intros k l. rewrite (group_append_In k0 r groups k l Hnd), filter_snoc.
      unfold key_is at 2. rewrite Ek.
      destruct (ustr_eqb k0 k) eqn:E.
      * apply ustr_eqb_eq in E. subst k0. split.
        -- intros [[Hne _]|[_ [l0 [-> [H|[-> Hnin]]]]]]; [congruence| |].
           ++ apply Hin in H as [<- _]. split; [reflexivity|]. destruct l0; discriminate.
           ++ split; [|discriminate].
              destruct (List.filter (key_is ws rc k) rows) as [|x t] eqn:Ef; [reflexivity|].
              exfalso. apply Hnin. change k with (fst (k, x :: t)).
              apply in_map, Hin. split; [symmetry; exact Ef|discriminate].
        -- intros [-> _]. right. split; [reflexivity|].
           exists (List.filter (key_is ws rc k) rows). split; [reflexivity|].
           destruct (List.filter (key_is ws rc k) rows) as [|x t] eqn:Ef.
           ++ right. split; [reflexivity|]. intros Hk.
              apply in_map_iff in Hk as [[k1 l1] [Hk Hl]]. simpl in Hk. subst k1.
              apply Hin in Hl as [-> Hl]. apply Hl. exact Ef.
           ++ left. apply Hin. split; [symmetry; exact Ef|discriminate].
      * apply ustr_eqb_neq in E. rewrite app_nil_r. split.
        -- intros [[_ H]|[-> _]]; [apply Hin, H|congruence].
        -- intros H. left. split; [congruence|apply Hin, H].
    + split; [exact Hnd|]. intros k l. rewrite filter_snoc.
      unfold key_is at 2. rewrite Ek, app_nil_r. apply Hin.
Qed.

Lemma key_is_true (ws : worksheet) (rc : nat) (k : ustr) (r : nat) :
  key_is ws rc k r = true <-> reference_key (cell ws r rc) = Some k.
Proof.
  unfold key_is. destruct (reference_key (cell ws r rc)) as [k'|]; [|split; discriminate].
  rewrite ustr_eqb_eq. split; congruence.
Qed.

Lemma groups_disjoint (ws : worksheet) (rc : nat) (groups : reference_groups) :
  List.NoDup (map fst groups) ->
  (forall k l r, In (k, l) groups -> In r l -> reference_key (cell ws r rc) = Some k) ->
  disjoint_feet snd groups.
Proof.
  induction groups as [|[k l] groups IH]; intros Hnd Hkey; [constructor|].
  inversion Hnd as [|? ? Hk Hnd']; subst. constructor.
  - apply Forall_forall. intros [k' l'] Hin r Hr Hr'. simpl in Hr, Hr'.
    apply list_elem_of_In in Hin.
    assert (H1 : reference_key (cell ws r rc) = Some k).
    { apply (Hkey k l r); [left; reflexivity|exact Hr]. }
    assert (H2 : reference_key (cell ws r rc) = Some k').
    { apply (Hkey k' l' r); [right; exact Hin|exact Hr']. }
    apply Hk. assert (k = k') by congruence. subst k'.
    change k with (fst (k, l')). apply in_map, Hin.
  - apply IH; [exact Hnd'|]. intros k' l' r Hin. apply Hkey. right. exact Hin.
Qed.

Lemma NoDup_filter_list (P : nat -> bool) (rows : list nat) :
  List.NoDup rows -> List.NoDup (List.filter P rows).
Proof. apply List.NoDup_filter. Qed.

Lemma groups_good (ws : worksheet) (rc : nat) (rows : list nat) :
  List.NoDup rows -> (forall r, In r rows -> 1 <= r) ->
  Forall good_group (collect_references ws rc rows).
Proof.
  intros Hnd Hpos. destruct (collect_references_spec ws rc rows) as [_ Hin].
  apply Forall_forall. intros [k l] Hg. apply list_elem_of_In, Hin in Hg as [Hl _].
  unfold good_group. simpl. destruct l as [|r1 [|r2 [|r3 l]]]; try exact I.
  assert (Hnd' : List.NoDup [r1; r2]) by (rewrite Hl; apply NoDup_filter_list, Hnd).
  assert (H1 : In r1 rows).
  { assert (H : In r1 [r1; r2]) by (left; reflexivity).
    rewrite Hl in H. apply filter_In in H. tauto. }
  assert (H2 : In r2 rows).
  { assert (H : In r2 [r1; r2]) by (right; left; reflexivity).
    rewrite Hl in H. apply filter_In in H. tauto. }
  split; [apply Hpos, H1|]. split; [apply Hpos, H2|].
  inversion Hnd' as [|? ? Hn _]; subst. intros ->. apply Hn. left. reflexivity.
Qed.

Lemma cell_set_cell (ws : worksheet) (r c r' c' : nat) (v : value) :
  1 <= r -> 1 <= c ->
  cell (set_cell ws r c v) r' c' = if (r' =? r) && (c' =? c) then v else cell ws r' c'.
Proof.
  intros Hr Hc. destruct (Nat.eqb_spec r' r) as [->|Hne]; simpl.
  - destruct (Nat.eqb_spec c' c) as [->|Hne].
    + apply cell_set_cell_same; assumption.
    + apply cell_set_cell_other. right. congruence.
  - apply cell_set_cell_other. left. congruence.
Qed.

Lemma pair_roles_Some (row1 row2 : nat) (code1 code2 : ustr) (wd tv : nat) (code : ustr) :
  pair_roles row1 row2 code1 code2 = Some (wd, tv, code) ->
  ((wd = row1 /\ tv = row2 /\ code = code1 /\ code2 = THREE_V)
   \/ (wd = row2 /\ tv = row1 /\ code = code2 /\ code1 = THREE_V))
  /\ (code = WD \/ code = WC).
Proof.
  unfold pair_roles, is_wd_wc.
  destruct ((ustr_eqb code1 WD || ustr_eqb code1 WC) && ustr_eqb code2 THREE_V) eqn:E1.
  - intros [= <- <- <-]. apply andb_true_iff in E1 as [Ha Hb].
    apply ustr_eqb_eq in Hb. apply orb_true_iff in Ha.
    rewrite !ustr_eqb_eq in Ha. split; [left; auto|exact Ha].
  - destruct ((ustr_eqb code2 WD || ustr_eqb code2 WC) && ustr_eqb code1 THREE_V) eqn:E2;
      [|discriminate].
    intros [= <- <- <-]. apply andb_true_iff in E2 as [Ha Hb].
    apply ustr_eqb_eq in Hb. apply orb_true_iff in Ha.
    rewrite !ustr_eqb_eq in Ha. split; [right; auto|exact Ha].
Qed.

(** One iteration of the loop over the groups, on a pair of rows. *)
Lemma process_group_cell (cc dc : nat) (ws : worksheet) (k : ustr) (row1 row2 r c : nat) :
  1 <= cc -> 1 <= dc -> cc <> dc ->
  1 <= row1 -> 1 <= row2 -> row1 <> row2 ->
  cell (process_group cc dc ws (k, [row1; row2])) r c
  = pair_cell cc dc (cell ws) row1 row2 r c.
Proof.
  intros Hcc Hdc Hne H1 H2 Hrows. unfold process_group, pair_cell. cbn [snd]. cbv zeta.
  destruct (pair_roles row1 row2 _ _) as [[[wd tv] code]|] eqn:E; [|reflexivity].
  apply pair_roles_Some in E as [Hroles Hcode].
  assert (Hwd : 1 <= wd) by (destruct Hroles as [(-> & _)|(-> & _)]; assumption).
  assert (Htv : 1 <= tv) by (destruct Hroles as [(_ & -> & _)|(_ & -> & _)]; assumption).
  assert (Hdiff : wd <> tv) by (destruct Hroles as [(-> & -> & _)|(-> & -> & _)]; congruence).
  set (ws1 := if ustr_eqb code WD then set_cell ws wd cc (VStr T_D)
              else if ustr_eqb code WC then set_cell ws wd cc (VStr T_C) else ws).
  assert (E1 : ws1 = set_cell ws wd cc (VStr (transfer_tag code))).
  { subst ws1. unfold transfer_tag. destruct Hcode as [-> | ->]; reflexivity. }
  rewrite E1. clear ws1 E1.
  rewrite !cell_set_cell by assumption.
  destruct (Nat.eqb_spec wd tv) as [|_]; [contradiction|].
  destruct (Nat.eqb_spec dc cc) as [|_]; [congruence|].
  rewrite ?andb_false_r. cbn [andb]. reflexivity.
Qed.

Lemma pair_cell_outside (cc dc : nat) (read : nat -> nat -> value)
    (row1 row2 r c : nat) :
  r <> row1 -> r <> row2 -> pair_cell cc dc read row1 row2 r c = read r c.
Proof.
  intros H1 H2. unfold pair_cell.
  destruct (pair_roles row1 row2 _ _) as [[[wd tv] code]|] eqn:E; [|reflexivity].
  apply pair_roles_Some in E as [Hroles _].
  assert (Hwd : r <> wd) by (destruct Hroles as [(-> & _)|(-> & _)]; assumption).
  assert (Htv : r <> tv) by (destruct Hroles as [(_ & -> & _)|(_ & -> & _)]; assumption).
  destruct (Nat.eqb_spec r tv); [contradiction|].
  destruct (Nat.eqb_spec r wd); [contradiction|]. reflexivity.
Qed.

Lemma pair_cell_ext (cc dc : nat) (read read' : nat -> nat -> value)
    (row1 row2 r c : nat) :
  (forall x y, x = row1 \/ x = row2 -> read x y = read' x y) ->
  r = row1 \/ r = row2 ->
  pair_cell cc dc read row1 row2 r c = pair_cell cc dc read' row1 row2 r c.
Proof.
  intros H Hr. unfold pair_cell.
  rewrite <- (H row1 cc) by (left; reflexivity).
  rewrite <- (H row2 cc) by (right; reflexivity).
  destruct (pair_roles row1 row2 _ _) as [[[wd tv] code]|] eqn:E; [|apply H, Hr].
  apply pair_roles_Some in E as [Hroles _].
  assert (Hwd : wd = row1 \/ wd = row2) by (destruct Hroles as [(-> & _)|(-> & _)]; auto).
  rewrite <- (H wd dc Hwd), <- (H r c Hr). reflexivity.
Qed.

Lemma process_group_frame (cc dc : nat) (ws : worksheet) (g : ustr * list nat)
    (r c : nat) :
  1 <= cc -> 1 <= dc -> cc <> dc ->
  good_group g -> ~ In r (snd g) ->
  cell (process_group cc dc ws g) r c = cell ws r c.
Proof.
  intros Hcc Hdc Hne Hg Hr. destruct g as [k l]. unfold good_group in Hg. simpl in Hg, Hr.
  destruct l as [|r1 [|r2 [|r3 l]]]; try reflexivity.
  destruct Hg as (H1 & H2 & H12).
  rewrite process_group_cell by assumption.
  apply pair_cell_outside; intros ->; apply Hr; simpl; auto.
Qed.

Lemma process_group_local (cc dc : nat) (ws ws' : worksheet) (g : ustr * list nat) :
  1 <= cc -> 1 <= dc -> cc <> dc ->
  good_group g ->
  (forall r c, In r (snd g) -> cell ws r c = cell ws' r c) ->
  forall r c, In r (snd g) ->
    cell (process_group cc dc ws g) r c = cell (process_group cc dc ws' g) r c.
Proof.
  intros Hcc Hdc Hne Hg H r c Hr. destruct g as [k l]. unfold good_group in Hg.
  simpl in Hg, H, Hr.
  destruct l as [|r1 [|r2 [|r3 l]]]; try (apply H, Hr).
  destruct Hg as (H1 & H2 & H12).
  rewrite !process_group_cell by assumption.
  apply pair_cell_ext.
  - intros x y [->| ->]; apply H; simpl; auto.
  - destruct Hr as [<-|[<-|[]]]; auto.
Qed.

(** Every cell after [_process_duplicate_references]. *)
Lemma process_duplicate_references_cell (ws : worksheet) (rc cc dc r c : nat) :
  DATA_START_ROW <= max_row ws ->
  duplicate_columns ws rc cc dc ->
  cell (process_duplicate_references ws) r c = duplicates_cell ws rc cc dc r c.
Proof.
  intros Hmax (Hrc & Hcc & Hdc). unfold process_duplicate_references.
  destruct (Nat.ltb_spec (max_row ws) HEADER_ROW); [unfold HEADER_ROW, DATA_START_ROW in *; lia|].
  rewrite Hrc, Hcc, Hdc.
  destruct (Nat.ltb_spec (max_row ws) DATA_START_ROW); [lia|].
  fold (data_region ws).
  assert (Hcc1 : 1 <= cc) by (apply valid_column_Some in Hcc; tauto).
  assert (Hdc1 : 1 <= dc) by (apply valid_column_Some in Hdc; tauto).
  assert (Hne : cc <> dc).
  { apply (valid_columns_distinct ws (max_column ws) (U "codigo") (U "descripcion") cc dc
             Hcc Hdc). vm_compute. discriminate. }
  set (groups := collect_references ws rc (data_region ws)).
  destruct (collect_references_spec ws rc (data_region ws)) as [Hnd Hin].
  fold groups in Hnd, Hin.
  assert (Hpos : forall x, In x (data_region ws) -> 1 <= x).
  { intros x Hx. apply In_row_range in Hx. unfold DATA_START_ROW in Hx. lia. }
  assert (Hgood : Forall good_group groups).
  { apply groups_good; [apply NoDup_row_range|exact Hpos]. }
  assert (Hkey : forall k l x, In (k, l) groups -> In x l ->
                   In x (data_region ws) /\ reference_key (cell ws x rc) = Some k).
  { intros k l x Hg Hx. apply Hin in Hg as [-> _].
    apply filter_In in Hx as [Hx Hk]. split; [exact Hx|apply key_is_true, Hk]. }
  assert (Hdisj : disjoint_feet snd groups).
  { apply (groups_disjoint ws rc); [exact Hnd|]. intros k l x Hg Hx.
    apply (Hkey k l x Hg Hx). }
  destruct (fold_disjoint_cell (process_group cc dc) snd good_group
              (fun w i r c => process_group_frame cc dc w i r c Hcc1 Hdc1 Hne)
              (fun w w' i => process_group_local cc dc w w' i Hcc1 Hdc1 Hne)
              groups Hgood Hdisj ws r c) as [F1 F2].
  unfold duplicates_cell.
  destruct (reference_key (cell ws r rc)) as [k|] eqn:Ek.
  - destruct (row_in (data_region ws) r) eqn:Er.
    + assert (Hr : In r (data_region ws)).
      { unfold row_in in Er. apply existsb_exists in Er as [x [Hx Ex]].
        apply Nat.eqb_eq in Ex. subst x. exact Hx. }
      assert (Hrl : In r (rows_with_reference ws rc k)).
      { apply filter_In. split; [exact Hr|apply key_is_true, Ek]. }
      assert (Hg : In (k, rows_with_reference ws rc k) groups).
      { apply Hin. split; [reflexivity|]. intros E. rewrite E in Hrl. exact Hrl. }
      rewrite (F1 _ Hg Hrl).
      pose proof (proj1 (Forall_forall _ _) Hgood _ (proj2 (list_elem_of_In _ _) Hg)) as Hgg.
      unfold good_group in Hgg. simpl in Hgg.
      destruct (rows_with_reference ws rc k) as [|r1 [|r2 [|r3 l]]]; try reflexivity.
      destruct Hgg as (H1 & H2 & H12). apply process_group_cell; assumption.
    + apply F2. intros [k' l'] Hg Hx. simpl in Hx.
      destruct (Hkey k' l' r Hg Hx) as [Hr _].
      rewrite (row_in_true _ _ Hr) in Er. discriminate.
  - apply F2. intros [k' l'] Hg Hx. simpl in Hx.
    destruct (Hkey k' l' r Hg Hx) as [_ Hk]. congruence.
Qed.

Lemma pair_roles_of (r1 r2 a b : nat) (code_a code_b : ustr)
    (code1 code2 : ustr) :
  (a = r1 /\ b = r2 /\ code_a = code1 /\ code_b = code2)
  \/ (a = r2 /\ b = r1 /\ code_a = code2 /\ code_b = code1) ->
  code_a = WD \/ code_a = WC -> code_b = THREE_V ->
  pair_roles r1 r2 code1 code2 = Some (a, b, code_a).
Proof.
  intros Hpos Ha Hb. unfold pair_roles.
  destruct Hpos as [(-> & -> & <- & <-)|(-> & -> & <- & <-)].
  - assert (E : is_wd_wc code_a = true).
    { unfold is_wd_wc. apply orb_true_iff. rewrite !ustr_eqb_eq. exact Ha. }
    rewrite E, Hb. reflexivity.
  - assert (E : is_wd_wc code_a = true).
    { unfold is_wd_wc. apply orb_true_iff. rewrite !ustr_eqb_eq. exact Ha. }
    rewrite Hb, E. reflexivity.
Qed.

(** The cells of a WD/WC row [a] and its 3V companion [b] after the
    pass. *)
Lemma pair_cells_after (ws : worksheet) (rc cc dc : nat) (k : ustr) (r1 r2 a b : nat) :
  DATA_START_ROW <= max_row ws ->
  duplicate_columns ws rc cc dc ->
  rows_with_reference ws rc k = [r1; r2] ->
  (a = r1 /\ b = r2) \/ (a = r2 /\ b = r1) ->
  norm_code (cell ws a cc) = WD \/ norm_code (cell ws a cc) = WC ->
  norm_code (cell ws b cc) = THREE_V ->
  let out := process_duplicate_references ws in
  (forall c, cell out a c
             = if c =? cc then VStr (transfer_tag (norm_code (cell ws a cc)))
               else cell ws a c)
  /\ (forall c, cell out b c
                = if c =? dc then VStr (COMMISSION_LABEL ++ stripped_text (cell ws a dc))
                  else if c =? cc then VStr O_D
                  else cell ws b c).
Proof.
  intros Hmax Hcols Hrows Hpos Ha Hb out.
  assert (Hin : forall x, x = r1 \/ x = r2 ->
            reference_key (cell ws x rc) = Some k /\ row_in (data_region ws) x = true).
  { intros x Hx.
    assert (Hx' : In x (rows_with_reference ws rc k)).
    { rewrite Hrows. destruct Hx as [->| ->]; simpl; auto. }
    apply filter_In in Hx' as [Hreg Hk].
    split; [apply key_is_true, Hk|apply row_in_true, Hreg]. }
  assert (Hnd : r1 <> r2).
  { assert (H : List.NoDup (rows_with_reference ws rc k))
      by apply NoDup_filter_list, NoDup_row_range.
    rewrite Hrows in H. inversion H as [|? ? Hn _]; subst.
    intros ->. apply Hn. left. reflexivity. }
  assert (Hroles : pair_roles r1 r2 (norm_code (cell ws r1 cc)) (norm_code (cell ws r2 cc))
                   = Some (a, b, norm_code (cell ws a cc))).
  { apply (pair_roles_of r1 r2 a b _ (norm_code (cell ws b cc))); [|exact Ha|exact Hb].
    destruct Hpos as [[-> ->]|[-> ->]]; [left|right]; auto. }
  assert (Hab : a <> b) by (destruct Hpos as [[-> ->]|[-> ->]]; congruence).
  assert (Hne : cc <> dc).
  { destruct Hcols as (_ & Hcc & Hdc).
    apply (valid_columns_distinct ws (max_column ws) (U "codigo") (U "descripcion") cc dc
             Hcc Hdc). vm_compute. discriminate. }
  assert (Hcell : forall x c, x = r1 \/ x = r2 ->
            cell out x c = pair_cell cc dc (cell ws) r1 r2 x c).
  { intros x c Hx. unfold out.
    rewrite (process_duplicate_references_cell ws rc cc dc x c Hmax Hcols).
    unfold duplicates_cell. destruct (Hin x Hx) as [-> ->]. rewrite Hrows. reflexivity. }
  split; intros c.
  - rewrite Hcell by (destruct Hpos as [[-> _]|[-> _]]; auto).
    unfold pair_cell. rewrite Hroles.
    destruct (Nat.eqb_spec a b); [contradiction|]. simpl.
    rewrite Nat.eqb_refl. simpl. reflexivity.
  - rewrite Hcell by (destruct Hpos as [[_ ->]|[_ ->]]; auto).
    unfold pair_cell. rewrite Hroles. rewrite Nat.eqb_refl. simpl.
    destruct (c =? dc); [reflexivity|].
    destruct (c =? cc); [reflexivity|].
    destruct (Nat.eqb_spec b a); [congruence|]. reflexivity.
Qed.

(** The rows that are not part of a pair keep all their cells. *)
Lemma unpaired_rows_unchanged (ws : worksheet) (rc cc dc r c : nat) :
  DATA_START_ROW <= max_row ws ->
  duplicate_columns ws rc cc dc ->
  (forall k, reference_key (cell ws r rc) = Some k -> In r (data_region ws) ->
     match rows_with_reference ws rc k with
     | [row1; row2] =>
         pair_roles row1 row2 (norm_code (cell ws row1 cc)) (norm_code (cell ws row2 cc))
         = None
     | _ => True
     end) ->
  cell (process_duplicate_references ws) r c = cell ws r c.
Proof.
  intros Hmax Hcols H.
  rewrite (process_duplicate_references_cell ws rc cc dc r c Hmax Hcols).
  unfold duplicates_cell.
  destruct (reference_key (cell ws r rc)) as [k|] eqn:Ek; [|reflexivity].
  destruct (row_in (data_region ws) r) eqn:Er; [|reflexivity].
  assert (Hr : In r (data_region ws)).
  { unfold row_in in Er. apply existsb_exists in Er as [x [Hx Ex]].
    apply Nat.eqb_eq in Ex. subst x. exact Hx. }
  specialize (H k eq_refl Hr).
  destruct (rows_with_reference ws rc k) as [|r1 [|r2 [|r3 l]]]; try reflexivity.
  unfold pair_cell. rewrite H. reflexivity.
Qed.

End Duplicates.

Example duplicates_on_sample :
  let out := @process_duplicate_references RefLib sample_october in
  cell out 16 3 = VStr (U "T/D") /\ cell out 17 3 = VStr (U "O/D")
  /\ cell out 17 4 = VStr (U "Comisión bancaria Retiro cajero")
  /\ cell out 16 4 = VStr (U " Retiro cajero ")
  /\ cell out 18 3 = VStr (U "DP").
Proof. vm_compute. repeat split; reflexivity. Qed.

(** C2 (as stated). The description written to the 3V row is the label
    followed by the WD row's description with its surrounding white space
    removed, not by the description as it was; and a pair whose codes are
    written [" wc "] and ["3v"] is rewritten too, the codes being compared
    after trimming and upper-casing. *)
Lemma commission_description_is_stripped :
  @rows_with_reference RefLib sample_october 2 (U "REF1") = [16; 17]
  /\ cell sample_october 16 3 = VStr (U "WD")
  /\ cell sample_october 17 3 = VStr (U "3V")
  /\ cell sample_october 16 4 = VStr (U " Retiro cajero ")
  /\ cell (@process_duplicate_references RefLib sample_october) 17 4
     = VStr (U "Comisión bancaria Retiro cajero")
  /\ cell (@process_duplicate_references RefLib sample_october) 17 4
     <> VStr (COMMISSION_LABEL ++ U " Retiro cajero ")
  /\ cell sample_lowercase 16 3 = VStr (U " wc ")
  /\ cell sample_lowercase 17 3 = VStr (U "3v")
  /\ cell (@process_duplicate_references RefLib sample_lowercase) 16 3 = VStr (U "T/C")
  /\ cell (@process_duplicate_references RefLib sample_lowercase) 17 3 = VStr (U "O/D").
Proof. repeat split; vm_compute; try reflexivity. discriminate. Qed.

(** C2 (amended). The pass applies when the sheet has at least 16 rows and
    its header names the reference, code and description columns;
    otherwise it leaves the sheet as it is. When it applies and exactly
    two data rows share a non-empty trimmed reference, one with code WD or
    WC and the other with code 3V, the codes being compared after trimming
    and upper-casing: the WD code becomes T/D (WC: T/C), the 3V code
    becomes O/D, and the 3V row's description becomes the label followed by
    the WD/WC row's description with surrounding white space removed
    (nothing if that cell is empty); no other cell of the two rows
    changes. Whether or not the sheet has such a pair, a row whose group
    has another size or other codes, and a row without a reference or
    outside the data rows, keeps all its cells. *)
Theorem duplicate_pair_reassigned (L : PyLib) (ws : worksheet) :
  let out := process_duplicate_references ws in
  let hm := extract_header_map ws (max_column ws) in
  (forall rc cc dc,
      DATA_START_ROW <= max_row ws ->
      duplicate_columns ws rc cc dc ->
      (forall k r1 r2 a b,
          rows_with_reference ws rc k = [r1; r2] ->
          (a = r1 /\ b = r2) \/ (a = r2 /\ b = r1) ->
          norm_code (cell ws a cc) = WD \/ norm_code (cell ws a cc) = WC ->
          norm_code (cell ws b cc) = THREE_V ->
          cell out a cc = VStr (transfer_tag (norm_code (cell ws a cc)))
          /\ (norm_code (cell ws a cc) = WD -> cell out a cc = VStr T_D)
          /\ (norm_code (cell ws a cc) = WC -> cell out a cc = VStr T_C)
          /\ cell out b cc = VStr O_D
          /\ cell out b dc = VStr (COMMISSION_LABEL ++ stripped_text (cell ws a dc))
          /\ (forall c, c <> cc -> cell out a c = cell ws a c)
          /\ (forall c, c <> cc -> c <> dc -> cell out b c = cell ws b c))
      /\ (forall r c,
            (forall k', reference_key (cell ws r rc) = Some k' ->
               In r (data_region ws) ->
               match rows_with_reference ws rc k' with
               | [row1; row2] =>
                   pair_roles row1 row2 (norm_code (cell ws row1 cc))
                     (norm_code (cell ws row2 cc)) = None
               | _ => True
               end) ->
            cell out r c = cell ws r c))
  /\ (max_row ws < DATA_START_ROW
      \/ valid_column (hm_get (U "referencia") hm) = None
      \/ valid_column (hm_get (U "codigo") hm) = None
      \/ valid_column (hm_get (U "descripcion") hm) = None ->
      out = ws).
Proof.
  intros out hm. split.
  - intros rc cc dc Hmax Hcols. split.
    + intros k r1 r2 a b Hrows Hpos Ha Hb.
      destruct (pair_cells_after ws rc cc dc k r1 r2 a b Hmax Hcols Hrows Hpos Ha Hb)
        as [HA HB].
      fold out in HA, HB.
      assert (Hne : cc <> dc).
      { destruct Hcols as (_ & Hcc & Hdc).
        apply (valid_columns_distinct ws (max_column ws) (U "codigo") (U "descripcion")
                 cc dc Hcc Hdc). vm_compute. discriminate. }
      assert (Hacc : cell out a cc = VStr (transfer_tag (norm_code (cell ws a cc)))).
      { rewrite HA, Nat.eqb_refl. reflexivity. }
      split; [exact Hacc|].
      split; [intros E; rewrite Hacc, E; reflexivity|].
      split; [intros E; rewrite Hacc, E; reflexivity|].
      split.
      { rewrite HB, Nat.eqb_refl.
        destruct (Nat.eqb_spec cc dc); [contradiction|reflexivity]. }
      split.
      { rewrite HB, Nat.eqb_refl. reflexivity. }
      split.
      { intros c Hc. rewrite HA.
        destruct (Nat.eqb_spec c cc); [contradiction|reflexivity]. }
      intros c Hc Hd. rewrite HB.
      destruct (Nat.eqb_spec c dc); [contradiction|].
      destruct (Nat.eqb_spec c cc); [contradiction|reflexivity].
    + intros r c H. apply (unpaired_rows_unchanged ws rc cc dc r c Hmax Hcols H).
  - intros H. subst out. unfold process_duplicate_references. fold hm.
    destruct (max_row ws <? HEADER_ROW); [reflexivity|].
    destruct H as [H|[H|[H|H]]].
    + destruct (valid_column (hm_get (U "referencia") hm)); [|reflexivity].
      destruct (valid_column (hm_get (U "codigo") hm)); [|reflexivity].
      destruct (valid_column (hm_get (U "descripcion") hm)); [|reflexivity].
      destruct (Nat.ltb_spec (max_row ws) DATA_START_ROW); [reflexivity|lia].
    + rewrite H. reflexivity.
    + rewrite H. destruct (valid_column (hm_get (U "referencia") hm)); reflexivity.
    + rewrite H. destruct (valid_column (hm_get (U "referencia") hm)); [|reflexivity].
      destruct (valid_column (hm_get (U "codigo") hm)); reflexivity.
Qed.

Lemma duplicate_pair_reassigned_witness :
  cell (@process_duplicate_references RefLib sample_october) 16 3 = VStr T_D
  /\ cell (@process_duplicate_references RefLib sample_october) 17 3 = VStr O_D
  /\ cell (@process_duplicate_references RefLib sample_october) 17 4
     = VStr (COMMISSION_LABEL ++ @stripped_text RefLib (cell sample_october 16 4))
  /\ cell (@process_duplicate_references RefLib sample_october) 18 3
     = cell sample_october 18 3
  /\ @process_duplicate_references RefLib sample_undescribed = sample_undescribed.
Proof.
  assert (H1 : DATA_START_ROW <= max_row sample_october) by (vm_compute; lia).
  assert (H2 : @duplicate_columns RefLib sample_october 2 3 4)
    by (repeat split; vm_compute; reflexivity).
  assert (H3 : @rows_with_reference RefLib sample_october 2 (U "REF1") = [16; 17])
    by (vm_compute; reflexivity).
  assert (H4 : (16 = 16 /\ 17 = 17) \/ (16 = 17 /\ 17 = 16)) by (left; split; reflexivity).
  assert (H5 : @norm_code RefLib (cell sample_october 16 3) = WD)
    by (vm_compute; reflexivity).
  assert (H6 : @norm_code RefLib (cell sample_october 17 3) = THREE_V)
    by (vm_compute; reflexivity).
  assert (H7 : forall k', @reference_key RefLib (cell sample_october 18 2) = Some k' ->
             In 18 (@data_region RefLib sample_october) ->
             match @rows_with_reference RefLib sample_october 2 k' with
             | [row1; row2] =>
                 pair_roles row1 row2 (@norm_code RefLib (cell sample_october row1 3))
                   (@norm_code RefLib (cell sample_october row2 3)) = None
             | _ => True
             end).
  { intros k' Hk _. vm_compute in Hk. injection Hk as <-. vm_compute. exact I. }
  assert (H8 : valid_column
                 (hm_get (U "descripcion")
                    (@extract_header_map RefLib sample_undescribed
                       (max_column sample_undescribed))) = None)
    by (vm_compute; reflexivity).
  destruct (duplicate_pair_reassigned RefLib sample_october) as [Hpass _].
  destruct (Hpass 2 3 4 H1 H2) as [Hpair Hrest].
  destruct (Hpair (U "REF1") 16 17 16 17 H3 H4 (or_introl H5) H6)
    as (_ & Hwd & _ & Hod & Hdesc & _).
  split; [exact (Hwd H5)|]. split; [exact Hod|]. split; [exact Hdesc|].
  split; [exact (Hrest 18 3 H7)|].
  exact (proj2 (duplicate_pair_reassigned RefLib sample_undescribed)
           (or_intror (or_intror (or_intror H8)))).
Defined.

(** C7. Two records that share a reference, one with code WD or WC and
    the other with code 3V, get the same codes and the same descriptions
    whether the first stands before the second in the file ([ws]) or after
    it ([ws']). *)
Theorem duplicate_pairing_order_independent (L : PyLib)
    (ws ws' : worksheet) (rc cc dc rc' cc' dc' : nat) (k k' : ustr)
    (a b a' b' : nat) :
  DATA_START_ROW <= max_row ws -> duplicate_columns ws rc cc dc ->
  DATA_START_ROW <= max_row ws' -> duplicate_columns ws' rc' cc' dc' ->
  rows_with_reference ws rc k = [a; b] ->
  rows_with_reference ws' rc' k' = [b'; a'] ->
  cell ws a cc = cell ws' a' cc' -> cell ws a dc = cell ws' a' dc' ->
  cell ws b cc = cell ws' b' cc' -> cell ws b dc = cell ws' b' dc' ->
  ((norm_code (cell ws a cc) = WD \/ norm_code (cell ws a cc) = WC)
   /\ norm_code (cell ws b cc) = THREE_V)
  \/ ((norm_code (cell ws b cc) = WD \/ norm_code (cell ws b cc) = WC)
      /\ norm_code (cell ws a cc) = THREE_V) ->
  let out := process_duplicate_references ws in
  let out' := process_duplicate_references ws' in
  cell out a cc = cell out' a' cc'
  /\ cell out a dc = cell out' a' dc'
  /\ cell out b cc = cell out' b' cc'
  /\ cell out b dc = cell out' b' dc'.
Proof.
  intros Hmax Hcols Hmax' Hcols' Hrows Hrows' Eac Ead Ebc Ebd Hcodes out out'.
  assert (Hne : cc <> dc).
  { destruct Hcols as (_ & Hcc & Hdc).
    apply (valid_columns_distinct ws (max_column ws) (U "codigo") (U "descripcion") cc dc
             Hcc Hdc). vm_compute. discriminate. }
  assert (Hne' : cc' <> dc').
  { destruct Hcols' as (_ & Hcc & Hdc).
    apply (valid_columns_distinct ws' (max_column ws') (U "codigo") (U "descripcion")
             cc' dc' Hcc Hdc). vm_compute. discriminate. }
  destruct Hcodes as [[Ha Hb]|[Hb Ha]].
  - destruct (pair_cells_after ws rc cc dc k a b a b Hmax Hcols Hrows
                (or_introl (conj eq_refl eq_refl)) Ha Hb) as [HA HB].
    assert (Ha' : norm_code (cell ws' a' cc') = WD \/ norm_code (cell ws' a' cc') = WC)
      by (rewrite <- Eac; exact Ha).
    assert (Hb' : norm_code (cell ws' b' cc') = THREE_V) by (rewrite <- Ebc; exact Hb).
    destruct (pair_cells_after ws' rc' cc' dc' k' b' a' a' b' Hmax' Hcols' Hrows'
                (or_intror (conj eq_refl eq_refl)) Ha' Hb') as [HA' HB'].
    fold out in HA, HB. fold out' in HA', HB'.
    rewrite !HA, !HB, !HA', !HB', !Nat.eqb_refl.
    destruct (Nat.eqb_spec dc cc); [congruence|].
    destruct (Nat.eqb_spec cc dc); [congruence|].
    destruct (Nat.eqb_spec dc' cc'); [congruence|].
    destruct (Nat.eqb_spec cc' dc'); [congruence|].
    rewrite Eac, Ead. auto.
  - destruct (pair_cells_after ws rc cc dc k a b b a Hmax Hcols Hrows
                (or_intror (conj eq_refl eq_refl)) Hb Ha) as [HB HA].
    assert (Hb' : norm_code (cell ws' b' cc') = WD \/ norm_code (cell ws' b' cc') = WC)
      by (rewrite <- Ebc; exact Hb).
    assert (Ha' : norm_code (cell ws' a' cc') = THREE_V) by (rewrite <- Eac; exact Ha).
    destruct (pair_cells_after ws' rc' cc' dc' k' b' a' b' a' Hmax' Hcols' Hrows'
                (or_introl (conj eq_refl eq_refl)) Hb' Ha') as [HB' HA'].
    fold out in HA, HB. fold out' in HA', HB'.
    rewrite !HA, !HB, !HA', !HB', !Nat.eqb_refl.
    destruct (Nat.eqb_spec dc cc); [congruence|].
    destruct (Nat.eqb_spec cc dc); [congruence|].
    destruct (Nat.eqb_spec dc' cc'); [congruence|].
    destruct (Nat.eqb_spec cc' dc'); [congruence|].
    rewrite Ebc, Ebd. auto.
Qed.

Lemma duplicate_pairing_order_independent_witness :
  let out := @process_duplicate_references RefLib sample_october in
  let out' := @process_duplicate_references RefLib sample_swapped in
  cell out 16 3 = cell out' 17 3
  /\ cell out 16 4 = cell out' 17 4
  /\ cell out 17 3 = cell out' 16 3
  /\ cell out 17 4 = cell out' 16 4.
Proof.
  assert (H1 : DATA_START_ROW <= max_row sample_october) by (vm_compute; lia).
  assert (H2 : @duplicate_columns RefLib sample_october 2 3 4)
    by (repeat split; vm_compute; reflexivity).
  assert (H1' : DATA_START_ROW <= max_row sample_swapped) by (vm_compute; lia).
  assert (H2' : @duplicate_columns RefLib sample_swapped 2 3 4)
    by (repeat split; vm_compute; reflexivity).
  assert (H3 : @rows_with_reference RefLib sample_october 2 (U "REF1") = [16; 17])
    by (vm_compute; reflexivity).
  assert (H3' : @rows_with_reference RefLib sample_swapped 2 (U "REF1") = [16; 17])
    by (vm_compute; reflexivity).
  assert (E1 : cell sample_october 16 3 = cell sample_swapped 17 3) by reflexivity.
  assert (E2 : cell sample_october 16 4 = cell sample_swapped 17 4) by reflexivity.
  assert (E3 : cell sample_october 17 3 = cell sample_swapped 16 3) by reflexivity.
  assert (E4 : cell sample_october 17 4 = cell sample_swapped 16 4) by reflexivity.
  assert (H5 : ((@norm_code RefLib (cell sample_october 16 3) = WD
                 \/ @norm_code RefLib (cell sample_october 16 3) = WC)
                /\ @norm_code RefLib (cell sample_october 17 3) = THREE_V)
               \/ ((@norm_code RefLib (cell sample_october 17 3) = WD
                    \/ @norm_code RefLib (cell sample_october 17 3) = WC)
                   /\ @norm_code RefLib (cell sample_october 16 3) = THREE_V)).
  { left. split; [left|]; vm_compute; reflexivity. }
  exact (duplicate_pairing_order_independent RefLib sample_october sample_swapped
           2 3 4 2 3 4 (U "REF1") (U "REF1") 16 17 17 16
           H1 H2 H1' H2' H3 H3' E1 E2 E3 E4 H5).
Defined.

(** * Further properties *)

(** ** Lists filtered by position *)

Lemma filter_none {A} (f : A -> bool) (l : list A) :
  (forall x, In x l -> f x = false) -> List.filter f l = [].
Proof.
  induction l as [|x l IH]; intros H; simpl; [reflexivity|].
  rewrite (H x (or_introl eq_refl)). apply IH. intros y Hy. apply H. right. exact Hy.
Qed.

Lemma keep_rows_from_keep_from (i : nat) (del : nat -> bool) (ws : worksheet) :
  keep_rows_from i del ws = keep_from i del ws.
Proof.
  revert i. induction ws as [|row ws IH]; intros i; simpl; [reflexivity|].
  rewrite IH. reflexivity.
Qed.

Lemma collect_rows_filter (test : nat -> bool) (rows : list nat) :
  collect_rows test rows = List.filter test rows.
Proof.
  unfold collect_rows.
  assert (H : forall acc,
    fold_left (fun rows_to_delete row_idx =>
                 if test row_idx then rows_to_delete ++ [row_idx] else rows_to_delete)
      rows acc = acc ++ List.filter test rows).
  { induction rows as [|r rows IH]; intros acc; simpl; [symmetry; apply app_nil_r|].
    rewrite IH. destruct (test r); [rewrite <- app_assoc|]; reflexivity. }
  apply H.
Qed.

(** An element that a deletion leaves was not deleted. *)
Lemma keep_from_In {A} (i : nat) (del : nat -> bool) (l : list A) (x : A) :
  In x (keep_from i del l) ->
  exists j, j < length l /\ del (i + j) = false /\ nth_error l j = Some x.
Proof.
  revert i. induction l as [|y l IH]; intros i; simpl; [intros []|].
  destruct (del i) eqn:E.
  - intros H. apply IH in H as (j & Hj & Hd & Hn). exists (S j).
    split; [lia|]. split; [|exact Hn]. replace (i + S j) with (S i + j) by lia. exact Hd.
  - intros [<-|H].
    + exists 0. split; [lia|]. split; [|reflexivity]. rewrite Nat.add_0_r. exact E.
    + apply IH in H as (j & Hj & Hd & Hn). exists (S j).
      split; [lia|]. split; [|exact Hn]. replace (i + S j) with (S i + j) by lia. exact Hd.
Qed.

(** An element that is not deleted is left. *)
Lemma keep_from_kept {A} (i : nat) (del : nat -> bool) (l : list A) (j : nat) (x : A) :
  nth_error l j = Some x -> del (i + j) = false -> In x (keep_from i del l).
Proof.
  revert i j. induction l as [|y l IH]; intros i [|j]; simpl; try discriminate.
  - intros [= ->]. rewrite Nat.add_0_r. intros ->. left. reflexivity.
  - intros Hn Hd. replace (i + S j) with (S i + j) in Hd by lia.
    specialize (IH (S i) j Hn Hd). destruct (del i); [exact IH|right; exact IH].
Qed.

Lemma keep_from_length {A} (i : nat) (del : nat -> bool) (l : list A) :
  length (keep_from i del l) + length (List.filter del (seq i (length l))) = length l.
Proof.
  revert i. induction l as [|y l IH]; intros i; simpl; [reflexivity|].
  specialize (IH (S i)). destruct (del i); simpl; lia.
Qed.

(** The first rows of a sheet are left when no row among them is deleted. *)
Lemma keep_from_take {A} (i n : nat) (del : nat -> bool) (l : list A) :
  (forall r, i <= r < i + n -> del r = false) ->
  take n (keep_from i del l) = take n l.
Proof.
  revert i l. induction n as [|n IH]; intros i l H; [reflexivity|].
  destruct l as [|y l]; [reflexivity|]. simpl.
  rewrite (H i) by lia. simpl. f_equal. apply IH. intros r Hr. apply H. lia.
Qed.

(** ** Rows without movement (case 1) *)

Section ZeroRows.
Context {L : PyLib}.

Lemma zero_row_not_applicable (ws : worksheet) :
  zero_pass_applies ws = false -> keep_from 1 (zero_row ws) ws = ws.
Proof.
  intros H. rewrite <- keep_rows_from_keep_from. apply keep_rows_from_none.
  intros r _. unfold zero_row. rewrite H. reflexivity.
Qed.

Lemma zero_row_filter_not_applicable (ws : worksheet) (rows : list nat) :
  zero_pass_applies ws = false -> List.filter (zero_row ws) rows = [].
Proof.
  intros H. apply deletion_log_nil. intros r _. unfold zero_row. rewrite H. reflexivity.
Qed.

Lemma filter_ext_In_list {A} (f g : A -> bool) (l : list A) :
  (forall x, In x l -> f x = g x) -> List.filter f l = List.filter g l.
Proof.
  induction l as [|x l IH]; intros H; simpl; [reflexivity|].
  rewrite (H x (or_introl eq_refl)), IH; [reflexivity|].
  intros y Hy. apply H. right. exact Hy.
Qed.

Lemma remove_zero_credit_rows_eq (ws : worksheet) :
  remove_zero_credit_rows ws
  = (keep_from 1 (zero_row ws) ws,
     match List.filter (zero_row ws) (data_region ws) with
     | [] => []
     | _ :: _ => [LogZeroRowsDeleted (length (List.filter (zero_row ws) (data_region ws)))]
     end).
Proof.
  unfold remove_zero_credit_rows.
  fold (debit_column_of ws) (credit_column_of ws).
  destruct (zero_pass_applies ws) eqn:Happ.
  - unfold zero_pass_applies in Happ.
    apply andb_true_iff in Happ as [Happ Hend]. apply andb_true_iff in Happ as [Hmax Hcol].
    apply Nat.leb_le in Hmax, Hend.
    destruct (Nat.ltb_spec (max_row ws) DATA_START_ROW); [lia|].
    assert (Hz : forall r, zero_row ws r
                 = (DATA_START_ROW <=? r) && (r <=? data_end_row ws)
                   && zero_movement ws (debit_column_of ws) (credit_column_of ws) r).
    { intros r. unfold zero_row, zero_pass_applies.
      rewrite (proj2 (Nat.leb_le _ _) Hmax), Hcol, (proj2 (Nat.leb_le _ _) Hend).
      reflexivity. }
    assert (Hf : List.filter (zero_row ws) (data_region ws)
                 = List.filter (zero_movement ws (debit_column_of ws) (credit_column_of ws))
                     (data_region ws)).
    { apply filter_ext_In_list. intros r Hr. rewrite Hz.
      apply In_row_range in Hr.
      rewrite (proj2 (Nat.leb_le _ _) (proj1 Hr)), (proj2 (Nat.leb_le _ _) (proj2 Hr)).
      reflexivity. }
    assert (Hbody :
      (let last := data_end_row ws in
       if last <? DATA_START_ROW then (ws, [])
       else
         let rows_to_delete :=
           collect_rows (zero_movement ws (debit_column_of ws) (credit_column_of ws))
             (row_range DATA_START_ROW last) in
         (delete_all ws rows_to_delete,
          match rows_to_delete with
          | [] => []
          | _ :: _ => [LogZeroRowsDeleted (length rows_to_delete)]
          end))
      = (keep_from 1 (zero_row ws) ws,
         match List.filter (zero_row ws) (data_region ws) with
         | [] => []
         | _ :: _ =>
             [LogZeroRowsDeleted (length (List.filter (zero_row ws) (data_region ws)))]
         end)).
    { cbv zeta. destruct (Nat.ltb_spec (data_end_row ws) DATA_START_ROW); [lia|].
      rewrite collect_rows_filter. fold (data_region ws). rewrite Hf. f_equal.
      unfold data_region. rewrite delete_all_filter by (unfold DATA_START_ROW; lia).
      rewrite keep_rows_from_keep_from. rewrite <- !keep_rows_from_keep_from.
      apply keep_rows_from_ext. intros r _. rewrite Hz. reflexivity. }
    cbv zeta in Hbody. cbv zeta.
    destruct (debit_column_of ws) as [d|], (credit_column_of ws) as [c|];
      try exact Hbody.
    simpl in Hcol. discriminate.
  - rewrite (zero_row_not_applicable ws Happ), (zero_row_filter_not_applicable ws _ Happ).
    unfold zero_pass_applies in Happ.
    destruct (Nat.ltb_spec (max_row ws) DATA_START_ROW) as [|Hge]; [reflexivity|].
    rewrite (proj2 (Nat.leb_le _ _) Hge), andb_true_l in Happ.
    apply andb_false_iff in Happ as [Hcol|Hend].
    + apply orb_false_iff in Hcol as [Hd Hc]. apply bool_decide_eq_false in Hd, Hc.
      destruct (debit_column_of ws); [exfalso; apply Hd; eauto|].
      destruct (credit_column_of ws); [exfalso; apply Hc; eauto|]. reflexivity.
    + apply Nat.leb_gt in Hend.
      destruct (Nat.ltb_spec (data_end_row ws) DATA_START_ROW); [|lia].
      destruct (debit_column_of ws), (credit_column_of ws); reflexivity.
Qed.

Lemma zero_row_nonzero_amount (ws : worksheet) (r : nat) (q : Q) :
  (optional_amount ws r (debit_column_of ws) = Some q
   \/ optional_amount ws r (credit_column_of ws) = Some q) ->
  (EPS <= Qabs q)%Q -> zero_row ws r = false.
Proof.
  intros Hq Habs. unfold zero_row, zero_movement.
  assert (Hz : is_zero (Some q) = false).
  { simpl. apply negb_false_iff. apply Qle_bool_iff. exact Habs. }
  destruct Hq as [-> | ->]; rewrite Hz; rewrite ?andb_false_r; reflexivity.
Qed.

End ZeroRows.

(** X1. [_remove_zero_credit_rows] of case 1 deletes exactly the rows of
    the data region (rows 16 to the end of the data) whose debit and
    credit are both missing, unparsable or smaller than 1e-9 in absolute
    value, and only when the sheet has 16 rows or more and a debit or
    credit column: the rows left are the other rows, in their order; a row
    with an amount of at least 1e-9 in absolute value is never deleted,
    nor are the fifteen rows above the data; the number of deleted rows is
    logged when it is not zero. *)
Theorem zero_movement_rows_are_removed (L : PyLib) (ws : worksheet) :
  let out := remove_zero_credit_rows ws in
  let deleted := List.filter (zero_row ws) (data_region ws) in
  fst out = keep_from 1 (zero_row ws) ws
  /\ snd out = match deleted with
               | [] => []
               | _ :: _ => [LogZeroRowsDeleted (length deleted)]
               end
  /\ take 15 (fst out) = take 15 ws
  /\ (forall j row, nth_error ws j = Some row -> zero_row ws (S j) = false ->
                    In row (fst out))
  /\ (forall row, In row (fst out) ->
        exists j, nth_error ws j = Some row /\ zero_row ws (S j) = false)
  /\ (forall r q,
        (optional_amount ws r (debit_column_of ws) = Some q
         \/ optional_amount ws r (credit_column_of ws) = Some q) ->
        (EPS <= Qabs q)%Q -> zero_row ws r = false)
  /\ (zero_pass_applies ws = false -> fst out = ws).
Proof.
  intros out deleted. subst out deleted. rewrite remove_zero_credit_rows_eq.
  cbn [fst snd].
  split; [reflexivity|]. split; [reflexivity|].
  split.
  { apply keep_from_take. intros r Hr. unfold zero_row.
    destruct (Nat.leb_spec DATA_START_ROW r); [unfold DATA_START_ROW in *; lia|].
    cbn [andb]. rewrite andb_false_r. reflexivity. }
  split.
  { intros j row Hj Hz. apply (keep_from_kept 1 _ ws j row Hj). exact Hz. }
  split.
  { intros row Hin. apply keep_from_In in Hin as (j & _ & Hd & Hn).
    exists j. split; [exact Hn|exact Hd]. }
  split.
  { intros r q. apply zero_row_nonzero_amount. }
  apply zero_row_not_applicable.
Qed.

Example zero_rows_on_sample :
  fst (@remove_zero_credit_rows RefLib sample_idle)
  = sample_sheet
      [ movement (VStr (U "15/10/2025")) (VStr (U "REF1")) (VStr (U "WD"))
          (VStr (U "Retiro")) (VNum 100) VNone;
        movement (VStr (U "18/10/2025")) (VStr (U "REF4")) (VStr (U "DP"))
          (VStr (U "Depósito")) (VNum 0) (VNum 50) ]
  /\ snd (@remove_zero_credit_rows RefLib sample_idle) = [LogZeroRowsDeleted 2].
Proof. vm_compute. split; reflexivity. Qed.

(** ** The summary section (case 2) *)

Lemma find_seq_first (P : nat -> bool) (a n s : nat) :
  List.find P (seq a n) = Some s ->
  a <= s < a + n /\ P s = true /\ forall x, a <= x < s -> P x = false.
Proof.
  revert a. induction n as [|n IH]; intros a; simpl; [discriminate|].
  destruct (P a) eqn:E.
  - intros [= <-]. split; [lia|]. split; [exact E|]. intros x Hx. lia.
  - intros H. apply IH in H as (Hs & HP & Hfirst).
    split; [lia|]. split; [exact HP|].
    intros x Hx. destruct (Nat.eq_dec x a) as [->|Hne]; [exact E|].
    apply Hfirst. lia.
Qed.

Lemma find_none_intro {A} (P : A -> bool) (l : list A) :
  (forall x, In x l -> P x = false) -> List.find P l = None.
Proof.
  induction l as [|x l IH]; intros H; simpl; [reflexivity|].
  rewrite (H x (or_introl eq_refl)). apply IH. intros y Hy. apply H. right. exact Hy.
Qed.

Lemma nth_take {A} (n i : nat) (l : list A) (d : A) :
  i < n -> nth i (take n l) d = nth i l d.
Proof.
  revert i l. induction n as [|n IH]; intros i l Hi; [lia|].
  destruct l as [|x l]; [destruct i; reflexivity|].
  destruct i as [|i]; [reflexivity|]. simpl. apply IH. lia.
Qed.

Lemma cell_take (n r c : nat) (ws : worksheet) :
  r <= n -> cell (take n ws) r c = cell ws r c.
Proof.
  intros Hr. destruct r as [|r]; [reflexivity|]. destruct c as [|c]; [reflexivity|].
  unfold cell. rewrite nth_take by lia. reflexivity.
Qed.

Lemma max_column_take (n : nat) (ws : worksheet) :
  max_column (take n ws) <= max_column ws.
Proof.
  unfold max_column. revert n. induction ws as [|row ws IH]; intros [|n]; simpl; try lia.
  specialize (IH n). lia.
Qed.

Lemma existsb_seq_mono (f : nat -> bool) (a m m' : nat) :
  m <= m' -> existsb f (seq a m) = true -> existsb f (seq a m') = true.
Proof.
  intros Hm H. apply existsb_exists in H as (x & Hx & Hf).
  apply existsb_exists. exists x. split; [|exact Hf].
  apply in_seq in Hx. apply in_seq. lia.
Qed.

Section SummarySection.
Context {L : PyLib}.

Lemma row_has_text_take (n r : nat) (ws : worksheet) (target : ustr) :
  r <= n -> row_has_text (take n ws) target r = true -> row_has_text ws target r = true.
Proof.
  intros Hr. unfold row_has_text. intros H.
  apply (existsb_seq_mono _ 1 (max_column (take n ws))); [apply max_column_take|].
  apply existsb_exists in H as (x & Hx & Hf). apply existsb_exists.
  exists x. split; [exact Hx|]. rewrite (cell_take n r x ws Hr) in Hf. exact Hf.
Qed.

Lemma find_row_with_text_bounds (ws : worksheet) (text : ustr) (s : nat) :
  find_row_with_text ws text = Some s -> 1 <= s <= max_row ws.
Proof.
  unfold find_row_with_text. destruct (ustr_eqb text []); [discriminate|].
  intros H. apply find_seq_first in H as (Hs & _). lia.
Qed.

(** No row before the first row that holds a text holds it, also once the
    rows from that one on are gone. *)
Lemma find_row_with_text_take (ws : worksheet) (text : ustr) (s : nat) :
  find_row_with_text ws text = Some s ->
  find_row_with_text (take (s - 1) ws) text = None.
Proof.
  unfold find_row_with_text. destruct (ustr_eqb text []); [discriminate|].
  intros H. apply find_seq_first in H as (Hs & _ & Hfirst).
  apply find_none_intro. intros x Hx. apply in_seq in Hx.
  assert (Hlen : max_row (take (s - 1) ws) <= s - 1).
  { unfold max_row. rewrite length_take. lia. }
  destruct (row_has_text (take (s - 1) ws) (normalize_text (VStr text)) x) eqn:E;
    [|reflexivity].
  apply row_has_text_take in E; [|lia].
  rewrite Hfirst in E by lia. discriminate.
Qed.

Lemma remove_summary_section_eq (ws : worksheet) :
  remove_summary_section ws
  = match find_row_with_text ws SUMMARY_TITLE with
    | Some s => (take (s - 1) ws, [LogSummaryRemoved])
    | None => (ws, [])
    end.
Proof.
  unfold remove_summary_section.
  destruct (find_row_with_text ws SUMMARY_TITLE) as [s|] eqn:E; [|reflexivity].
  apply find_row_with_text_bounds in E. destruct s as [|r]; [lia|].
  unfold delete_rows_amount. f_equal.
  rewrite drop_ge by (unfold max_row in *; lia). apply app_nil_r.
Qed.

End SummarySection.

(** X2. [_remove_summary_section] of case 2 cuts the sheet just above the
    first row that holds the text ["Cuadro de Resumen"] (compared after
    normalisation) and leaves a sheet without that text untouched; the
    rows above the title are unchanged; afterwards no row holds the title,
    so the data region of the later passes ends at the last row, and a
    second call changes nothing. *)
Theorem summary_section_is_cut_off (L : PyLib) (ws : worksheet) :
  let out := fst (remove_summary_section ws) in
  out = match find_row_with_text ws SUMMARY_TITLE with
        | Some summary_row => take (summary_row - 1) ws
        | None => ws
        end
  /\ (forall summary_row r c,
        find_row_with_text ws SUMMARY_TITLE = Some summary_row ->
        max_row out = summary_row - 1
        /\ (r < summary_row -> cell out r c = cell ws r c))
  /\ find_row_with_text out SUMMARY_TITLE = None
  /\ data_end_row out = max_row out
  /\ remove_summary_section out = (out, []).
Proof.
  intros out. subst out. rewrite remove_summary_section_eq.
  destruct (find_row_with_text ws SUMMARY_TITLE) as [s|] eqn:E; cbn [fst].
  - pose proof (find_row_with_text_bounds ws _ s E) as Hs.
    pose proof (find_row_with_text_take ws _ s E) as Hnone.
    split; [reflexivity|].
    split.
    { intros s' r c [= <-]. split.
      - unfold max_row in *. rewrite length_take. lia.
      - intros Hr. apply cell_take. lia. }
    split; [exact Hnone|].
    split; [unfold data_end_row; rewrite Hnone; reflexivity|].
    rewrite remove_summary_section_eq, Hnone. reflexivity.
  - split; [reflexivity|]. split; [intros s r c; discriminate|].
    split; [exact E|].
    split; [unfold data_end_row; rewrite E; reflexivity|].
    rewrite remove_summary_section_eq, E. reflexivity.
Qed.

Example summary_section_on_sample :
  @remove_summary_section RefLib sample_with_summary = (sample_october ++ [[]], [LogSummaryRemoved])
  /\ @data_end_row RefLib sample_with_summary = 18
  /\ @data_end_row RefLib (sample_october ++ [[]]) = 19.
Proof. vm_compute. repeat split; reflexivity. Qed.

(** ** The date range and the filter of case 7 *)

Lemma datetime_gt_total (a b : datetime) :
  datetime_gt a b = false -> datetime_gt b a = false -> a = b.
Proof.
  destruct a as [oa ua], b as [ob ub]. unfold datetime_gt. simpl.
  intros H1 H2.
  apply orb_false_iff in H1 as [H1 H1']. apply orb_false_iff in H2 as [H2 H2'].
  apply Z.ltb_ge in H1, H2. assert (oa = ob) by lia. subst ob.
  rewrite Z.eqb_refl in H1', H2'. simpl in H1', H2'.
  apply Z.ltb_ge in H1', H2'. f_equal. lia.
Qed.

Lemma datetime_gt_asym (a b : datetime) :
  datetime_gt a b = true -> datetime_gt b a = false.
Proof.
  destruct a as [oa ua], b as [ob ub]. unfold datetime_gt. simpl.
  intros H. apply orb_true_iff in H as [H|H].
  - apply Z.ltb_lt in H. apply orb_false_iff. split; [apply Z.ltb_ge; lia|].
    apply andb_false_iff. left. apply Z.eqb_neq. lia.
  - apply andb_true_iff in H as [H1 H2]. apply Z.eqb_eq in H1. apply Z.ltb_lt in H2.
    subst. apply orb_false_iff. split; [apply Z.ltb_ge; lia|].
    apply andb_false_iff. right. apply Z.ltb_ge. lia.
Qed.

Lemma normalize_range_sym (a b : datetime) :
  normalize_range (a, b) = normalize_range (b, a).
Proof.
  unfold normalize_range. simpl.
  destruct (datetime_gt a b) eqn:E1.
  - rewrite (datetime_gt_asym a b E1). reflexivity.
  - destruct (datetime_gt b a) eqn:E2; [reflexivity|].
    rewrite (datetime_gt_total a b E1 E2). reflexivity.
Qed.

Lemma normalize_range_ordered (r : datetime * datetime) :
  datetime_gt (fst (normalize_range r)) (snd (normalize_range r)) = false.
Proof.
  unfold normalize_range. destruct (datetime_gt (fst r) (snd r)) eqn:E; simpl.
  - apply datetime_gt_asym, E.
  - exact E.
Qed.

Section Filter7.
Context {L : PyLib}.

Lemma filter_step7_fold (s e : datetime) (rows : list row_data) (acc : list row_data * nat) :
  fold_left (filter_step7 s e) rows acc
  = (fst acc ++ List.filter (keeps7 s e) rows,
     snd acc + length (List.filter (fun row => negb (keeps7 s e row)) rows)).
Proof.
  revert acc. induction rows as [|row rows IH]; intros [kept n]; simpl.
  - rewrite app_nil_r, Nat.add_0_r. reflexivity.
  - rewrite IH. unfold filter_step7, keeps7.
    destruct (parse_date_from_value7 (row_get row K_FECHA)) as [d|]; simpl.
    + destruct (in_range s e d); simpl.
      * rewrite <- app_assoc. reflexivity.
      * f_equal. lia.
    + rewrite <- app_assoc. reflexivity.
Qed.

Lemma filter_data_rows_by_date_range7_eq (rows : list row_data)
    (range : datetime * datetime) :
  let s := fst (normalize_range range) in
  let e := snd (normalize_range range) in
  let out_of_range := length (List.filter (fun row => negb (keeps7 s e row)) rows) in
  filter_data_rows_by_date_range7 rows (Some range)
  = (List.filter (keeps7 s e) rows,
     if 0 <? out_of_range then [LogRowsFilteredOut out_of_range s e] else []).
Proof.
  intros s e n. subst s e n. unfold filter_data_rows_by_date_range7.
  destruct (normalize_range range) as [s e]. cbn [fst snd].
  rewrite filter_step7_fold. reflexivity.
Qed.

Lemma filter_idempotent_list {A} (f : A -> bool) (l : list A) :
  List.filter f (List.filter f l) = List.filter f l.
Proof.
  induction l as [|x l IH]; simpl; [reflexivity|].
  destruct (f x) eqn:E; simpl; rewrite ?E, IH; reflexivity.
Qed.

Lemma filter_negb_filter {A} (f : A -> bool) (l : list A) :
  List.filter (fun x => negb (f x)) (List.filter f l) = [].
Proof.
  induction l as [|x l IH]; simpl; [reflexivity|].
  destruct (f x) eqn:E; simpl; rewrite ?E; simpl; exact IH.
Qed.

End Filter7.

(** X3. The two dates of a range may be given in either order: the date
    filters of cases 1, 2 and 7 put them in order first, so a range and
    the reversed range give the same sheet, the same messages and the same
    outcome. *)
Theorem date_range_may_be_reversed (L : PyLib) (a b : datetime) :
  normalize_range (a, b) = normalize_range (b, a)
  /\ datetime_gt (fst (normalize_range (a, b))) (snd (normalize_range (a, b))) = false
  /\ (forall ws, filter_rows_by_date_range1 ws (Some (a, b))
                 = filter_rows_by_date_range1 ws (Some (b, a)))
  /\ (forall ws, filter_rows_by_date_range2 ws (Some (a, b))
                 = filter_rows_by_date_range2 ws (Some (b, a)))
  /\ (forall rows, filter_data_rows_by_date_range7 rows (Some (a, b))
                   = filter_data_rows_by_date_range7 rows (Some (b, a))).
Proof.
  split; [apply normalize_range_sym|].
  split; [apply normalize_range_ordered|].
  split; [|split].
  - intros ws. unfold filter_rows_by_date_range1.
    rewrite (normalize_range_sym a b). reflexivity.
  - intros ws. unfold filter_rows_by_date_range2.
    rewrite (normalize_range_sym a b). reflexivity.
  - intros rows. unfold filter_data_rows_by_date_range7.
    rewrite (normalize_range_sym a b). reflexivity.
Qed.

(** X4. The date filter of case 7 returns, in their order, the rows whose
    ['Fecha'] does not parse or parses to a date inside the range (ends
    included, times of day ignored); it logs the number of rows left out
    when there are any; filtering the result again with the same range
    changes nothing and logs nothing; without a range every row is
    returned. *)
Theorem case7_filter_keeps_rows_in_range (L : PyLib) (rows : list row_data)
    (range : datetime * datetime) :
  let s := fst (normalize_range range) in
  let e := snd (normalize_range range) in
  let out := filter_data_rows_by_date_range7 rows (Some range) in
  let left_out := length (List.filter (fun row => negb (keeps7 s e row)) rows) in
  fst out = List.filter (keeps7 s e) rows
  /\ snd out = (if 0 <? left_out then [LogRowsFilteredOut left_out s e] else [])
  /\ length (fst out) + left_out = length rows
  /\ (forall row, In row rows ->
        parse_date_from_value7 (row_get row K_FECHA) = None -> In row (fst out))
  /\ (forall row d, In row (fst out) ->
        parse_date_from_value7 (row_get row K_FECHA) = Some d ->
        (dt_ordinal s <= dt_ordinal d <= dt_ordinal e)%Z)
  /\ filter_data_rows_by_date_range7 (fst out) (Some range) = (fst out, [])
  /\ filter_data_rows_by_date_range7 rows None = (rows, []).
Proof.
  intros s e out left_out. subst out.
  rewrite (filter_data_rows_by_date_range7_eq rows range).
  fold s e. fold left_out. cbn [fst snd].
  split; [reflexivity|]. split; [reflexivity|].
  split.
  { subst left_out. clear. induction rows as [|row rows IH]; simpl; [reflexivity|].
    destruct (keeps7 s e row); simpl; lia. }
  split.
  { intros row Hin Hnone. apply filter_In. split; [exact Hin|].
    unfold keeps7. rewrite Hnone. reflexivity. }
  split.
  { intros row d Hin Hd. apply filter_In in Hin as [_ Hk].
    unfold keeps7 in Hk. rewrite Hd in Hk. unfold in_range, date_le in Hk.
    apply andb_true_iff in Hk as [H1 H2]. apply Z.leb_le in H1, H2. lia. }
  split; [|reflexivity].
  rewrite (filter_data_rows_by_date_range7_eq (List.filter (keeps7 s e) rows) range).
  fold s e. rewrite filter_idempotent_list, filter_negb_filter. reflexivity.
Qed.

(** ** Serial numbers as dates (cases 1 and 7) *)

Lemma round_half_even_Z (k : Z) : round_half_even (inject_Z k) = k.
Proof.
  unfold round_half_even. cbv zeta.
  assert (Hf : Qfloor (inject_Z k) = k).
  { unfold Qfloor, inject_Z. apply Z.div_1_r. }
  rewrite Hf.
  assert (Hc : (inject_Z k - inject_Z k ?= 1 # 2)%Q = Lt).
  { unfold Qcompare, Qminus, Qplus, Qopp, inject_Z. simpl.
    apply Z.compare_lt_iff. lia. }
  rewrite Hc. reflexivity.
Qed.

Lemma from_serial_Z (n : Z) :
  from_serial (inject_Z n)
  = if ((-999999999 <=? n) && (n <=? 999999999)
        && (MINORDINAL <=? EXCEL_EPOCH + n) && (EXCEL_EPOCH + n <=? MAXORDINAL))%Z
    then Some (mk_datetime (EXCEL_EPOCH + n) 0) else None.
Proof.
  unfold from_serial. cbv zeta.
  assert (Hq : (inject_Z n * inject_Z us_per_day)%Q = inject_Z (n * us_per_day)).
  { unfold Qmult, inject_Z. simpl. reflexivity. }
  rewrite Hq, round_half_even_Z.
  rewrite Z.div_mul by (unfold us_per_day; lia).
  rewrite Z.mod_mul by (unfold us_per_day; lia). reflexivity.
Qed.

Lemma parse_serial_Z (n : Z) :
  parse_serial (inject_Z n)
  = if ((2 <=? n) && (n <=? 2958465))%Z
    then Some (mk_datetime (EXCEL_EPOCH + n) 0) else None.
Proof.
  unfold parse_serial. rewrite from_serial_Z.
  unfold MINORDINAL, MAXORDINAL, EXCEL_EPOCH.
  destruct ((-999999999 <=? n) && (n <=? 999999999)
            && (1 <=? 693594 + n) && (693594 + n <=? 3652059))%Z eqn:E.
  - unfold plausible_year, dt_year. cbn [dt_ordinal].
    destruct ((1900 <=? year_of_ordinal (693594 + n))
              && (year_of_ordinal (693594 + n) <=? 9999))%Z eqn:Ey.
    + apply andb_true_iff in Ey. rewrite !Z.leb_le in Ey.
      apply year_of_ordinal_bounds in Ey.
      destruct (Z.leb_spec 2 n); [|lia]. destruct (Z.leb_spec n 2958465); [|lia].
      reflexivity.
    + destruct ((2 <=? n) && (n <=? 2958465))%Z eqn:En; [|reflexivity].
      apply andb_true_iff in En. rewrite !Z.leb_le in En.
      assert (Hy : (1900 <= year_of_ordinal (693594 + n) <= 9999)%Z)
        by (apply year_of_ordinal_bounds; lia).
      apply andb_false_iff in Ey. rewrite !Z.leb_nle in Ey. lia.
  - destruct ((2 <=? n) && (n <=? 2958465))%Z eqn:En; [|reflexivity].
    apply andb_true_iff in En. rewrite !Z.leb_le in En.
    repeat (apply andb_false_iff in E as [E|E]); rewrite Z.leb_nle in E; lia.
Qed.

Lemma parse_serial_year (q : Q) (d : datetime) :
  parse_serial q = Some d -> (1900 <= dt_year d <= 9999)%Z.
Proof.
  unfold parse_serial. destruct (from_serial q) as [c|]; [|discriminate].
  destruct (plausible_year c) eqn:E; [|discriminate]. intros [= <-].
  unfold plausible_year in E. apply andb_true_iff in E. rewrite !Z.leb_le in E. exact E.
Qed.

(** X5. A number in a date cell is read as a day count from 30 December
    1899. The parsers of cases 1 and 7 accept a whole number [n] exactly
    when [2 <= n <= 2958465], that is from 1 January 1900 to 31 December
    9999, and give midnight of day [n]; every date they read from a
    number, whole or not, has its year in 1900..9999, and the parser of
    case 7 reads none from a number that is not positive. *)
Theorem serial_numbers_read_as_dates (L : PyLib) (n : Z) :
  let accepted :=
    if ((2 <=? n) && (n <=? 2958465))%Z
    then Some (mk_datetime (EXCEL_EPOCH + n) 0) else None in
  parse_date_value (VNum (inject_Z n)) = accepted
  /\ parse_date_from_value7 (VNum (inject_Z n)) = accepted
  /\ make_date 1900 1 1 = Some (mk_datetime (EXCEL_EPOCH + 2) 0)
  /\ make_date 9999 12 31 = Some (mk_datetime (EXCEL_EPOCH + 2958465) 0)
  /\ (forall q d, parse_date_value (VNum q) = Some d -> (1900 <= dt_year d <= 9999)%Z)
  /\ (forall q d, parse_date_from_value7 (VNum q) = Some d ->
                  (1900 <= dt_year d <= 9999)%Z /\ Qgtb q 0 = true).
Proof.
  intros accepted. subst accepted.
  split; [apply parse_serial_Z|].
  split.
  { cbn [parse_date_from_value7]. unfold parse_serial7. rewrite parse_serial_Z.
    destruct (Qgtb (inject_Z n) 0) eqn:E; [reflexivity|].
    destruct ((2 <=? n) && (n <=? 2958465))%Z eqn:En; [|reflexivity].
    apply andb_true_iff in En. rewrite !Z.leb_le in En.
    unfold Qgtb in E. apply negb_false_iff in E. apply Qle_bool_iff in E.
    unfold Qle, inject_Z in E. simpl in E. lia. }
  split; [vm_compute; reflexivity|]. split; [vm_compute; reflexivity|].
  split.
  { intros q d. apply parse_serial_year. }
  intros q d. cbn [parse_date_from_value7]. unfold parse_serial7.
  destruct (Qgtb q 0); [|discriminate]. intros H. split; [|reflexivity].
  apply (parse_serial_year q d H).
Qed.

(** ** Loops that rewrite one row at a time *)

Section RowLoop.
Variable upd : worksheet -> nat -> option worksheet.

Hypothesis upd_frame : forall ws i ws' r c,
  upd ws i = Some ws' -> r <> i -> cell ws' r c = cell ws r c.
Hypothesis upd_local : forall ws ws0 i,
  (forall c, cell ws i c = cell ws0 i c) ->
  match upd ws i, upd ws0 i with
  | Some a, Some b => forall c, cell a i c = cell b i c
  | None, None => True
  | _, _ => False
  end.

Lemma row_loop_outcome (ws0 : worksheet) (rows : list nat) :
  List.NoDup rows ->
  forall ws n,
    (forall r c, In r rows -> cell ws r c = cell ws0 r c) ->
    snd (fold_left (counting_step upd) rows (ws, n))
    = n + length (List.filter (fun i => bool_decide (is_Some (upd ws0 i))) rows)
    /\ forall r c,
         cell (fst (fold_left (counting_step upd) rows (ws, n))) r c
         = if row_in rows r then cell (default ws0 (upd ws0 r)) r c else cell ws r c.
Proof using upd_frame upd_local.
  induction 1 as [|i rest Hi _ IH]; intros ws n Hagree.
  - simpl. split; [lia|reflexivity].
  - cbn [fold_left].
    assert (Hi' : ~ In i rest) by exact Hi.
    pose proof (upd_local ws ws0 i (fun c => Hagree i c (or_introl eq_refl))) as Hloc.
    assert (Es : counting_step upd (ws, n) i
                 = match upd ws i with Some ws' => (ws', S n) | None => (ws, n) end)
      by reflexivity.
    rewrite Es. clear Es.
    destruct (upd ws i) as [a|] eqn:Ea, (upd ws0 i) as [b|] eqn:Eb; try contradiction.
    + destruct (IH a (S n)) as [IHn IHc].
      { intros r c Hr. rewrite (upd_frame ws i a r c Ea) by (intros ->; contradiction).
        apply Hagree. right. exact Hr. }
      split.
      * rewrite IHn. cbn [List.filter]. rewrite Eb.
        rewrite bool_decide_eq_true_2 by eauto. simpl. lia.
      * intros r c. rewrite IHc. unfold row_in. cbn [existsb].
        fold (row_in rest r). destruct (Nat.eqb_spec r i) as [->|Hne].
        -- rewrite (row_in_false rest i Hi'). rewrite Eb. simpl. apply Hloc.
        -- simpl. destruct (row_in rest r); [reflexivity|].
           apply (upd_frame ws i a r c Ea Hne).
    + destruct (IH ws n) as [IHn IHc].
      { intros r c Hr. apply Hagree. right. exact Hr. }
      split.
      * rewrite IHn. cbn [List.filter]. rewrite Eb.
        rewrite bool_decide_eq_false_2 by (intros [x Hx]; discriminate). reflexivity.
      * intros r c. rewrite IHc. unfold row_in. cbn [existsb].
        fold (row_in rest r). destruct (Nat.eqb_spec r i) as [->|Hne].
        -- rewrite (row_in_false rest i Hi'). rewrite Eb. simpl.
           apply Hagree. left. reflexivity.
        -- simpl. reflexivity.
Qed.

End RowLoop.

(** ** Description overrides *)

Section OverrideLemmas.
Context {L : PyLib}.

Lemma override_decision7_first_hit (nd cur : ustr) (rules : list (ustr * ustr)) :
  override_decision7 nd cur rules
  = match first_hit nd rules with
    | Some c => if ustr_eqb cur c then None else Some c
    | None => None
    end.
Proof.
  unfold first_hit. induction rules as [|[t c] rules IH]; simpl; [reflexivity|].
  destruct (contains t nd); simpl; [reflexivity|exact IH].
Qed.

Lemma override_decision1_first_hit1 (nd cur : ustr) (rules : list (ustr * ustr)) :
  override_decision1 nd cur rules
  = match first_hit1 nd rules with
    | Some c => if ustr_eqb cur c then None else Some c
    | None => None
    end.
Proof.
  unfold first_hit1. induction rules as [|[t c] rules IH]; simpl; [reflexivity|].
  destruct (contains t nd); simpl; [|exact IH].
  destruct (ustr_eqb c []); simpl; [exact IH|reflexivity].
Qed.

Lemma normalize_override_rules_In (normalize : value -> ustr)
    (rules : list (ustr * ustr)) (t c : ustr) :
  In (t, c) (normalize_override_rules normalize rules) ->
  t <> [] /\ exists rule, In rule rules /\ t = normalize (VStr (fst rule))
                          /\ c = upper (strip (snd rule)) /\ strip (snd rule) <> [].
Proof.
  unfold normalize_override_rules. rewrite in_map_iff.
  intros [rule [[= <- <-] Hin]]. apply filter_In in Hin as [Hin Hok].
  apply andb_true_iff in Hok as [H1 H2].
  apply negb_true_iff in H1, H2. apply ustr_eqb_neq in H1, H2.
  split; [exact H1|]. exists rule. auto.
Qed.

Lemma first_hit_In (nd : ustr) (rules : list (ustr * ustr)) (c : ustr) :
  first_hit nd rules = Some c ->
  exists t, In (t, c) rules /\ contains t nd = true.
Proof.
  unfold first_hit. destruct (List.find _ rules) as [[t c']|] eqn:E; [|discriminate].
  simpl. intros [= <-]. apply find_some in E as [Hin Hc]. exists t. auto.
Qed.

Lemma first_hit1_In (nd : ustr) (rules : list (ustr * ustr)) (c : ustr) :
  first_hit1 nd rules = Some c ->
  c <> [] /\ exists t, In (t, c) rules /\ contains t nd = true.
Proof.
  unfold first_hit1. destruct (List.find _ rules) as [[t c']|] eqn:E; [|discriminate].
  simpl. intros [= <-]. apply find_some in E as [Hin Hc]. simpl in Hc.
  apply andb_true_iff in Hc as [Hc Hne]. apply negb_true_iff, ustr_eqb_neq in Hne.
  split; [exact Hne|]. exists t. auto.
Qed.

Lemma override_target7_eq (nrules : list (ustr * ustr)) (row : row_data) :
  override_target7 nrules row
  = match deciding_code7 nrules row with
    | Some c => if ustr_eqb (current_code7 row) c then None else Some c
    | None => None
    end.
Proof.
  unfold override_target7, deciding_code7, description_key7.
  destruct (is_blank (row_get row K_DESCRIPCION)); [reflexivity|].
  destruct (ustr_eqb (normalize_text7 _) []); [reflexivity|].
  apply override_decision7_first_hit.
Qed.

Lemma row_get_insert_other (row : row_data) (k k' : string) (v : value) :
  k <> k' -> row_get (<[k := v]> row) k' = row_get row k'.
Proof. intros H. unfold row_get. rewrite lookup_insert_ne by exact H. reflexivity. Qed.

Lemma row_get_insert_same (row : row_data) (k : string) (v : value) :
  row_get (<[k := v]> row) k = v.
Proof. unfold row_get. rewrite lookup_insert_eq. reflexivity. Qed.

Lemma current_code7_insert (row : row_data) (c : ustr) :
  current_code7 (<[K_CODIGO := VStr c]> row) = upper (strip c).
Proof.
  unfold current_code7. rewrite row_get_insert_same. unfold or_empty. simpl.
  destruct (ustr_eqb c []) eqn:E; simpl; [|reflexivity].
  apply ustr_eqb_eq in E. subst c. reflexivity.
Qed.

Lemma description_key7_insert (row : row_data) (v : value) :
  description_key7 (<[K_CODIGO := v]> row) = description_key7 row.
Proof.
  unfold description_key7. rewrite row_get_insert_other by discriminate. reflexivity.
Qed.

Lemma overridden7_other_keys (nrules : list (ustr * ustr)) (row : row_data) (k : string) :
  k <> K_CODIGO -> overridden7 nrules row !! k = row !! k.
Proof.
  intros Hk. unfold overridden7. destruct (override_target7 nrules row); [|reflexivity].
  apply lookup_insert_ne. congruence.
Qed.

Lemma override_step7_fold (nrules : list (ustr * ustr)) (rows : list row_data)
    (acc : list row_data * nat) :
  fold_left (override_step7 nrules) rows acc
  = (fst acc ++ map (overridden7 nrules) rows,
     snd acc + length (List.filter
                         (fun row => bool_decide (is_Some (override_target7 nrules row)))
                         rows)).
Proof.
  revert acc. induction rows as [|row rows IH]; intros [seen n]; simpl.
  - rewrite app_nil_r, Nat.add_0_r. reflexivity.
  - rewrite IH. unfold override_step7, overridden7.
    destruct (override_target7 nrules row) as [c|]; simpl.
    + rewrite <- app_assoc. f_equal. lia.
    + rewrite <- app_assoc. reflexivity.
Qed.

Lemma override_codes_by_description7_eq (rules : list (ustr * ustr))
    (rows : list row_data) :
  let nrules := normalize_override_rules normalize_text7 rules in
  let changed :=
    length (List.filter (fun row => bool_decide (is_Some (override_target7 nrules row)))
              rows) in
  first_has_keys rows K_CODIGO K_DESCRIPCION = true ->
  override_codes_by_description7 rules rows
  = (map (overridden7 nrules) rows,
     if 0 <? changed then [LogCodesOverridden changed] else []).
Proof.
  intros nrules changed Hk. subst changed nrules. unfold override_codes_by_description7.
  rewrite Hk. cbn [negb].
  destruct (normalize_override_rules normalize_text7 rules) as [|rule nrules'].
  - assert (Hnone : forall row, override_target7 [] row = None).
    { intros row. unfold override_target7.
      destruct (is_blank _); [reflexivity|]. destruct (ustr_eqb _ []); reflexivity. }
    assert (Hmap : map (overridden7 []) rows = rows).
    { clear Hk. induction rows as [|row rows IH]; simpl; [reflexivity|].
      unfold overridden7 at 1. rewrite Hnone, IH. reflexivity. }
    assert (Hfil : List.filter
                     (fun row => bool_decide (is_Some (override_target7 [] row))) rows = []).
    { clear Hk Hmap. induction rows as [|row rows IH]; simpl; [reflexivity|].
      rewrite Hnone. rewrite bool_decide_eq_false_2 by (intros [x Hx]; discriminate).
      exact IH. }
    rewrite Hmap, Hfil. reflexivity.
  - rewrite override_step7_fold. reflexivity.
Qed.

(** The code of a row once the rule that decides has been applied. *)
Lemma overridden7_code (nrules : list (ustr * ustr)) (row : row_data) (c : ustr) :
  upper (strip c) = c ->
  deciding_code7 nrules row = Some c ->
  current_code7 (overridden7 nrules row) = c
  /\ (overridden7 nrules row = row \/ overridden7 nrules row = <[K_CODIGO := VStr c]> row).
Proof.
  intros Hc Hd. unfold overridden7. rewrite override_target7_eq, Hd.
  destruct (ustr_eqb (current_code7 row) c) eqn:E.
  - apply ustr_eqb_eq in E. auto.
  - rewrite current_code7_insert. auto.
Qed.

Lemma overridden7_undecided (nrules : list (ustr * ustr)) (row : row_data) :
  deciding_code7 nrules row = None -> overridden7 nrules row = row.
Proof. intros Hd. unfold overridden7. rewrite override_target7_eq, Hd. reflexivity. Qed.

Lemma deciding_code7_normal (rules : list (ustr * ustr)) (row : row_data) (c : ustr) :
  code_normal_form_law ->
  deciding_code7 (normalize_override_rules normalize_text7 rules) row = Some c ->
  upper (strip c) = c.
Proof.
  intros Hlaw. unfold deciding_code7. destruct (ustr_eqb _ []); [discriminate|].
  intros H. apply first_hit_In in H as (t & Hin & _).
  apply normalize_override_rules_In in Hin as (_ & rule & _ & _ & -> & _).
  apply Hlaw.
Qed.

Lemma deciding_code7_overridden (nrules : list (ustr * ustr)) (row : row_data) :
  deciding_code7 nrules (overridden7 nrules row) = deciding_code7 nrules row.
Proof.
  unfold deciding_code7, overridden7.
  destruct (override_target7 nrules row); [|reflexivity].
  rewrite description_key7_insert. reflexivity.
Qed.

Lemma overridden7_idempotent (rules : list (ustr * ustr)) (row : row_data) :
  code_normal_form_law ->
  let nrules := normalize_override_rules normalize_text7 rules in
  override_target7 nrules (overridden7 nrules row) = None.
Proof.
  intros Hlaw nrules. rewrite override_target7_eq, deciding_code7_overridden.
  destruct (deciding_code7 nrules row) as [c|] eqn:Hd; [|reflexivity].
  pose proof (deciding_code7_normal rules row c Hlaw Hd) as Hc.
  destruct (overridden7_code nrules row c Hc Hd) as [-> _].
  unfold ustr_eqb. rewrite bool_decide_eq_true_2; reflexivity.
Qed.

Lemma has_key_insert (row : row_data) (k k' : string) (v : value) :
  has_key row k' = true -> has_key (<[k := v]> row) k' = true.
Proof.
  unfold has_key. intros H. apply bool_decide_eq_true in H. apply bool_decide_eq_true.
  destruct (decide (k = k')) as [->|Hne].
  - rewrite lookup_insert_eq. eauto.
  - rewrite lookup_insert_ne by exact Hne. exact H.
Qed.

Lemma first_has_keys_map (f : row_data -> row_data) (rows : list row_data) (k1 k2 : string) :
  (forall row k, has_key row k = true -> has_key (f row) k = true) ->
  first_has_keys rows k1 k2 = true -> first_has_keys (map f rows) k1 k2 = true.
Proof.
  intros Hf. destruct rows as [|row rows]; simpl; [discriminate|].
  intros H. apply andb_true_iff in H as [H1 H2]. rewrite !Hf by assumption. reflexivity.
Qed.

Lemma overridden7_has_key (nrules : list (ustr * ustr)) (row : row_data) (k : string) :
  has_key row k = true -> has_key (overridden7 nrules row) k = true.
Proof.
  intros H. unfold overridden7. destruct (override_target7 nrules row); [|exact H].
  apply has_key_insert, H.
Qed.

End OverrideLemmas.

(** The reference instance satisfies the law of code normalisation. *)

Lemma isspace_range (c : N) : isspace c = true -> (c <= 32 \/ 133 <= c)%N.
Proof.
  unfold isspace. rewrite !orb_true_iff, !andb_true_iff, !N.leb_le, !N.eqb_eq. lia.
Qed.

Lemma ref_upper_char_space (c : N) : isspace (Ref.upper_char c) = isspace c.
Proof.
  unfold Ref.upper_char. destruct ((97 <=? c) && (c <=? 122))%N eqn:E; [|reflexivity].
  apply andb_true_iff in E. rewrite !N.leb_le in E.
  destruct (isspace c) eqn:E1; [apply isspace_range in E1; lia|].
  destruct (isspace (c - 32)) eqn:E2; [apply isspace_range in E2; lia|reflexivity].
Qed.

Lemma ref_upper_char_idem (c : N) : Ref.upper_char (Ref.upper_char c) = Ref.upper_char c.
Proof.
  unfold Ref.upper_char at 2 3. destruct ((97 <=? c) && (c <=? 122))%N eqn:E; [|].
  - apply andb_true_iff in E. rewrite !N.leb_le in E. unfold Ref.upper_char.
    destruct (N.leb_spec 97 (c - 32)); [lia|]. reflexivity.
  - unfold Ref.upper_char. rewrite E. reflexivity.
Qed.

Lemma lstrip_map (f : N -> N) (s : ustr) :
  (forall c, isspace (f c) = isspace c) -> lstrip (map f s) = map f (lstrip s).
Proof.
  intros Hf. induction s as [|c s IH]; simpl; [reflexivity|].
  rewrite Hf. destruct (isspace c); [exact IH|reflexivity].
Qed.

Lemma strip_map (f : N -> N) (s : ustr) :
  (forall c, isspace (f c) = isspace c) -> strip (map f s) = map f (strip s).
Proof.
  intros Hf. unfold strip, rstrip.
  rewrite (lstrip_map f s Hf), <- map_rev, (lstrip_map f _ Hf), map_rev. reflexivity.
Qed.

Lemma ref_code_law : @code_normal_form_law RefLib.
Proof.
  intros s. simpl. unfold Ref.upper.
  rewrite (strip_map Ref.upper_char (strip s) ref_upper_char_space), strip_idempotent.
  rewrite map_map. apply map_ext. intros c. apply ref_upper_char_idem.
Qed.

(** X6. The description override of case 7 goes through the rows once
    the first row has the keys ['Código'] and ['Descripción']. In each row
    only ['Código'] can change; the rule that decides is the first one,
    in the order of the configuration, whose normalised search text occurs
    in the normalised description: afterwards the normalised code of the
    row is the code of that rule, the row being left as it was when its
    normalised code was that one already; a row without description or
    without such a rule is left as it was; the number of rows changed is
    logged; a second pass changes nothing. *)
Theorem description_override_of_case7 (L : PyLib) (rules : list (ustr * ustr))
    (rows : list row_data) :
  code_normal_form_law ->
  first_has_keys rows K_CODIGO K_DESCRIPCION = true ->
  let nrules := normalize_override_rules normalize_text7 rules in
  let out := fst (override_codes_by_description7 rules rows) in
  let changed := length (List.filter (needs_override7 nrules) rows) in
  length out = length rows
  /\ (forall i row, rows !! i = Some row ->
        exists row', out !! i = Some row'
          /\ (forall k, k <> K_CODIGO -> row' !! k = row !! k)
          /\ match deciding_code7 nrules row with
             | Some c => current_code7 row' = c
                         /\ (row' = row \/ row' = <[K_CODIGO := VStr c]> row)
             | None => row' = row
             end)
  /\ snd (override_codes_by_description7 rules rows)
     = (if 0 <? changed then [LogCodesOverridden changed] else [])
  /\ override_codes_by_description7 rules out = (out, []).
Proof.
  intros Hlaw Hk nrules out changed. subst out changed.
  rewrite (override_codes_by_description7_eq rules rows Hk). fold nrules. cbn [fst snd].
  split; [apply length_map|].
  assert (Hrow : forall i row, rows !! i = Some row ->
            map (overridden7 nrules) rows !! i = Some (overridden7 nrules row)).
  { intros i row Hi. rewrite map_lookup, Hi. reflexivity. }
  split.
  { intros i row Hi. exists (overridden7 nrules row).
    split; [apply Hrow, Hi|].
    split; [intros k Hne; apply overridden7_other_keys, Hne|].
    destruct (deciding_code7 nrules row) as [c|] eqn:Hd.
    - apply overridden7_code; [|exact Hd].
      apply (deciding_code7_normal rules row c Hlaw Hd).
    - apply overridden7_undecided, Hd. }
  split.
  { assert (Hf : List.filter
                     (fun row => bool_decide (is_Some (override_target7 nrules row))) rows
                   = List.filter (needs_override7 nrules) rows).
    { apply filter_ext_In_list. intros row _. unfold needs_override7.
      rewrite override_target7_eq.
      destruct (deciding_code7 nrules row) as [c|];
        [destruct (ustr_eqb (current_code7 row) c)|]; reflexivity. }
    rewrite Hf. reflexivity. }
  rewrite override_codes_by_description7_eq
    by (apply first_has_keys_map; [intros; apply overridden7_has_key; assumption|exact Hk]).
  fold nrules.
  assert (Hmap : map (overridden7 nrules) (map (overridden7 nrules) rows)
                 = map (overridden7 nrules) rows).
  { rewrite map_map. apply map_ext. intros row. unfold overridden7 at 1.
    subst nrules. rewrite (overridden7_idempotent rules row Hlaw). reflexivity. }
  assert (Hfil : List.filter
                   (fun row => bool_decide (is_Some (override_target7 nrules row)))
                   (map (overridden7 nrules) rows) = []).
  { apply filter_none. intros r Hr. apply in_map_iff in Hr as [row [<- _]].
    subst nrules. rewrite (overridden7_idempotent rules row Hlaw).
    apply bool_decide_eq_false_2. intros [x Hx]. discriminate. }
  rewrite Hmap, Hfil. reflexivity.
Qed.

Lemma description_override_of_case7_witness :
  @override_codes_by_description7 RefLib sample_overrides
    (fst (@override_codes_by_description7 RefLib sample_overrides sample_rows7))
  = (fst (@override_codes_by_description7 RefLib sample_overrides sample_rows7), []).
Proof.
  assert (H1 : @code_normal_form_law RefLib) by exact ref_code_law.
  assert (H2 : first_has_keys sample_rows7 K_CODIGO K_DESCRIPCION = true)
    by (vm_compute; reflexivity).
  exact (proj2 (proj2 (proj2
           (description_override_of_case7 RefLib sample_overrides sample_rows7 H1 H2)))).
Defined.

Example override7_on_sample :
  map (fun row => row_get row K_CODIGO)
    (fst (@override_codes_by_description7 RefLib sample_overrides sample_rows7))
  = [VStr (U "O/C"); VStr (U "RET")]
  /\ snd (@override_codes_by_description7 RefLib sample_overrides sample_rows7)
     = [LogCodesOverridden 2].
Proof. vm_compute. split; reflexivity. Qed.

Section ReplacementRules7.
Context {L : PyLib}.

Lemma code_only_id : code_only (fun row => row).
Proof. intros row. left. reflexivity. Qed.

Lemma code_only_remap_row7 (m : code_map) (ak ok : string) :
  code_only (remap_row7 m ak ok).
Proof.
  intros row. unfold remap_row7. destruct (remap_decision7 _ _ _ _) as [c|]; eauto.
Qed.

Lemma code_only_compose (g1 g2 : row_data -> row_data) :
  code_only g1 -> code_only g2 -> code_only (fun row => g2 (g1 row)).
Proof.
  intros H1 H2 row. destruct (H1 row) as [E1|[c1 E1]], (H2 (g1 row)) as [E2|[c2 E2]];
    rewrite E2, E1; eauto.
  right. exists c2. apply insert_insert_eq.
Qed.

Lemma code_only_keys (g : row_data -> row_data) (row : row_data) (k : string) :
  code_only g -> k <> K_CODIGO -> g row !! k = row !! k.
Proof.
  intros Hg Hk. destruct (Hg row) as [->|[c ->]]; [reflexivity|].
  apply lookup_insert_ne. congruence.
Qed.

Lemma code_only_description (g : row_data -> row_data) (row : row_data) :
  code_only g -> description_key7 (g row) = description_key7 row.
Proof.
  intros Hg. destruct (Hg row) as [->|[c ->]]; [reflexivity|].
  apply description_key7_insert.
Qed.

Lemma code_only_has_key (g : row_data -> row_data) (row : row_data) (k : string) :
  code_only g -> has_key row k = true -> has_key (g row) k = true.
Proof.
  intros Hg H. destruct (Hg row) as [->|[c ->]]; [exact H|]. apply has_key_insert, H.
Qed.

Lemma update_debits7_as_map (m : code_map) (rows : list row_data) :
  exists g, code_only g /\ update_codes_for_positive_debits7 m rows = map g rows.
Proof.
  unfold update_codes_for_positive_debits7.
  destruct (negb _); [exists (fun row => row); split; [apply code_only_id|]|].
  { symmetry. apply map_id. }
  destruct (map_is_empty m); [exists (fun row => row); split; [apply code_only_id|]|].
  { symmetry. apply map_id. }
  eexists. split; [apply code_only_remap_row7|reflexivity].
Qed.

Lemma update_credits7_as_map (m : code_map) (rows : list row_data) :
  exists g, code_only g /\ update_codes_for_non_negative_credits7 m rows = map g rows.
Proof.
  unfold update_codes_for_non_negative_credits7.
  destruct (negb _); [exists (fun row => row); split; [apply code_only_id|]|].
  { symmetry. apply map_id. }
  destruct (map_is_empty m); [exists (fun row => row); split; [apply code_only_id|]|].
  { symmetry. apply map_id. }
  eexists. split; [apply code_only_remap_row7|reflexivity].
Qed.

Lemma sign_exclusive_remap7_as_map (debit_map credit_map : code_map)
    (rows : list row_data) :
  exists g, code_only g /\ sign_exclusive_remap7 debit_map credit_map rows = map g rows.
Proof.
  unfold sign_exclusive_remap7.
  destruct (update_debits7_as_map debit_map rows) as (g1 & H1 & ->).
  destruct (update_credits7_as_map credit_map (map g1 rows)) as (g2 & H2 & ->).
  exists (fun row => g2 (g1 row)). split; [apply code_only_compose; assumption|].
  apply map_map.
Qed.

End ReplacementRules7.

(** X7. In [_apply_code_replacement_rules] of case 7 the description
    override comes last and has the last word: whatever the debit and
    credit maps do, a row whose description is decided by an override rule
    ends with the code of that rule (as its normalised code); a row that
    no rule decides keeps what the two sign remaps made of it; in every
    row only ['Código'] can differ from the input, and no row is added,
    dropped or moved. *)
Theorem description_override_has_the_last_word (L : PyLib)
    (debit_map credit_map : code_map) (rules : list (ustr * ustr))
    (rows : list row_data) :
  code_normal_form_law ->
  first_has_keys rows K_CODIGO K_DESCRIPCION = true ->
  let nrules := normalize_override_rules normalize_text7 rules in
  let out := apply_code_replacement_rules7 debit_map credit_map rules rows in
  length out = length rows
  /\ forall i row, rows !! i = Some row ->
       exists row', out !! i = Some row'
         /\ (forall k, k <> K_CODIGO -> row' !! k = row !! k)
         /\ (forall c, deciding_code7 nrules row = Some c -> current_code7 row' = c)
         /\ (deciding_code7 nrules row = None ->
             sign_exclusive_remap7 debit_map credit_map rows !! i = Some row').
Proof.
  intros Hlaw Hk nrules out. subst out. unfold apply_code_replacement_rules7.
  destruct rows as [|row0 rows'] eqn:Erows; [discriminate|]. rewrite <- Erows in *.
  change (update_codes_for_non_negative_credits7 credit_map
            (update_codes_for_positive_debits7 debit_map rows))
    with (sign_exclusive_remap7 debit_map credit_map rows).
  destruct (sign_exclusive_remap7_as_map debit_map credit_map rows) as (g & Hg & ->).
  rewrite override_codes_by_description7_eq
    by (apply first_has_keys_map; [intros; apply code_only_has_key; assumption|exact Hk]).
  fold nrules. cbn [fst]. rewrite map_map.
  split; [apply length_map|].
  intros i row Hi. exists (overridden7 nrules (g row)).
  split; [rewrite map_lookup, Hi; reflexivity|].
  assert (Hd : deciding_code7 nrules (g row) = deciding_code7 nrules row).
  { unfold deciding_code7. rewrite (code_only_description g row Hg). reflexivity. }
  split.
  { intros k Hne. rewrite overridden7_other_keys by exact Hne.
    apply code_only_keys; assumption. }
  split.
  { intros c Hc. rewrite <- Hd in Hc.
    apply (overridden7_code nrules (g row) c); [|exact Hc].
    rewrite Hd in Hc. apply (deciding_code7_normal rules row c Hlaw Hc). }
  intros Hnone. rewrite <- Hd in Hnone.
  rewrite (overridden7_undecided nrules (g row) Hnone), map_lookup, Hi. reflexivity.
Qed.

Lemma description_override_has_the_last_word_witness :
  length (@apply_code_replacement_rules7 RefLib sample_debit_map sample_credit_map
            sample_overrides sample_rows7)
  = length sample_rows7.
Proof.
  assert (H1 : @code_normal_form_law RefLib) by exact ref_code_law.
  assert (H2 : first_has_keys sample_rows7 K_CODIGO K_DESCRIPCION = true)
    by (vm_compute; reflexivity).
  exact (proj1 (description_override_has_the_last_word RefLib sample_debit_map
                  sample_credit_map sample_overrides sample_rows7 H1 H2)).
Defined.

Example replacement_rules7_on_sample :
  map (fun row => row_get row K_CODIGO)
    (@sign_exclusive_remap7 RefLib sample_debit_map sample_credit_map sample_rows7)
  = [VStr (U "DEP"); VStr (U "T/D")]
  /\ map (fun row => row_get row K_CODIGO)
       (@apply_code_replacement_rules7 RefLib sample_debit_map sample_credit_map
          sample_overrides sample_rows7)
     = [VStr (U "O/C"); VStr (U "RET")].
Proof. vm_compute. split; reflexivity. Qed.

(** ** The description override of case 1 *)

Lemma fold_left_pointwise {A B} (f g : A -> B -> A) (l : list B) (a : A) :
  (forall x y, f x y = g x y) -> fold_left f l a = fold_left g l a.
Proof.
  intros H. revert a. induction l as [|y l IH]; intros a; simpl; [reflexivity|].
  rewrite H. apply IH.
Qed.

Lemma set_cell_agree (ws ws0 : worksheet) (i cc : nat) (v : value) :
  (forall c, cell ws i c = cell ws0 i c) ->
  forall c, cell (set_cell ws i cc v) i c = cell (set_cell ws0 i cc v) i c.
Proof.
  intros H c. destruct i as [|i]; [reflexivity|]. destruct cc as [|cc]; [apply H|].
  rewrite !cell_set_cell by lia. destruct (_ && _); [reflexivity|apply H].
Qed.

Section Override1.
Context {L : PyLib}.

Lemma override_row1_counting (nrules : list (ustr * ustr)) (cc dc : nat)
    (acc : worksheet * nat) (i : nat) :
  override_row1 nrules cc dc acc i = counting_step (override_update1 nrules cc dc) acc i.
Proof.
  unfold override_row1, counting_step, override_update1. cbv zeta.
  destruct (is_blank _); [reflexivity|]. destruct (ustr_eqb _ []); [reflexivity|].
  destruct (override_decision1 _ _ _); reflexivity.
Qed.

Lemma override_update1_frame (nrules : list (ustr * ustr)) (cc dc : nat)
    (ws : worksheet) (i : nat) (ws' : worksheet) (r c : nat) :
  override_update1 nrules cc dc ws i = Some ws' -> r <> i -> cell ws' r c = cell ws r c.
Proof.
  unfold override_update1. cbv zeta.
  destruct (is_blank _); [discriminate|]. destruct (ustr_eqb _ []); [discriminate|].
  destruct (override_decision1 _ _ _); [|discriminate].
  intros [= <-] Hne. apply cell_set_cell_other. left. congruence.
Qed.

Lemma override_update1_local (nrules : list (ustr * ustr)) (cc dc : nat)
    (ws ws0 : worksheet) (i : nat) :
  (forall c, cell ws i c = cell ws0 i c) ->
  match override_update1 nrules cc dc ws i, override_update1 nrules cc dc ws0 i with
  | Some a, Some b => forall c, cell a i c = cell b i c
  | None, None => True
  | _, _ => False
  end.
Proof.
  intros H. unfold override_update1. cbv zeta. rewrite !H.
  destruct (is_blank _); [exact I|]. destruct (ustr_eqb _ []); [exact I|].
  destruct (override_decision1 _ _ _); [|exact I].
  apply set_cell_agree, H.
Qed.

Lemma override_update1_eq (nrules : list (ustr * ustr)) (cc dc : nat)
    (ws : worksheet) (r : nat) :
  override_update1 nrules cc dc ws r
  = match deciding_code1 nrules ws dc r with
    | Some c =>
        if ustr_eqb (norm_code (cell ws r cc)) c then None
        else Some (set_cell ws r cc (VStr c))
    | None => None
    end.
Proof.
  unfold override_update1, deciding_code1, description_key1. cbv zeta.
  destruct (is_blank _); [reflexivity|]. destruct (ustr_eqb _ []); [reflexivity|].
  rewrite override_decision1_first_hit1.
  destruct (first_hit1 _ _) as [c|]; [|reflexivity].
  destruct (ustr_eqb _ c); reflexivity.
Qed.

Lemma deciding_code1_normal (rules : list (ustr * ustr)) (ws : worksheet)
    (dc r : nat) (c : ustr) :
  code_normal_form_law ->
  deciding_code1 (normalize_override_rules normalize_text rules) ws dc r = Some c ->
  c <> [] /\ upper (strip c) = c.
Proof.
  intros Hlaw. unfold deciding_code1. destruct (ustr_eqb _ []); [discriminate|].
  intros H. apply first_hit1_In in H as (Hne & t & Hin & _). split; [exact Hne|].
  apply normalize_override_rules_In in Hin as (_ & rule & _ & _ & -> & _).
  apply Hlaw.
Qed.

Lemma override_codes_by_description1_eq (rules : list (ustr * ustr)) (ws : worksheet)
    (hm : header_map) (start_row end_row cc dc : nat) :
  valid_column (hm_get (U "codigo") hm) = Some cc ->
  valid_column (hm_get (U "descripcion") hm) = Some dc ->
  let nrules := normalize_override_rules normalize_text rules in
  let rows := row_range start_row end_row in
  let out := override_codes_by_description1 rules ws hm start_row end_row in
  let changed := length (List.filter (needs_override1 nrules ws cc dc) rows) in
  snd out = (if 0 <? changed then [LogCodesOverridden changed] else [])
  /\ forall r c,
       cell (fst out) r c
       = if row_in rows r
         then cell (default ws (override_update1 nrules cc dc ws r)) r c
         else cell ws r c.
Proof.
  intros Hcc Hdc nrules rows out changed. subst out changed.
  unfold override_codes_by_description1. rewrite Hcc, Hdc. fold nrules. fold rows.
  assert (Hneeds : forall rs,
    List.filter (fun i => bool_decide (is_Some (override_update1 nrules cc dc ws i))) rs
    = List.filter (needs_override1 nrules ws cc dc) rs).
  { intros rs. apply filter_ext_In_list. intros r _. rewrite override_update1_eq.
    unfold needs_override1.
    destruct (deciding_code1 nrules ws dc r) as [c|];
      [destruct (ustr_eqb (norm_code (cell ws r cc)) c)|]; reflexivity. }
  destruct nrules as [|rule nrules'] eqn:En.
  - cbn [fst snd].
    assert (Hnone : forall r, override_update1 [] cc dc ws r = None).
    { intros r. rewrite override_update1_eq. unfold deciding_code1.
      destruct (ustr_eqb _ []); reflexivity. }
    rewrite <- Hneeds. rewrite filter_none
      by (intros r _; rewrite Hnone; apply bool_decide_eq_false_2;
          intros [x Hx]; discriminate).
    split; [reflexivity|]. intros r c. rewrite Hnone. simpl.
    destruct (row_in rows r); reflexivity.
  - rewrite <- En in *. clear En.
    rewrite (fold_left_pointwise _ _ rows (ws, 0) (override_row1_counting nrules cc dc)).
    destruct (row_loop_outcome (override_update1 nrules cc dc)
                (override_update1_frame nrules cc dc)
                (override_update1_local nrules cc dc)
                ws rows (NoDup_row_range _ _) ws 0 (fun _ _ _ => eq_refl)) as [Hn Hc].
    destruct (fold_left (counting_step (override_update1 nrules cc dc)) rows (ws, 0))
      as [ws' n] eqn:Ef.
    cbn [fst snd] in *. rewrite Hn, Hneeds. simpl. split; [reflexivity|exact Hc].
Qed.

End Override1.

(** X8. The description override of case 1 works on the rows from
    [start_row] to [end_row] of a sheet with a code and a description
    column, and touches nothing but their code cells. The rule that
    decides a row is the first one, in the order of the configuration,
    that has a code and whose normalised search text occurs in the
    normalised description: afterwards the normalised code of the row is
    the code of that rule, the cell being left as it was when its
    normalised code was that one already; the code of a row without
    description text or without such a rule is left as it was; the number
    of codes rewritten is logged. *)
Theorem description_override_of_case1 (L : PyLib) (rules : list (ustr * ustr))
    (ws : worksheet) (hm : header_map) (start_row end_row cc dc : nat) :
  code_normal_form_law ->
  valid_column (hm_get (U "codigo") hm) = Some cc ->
  valid_column (hm_get (U "descripcion") hm) = Some dc ->
  1 <= start_row ->
  let nrules := normalize_override_rules normalize_text rules in
  let out := fst (override_codes_by_description1 rules ws hm start_row end_row) in
  let changed :=
    length (List.filter (needs_override1 nrules ws cc dc)
              (row_range start_row end_row)) in
  (forall r c, c <> cc \/ r < start_row \/ end_row < r -> cell out r c = cell ws r c)
  /\ (forall r, start_row <= r <= end_row ->
        match deciding_code1 nrules ws dc r with
        | Some code =>
            norm_code (cell out r cc) = code
            /\ (cell out r cc = cell ws r cc \/ cell out r cc = VStr code)
        | None => cell out r cc = cell ws r cc
        end)
  /\ snd (override_codes_by_description1 rules ws hm start_row end_row)
     = (if 0 <? changed then [LogCodesOverridden changed] else []).
Proof.
  intros Hlaw Hcc Hdc Hstart nrules out changed. subst out changed.
  destruct (override_codes_by_description1_eq rules ws hm start_row end_row cc dc Hcc Hdc)
    as [Hlog Hcell].
  fold nrules in Hlog, Hcell.
  assert (Hcc1 : 1 <= cc) by (apply valid_column_Some in Hcc; tauto).
  split; [|split; [|exact Hlog]].
  - intros r c Hout. rewrite Hcell.
    destruct (row_in (row_range start_row end_row) r) eqn:Er; [|reflexivity].
    assert (Hin : start_row <= r <= end_row).
    { unfold row_in in Er. apply existsb_exists in Er as (x & Hx & Ex).
      apply Nat.eqb_eq in Ex. subst x. apply In_row_range, Hx. }
    destruct Hout as [Hne|Hr]; [|lia].
    rewrite override_update1_eq.
    destruct (deciding_code1 nrules ws dc r) as [code|]; [|reflexivity].
    destruct (ustr_eqb _ code); [reflexivity|]. simpl.
    apply cell_set_cell_other. right. congruence.
  - intros r Hr. rewrite Hcell.
    rewrite (row_in_true _ r (proj2 (In_row_range start_row end_row r) Hr)).
    rewrite override_update1_eq.
    destruct (deciding_code1 nrules ws dc r) as [code|] eqn:Hd; [|reflexivity].
    destruct (deciding_code1_normal rules ws dc r code Hlaw Hd) as [Hne Hnormal].
    destruct (ustr_eqb (norm_code (cell ws r cc)) code) eqn:Ec; simpl.
    + apply ustr_eqb_eq in Ec. auto.
    + rewrite cell_set_cell_same by lia. split; [|right; reflexivity].
      unfold norm_code. simpl. apply ustr_eqb_neq in Hne.
      unfold ustr_eqb in *. rewrite Hne. simpl. exact Hnormal.
Qed.

Lemma description_override_of_case1_witness :
  snd (@override_codes_by_description1 RefLib sample_overrides sample_october
         sample_header_map 16 18)
  = [LogCodesOverridden 1].
Proof.
  assert (H1 : @code_normal_form_law RefLib) by exact ref_code_law.
  assert (H2 : valid_column (hm_get (U "codigo") sample_header_map) = Some 3)
    by (vm_compute; reflexivity).
  assert (H3 : valid_column (hm_get (U "descripcion") sample_header_map) = Some 4)
    by (vm_compute; reflexivity).
  assert (H4 : 1 <= 16) by lia.
  exact (proj2 (proj2 (description_override_of_case1 RefLib sample_overrides
                         sample_october sample_header_map 16 18 3 4 H1 H2 H3 H4))).
Defined.

Example override1_on_sample :
  @extract_header_map RefLib sample_october 6 = sample_header_map
  /\ map (fun r => cell (fst (@override_codes_by_description1 RefLib sample_overrides
                                sample_october sample_header_map 16 18)) r 3)
       [16; 17; 18]
     = [VStr (U "RET"); VStr (U "3V"); VStr (U "DP")].
Proof. vm_compute. split; reflexivity. Qed.

(** ** Deleting columns *)

Lemma nth_delete {A} (i j : nat) (l : list A) (d : A) :
  nth j (delete i l) d = nth (if j <? i then j else S j) l d.
Proof.
  revert i j. induction l as [|x l IH]; intros i j.
  - simpl. destruct (j <? i); destruct j; reflexivity.
  - destruct i as [|i]; [reflexivity|]. destruct j as [|j]; [reflexivity|].
    simpl. rewrite IH. change (S j <? S i) with (j <? i). destruct (j <? i); reflexivity.
Qed.

Lemma length_delete_cases {A} (i : nat) (l : list A) :
  (i < length l /\ S (length (delete i l)) = length l)
  \/ (length l <= i /\ delete i l = l).
Proof.
  revert i. induction l as [|x l IH]; intros i.
  - right. split; [simpl; lia|reflexivity].
  - destruct i as [|i].
    + left. simpl. split; [lia|reflexivity].
    + destruct (IH i) as [[H1 H2]|[H1 H2]].
      * left. simpl. split; [lia|]. simpl in H2. rewrite <- H2. reflexivity.
      * right. simpl. split; [lia|]. f_equal. exact H2.
Qed.

Lemma nth_map_delete (k r : nat) (ws : worksheet) :
  nth r (map (delete k) ws) [] = delete k (nth r ws []).
Proof. exact (map_nth (delete k) ws [] r). Qed.

Lemma cell_delete_cols (ws : worksheet) (k r c : nat) :
  1 <= k ->
  cell (delete_cols ws k) r c = cell ws r (if c <? k then c else S c).
Proof.
  intros Hk. destruct r as [|r]; [reflexivity|].
  destruct c as [|c].
  - destruct k; [lia|]. reflexivity.
  - unfold cell, delete_cols. rewrite nth_map_delete, nth_delete.
    destruct k as [|k]; [lia|]. simpl Nat.sub. rewrite Nat.sub_0_r.
    change (S c <? S k) with (c <? k). destruct (c <? k); reflexivity.
Qed.

Lemma max_row_delete_cols (ws : worksheet) (k : nat) :
  max_row (delete_cols ws k) = max_row ws.
Proof. unfold max_row, delete_cols. apply length_map. Qed.

Lemma max_column_ge (ws : worksheet) (c : nat) :
  1 <= c -> (c <= max_column ws <-> exists row, In row ws /\ c <= length row).
Proof.
  intros Hc. unfold max_column. induction ws as [|row ws IH]; simpl.
  - split; [lia|intros [row [[] _]]].
  - split.
    + intros H. destruct (Nat.max_spec (length row) (fold_right Nat.max 0 (map length ws)))
        as [[_ E]|[_ E]]; rewrite E in H.
      * apply IH in H as [row' [Hin Hlen]]. exists row'. auto.
      * exists row. auto.
    + intros [row' [[<-|Hin] Hlen]]; [lia|].
      assert (c <= fold_right Nat.max 0 (map length ws)) by (apply IH; eauto). lia.
Qed.

Lemma cell_beyond_max_column (ws : worksheet) (r c : nat) :
  max_column ws < c -> cell ws r c = VNone.
Proof.
  intros Hc. destruct r as [|r]; [reflexivity|]. destruct c as [|c]; [reflexivity|].
  unfold cell. destruct (Nat.lt_ge_cases r (length ws)) as [Hr|Hr].
  - apply nth_overflow.
    assert (Hin : In (nth r ws []) ws) by (apply nth_In; exact Hr).
    destruct (Nat.le_gt_cases (length (nth r ws [])) c) as [H|H]; [exact H|].
    assert (S c <= max_column ws) by (apply max_column_ge; [lia|]; eauto). lia.
  - rewrite (nth_overflow ws [] Hr). destruct c; reflexivity.
Qed.

Lemma cell_beyond_max_row (ws : worksheet) (r c : nat) :
  max_row ws < r -> cell ws r c = VNone.
Proof.
  intros Hr. destruct r as [|r]; [reflexivity|]. destruct c as [|c]; [reflexivity|].
  unfold cell, max_row in *. rewrite (nth_overflow ws []) by lia. destruct c; reflexivity.
Qed.

Lemma max_column_delete_cols (ws : worksheet) (k c : nat) :
  1 <= k -> k <= c -> c <= max_column (delete_cols ws k) -> S c <= max_column ws.
Proof.
  intros Hk Hkc Hc. apply max_column_ge in Hc as [row' [Hin Hlen]]; [|lia].
  unfold delete_cols in Hin. apply in_map_iff in Hin as [row [<- Hin]].
  apply max_column_ge; [lia|]. exists row. split; [exact Hin|].
  destruct (length_delete_cases (k - 1) row) as [[H1 H2]|[H1 H2]].
  - lia.
  - rewrite H2 in Hlen. lia.
Qed.

Lemma max_column_delete_cols_le (ws : worksheet) (k : nat) :
  max_column (delete_cols ws k) <= max_column ws.
Proof.
  destruct (Nat.le_gt_cases (max_column (delete_cols ws k)) 0) as [H|H]; [lia|].
  assert (Hc : max_column (delete_cols ws k) <= max_column (delete_cols ws k)) by lia.
  apply max_column_ge in Hc as [row' [Hin Hlen]]; [|lia].
  unfold delete_cols in Hin. apply in_map_iff in Hin as [row [<- Hin]].
  apply max_column_ge; [lia|]. exists row. split; [exact Hin|].
  destruct (length_delete_cases (k - 1) row) as [[H1 H2]|[H1 H2]].
  - lia.
  - rewrite H2 in Hlen. exact Hlen.
Qed.

Lemma rev_seq_S (n : nat) : rev (seq 1 (S n)) = S n :: rev (seq 1 n).
Proof. rewrite seq_S, rev_app_distr. reflexivity. Qed.

(** ** Empty columns (case 1) *)

Section EmptyColumns.
Context {L : PyLib}.

Lemma column_has_content_delete_cols (cur : worksheet) (m k c : nat) :
  1 <= k -> k <= c ->
  column_has_content (delete_cols cur k) m c = column_has_content cur m (S c).
Proof.
  intros Hk Hc. unfold column_has_content.
  induction (seq 1 m) as [|r rows IH]; simpl; [reflexivity|].
  rewrite IH, cell_delete_cols by exact Hk.
  destruct (Nat.ltb_spec c k); [lia|]. reflexivity.
Qed.

Lemma existsb_false_In {A} (f : A -> bool) (l : list A) (x : A) :
  existsb f l = false -> In x l -> f x = false.
Proof.
  intros H Hin. destruct (f x) eqn:E; [|reflexivity].
  rewrite <- H. symmetry. apply existsb_exists. eauto.
Qed.

Lemma column_no_content_rows (cur : worksheet) (k : nat) (row : list value) :
  column_has_content cur (length cur) k = false -> 1 <= k -> In row cur ->
  has_content (nth (k - 1) row VNone) = false.
Proof.
  intros H Hk Hin. apply (In_nth _ _ []) in Hin as (r & Hr & <-).
  unfold column_has_content in H.
  assert (Hcell : has_content (cell cur (S r) k) = false).
  { apply (existsb_false_In _ _ (S r) H). apply in_seq. lia. }
  destruct k as [|k]; [lia|]. simpl Nat.sub. rewrite Nat.sub_0_r. exact Hcell.
Qed.

Lemma filter_delete_no_content (i : nat) (row : list value) :
  has_content (nth i row VNone) = false ->
  List.filter has_content (delete i row) = List.filter has_content row.
Proof.
  revert i. induction row as [|x row IH]; intros i H; [reflexivity|].
  destruct i as [|i].
  - simpl in H. simpl. rewrite H. reflexivity.
  - simpl in H. simpl. rewrite (IH i H). reflexivity.
Qed.

Lemma remove_empty_loop_keeps (m : nat) (cols : list nat) :
  (forall c, In c cols -> 1 <= c) ->
  forall cur, length cur = m ->
    let out :=
      fold_left
        (fun ws col_idx =>
           if column_has_content ws m col_idx then ws else delete_cols ws col_idx)
        cols cur in
    length out = m
    /\ map (List.filter has_content) out = map (List.filter has_content) cur
    /\ max_column out <= max_column cur.
Proof.
  induction cols as [|k cols IH]; intros Hcols cur Hlen; [simpl; auto|].
  cbn [fold_left]. cbv zeta.
  assert (Hk : 1 <= k) by (apply Hcols; left; reflexivity).
  assert (Hrest : forall c, In c cols -> 1 <= c) by (intros c Hc; apply Hcols; right; exact Hc).
  destruct (column_has_content cur m k) eqn:E.
  - apply (IH Hrest cur Hlen).
  - destruct (IH Hrest (delete_cols cur k)) as (H1 & H2 & H3).
    { rewrite <- Hlen. apply max_row_delete_cols. }
    split; [exact H1|]. split.
    + rewrite H2. unfold delete_cols. rewrite map_map. apply map_ext_in.
      intros row Hin. apply filter_delete_no_content.
      apply (column_no_content_rows cur k row); [rewrite Hlen; exact E|exact Hk|exact Hin].
    + pose proof (max_column_delete_cols_le cur k). lia.
Qed.

Lemma remove_empty_loop_content (m n : nat) :
  forall cur,
    (forall c, n < c -> c <= max_column cur -> column_has_content cur m c = true) ->
    let out :=
      fold_left
        (fun ws col_idx =>
           if column_has_content ws m col_idx then ws else delete_cols ws col_idx)
        (rev (seq 1 n)) cur in
    forall c, 1 <= c -> c <= max_column out -> column_has_content out m c = true.
Proof.
  induction n as [|n IH]; intros cur Hcur.
  - simpl. intros c Hc Hmax. apply Hcur; lia.
  - rewrite rev_seq_S. cbn [fold_left]. cbv zeta.
    destruct (column_has_content cur m (S n)) eqn:E.
    + apply IH. intros c Hc Hmax.
      destruct (Nat.eq_dec c (S n)) as [->|Hne]; [exact E|]. apply Hcur; [lia|exact Hmax].
    + apply IH. intros c Hc Hmax.
      rewrite column_has_content_delete_cols by lia.
      apply Hcur; [lia|]. apply (max_column_delete_cols cur (S n) c); [lia|lia|exact Hmax].
Qed.

Lemma remove_empty_loop_full (m : nat) (ws : worksheet) (cols : list nat) :
  (forall c, In c cols -> column_has_content ws m c = true) ->
  fold_left
    (fun ws col_idx =>
       if column_has_content ws m col_idx then ws else delete_cols ws col_idx)
    cols ws = ws.
Proof.
  induction cols as [|k cols IH]; intros H; [reflexivity|].
  cbn [fold_left]. rewrite (H k (or_introl eq_refl)).
  apply IH. intros c Hc. apply H. right. exact Hc.
Qed.

End EmptyColumns.

(** X9. After [_remove_empty_columns] of case 1 every column of the
    sheet holds, in some row, text that is not blank or a value other than
    [None]; the pass deletes cells without content only, so every row
    keeps its cells with content, in their order; the number of rows is
    unchanged and the sheet gets no wider; a sheet whose columns all have
    content is left as it is. *)
Theorem empty_columns_are_removed (L : PyLib) (ws : worksheet) :
  let out := remove_empty_columns ws in
  max_row out = max_row ws
  /\ max_column out <= max_column ws
  /\ (forall c, 1 <= c <= max_column out ->
        exists r, 1 <= r <= max_row out /\ has_content (cell out r c) = true)
  /\ map (List.filter has_content) out = map (List.filter has_content) ws
  /\ ((forall c, 1 <= c <= max_column ws -> column_has_content ws (max_row ws) c = true) ->
      out = ws).
Proof.
  intros out. subst out. unfold remove_empty_columns. cbv zeta.
  destruct (remove_empty_loop_keeps (max_row ws) (rev (seq 1 (max_column ws))))
    with (cur := ws) as (H1 & H2 & H3).
  { intros c Hc. apply in_rev, in_seq in Hc. lia. }
  { reflexivity. }
  split; [exact H1|]. split; [exact H3|]. split; [|split; [exact H2|]].
  - intros c [Hc Hmax].
    pose proof (remove_empty_loop_content (max_row ws) (max_column ws) ws) as Hcontent.
    cbv zeta in Hcontent.
    assert (Hex : column_has_content
                    (fold_left
                       (fun ws0 col_idx =>
                          if column_has_content ws0 (max_row ws) col_idx then ws0
                          else delete_cols ws0 col_idx)
                       (rev (seq 1 (max_column ws))) ws) (max_row ws) c = true).
    { apply Hcontent; [intros c' Hlt Hle; lia|exact Hc|exact Hmax]. }
    unfold column_has_content in Hex. apply existsb_exists in Hex as (r & Hr & Hhc).
    apply in_seq in Hr. exists r. split; [|exact Hhc].
    unfold max_row in *. rewrite H1. lia.
  - intros Hfull. apply remove_empty_loop_full.
    intros c Hc. apply in_rev, in_seq in Hc. apply Hfull. lia.
Qed.

(** ** Balance columns (case 2) *)

Lemma keep_from_ext {A} (i : nat) (del del' : nat -> bool) (l : list A) :
  (forall r, i <= r -> del r = del' r) -> keep_from i del l = keep_from i del' l.
Proof.
  revert i. induction l as [|x l IH]; intros i H; simpl; [reflexivity|].
  rewrite (H i (le_n i)), (IH (S i)); [reflexivity|]. intros r Hr. apply H. lia.
Qed.

Lemma keep_from_none {A} (i : nat) (del : nat -> bool) (l : list A) :
  (forall r, i <= r -> del r = false) -> keep_from i del l = l.
Proof.
  revert i. induction l as [|x l IH]; intros i H; simpl; [reflexivity|].
  rewrite (H i (le_n i)), (IH (S i)); [reflexivity|]. intros r Hr. apply H. lia.
Qed.

Lemma fold_delete_cons_list {A} (i : nat) (ds : list nat) (x : A) (l : list A) :
  (forall d, In d ds -> i < d) ->
  fold_left (fun w d => delete (d - i) w) ds (x :: l)
  = x :: fold_left (fun w d => delete (d - S i) w) ds l.
Proof.
  revert l. induction ds as [|d ds IH]; intros l H; simpl; [reflexivity|].
  assert (Hd : i < d) by (apply H; left; reflexivity).
  replace (d - i) with (S (d - S i)) by lia. simpl.
  apply IH. intros y Hy. apply H. right. exact Hy.
Qed.

(** Deleting an increasing list of positions from the last to the first
    removes exactly those positions. *)
Lemma delete_decreasing {A} (l : list A) :
  forall i dels, increasing_from i dels ->
    fold_left (fun w d => delete (d - i) w) (rev dels) l = keep_from i (row_in dels) l.
Proof.
  induction l as [|x l IH]; intros i dels Hinc.
  - simpl. induction (rev dels) as [|d ds IHd]; simpl; [reflexivity|exact IHd].
  - destruct dels as [|d dels].
    + simpl. f_equal. symmetry. apply keep_from_none. reflexivity.
    + destruct Hinc as [Hd Hinc].
      assert (Hgt : forall y, In y dels -> i < y /\ d < y).
      { intros y Hy. apply (increasing_from_In _ _ _ Hinc) in Hy. lia. }
      destruct (Nat.eq_dec d i) as [->|Hne].
      * simpl rev. rewrite fold_left_app. simpl fold_left.
        rewrite fold_delete_cons_list
          by (intros y Hy; apply in_rev in Hy; apply Hgt in Hy; lia).
        rewrite Nat.sub_diag. simpl delete.
        rewrite (IH (S i) dels Hinc). simpl.
        rewrite Nat.eqb_refl. simpl.
        apply keep_from_ext. intros r Hr. unfold row_in. simpl.
        destruct (Nat.eqb_spec r i); [lia|reflexivity].
      * rewrite fold_delete_cons_list.
        -- rewrite (IH (S i) (d :: dels)) by (simpl; split; [lia|exact Hinc]).
           simpl. fold (row_in dels i).
           destruct (Nat.eqb_spec i d); [lia|]. simpl.
           rewrite row_in_false; [reflexivity|].
           intros Hin. apply Hgt in Hin. lia.
        -- intros y Hy. apply in_rev in Hy. destruct Hy as [<-|Hy]; [lia|].
           apply Hgt in Hy. lia.
Qed.

Lemma fold_delete_cols (dels : list nat) (ws : worksheet) :
  fold_left delete_cols dels ws
  = map (fun row => fold_left (fun w d => delete (d - 1) w) dels row) ws.
Proof.
  revert ws. induction dels as [|d dels IH]; intros ws; simpl.
  - symmetry. apply map_id.
  - rewrite IH. unfold delete_cols. rewrite map_map. reflexivity.
Qed.

Section BalanceColumns.
Context {L : PyLib}.

Lemma is_balance_header_bounds (ws : worksheet) (c : nat) :
  is_balance_header ws c = true ->
  1 <= c <= max_column ws /\ HEADER_ROW <= max_row ws.
Proof.
  unfold is_balance_header. intros H.
  destruct (cell ws HEADER_ROW c) eqn:E; try discriminate.
  split; [split|].
  - destruct c; [discriminate|lia].
  - destruct (Nat.le_gt_cases c (max_column ws)) as [Hc|Hc]; [exact Hc|].
    rewrite cell_beyond_max_column in E by exact Hc. discriminate.
  - destruct (Nat.le_gt_cases HEADER_ROW (max_row ws)) as [Hr|Hr]; [exact Hr|].
    rewrite cell_beyond_max_row in E by exact Hr. discriminate.
Qed.

Lemma remove_balance_columns_eq (ws : worksheet) :
  remove_balance_columns ws
  = (map (keep_from 1 (is_balance_header ws)) ws,
     map (fun _ => LogBalanceColumnRemoved)
       (rev (List.filter (is_balance_header ws) (seq 1 (max_column ws))))).
Proof.
  unfold remove_balance_columns.
  destruct (Nat.ltb_spec (max_row ws) HEADER_ROW) as [Hlt|Hge].
  - assert (Hnone : forall c, is_balance_header ws c = false).
    { intros c. destruct (is_balance_header ws c) eqn:E; [|reflexivity].
      apply is_balance_header_bounds in E. lia. }
    rewrite (filter_none _ _ (fun c _ => Hnone c)). simpl. f_equal.
    rewrite <- (map_id ws) at 1. apply map_ext. intros row.
    symmetry. apply keep_from_none. intros r _. apply Hnone.
  - cbv zeta. rewrite collect_rows_filter, filter_rev. f_equal.
    rewrite fold_delete_cols. apply map_ext. intros row.
    rewrite (delete_decreasing row 1) by apply filter_seq_increasing.
    apply keep_from_ext. intros c Hc.
    destruct (is_balance_header ws c) eqn:E.
    + apply row_in_true, filter_In. split; [|exact E].
      apply is_balance_header_bounds in E. apply in_seq. lia.
    + apply row_in_false. intros Hin. apply filter_In in Hin as [_ Hin]. congruence.
Qed.

End BalanceColumns.

(** X10. [_remove_balance_columns] of case 2 deletes from every row the
    cells of the columns whose header (row 14) starts, once normalised,
    with ['balance'], and no other cell; afterwards no header starts with
    ['balance']; one message is logged for each column deleted; a sheet
    with fewer than 14 rows is left as it is. *)
Theorem balance_columns_are_removed (L : PyLib) (ws : worksheet) :
  let out := fst (remove_balance_columns ws) in
  out = map (keep_from 1 (is_balance_header ws)) ws
  /\ (forall c, is_balance_header out c = false)
  /\ max_row out = max_row ws
  /\ length (snd (remove_balance_columns ws))
     = length (List.filter (is_balance_header ws) (seq 1 (max_column ws)))
  /\ (max_row ws < HEADER_ROW -> remove_balance_columns ws = (ws, [])).
Proof.
  intros out. subst out. rewrite remove_balance_columns_eq. cbn [fst snd].
  split; [reflexivity|]. split; [|split; [|split]].
  - intros c. unfold is_balance_header at 1.
    destruct c as [|c]; [reflexivity|].
    unfold cell. unfold HEADER_ROW at 1.
    change (nth 13 (map (keep_from 1 (is_balance_header ws)) ws) [])
      with (nth 13 (map (keep_from 1 (is_balance_header ws)) ws)
              (keep_from 1 (is_balance_header ws) [])).
    rewrite (map_nth (keep_from 1 (is_balance_header ws)) ws [] 13).
    set (hrow := nth 13 ws []).
    destruct (Nat.lt_ge_cases c (length (keep_from 1 (is_balance_header ws) hrow)))
      as [Hlt|Hge]; [|rewrite (nth_overflow _ VNone Hge); reflexivity].
    pose proof (nth_In _ VNone Hlt) as Hin.
    apply keep_from_In in Hin as (j & Hj & Hdel & Hnth).
    unfold is_balance_header in Hdel. simpl Nat.add in Hdel.
    assert (Hcell : cell ws HEADER_ROW (S j) = nth c (keep_from 1 (is_balance_header ws) hrow) VNone).
    { unfold cell, HEADER_ROW. fold hrow. apply nth_error_nth. exact Hnth. }
    rewrite Hcell in Hdel. exact Hdel.
  - unfold max_row. apply length_map.
  - rewrite length_map, length_rev. reflexivity.
  - intros Hlt. rewrite <- remove_balance_columns_eq. unfold remove_balance_columns.
    destruct (Nat.ltb_spec (max_row ws) HEADER_ROW); [reflexivity|lia].
Qed.

Example balance_columns_on_sample :
  drop 13 (fst (@remove_balance_columns RefLib sample_balances))
  = [ [VStr (U "Fecha"); VStr (U "Débitos"); VStr (U "Créditos")];
      [];
      [VStr (U "15/10/2025"); VNum 3; VNone];
      [VStr (U "16/10/2025"); VNone; VNum 5] ]
  /\ nth 0 (fst (@remove_balance_columns RefLib sample_balances)) []
     = [VStr (U "Banco"); VStr (U "x"); VNone]
  /\ snd (@remove_balance_columns RefLib sample_balances)
     = [LogBalanceColumnRemoved; LogBalanceColumnRemoved].
Proof. vm_compute. repeat split; reflexivity. Qed.

(** ** The debit column (case 2) *)

Lemma fold_left_counting_some (f : worksheet -> nat -> worksheet) (rows : list nat)
    (ws : worksheet) (n : nat) :
  fst (fold_left (counting_step (fun ws i => Some (f ws i))) rows (ws, n))
  = fold_left f rows ws.
Proof.
  revert ws n. induction rows as [|r rows IH]; intros ws n; [reflexivity|].
  cbn [fold_left]. unfold counting_step at 2. cbn [fst snd]. apply IH.
Qed.

Section DebitColumn.
Variables debit_column max_col : nat.
Hypothesis debit_column_pos : 1 <= debit_column.

(** The cells of a row while the loop over the columns runs: the columns
    from the debit column up to [k] hold the value of their right
    neighbour. *)
Lemma shift_loop_cells (ws0 : worksheet) (r : nat) :
  1 <= r ->
  forall len k cur,
    debit_column <= k -> k + len <= max_col ->
    (forall c, cell cur r c
               = if (debit_column <=? c) && (c <? k) then cell ws0 r (S c)
                 else cell ws0 r c) ->
    forall c,
      cell (fold_left
              (fun ws col_idx =>
                 let source_col := col_idx + 1 in
                 set_cell ws r col_idx
                   (if source_col <=? max_col then cell ws r source_col else VNone))
              (seq k len) cur) r c
      = if (debit_column <=? c) && (c <? k + len) then cell ws0 r (S c)
        else cell ws0 r c.
Proof using debit_column_pos.
  intros Hr. induction len as [|len IH]; intros k cur Hk Hlen Hinv c.
  - simpl. rewrite Nat.add_0_r. apply Hinv.
  - cbn [seq fold_left]. cbv zeta.
    destruct (Nat.leb_spec (k + 1) max_col); [|lia].
    replace (k + S len) with (S k + len) by lia.
    apply IH; [lia|lia|]. intros c'.
    rewrite cell_set_cell by lia. rewrite Nat.eqb_refl. cbn [andb].
    destruct (Nat.eqb_spec c' k) as [->|Hne].
    + rewrite Hinv.
      destruct (Nat.leb_spec debit_column (k + 1)); [|lia].
      destruct (Nat.ltb_spec (k + 1) k); [lia|]. cbn [andb].
      destruct (Nat.leb_spec debit_column k); [|lia].
      destruct (Nat.ltb_spec k (S k)); [|lia]. cbn [andb].
      replace (k + 1) with (S k) by lia. reflexivity.
    + rewrite Hinv.
      destruct (Nat.leb_spec debit_column c'); cbn [andb]; [|reflexivity].
      destruct (Nat.ltb_spec c' k), (Nat.ltb_spec c' (S k)); try lia; reflexivity.
Qed.

Lemma shift_loop_frame (r r' : nat) (cols : list nat) (cur : worksheet) (c : nat) :
  r' <> r ->
  cell (fold_left
          (fun ws col_idx =>
             let source_col := col_idx + 1 in
             set_cell ws r col_idx
               (if source_col <=? max_col then cell ws r source_col else VNone))
          cols cur) r' c
  = cell cur r' c.
Proof.
  intros Hne. revert cur. induction cols as [|k cols IH]; intros cur; [reflexivity|].
  cbn [fold_left]. rewrite IH. apply cell_set_cell_other. left. congruence.
Qed.

Lemma shift_loop_max_row (r : nat) (cols : list nat) (cur : worksheet) :
  r <= max_row cur ->
  max_row (fold_left
             (fun ws col_idx =>
                let source_col := col_idx + 1 in
                set_cell ws r col_idx
                  (if source_col <=? max_col then cell ws r source_col else VNone))
             cols cur)
  = max_row cur.
Proof.
  revert cur. induction cols as [|k cols IH]; intros cur Hr; [reflexivity|].
  cbn [fold_left]. rewrite IH by (rewrite max_row_set_cell; exact Hr).
  apply max_row_set_cell, Hr.
Qed.

Lemma shift_row_left_row (ws : worksheet) (r c : nat) :
  1 <= r ->
  cell (shift_row_left debit_column max_col ws r) r c
  = if c =? max_col then VNone
    else if (debit_column <=? c) && (c <? max_col) then cell ws r (S c)
    else cell ws r c.
Proof using debit_column_pos.
  intros Hr. unfold shift_row_left. cbv zeta.
  destruct (Nat.le_gt_cases debit_column max_col) as [Hd|Hd].
  - rewrite cell_set_cell by lia. rewrite Nat.eqb_refl. cbn [andb].
    destruct (Nat.eqb_spec c max_col) as [->|Hne]; [reflexivity|].
    rewrite (shift_loop_cells ws r Hr (max_col - debit_column) debit_column ws)
      by (try lia; intros c'; destruct (Nat.leb_spec debit_column c');
          destruct (Nat.ltb_spec c' debit_column); try lia; reflexivity).
    replace (debit_column + (max_col - debit_column)) with max_col by lia.
    reflexivity.
  - replace (max_col - debit_column) with 0 by lia. cbn [seq fold_left].
    destruct max_col as [|n].
    + destruct r; [lia|]. simpl set_cell.
      destruct c as [|c]; [reflexivity|]. cbn [Nat.eqb].
      rewrite andb_false_r. reflexivity.
    + rewrite cell_set_cell by lia. rewrite Nat.eqb_refl. cbn [andb].
      destruct (Nat.eqb_spec c (S n)); [reflexivity|].
      destruct (Nat.leb_spec debit_column c), (Nat.ltb_spec c (S n)); try lia;
        reflexivity.
Qed.

Lemma shift_row_left_cell (ws : worksheet) (r c : nat) :
  1 <= r -> debit_column <= max_col -> max_column ws <= max_col ->
  cell (shift_row_left debit_column max_col ws r) r c
  = if c <? debit_column then cell ws r c else cell ws r (S c).
Proof using debit_column_pos.
  intros Hr Hd Hmax. rewrite shift_row_left_row by exact Hr.
  destruct (Nat.eqb_spec c max_col) as [->|Hne].
  - destruct (Nat.ltb_spec max_col debit_column); [lia|].
    symmetry. apply cell_beyond_max_column. lia.
  - destruct (Nat.leb_spec debit_column c), (Nat.ltb_spec c debit_column); try lia;
      cbn [andb]; try reflexivity.
    destruct (Nat.ltb_spec c max_col); [reflexivity|].
    rewrite !cell_beyond_max_column by lia. reflexivity.
Qed.

Lemma shift_row_left_local (ws ws0 : worksheet) (i : nat) :
  (forall c, cell ws i c = cell ws0 i c) ->
  forall c, cell (shift_row_left debit_column max_col ws i) i c
            = cell (shift_row_left debit_column max_col ws0 i) i c.
Proof using debit_column_pos.
  intros H c. destruct i as [|i]; [reflexivity|].
  rewrite !shift_row_left_row by lia. rewrite !H. reflexivity.
Qed.

Lemma shift_row_left_frame (ws : worksheet) (r r' c : nat) :
  r' <> r -> cell (shift_row_left debit_column max_col ws r) r' c = cell ws r' c.
Proof.
  intros Hne. unfold shift_row_left. cbv zeta.
  rewrite cell_set_cell_other by (left; congruence).
  apply shift_loop_frame, Hne.
Qed.

Lemma shift_row_left_max_row (ws : worksheet) (r : nat) :
  r <= max_row ws -> max_row (shift_row_left debit_column max_col ws r) = max_row ws.
Proof.
  intros Hr. unfold shift_row_left. cbv zeta.
  rewrite max_row_set_cell by (rewrite shift_loop_max_row; exact Hr).
  apply shift_loop_max_row, Hr.
Qed.

End DebitColumn.

Section DebitColumnPass.
Context {L : PyLib}.

Lemma shift_rows_max_row (d n : nat) (rows : list nat) :
  forall cur, (forall r, In r rows -> r <= max_row cur) ->
    max_row (fold_left (shift_row_left d n) rows cur) = max_row cur.
Proof.
  induction rows as [|r rows IH]; intros cur H; [reflexivity|].
  cbn [fold_left].
  assert (Hr : max_row (shift_row_left d n cur r) = max_row cur)
    by (apply shift_row_left_max_row, H; left; reflexivity).
  rewrite IH; [exact Hr|]. intros r' Hr'. rewrite Hr. apply H. right. exact Hr'.
Qed.

Lemma debit_column_found_Some (ws : worksheet) (d : nat) :
  debit_column_found ws = Some d ->
  HEADER_ROW <= max_row ws
  /\ 1 <= d <= max_column ws
  /\ is_debit_header ws d = true
  /\ (forall c, c < d -> is_debit_header ws c = false)
  /\ remove_debit_column ws
     = (fold_left (shift_row_left d (max_column ws))
          (row_range HEADER_ROW (max_row ws)) ws,
        [LogDebitColumnRemoved]).
Proof.
  unfold debit_column_found, remove_debit_column.
  destruct (Nat.ltb_spec (max_row ws) HEADER_ROW) as [|Hge]; [discriminate|].
  destruct (List.find (is_debit_header ws) (seq 1 (max_column ws))) as [x|] eqn:E;
    [|discriminate].
  intros Hv. apply valid_column_Some in Hv as [[= ->] Hd].
  apply find_seq_first in E as (Hb & Ht & Hfirst).
  split; [exact Hge|]. split; [lia|]. split; [exact Ht|]. split.
  - intros c Hc. destruct c as [|c]; [reflexivity|]. apply Hfirst. lia.
  - destruct d as [|d]; [lia|]. reflexivity.
Qed.

Lemma debit_column_found_None (ws : worksheet) :
  debit_column_found ws = None -> remove_debit_column ws = (ws, []).
Proof.
  unfold debit_column_found, remove_debit_column.
  destruct (max_row ws <? HEADER_ROW); [reflexivity|].
  destruct (List.find (is_debit_header ws) (seq 1 (max_column ws))) as [[|d]|];
    [reflexivity|discriminate|reflexivity].
Qed.

End DebitColumnPass.

(** X11. [_remove_debit_column] of case 2 works on the first column whose
    header (row 14) is ['debitos'] once normalised. From row 14 down every
    cell from that column on takes the value of its right neighbour, so
    the debit values are gone and the columns to the right move one place
    to the left; the thirteen rows above the header keep all their cells,
    the debit column included; no row is added; without such a column, or
    with fewer than 14 rows, nothing changes and nothing is logged. *)
Theorem debit_column_is_shifted_out (L : PyLib) (ws : worksheet) :
  let out := fst (remove_debit_column ws) in
  max_row out = max_row ws
  /\ (forall d, debit_column_found ws = Some d ->
        1 <= d <= max_column ws
        /\ is_debit_header ws d = true
        /\ (forall c, c < d -> is_debit_header ws c = false)
        /\ snd (remove_debit_column ws) = [LogDebitColumnRemoved]
        /\ forall r c,
             cell out r c
             = if HEADER_ROW <=? r
               then (if c <? d then cell ws r c else cell ws r (S c))
               else cell ws r c)
  /\ (debit_column_found ws = None -> remove_debit_column ws = (ws, [])).
Proof.
  intros out. subst out.
  destruct (debit_column_found ws) as [d|] eqn:Ed.
  - destruct (debit_column_found_Some ws d Ed) as (Hrows & Hd & Ht & Hfirst & Heq).
    rewrite Heq. cbn [fst snd].
    split.
    { apply shift_rows_max_row. intros r Hr. apply In_row_range in Hr. lia. }
    split; [|discriminate].
    intros d' [= <-]. split; [exact Hd|]. split; [exact Ht|]. split; [exact Hfirst|].
    split; [reflexivity|]. intros r c.
    rewrite <- (fold_left_counting_some (shift_row_left d (max_column ws))
                  (row_range HEADER_ROW (max_row ws)) ws 0).
    destruct (row_loop_outcome
                (fun w i => Some (shift_row_left d (max_column ws) w i)))
      with (ws0 := ws) (rows := row_range HEADER_ROW (max_row ws)) (ws := ws) (n := 0)
      as [_ Hc].
    { intros w i w' r' c' [= <-] Hne. apply shift_row_left_frame, Hne. }
    { intros w w0 i H. apply shift_row_left_local; [lia|exact H]. }
    { apply NoDup_row_range. }
    { reflexivity. }
    rewrite Hc. cbn [default].
    destruct (Nat.leb_spec HEADER_ROW r) as [Hr|Hr].
    + destruct (Nat.le_gt_cases r (max_row ws)) as [Hr'|Hr'].
      * rewrite (row_in_true _ r (proj2 (In_row_range _ _ r) (conj Hr Hr'))).
        apply shift_row_left_cell; [lia|unfold HEADER_ROW in Hr; lia|lia|lia].
      * rewrite row_in_false by (rewrite In_row_range; lia).
        rewrite !cell_beyond_max_row by exact Hr'. destruct (c <? d); reflexivity.
    + rewrite row_in_false by (rewrite In_row_range; lia). reflexivity.
  - rewrite (debit_column_found_None ws Ed). cbn [fst].
    split; [reflexivity|]. split; [discriminate|]. reflexivity.
Qed.

Example debit_column_on_sample :
  @debit_column_found RefLib sample_balances = Some 3
  /\ drop 13 (fst (@remove_debit_column RefLib sample_balances))
     = [ [VStr (U "Fecha"); VStr (U "Balance"); VStr (U "Créditos");
          VStr (U " BALANCE final "); VNone];
         [VNone; VNone; VNone; VNone; VNone];
         [VStr (U "15/10/2025"); VNum 10; VNone; VNum 7; VNone];
         [VStr (U "16/10/2025"); VNum 7; VNum 5; VNum 12; VNone] ]
  /\ take 13 (fst (@remove_debit_column RefLib sample_balances)) = take 13 sample_balances.
Proof. vm_compute. repeat split; reflexivity. Qed.

(** ** Grouping rows under keys *)

Section Grouping.
Context {E : Type}.
Variable entry_of : nat -> option (ustr * E).

Lemma ustr_eqb_refl (k : ustr) : ustr_eqb k k = true.
Proof. unfold ustr_eqb. apply bool_decide_eq_true_2. reflexivity. Qed.

Lemma group_add_keys (k : ustr) (e : E) (groups : list (ustr * list E)) :
  List.NoDup (map fst groups) ->
  List.NoDup (map fst (group_add k e groups))
  /\ (forall k', In k' (map fst (group_add k e groups)) <->
                 k' = k \/ In k' (map fst groups)).
Proof.
  intros Hnd. unfold group_add.
  destruct (existsb _ groups) eqn:Ex.
  - assert (Hmap : map fst (map (fun g : ustr * list E =>
        if ustr_eqb (fst g) k then (fst g, snd g ++ [e]) else g) groups) = map fst groups).
    { rewrite map_map. apply map_ext. intros [k1 l1]. simpl.
      destruct (ustr_eqb k1 k); reflexivity. }
    rewrite Hmap. split; [exact Hnd|]. intros k'. split; [auto|].
    intros [->|H]; [|exact H].
    apply existsb_exists in Ex as [[k0 l0] [Hin0 Hk0]]. simpl in Hk0.
    unfold ustr_eqb in Hk0. apply bool_decide_eq_true in Hk0. subst k0.
    change k with (fst (k, l0)). apply in_map, Hin0.
  - assert (Hnin : ~ In k (map fst groups)).
    { intros Hin. apply in_map_iff in Hin as [[k1 l1] [Hk Hin]]. simpl in Hk. subst k1.
      assert (Hex : existsb (fun g : ustr * list E => ustr_eqb (fst g) k) groups = true).
      { apply existsb_exists. exists (k, l1). split; [exact Hin|]. apply ustr_eqb_refl. }
      congruence. }
    rewrite map_app. simpl. split.
    + apply NoDup_ListNoDup, NoDup_app. split; [apply NoDup_ListNoDup, Hnd|]. split.
      * intros x Hx Hx'. apply list_elem_of_In in Hx. apply list_elem_of_In in Hx'.
        destruct Hx' as [<-|[]]. contradiction.
      * apply NoDup_singleton.
    + intros k'. rewrite in_app_iff. simpl. intuition.
Qed.

Lemma group_add_In (k : ustr) (e : E) (groups : list (ustr * list E))
    (k' : ustr) (l' : list E) :
  List.NoDup (map fst groups) ->
  In (k', l') (group_add k e groups) <->
  (k' <> k /\ In (k', l') groups)
  \/ (k' = k /\ exists l, l' = l ++ [e]
                          /\ (In (k, l) groups \/ (l = [] /\ ~ In k (map fst groups)))).
Proof.
  intros Hnd. unfold group_add.
  destruct (existsb _ groups) eqn:Ex.
  - apply existsb_exists in Ex as [[k0 l0] [Hin0 Hk0]]. simpl in Hk0.
    unfold ustr_eqb in Hk0. apply bool_decide_eq_true in Hk0. subst k0.
    rewrite in_map_iff. split.
    + intros [[k1 l1] [Heq Hin]]. simpl in Heq.
      destruct (ustr_eqb k1 k) eqn:Ek.
      * unfold ustr_eqb in Ek. apply bool_decide_eq_true in Ek. subst k1.
        inversion Heq; subst.
        right. split; [reflexivity|]. exists l1. split; [reflexivity|]. left. exact Hin.
      * unfold ustr_eqb in Ek. apply bool_decide_eq_false in Ek. inversion Heq; subst.
        left. split; [exact Ek|exact Hin].
    + intros [[Hne Hin]|[-> [l [-> [Hin|[-> Hnin]]]]]].
      * exists (k', l'). simpl. split; [|exact Hin].
        destruct (ustr_eqb k' k) eqn:Ek; [|reflexivity].
        unfold ustr_eqb in Ek. apply bool_decide_eq_true in Ek. contradiction.
      * exists (k, l). simpl. split; [|exact Hin]. rewrite ustr_eqb_refl. reflexivity.
      * exfalso. apply Hnin. change k with (fst (k, l0)). apply in_map, Hin0.
  - assert (Hnin : ~ In k (map fst groups)).
    { intros Hin. apply in_map_iff in Hin as [[k1 l1] [Hk Hin]]. simpl in Hk. subst k1.
      assert (Hex : existsb (fun g : ustr * list E => ustr_eqb (fst g) k) groups = true).
      { apply existsb_exists. exists (k, l1). split; [exact Hin|]. apply ustr_eqb_refl. }
      congruence. }
    rewrite in_app_iff. simpl. split.
    + intros [Hin|[Heq|[]]].
      * left. split; [|exact Hin]. intros ->. apply Hnin.
        change k with (fst (k, l')). apply in_map, Hin.
      * inversion Heq; subst. right. split; [reflexivity|]. exists []. auto.
    + intros [[Hne Hin]|[-> [l [-> [Hin|[-> _]]]]]].
      * left. exact Hin.
      * exfalso. apply Hnin. change k with (fst (k, l)). apply in_map, Hin.
      * right. left. reflexivity.
Qed.

Lemma entries_of_snoc (k : ustr) (rows : list nat) (r : nat) :
  entries_of entry_of k (rows ++ [r])
  = entries_of entry_of k rows
    ++ match entry_of r with
       | Some (k', e) => if ustr_eqb k' k then [e] else []
       | None => []
       end.
Proof. unfold entries_of. rewrite flat_map_app. simpl. rewrite app_nil_r. reflexivity. Qed.

(** The groups are the non-empty lists of entries filed under each key. *)
Lemma group_rows_spec (rows : list nat) :
  let groups := group_rows entry_of rows in
  List.NoDup (map fst groups)
  /\ forall k l, In (k, l) groups <-> l = entries_of entry_of k rows /\ l <> [].
Proof.
  unfold group_rows.
  induction rows as [|r rows IH] using rev_ind.
  - simpl. split; [constructor|]. intros k l. split; [intros []|intros [-> H]; congruence].
  - rewrite fold_left_app. simpl.
    set (groups := fold_left _ rows []) in *.
    destruct IH as [Hnd Hin].
    destruct (entry_of r) as [[k0 e0]|] eqn:Ek.
    + split; [apply group_add_keys, Hnd|].
      intros k l. rewrite (group_add_In k0 e0 groups k l Hnd), entries_of_snoc, Ek.
      destruct (ustr_eqb k0 k) eqn:Eq.
      * unfold ustr_eqb in Eq. apply bool_decide_eq_true in Eq. subst k0. split.
        -- intros [[Hne _]|[_ [l0 [-> [H|[-> Hnin]]]]]]; [congruence| |].
           ++ apply Hin in H as [<- _]. split; [reflexivity|]. destruct l0; discriminate.
           ++ split; [|discriminate].
              destruct (entries_of entry_of k rows) as [|x t] eqn:Ef; [reflexivity|].
              exfalso. apply Hnin. change k with (fst (k, x :: t)).
              apply in_map, Hin. split; [symmetry; exact Ef|discriminate].
        -- intros [-> _]. right. split; [reflexivity|].
           exists (entries_of entry_of k rows). split; [reflexivity|].
           destruct (entries_of entry_of k rows) as [|x t] eqn:Ef.
           ++ right. split; [reflexivity|]. intros Hk.
              apply in_map_iff in Hk as [[k1 l1] [Hk Hl]]. simpl in Hk. subst k1.
              apply Hin in Hl as [-> Hl]. apply Hl. exact Ef.
           ++ left. apply Hin. split; [symmetry; exact Ef|discriminate].
      * unfold ustr_eqb in Eq. apply bool_decide_eq_false in Eq.
        rewrite app_nil_r. split.
        -- intros [[_ H]|[-> _]]; [apply Hin, H|congruence].
        -- intros H. left. split; [congruence|apply Hin, H].
    + split; [exact Hnd|]. intros k l. rewrite entries_of_snoc, Ek, app_nil_r. apply Hin.
Qed.

End Grouping.

(** ** Sorting entries by amount and row *)

Lemma entry_lt_true (a b : nat * Q) :
  entry_lt a b = true <-> (snd a < snd b)%Q \/ ((snd a == snd b)%Q /\ fst a < fst b).
Proof.
  unfold entry_lt, Qgtb.
  rewrite orb_true_iff, andb_true_iff, negb_true_iff, Qeq_bool_iff, Nat.ltb_lt.
  split; intros [H|H]; [left|right; exact H|left|right; exact H].
  - apply Qnot_le_lt. intros Hle. apply Qle_bool_iff in Hle. congruence.
  - destruct (Qle_bool (snd b) (snd a)) eqn:E; [|reflexivity].
    apply Qle_bool_iff in E. lra.
Qed.

Lemma entry_lt_false (a b : nat * Q) : entry_lt a b = false <-> entry_le b a.
Proof.
  unfold entry_le. split.
  - intros H.
    destruct (Qlt_le_dec (snd b) (snd a)) as [Hlt|Hle]; [left; exact Hlt|].
    destruct (Qlt_le_dec (snd a) (snd b)) as [Hlt'|Hle'].
    + assert (entry_lt a b = true) by (apply entry_lt_true; left; exact Hlt'). congruence.
    + right. split; [lra|].
      destruct (Nat.le_gt_cases (fst b) (fst a)) as [Hr|Hr]; [exact Hr|].
      assert (entry_lt a b = true) by (apply entry_lt_true; right; split; [lra|exact Hr]).
      congruence.
  - intros H. destruct (entry_lt a b) eqn:E; [|reflexivity].
    apply entry_lt_true in E. destruct H as [H|[H1 H2]], E as [E|[E1 E2]]; try lra; lia.
Qed.

Lemma entry_le_refl (a : nat * Q) : entry_le a a.
Proof. right. split; [lra|lia]. Qed.

Lemma entry_le_trans (a b c : nat * Q) : entry_le a b -> entry_le b c -> entry_le a c.
Proof.
  unfold entry_le. intros [H1|[H1 H1']] [H2|[H2 H2']].
  - left. lra.
  - left. lra.
  - left. lra.
  - right. split; [lra|lia].
Qed.

Lemma entry_le_antisym (a b : nat * Q) : entry_le a b -> entry_le b a -> fst a = fst b.
Proof. unfold entry_le. intros [H1|[H1 H1']] [H2|[H2 H2']]; try lra. lia. Qed.

Lemma entry_lt_le (a b : nat * Q) : entry_lt a b = true -> entry_le a b.
Proof.
  intros H. apply entry_lt_true in H as [H|[H1 H2]]; [left; exact H|].
  right. split; [exact H1|lia].
Qed.

Lemma insert_entry_In (x y : nat * Q) (l : list (nat * Q)) :
  In y (insert_entry x l) <-> y = x \/ In y l.
Proof.
  induction l as [|z l IH]; simpl; [intuition|].
  destruct (entry_lt x z); simpl; [intuition|]. rewrite IH. intuition.
Qed.

Lemma insert_entry_sorted (x : nat * Q) (l : list (nat * Q)) :
  StronglySorted entry_le l -> StronglySorted entry_le (insert_entry x l).
Proof.
  induction 1 as [|y t Ht IH Hy]; simpl.
  - constructor; constructor.
  - destruct (entry_lt x y) eqn:E.
    + constructor; [constructor; assumption|].
      apply entry_lt_le in E. constructor; [exact E|].
      rewrite List.Forall_forall in *. intros z Hz.
      apply (entry_le_trans x y z E). apply Hy, Hz.
    + apply entry_lt_false in E. constructor; [exact IH|].
      rewrite List.Forall_forall in *. intros z Hz.
      apply insert_entry_In in Hz as [->|Hz]; [exact E|apply Hy, Hz].
Qed.

Lemma sorted_entries_acc (l acc : list (nat * Q)) :
  StronglySorted entry_le acc ->
  StronglySorted entry_le (fold_left (fun sorted x => insert_entry x sorted) l acc)
  /\ forall y, In y (fold_left (fun sorted x => insert_entry x sorted) l acc)
               <-> In y l \/ In y acc.
Proof.
  revert acc. induction l as [|x l IH]; intros acc Hs; simpl.
  - split; [exact Hs|]. intuition.
  - destruct (IH (insert_entry x acc) (insert_entry_sorted x acc Hs)) as [H1 H2].
    split; [exact H1|]. intros y. rewrite H2, insert_entry_In. intuition.
Qed.

Lemma sorted_entries_spec (l : list (nat * Q)) :
  StronglySorted entry_le (sorted_entries l)
  /\ forall y, In y (sorted_entries l) <-> In y l.
Proof.
  unfold sorted_entries.
  destruct (sorted_entries_acc l [] (SSorted_nil _)) as [H1 H2].
  split; [exact H1|]. intros y. rewrite H2. simpl. intuition.
Qed.

Lemma sorted_head_least (l : list (nat * Q)) (lo : nat * Q) :
  StronglySorted entry_le l -> head l = Some lo ->
  In lo l /\ forall x, In x l -> entry_le lo x.
Proof.
  intros Hs Hh. destruct l as [|y t]; [discriminate|]. injection Hh as ->.
  split; [left; reflexivity|]. inversion Hs as [|? ? _ Hy]; subst.
  rewrite List.Forall_forall in Hy.
  intros x [<-|Hx]; [apply entry_le_refl|apply Hy, Hx].
Qed.

Lemma sorted_last_greatest (l : list (nat * Q)) (hi : nat * Q) :
  StronglySorted entry_le l -> last l = Some hi ->
  In hi l /\ forall x, In x l -> entry_le x hi.
Proof.
  induction 1 as [|y t Ht IH Hy]; [discriminate|].
  destruct t as [|z t'].
  - simpl. intros [= <-]. split; [left; reflexivity|].
    intros x [<-|[]]. apply entry_le_refl.
  - change (last (y :: z :: t')) with (last (z :: t')). intros Hl.
    destruct (IH Hl) as [Hin Hmax]. split; [right; exact Hin|].
    intros x [<-|Hx]; [|apply Hmax, Hx].
    rewrite List.Forall_forall in Hy. apply Hy, Hin.
Qed.

(** ** Duplicate references with code PP *)

Lemma cell_set_cell_cases (ws : worksheet) (row cc : nat) (v : value) (r c : nat) :
  cell (set_cell ws row cc v) r c = cell ws r c
  \/ (r = row /\ c = cc /\ 1 <= row /\ 1 <= cc /\ cell (set_cell ws row cc v) r c = v).
Proof.
  destruct row as [|row]; [left; reflexivity|]. destruct cc as [|cc]; [left; reflexivity|].
  rewrite cell_set_cell by lia.
  destruct (Nat.eqb_spec r (S row)) as [->|]; [|left; reflexivity].
  destruct (Nat.eqb_spec c (S cc)) as [->|]; [|left; reflexivity].
  right. simpl. repeat split; lia.
Qed.

Lemma set_cell_agree_on (ws ws' : worksheet) (row cc : nat) (v : value) (r : nat) :
  (forall c, cell ws r c = cell ws' r c) ->
  forall c, cell (set_cell ws row cc v) r c = cell (set_cell ws' row cc v) r c.
Proof.
  intros H c. destruct row as [|row]; [apply H|]. destruct cc as [|cc]; [apply H|].
  rewrite !cell_set_cell by lia. destruct (_ && _); [reflexivity|apply H].
Qed.

Lemma fold_fst_count {G} (f : worksheet -> G -> worksheet * nat) (gs : list G)
    (ws : worksheet) (m : nat) :
  fst (fold_left (fun acc g => let (ws1, n) := f (fst acc) g in (ws1, snd acc + n))
         gs (ws, m))
  = fold_left (fun ws g => fst (f ws g)) gs ws.
Proof.
  revert ws m. induction gs as [|g gs IH]; intros ws m; [reflexivity|].
  cbn [fold_left fst snd]. destruct (f ws g) as [ws1 n] eqn:E.
  rewrite IH. cbn [fst]. reflexivity.
Qed.

Section Resolve.
Context {L : PyLib}.

Lemma write_code_cell (ws : worksheet) (row cc : nat) (code : ustr) (r c : nat) :
  cell (fst (write_code ws row cc code)) r c = cell ws r c
  \/ (r = row /\ c = cc /\ cell (fst (write_code ws row cc code)) r c = VStr code).
Proof.
  unfold write_code. destruct (negb _); [|left; reflexivity]. cbn [fst].
  destruct (cell_set_cell_cases ws row cc (VStr code) r c) as [H|(-> & -> & _ & _ & H)];
    [left; exact H|right; auto].
Qed.

Lemma write_code_written (ws : worksheet) (row cc : nat) (code : ustr) :
  1 <= row -> 1 <= cc -> code_text (cell ws row cc) <> code ->
  cell (fst (write_code ws row cc code)) row cc = VStr code.
Proof.
  intros Hr Hc Hne. unfold write_code.
  apply ustr_eqb_neq in Hne. rewrite Hne. cbn [negb fst].
  apply cell_set_cell_same; assumption.
Qed.

Lemma write_code_agree (ws ws' : worksheet) (row cc : nat) (code : ustr) (r : nat) :
  (forall c, cell ws row c = cell ws' row c) ->
  (forall c, cell ws r c = cell ws' r c) ->
  forall c, cell (fst (write_code ws row cc code)) r c
            = cell (fst (write_code ws' row cc code)) r c.
Proof.
  intros Hrow Hr c. unfold write_code. rewrite Hrow.
  destruct (negb _); cbn [fst]; [|apply Hr].
  apply set_cell_agree_on, Hr.
Qed.

(** The rows of the valid entries of a group are rows of the group. *)
Lemma valid_entries_In (entries : list (nat * option Q)) (r : nat) (q : Q) :
  In (r, q) (valid_entries entries) <-> In (r, Some q) entries.
Proof.
  unfold valid_entries. rewrite in_flat_map. split.
  - intros [[r' [q'|]] [Hin H]]; simpl in H; [|destruct H].
    destruct H as [[= -> ->]|[]]. exact Hin.
  - intros Hin. exists (r, Some q). split; [exact Hin|]. left. reflexivity.
Qed.

(** What [resolve_group] can do to a cell. *)
Lemma resolve_group_cell (cc : nat) (ws : worksheet) (entries : list (nat * option Q))
    (r c : nat) :
  cell (fst (resolve_group cc ws entries)) r c = cell ws r c
  \/ (c = cc /\ (exists q, In (r, Some q) entries)
      /\ (cell (fst (resolve_group cc ws entries)) r c = VStr T_D
          \/ cell (fst (resolve_group cc ws entries)) r c = VStr O_D)).
Proof.
  unfold resolve_group.
  destruct (valid_entries entries) as [|[r1 q1] [|e2 rest]] eqn:Ev; [left; reflexivity| |].
  - destruct (is_positive (Some q1)); [|left; reflexivity].
    destruct (write_code_cell ws r1 cc T_D r c) as [H|(-> & -> & H)]; [left; exact H|].
    right. split; [reflexivity|]. split; [|left; exact H].
    exists q1. apply valid_entries_In. rewrite Ev. left. reflexivity.
  - set (valid := (r1, q1) :: e2 :: rest) in *.
    destruct (sorted_entries_spec valid) as [Hs Hmem].
    destruct (head (sorted_entries valid)) as [[rl ql]|] eqn:Eh; [|left; reflexivity].
    destruct (last (sorted_entries valid)) as [[rh qh]|] eqn:El;
      [|destruct (sorted_entries valid); left; reflexivity].
    cbn [fst]. destruct (rh =? rl); [left; reflexivity|].
    destruct (write_code ws rh cc T_D) as [ws1 n1] eqn:E1.
    destruct (write_code ws1 rl cc O_D) as [ws2 n2] eqn:E2. cbn [fst].
    assert (Hl : In (rl, Some ql) entries).
    { apply valid_entries_In. rewrite Ev. apply Hmem.
      apply (sorted_head_least _ _ Hs Eh). }
    assert (Hh : In (rh, Some qh) entries).
    { apply valid_entries_In. rewrite Ev. apply Hmem.
      apply (sorted_last_greatest _ _ Hs El). }
    pose proof (write_code_cell ws1 rl cc O_D r c) as H2. rewrite E2 in H2. cbn [fst] in H2.
    pose proof (write_code_cell ws rh cc T_D r c) as H1. rewrite E1 in H1. cbn [fst] in H1.
    destruct H2 as [H2|(-> & -> & H2)].
    + rewrite H2. destruct H1 as [H1|(-> & -> & H1)]; [left; exact H1|].
      right. split; [reflexivity|]. split; [eauto|left; exact H1].
    + right. split; [reflexivity|]. split; [eauto|right; exact H2].
Qed.

Lemma resolve_group_frame (cc : nat) (ws : worksheet) (entries : list (nat * option Q))
    (r c : nat) :
  ~ In r (map fst entries) ->
  cell (fst (resolve_group cc ws entries)) r c = cell ws r c.
Proof.
  intros Hn. destruct (resolve_group_cell cc ws entries r c) as [H|(_ & [q Hq] & _)];
    [exact H|].
  exfalso. apply Hn. change r with (fst (r, Some q)). apply in_map, Hq.
Qed.

End Resolve.

Lemma feet_disjoint_by_key {G} (foot : G -> list nat) (key : G -> ustr)
    (row_key : nat -> option ustr) (groups : list G) :
  List.NoDup (map key groups) ->
  (forall g r, In g groups -> In r (foot g) -> row_key r = Some (key g)) ->
  disjoint_feet foot groups.
Proof.
  induction groups as [|g groups IH]; intros Hnd Hkey; [constructor|].
  inversion Hnd as [|? ? Hk Hnd']; subst. constructor.
  - apply Forall_forall. intros g' Hin r Hr Hr'. apply list_elem_of_In in Hin.
    assert (H1 : row_key r = Some (key g)) by (apply (Hkey g r); [left; reflexivity|exact Hr]).
    assert (H2 : row_key r = Some (key g')) by (apply (Hkey g' r); [right; exact Hin|exact Hr']).
    apply Hk. assert (E : key g = key g') by congruence. rewrite E. apply in_map, Hin.
  - apply IH; [exact Hnd'|]. intros g' r Hin. apply Hkey. right. exact Hin.
Qed.

Lemma NoDup_fst_unique {A B} (l : list (A * B)) (a : A) (b b' : B) :
  List.NoDup (map fst l) -> In (a, b) l -> In (a, b') l -> b = b'.
Proof.
  induction l as [|[x y] l IH]; intros Hnd H1 H2; [destruct H1|].
  inversion Hnd as [|? ? Hx Hnd']; subst.
  simpl in Hx. destruct H1 as [E1|H1], H2 as [E2|H2].
  - congruence.
  - exfalso. apply Hx. injection E1 as -> ->.
    change a with (fst (a, b')). apply in_map, H2.
  - exfalso. apply Hx. injection E2 as -> ->.
    change a with (fst (a, b)). apply in_map, H1.
  - apply IH; assumption.
Qed.

Section ResolveGroups.
Context {L : PyLib}.

Lemma resolve_group_local (cc : nat) (ws ws' : worksheet)
    (entries : list (nat * option Q)) :
  (forall r c, In r (map fst entries) -> cell ws r c = cell ws' r c) ->
  forall r c, In r (map fst entries) ->
    cell (fst (resolve_group cc ws entries)) r c
    = cell (fst (resolve_group cc ws' entries)) r c.
Proof.
  intros Hagree r c Hr. unfold resolve_group.
  assert (Hrow : forall r0 q0, In (r0, q0) (valid_entries entries) ->
                               In r0 (map fst entries)).
  { intros r0 q0 H. apply valid_entries_In in H.
    change r0 with (fst (r0, Some q0)). apply in_map, H. }
  destruct (valid_entries entries) as [|[r1 q1] [|e2 rest]] eqn:Ev; [apply Hagree, Hr| |].
  - destruct (is_positive (Some q1)); [|apply Hagree, Hr].
    apply write_code_agree; intros c'; apply Hagree; [|exact Hr].
    apply (Hrow r1 q1). left. reflexivity.
  - set (valid := (r1, q1) :: e2 :: rest) in *.
    destruct (sorted_entries_spec valid) as [Hs Hmem].
    destruct (head (sorted_entries valid)) as [[rl ql]|] eqn:Eh; [|apply Hagree, Hr].
    destruct (last (sorted_entries valid)) as [[rh qh]|] eqn:El;
      [|destruct (sorted_entries valid); apply Hagree, Hr].
    cbn [fst]. destruct (rh =? rl); [apply Hagree, Hr|].
    assert (Hl : In rl (map fst entries)).
    { apply (Hrow rl ql), Hmem, (sorted_head_least _ _ Hs Eh). }
    assert (Hh : In rh (map fst entries)).
    { apply (Hrow rh qh), Hmem, (sorted_last_greatest _ _ Hs El). }
    assert (H1 : forall r0 c0, In r0 (map fst entries) ->
               cell (fst (write_code ws rh cc T_D)) r0 c0
               = cell (fst (write_code ws' rh cc T_D)) r0 c0).
    { intros r0 c0 Hr0. apply write_code_agree; intros c'; apply Hagree; assumption. }
    destruct (write_code ws rh cc T_D) as [ws1 n1].
    destruct (write_code ws' rh cc T_D) as [ws1' n1']. cbn [fst] in H1.
    assert (H2 : cell (fst (write_code ws1 rl cc O_D)) r c
                 = cell (fst (write_code ws1' rl cc O_D)) r c).
    { apply write_code_agree; intros c'; apply H1; assumption. }
    destruct (write_code ws1 rl cc O_D) as [ws2 n2].
    destruct (write_code ws1' rl cc O_D) as [ws2' n2']. exact H2.
Qed.

(** The group of a reference with at least two parsed debits. *)
Lemma resolve_group_pair (cc : nat) (ws : worksheet) (entries : list (nat * option Q))
    (h l : nat) (qh ql : Q) :
  1 <= cc -> 1 <= h -> 1 <= l -> h <> l ->
  In (h, Some qh) entries -> In (l, Some ql) entries ->
  (forall r q, In (r, Some q) entries ->
               entry_le (r, q) (h, qh) /\ entry_le (l, ql) (r, q)) ->
  code_text (cell ws h cc) <> T_D -> code_text (cell ws l cc) <> O_D ->
  cell (fst (resolve_group cc ws entries)) h cc = VStr T_D
  /\ cell (fst (resolve_group cc ws entries)) l cc = VStr O_D.
Proof.
  intros Hcc Hh Hl Hne Hinh Hinl Hext Hch Hcl. unfold resolve_group.
  apply valid_entries_In in Hinh, Hinl.
  assert (Hext' : forall r q, In (r, q) (valid_entries entries) ->
                   entry_le (r, q) (h, qh) /\ entry_le (l, ql) (r, q)).
  { intros r q H. apply Hext, valid_entries_In, H. }
  destruct (valid_entries entries) as [|[r1 q1] [|e2 rest]] eqn:Ev; [destruct Hinh| |].
  - destruct Hinh as [[= -> ->]|[]], Hinl as [[= -> ->]|[]]. contradiction.
  - set (valid := (r1, q1) :: e2 :: rest) in *.
    destruct (sorted_entries_spec valid) as [Hs Hmem].
    destruct (head (sorted_entries valid)) as [[rl ql']|] eqn:Eh.
    2:{ exfalso. apply Hmem in Hinh. destruct (sorted_entries valid); [destruct Hinh|].
        discriminate. }
    destruct (last (sorted_entries valid)) as [[rh qh']|] eqn:El.
    2:{ exfalso. apply last_None in El. rewrite El in Eh. discriminate. }
    destruct (sorted_head_least _ _ Hs Eh) as [Hlin Hleast].
    destruct (sorted_last_greatest _ _ Hs El) as [Hhin Hgreatest].
    assert (Erh : rh = h).
    { apply (entry_le_antisym (rh, qh') (h, qh)).
      - apply (Hext' rh qh'), Hmem, Hhin.
      - apply Hgreatest, Hmem, Hinh. }
    assert (Erl : rl = l).
    { apply (entry_le_antisym (rl, ql') (l, ql)).
      - apply Hleast, Hmem, Hinl.
      - apply (Hext' rl ql'), Hmem, Hlin. }
    subst rh rl. cbn [fst].
    destruct (Nat.eqb_spec h l); [contradiction|].
    pose proof (write_code_written ws h cc T_D Hh Hcc Hch) as Hw1.
    pose proof (write_code_cell ws h cc T_D l cc) as Hf1.
    destruct (write_code ws h cc T_D) as [ws1 n1]. cbn [fst] in Hw1, Hf1.
    assert (Hl1 : cell ws1 l cc = cell ws l cc).
    { destruct Hf1 as [H|(E & _)]; [exact H|congruence]. }
    assert (Hcl1 : code_text (cell ws1 l cc) <> O_D) by (rewrite Hl1; exact Hcl).
    pose proof (write_code_written ws1 l cc O_D Hl Hcc Hcl1) as Hw2.
    pose proof (write_code_cell ws1 l cc O_D h cc) as Hf2.
    destruct (write_code ws1 l cc O_D) as [ws2 n2]. cbn [fst] in *.
    split; [|exact Hw2].
    destruct Hf2 as [H|(E & _)]; [rewrite H; exact Hw1|congruence].
Qed.

(** The group of a reference with one parsed debit. *)
Lemma resolve_group_single (cc : nat) (ws : worksheet) (entries : list (nat * option Q))
    (h : nat) (qh : Q) :
  1 <= cc -> 1 <= h -> List.NoDup (map fst entries) ->
  In (h, Some qh) entries ->
  (forall r q, In (r, Some q) entries -> r = h) ->
  code_text (cell ws h cc) <> T_D ->
  cell (fst (resolve_group cc ws entries)) h cc
  = if is_positive (Some qh) then VStr T_D else cell ws h cc.
Proof.
  intros Hcc Hh Hnd Hin Hone Hch. unfold resolve_group.
  assert (Hall : forall e, In e (valid_entries entries) -> e = (h, qh)).
  { intros [r q] He. apply valid_entries_In in He.
    assert (r = h) by (apply (Hone r q He)). subst r.
    assert (Some q = Some qh) by (apply (NoDup_fst_unique entries h _ _ Hnd He Hin)).
    congruence. }
  assert (Hndv : List.NoDup (valid_entries entries)).
  { clear Hin Hone Hall. unfold valid_entries.
    induction entries as [|[r [q|]] entries IH]; simpl; [constructor| |].
    - inversion Hnd as [|? ? Hx Hnd']; subst. constructor; [|apply IH, Hnd'].
      intros H. apply (proj1 (valid_entries_In entries r q)) in H.
      apply Hx. change r with (fst (r, Some q)). apply in_map, H.
    - inversion Hnd; subst. apply IH. assumption. }
  apply valid_entries_In in Hin.
  destruct (valid_entries entries) as [|e1 [|e2 rest]] eqn:Ev; [destruct Hin| |].
  - rewrite (Hall e1 (or_introl eq_refl)).
    destruct (is_positive (Some qh)); [|reflexivity].
    apply write_code_written; assumption.
  - exfalso. rewrite (Hall e1 (or_introl eq_refl)) in Hndv.
    rewrite (Hall e2 (or_intror (or_introl eq_refl))) in Hndv.
    inversion Hndv as [|? ? Hx _]; subst. apply Hx. left. reflexivity.
Qed.

Lemma pp_entries_eq (ws : worksheet) (cc rc dc : nat) (k : ustr) (rows : list nat) :
  entries_of (pp_entry ws cc rc dc) k rows
  = map (fun r => (r, debit_of ws dc r)) (pp_rows ws cc rc dc k rows).
Proof.
  unfold entries_of, pp_rows. induction rows as [|r rows IH]; [reflexivity|].
  cbn [flat_map List.filter]. rewrite IH. unfold pp_key_is at 2.
  unfold pp_entry. cbv zeta.
  destruct (is_blank (cell ws r cc)); [reflexivity|].
  destruct (negb _); [reflexivity|].
  destruct (is_blank (cell ws r rc)); [reflexivity|].
  destruct (ustr_eqb _ k); reflexivity.
Qed.

Lemma pp_key_is_code (ws : worksheet) (cc rc dc : nat) (k : ustr) (r : nat) :
  pp_key_is ws cc rc dc k r = true ->
  code_text (cell ws r cc) = PP
  /\ pp_entry ws cc rc dc r = Some (k, (r, debit_of ws dc r)).
Proof.
  unfold pp_key_is, pp_entry. cbv zeta.
  destruct (is_blank (cell ws r cc)); [discriminate|].
  destruct (ustr_eqb (code_text (cell ws r cc)) PP) eqn:E; [|discriminate]. cbn [negb].
  destruct (is_blank (cell ws r rc)); [discriminate|].
  intros Hk. apply ustr_eqb_eq in Hk, E. subst k. split; [exact E|reflexivity].
Qed.

End ResolveGroups.

Section ResolvePass.
Context {L : PyLib}.

Lemma map_fst_entries (ws : worksheet) (dc : nat) (rows : list nat) :
  map fst (map (fun r => (r, debit_of ws dc r)) rows) = rows.
Proof. rewrite map_map. simpl. apply map_id. Qed.

Lemma resolve_pass_cells (ws : worksheet) (hm : header_map)
    (start_row end_row cc rc dc : nat) :
  valid_column (hm_get (U "codigo") hm) = Some cc ->
  valid_column (hm_get (U "referencia") hm) = Some rc ->
  valid_column (hm_get (U "debitos") hm) = Some dc ->
  let rows := row_range start_row end_row in
  let out := fst (resolve_duplicate_reference_codes ws hm start_row end_row) in
  (forall k r c, In r (pp_rows ws cc rc dc k rows) ->
     cell out r c
     = cell (fst (resolve_group cc ws
                    (map (fun r => (r, debit_of ws dc r)) (pp_rows ws cc rc dc k rows))))
         r c)
  /\ (forall r c, (forall k, ~ In r (pp_rows ws cc rc dc k rows)) ->
        cell out r c = cell ws r c).
Proof.
  intros Hcc Hrc Hdc rows out. subst out.
  unfold resolve_duplicate_reference_codes. rewrite Hcc, Hrc, Hdc. fold rows.
  set (groups := group_rows (pp_entry ws cc rc dc) rows).
  assert (Hfst :
    fst (let (ws', updates) :=
           fold_left
             (fun acc group =>
                let (ws1, n) := resolve_group cc (fst acc) (snd group) in
                (ws1, snd acc + n)) groups (ws, 0) in
         (ws', if 0 <? updates then [LogCodesResolved updates] else []))
    = fold_left (fun w g => fst (resolve_group cc w (snd g))) groups ws).
  { rewrite <- (fold_fst_count (fun w g => resolve_group cc w (snd g)) groups ws 0).
    destruct (fold_left _ groups (ws, 0)) as [ws' n]. reflexivity. }
  rewrite Hfst. clear Hfst.
  destruct (group_rows_spec (pp_entry ws cc rc dc) rows) as [Hnd Hgroups].
  fold groups in Hnd, Hgroups.
  assert (Hfoot : forall g, In g groups ->
            map fst (snd g) = pp_rows ws cc rc dc (fst g) rows).
  { intros [k l] Hg. apply Hgroups in Hg as [-> _]. simpl.
    rewrite pp_entries_eq. apply map_fst_entries. }
  assert (Hdisj : disjoint_feet (fun g : ustr * list (nat * option Q) => map fst (snd g))
                    groups).
  { apply (feet_disjoint_by_key _ fst (fun r => fst <$> pp_entry ws cc rc dc r));
      [exact Hnd|].
    intros g r Hg Hr. rewrite (Hfoot g Hg) in Hr. apply filter_In in Hr as [_ Hr].
    apply pp_key_is_code in Hr as [_ ->]. reflexivity. }
  pose proof (fold_disjoint_cell
                (fun w (g : ustr * list (nat * option Q)) =>
                   fst (resolve_group cc w (snd g)))
                (fun g => map fst (snd g)) (fun _ => True)
                (fun w g r c _ Hn => resolve_group_frame cc w (snd g) r c Hn)
                (fun w w' g _ Hag r c Hr => resolve_group_local cc w w' (snd g) Hag r c Hr)
                groups (proj2 (Forall_forall _ _) (fun _ _ => I)) Hdisj ws) as Hfold.
  split.
  - intros k r c Hr. destruct (Hfold r c) as [H1 _].
    assert (Hg : In (k, map (fun r => (r, debit_of ws dc r)) (pp_rows ws cc rc dc k rows))
                   groups).
    { apply Hgroups. split; [symmetry; apply pp_entries_eq|].
      destruct (pp_rows ws cc rc dc k rows); [destruct Hr|discriminate]. }
    rewrite (H1 _ Hg); [reflexivity|]. simpl. rewrite map_fst_entries. exact Hr.
  - intros r c Hnone. destruct (Hfold r c) as [_ H2]. apply H2.
    intros g Hg Hr. rewrite (Hfoot g Hg) in Hr. exact (Hnone (fst g) Hr).
Qed.

End ResolvePass.

(** X12. [_resolve_duplicate_reference_codes] of case 1 looks at the rows
    from [start_row] to [end_row] whose code is PP (after trimming and
    upper-casing) and whose reference is not blank, grouped by the trimmed
    reference text. In a group with at least two debits that parse, the
    row with the greatest debit gets the code T/D and the row with the
    smallest debit the code O/D, ties going by row number; in a group
    with one debit that parses, that row gets T/D when the debit exceeds
    1e-9; nothing else changes: a cell that differs afterwards is the
    code cell of such a PP row and holds T/D or O/D. *)
Theorem pp_duplicates_are_resolved (L : PyLib) (ws : worksheet) (hm : header_map)
    (start_row end_row cc rc dc : nat) :
  valid_column (hm_get (U "codigo") hm) = Some cc ->
  valid_column (hm_get (U "referencia") hm) = Some rc ->
  valid_column (hm_get (U "debitos") hm) = Some dc ->
  1 <= start_row ->
  let rows := row_range start_row end_row in
  let group := fun k => pp_rows ws cc rc dc k rows in
  let out := fst (resolve_duplicate_reference_codes ws hm start_row end_row) in
  (forall k h l qh ql,
      In h (group k) -> In l (group k) -> h <> l ->
      debit_of ws dc h = Some qh -> debit_of ws dc l = Some ql ->
      (forall r q, In r (group k) -> debit_of ws dc r = Some q ->
                   entry_le (r, q) (h, qh) /\ entry_le (l, ql) (r, q)) ->
      cell out h cc = VStr T_D /\ cell out l cc = VStr O_D)
  /\ (forall k h qh,
        In h (group k) -> debit_of ws dc h = Some qh ->
        (forall r q, In r (group k) -> debit_of ws dc r = Some q -> r = h) ->
        cell out h cc = if is_positive (Some qh) then VStr T_D else cell ws h cc)
  /\ (forall r c,
        cell out r c = cell ws r c
        \/ (c = cc /\ start_row <= r <= end_row
            /\ code_text (cell ws r cc) = PP
            /\ (exists q, debit_of ws dc r = Some q)
            /\ (cell out r c = VStr T_D \/ cell out r c = VStr O_D))).
Proof.
  intros Hcc Hrc Hdc Hstart rows group out. subst out.
  destruct (resolve_pass_cells ws hm start_row end_row cc rc dc Hcc Hrc Hdc)
    as [Hin Hout].
  fold rows in Hin, Hout.
  assert (Hcc1 : 1 <= cc) by (apply valid_column_Some in Hcc; tauto).
  assert (Hrow : forall k r, In r (group k) ->
            start_row <= r <= end_row /\ code_text (cell ws r cc) = PP).
  { intros k r Hr. apply filter_In in Hr as [Hr Hk]. apply In_row_range in Hr.
    apply pp_key_is_code in Hk as [Hk _]. auto. }
  assert (Hentry : forall k r q,
            In (r, Some q) (map (fun r => (r, debit_of ws dc r)) (group k))
            <-> In r (group k) /\ debit_of ws dc r = Some q).
  { intros k r q. rewrite in_map_iff. split.
    - intros [r' [[= -> E] Hr]]. auto.
    - intros [Hr E]. exists r. rewrite E. auto. }
  assert (HneT : PP <> T_D) by (vm_compute; discriminate).
  assert (HneO : PP <> O_D) by (vm_compute; discriminate).
  split; [|split].
  - intros k h l qh ql Hh Hl Hne Eh El Hext.
    rewrite (Hin k h cc Hh), (Hin k l cc Hl).
    destruct (Hrow k h Hh) as [Hrh Hch]. destruct (Hrow k l Hl) as [Hrl Hcl].
    apply (resolve_group_pair cc ws _ h l qh ql); try lia; try congruence.
    + apply Hentry. auto.
    + apply Hentry. auto.
    + intros r q Hr. apply Hentry in Hr as [Hr Eq]. apply Hext; assumption.
  - intros k h qh Hh Eh Hone. rewrite (Hin k h cc Hh).
    destruct (Hrow k h Hh) as [Hrh Hch].
    apply (resolve_group_single cc ws _ h qh); try lia; try congruence.
    + rewrite map_fst_entries. apply NoDup_filter_list, NoDup_row_range.
    + apply Hentry. auto.
    + intros r q Hr. apply Hentry in Hr as [Hr Eq]. apply (Hone r q); assumption.
  - intros r c.
    destruct (pp_entry ws cc rc dc r) as [[k e]|] eqn:Ee.
    + destruct (in_dec Nat.eq_dec r rows) as [Hr|Hr].
      * assert (Hg : In r (group k)).
        { apply filter_In. split; [exact Hr|]. unfold pp_key_is. rewrite Ee.
          apply ustr_eqb_refl. }
        rewrite (Hin k r c Hg).
        destruct (resolve_group_cell cc ws
                    (map (fun r => (r, debit_of ws dc r)) (group k)) r c)
          as [H|(-> & [q Hq] & H)]; [left; exact H|].
        right. destruct (Hrow k r Hg) as [Hb Hc]. apply Hentry in Hq as [_ Hq].
        split; [reflexivity|]. split; [exact Hb|]. split; [exact Hc|]. split; [eauto|exact H].
      * left. apply Hout. intros k' Hk'. apply filter_In in Hk' as [Hk' _]. contradiction.
    + left. apply Hout. intros k' Hk'. apply filter_In in Hk' as [_ Hk'].
      unfold pp_key_is in Hk'. rewrite Ee in Hk'. discriminate.
Qed.

Lemma pp_duplicates_are_resolved_witness :
  cell (fst (@resolve_duplicate_reference_codes RefLib sample_payments
               sample_header_map 16 19)) 17 3
  = cell sample_payments 17 3
  \/ (3 = 3 /\ 16 <= 17 <= 19
      /\ @code_text RefLib (cell sample_payments 17 3) = PP
      /\ (exists q, @debit_of RefLib sample_payments 5 17 = Some q)
      /\ (cell (fst (@resolve_duplicate_reference_codes RefLib sample_payments
                       sample_header_map 16 19)) 17 3 = VStr T_D
          \/ cell (fst (@resolve_duplicate_reference_codes RefLib sample_payments
                          sample_header_map 16 19)) 17 3 = VStr O_D)).
Proof.
  assert (H1 : valid_column (hm_get (U "codigo") sample_header_map) = Some 3)
    by (vm_compute; reflexivity).
  assert (H2 : valid_column (hm_get (U "referencia") sample_header_map) = Some 2)
    by (vm_compute; reflexivity).
  assert (H3 : valid_column (hm_get (U "debitos") sample_header_map) = Some 5)
    by (vm_compute; reflexivity).
  assert (H4 : 1 <= 16) by lia.
  exact (proj2 (proj2 (pp_duplicates_are_resolved RefLib sample_payments
                         sample_header_map 16 19 3 2 5 H1 H2 H3 H4)) 17 3).
Defined.

Example resolve_on_sample :
  map (fun r => cell (fst (@resolve_duplicate_reference_codes RefLib sample_payments
                             sample_header_map 16 19)) r 3) [16; 17; 18; 19]
  = [VStr (U "PP"); VStr (U "T/D"); VStr (U "O/D"); VStr (U "T/D")]
  /\ snd (@resolve_duplicate_reference_codes RefLib sample_payments sample_header_map 16 19)
     = [LogCodesResolved 3].
Proof. vm_compute. split; reflexivity. Qed.

(** ** File name components *)

Lemma adjacent_app_r (c : N) (p s : ustr) :
  adjacent c (p ++ s) = false -> adjacent c s = false.
Proof.
  induction p as [|x p IH]; [auto|]. simpl.
  destruct (p ++ s) as [|y t] eqn:E.
  - intros _. destruct p; [simpl in E; subst; reflexivity|discriminate].
  - intros H. apply orb_false_iff in H as [_ H]. apply IH, H.
Qed.

Lemma adjacent_app_l (c : N) (s q : ustr) :
  adjacent c (s ++ q) = false -> adjacent c s = false.
Proof.
  induction s as [|x s IH]; [reflexivity|]. simpl.
  destruct s as [|y t]; [reflexivity|]. simpl app.
  intros H. apply orb_false_iff in H as [H1 H2].
  rewrite H1. simpl. apply IH, H2.
Qed.

Lemma lstrip_chars_suffix (chars : N -> bool) (s : ustr) :
  exists p, s = p ++ lstrip_chars chars s /\ forallb chars p = true.
Proof.
  induction s as [|c s IH]; [exists []; auto|]. simpl.
  destruct (chars c) eqn:E; [|exists []; auto].
  destruct IH as (p & Hp & Hall). exists (c :: p). simpl. rewrite E, <- Hp. auto.
Qed.

Lemma lstrip_chars_head (chars : N -> bool) (s : ustr) (c : N) :
  head (lstrip_chars chars s) = Some c -> chars c = false.
Proof.
  induction s as [|x s IH]; [discriminate|]. simpl.
  destruct (chars x) eqn:E; [exact IH|]. simpl. intros [= <-]. exact E.
Qed.

Lemma lstrip_chars_snoc (chars : N -> bool) (l : ustr) (c : N) :
  chars c = false -> exists y, lstrip_chars chars (l ++ [c]) = y ++ [c].
Proof.
  intros Hc. induction l as [|x l IH]; simpl.
  - rewrite Hc. exists []. reflexivity.
  - destruct (chars x); [exact IH|]. exists (x :: l). reflexivity.
Qed.

Lemma strip_chars_infix (chars : N -> bool) (s : ustr) :
  exists p q, s = p ++ strip_chars chars s ++ q.
Proof.
  unfold strip_chars.
  destruct (lstrip_chars_suffix chars s) as (p & Hp & _).
  destruct (lstrip_chars_suffix chars (rev (lstrip_chars chars s))) as (q & Hq & _).
  exists p, (rev q). rewrite <- rev_app_distr, <- Hq, rev_involutive. exact Hp.
Qed.

Lemma strip_chars_head (chars : N -> bool) (s : ustr) (c : N) :
  head (strip_chars chars s) = Some c -> chars c = false.
Proof.
  unfold strip_chars. destruct (lstrip_chars chars s) as [|h t] eqn:E; [discriminate|].
  assert (Hh : chars h = false) by (apply (lstrip_chars_head chars s); rewrite E; reflexivity).
  simpl rev. destruct (lstrip_chars_snoc chars (rev t) h Hh) as [y ->].
  rewrite rev_app_distr. simpl. intros [= <-]. exact Hh.
Qed.

Lemma Forall_infix {P : N -> Prop} (p s q : ustr) :
  Forall P (p ++ s ++ q) -> Forall P s.
Proof. intros H. apply Forall_app in H as [_ H]. apply Forall_app in H as [H _]. exact H. Qed.

Lemma replace_runs_chars (in_class : N -> bool) (s : ustr) :
  forall in_run,
    Forall (fun c => c = UNDERSCORE \/ in_class c = false)
      (replace_runs in_class in_run s).
Proof.
  induction s as [|c s IH]; intros in_run; simpl; [constructor|].
  destruct (in_class c) eqn:E.
  - destruct in_run; [apply IH|]. constructor; [left; reflexivity|apply IH].
  - constructor; [right; exact E|apply IH].
Qed.

Lemma replace_runs_sub (in_class : N -> bool) (P : N -> Prop) (s : ustr) :
  P UNDERSCORE -> Forall P s ->
  forall in_run, Forall P (replace_runs in_class in_run s).
Proof.
  intros Hu. induction 1 as [|c s Hc Hs IH]; intros in_run; simpl; [constructor|].
  destruct (in_class c).
  - destruct in_run; [apply IH|]. constructor; [exact Hu|apply IH].
  - constructor; [exact Hc|apply IH].
Qed.

Lemma replace_runs_underscores (s : ustr) :
  adjacent UNDERSCORE (replace_runs (fun c => (c =? UNDERSCORE)%N) false s) = false
  /\ adjacent UNDERSCORE (replace_runs (fun c => (c =? UNDERSCORE)%N) true s) = false
  /\ head (replace_runs (fun c => (c =? UNDERSCORE)%N) true s) <> Some UNDERSCORE.
Proof.
  induction s as [|c s (IH1 & IH2 & IH3)]; [simpl; repeat split; discriminate|].
  cbn [replace_runs]. destruct (N.eqb_spec c UNDERSCORE) as [->|Hne].
  - split; [|split; assumption].
    cbn [adjacent].
    destruct (replace_runs _ true s) as [|y t] eqn:E; [reflexivity|].
    rewrite IH2, orb_false_r. simpl.
    destruct (N.eqb_spec y UNDERSCORE) as [->|]; [|reflexivity].
    exfalso. apply IH3. reflexivity.
  - assert (Hc : (c =? UNDERSCORE)%N = false) by (apply N.eqb_neq, Hne).
    assert (Ha : adjacent UNDERSCORE
                   (c :: replace_runs (fun c0 => (c0 =? UNDERSCORE)%N) false s) = false).
    { cbn [adjacent]. destruct (replace_runs _ false s) as [|y t]; [reflexivity|].
      rewrite Hc, IH1. reflexivity. }
    split; [exact Ha|]. split; [exact Ha|]. simpl. congruence.
Qed.

Lemma take_prefix {A} (n : nat) (l : list A) : exists q, l = take n l ++ q.
Proof. exists (drop n l). symmetry. apply take_drop. Qed.

Lemma head_take {A} (n : nat) (l : list A) (x : A) :
  head (take n l) = Some x -> head l = Some x.
Proof. destruct n, l; simpl; try discriminate. auto. Qed.

(** X13. A file name component that [_sanitize_filename_component] of
    case 1 returns has at most 100 characters, all of them ASCII letters,
    digits, dots, underscores, spaces or hyphens, never two underscores
    side by side, and it does not begin with a space or an underscore;
    a value that is not text gives the empty string. *)
Theorem sanitized_file_names_are_safe (L : PyLib) (text : value) :
  let out := sanitize_filename_component text in
  length out <= 100
  /\ Forall (fun c => filename_char c = true) out
  /\ adjacent UNDERSCORE out = false
  /\ head out <> Some SPACE /\ head out <> Some UNDERSCORE
  /\ ((forall s, text <> VStr s) -> out = []).
Proof.
  intros out. subst out.
  destruct text as [|s|q|b|d|o|t];
    try (simpl; split; [lia|]; split; [constructor|]; split; [reflexivity|];
         split; [discriminate|]; split; [discriminate|]; intros; reflexivity).
  simpl.
  set (s1 := replace_runs (fun c => negb (filename_char c)) false (strip_marks (strip s))).
  set (s2 := replace_runs (fun c => (c =? UNDERSCORE)%N) false s1).
  set (s3 := strip_chars (fun c => (c =? SPACE)%N || (c =? UNDERSCORE)%N) s2).
  assert (H1 : Forall (fun c => filename_char c = true) s1).
  { subst s1. eapply Forall_impl; [apply replace_runs_chars|].
    intros c [->|H]; [reflexivity|]. simpl in H. apply negb_false_iff in H. exact H. }
  assert (H2 : Forall (fun c => filename_char c = true) s2).
  { subst s2. apply replace_runs_sub; [reflexivity|exact H1]. }
  destruct (strip_chars_infix (fun c => (c =? SPACE)%N || (c =? UNDERSCORE)%N) s2)
    as (p & q & Hinfix). fold s3 in Hinfix.
  assert (H3 : Forall (fun c => filename_char c = true) s3).
  { rewrite Hinfix in H2. apply (Forall_infix p s3 q H2). }
  assert (A2 : adjacent UNDERSCORE s2 = false) by (apply replace_runs_underscores).
  assert (A3 : adjacent UNDERSCORE s3 = false).
  { rewrite Hinfix in A2. apply adjacent_app_r in A2. apply adjacent_app_l in A2. exact A2. }
  destruct (take_prefix 100 s3) as [q' Hq'].
  split; [rewrite length_take; lia|].
  split; [apply Forall_take, H3|].
  split; [rewrite Hq' in A3; apply adjacent_app_l in A3; exact A3|].
  assert (Hhead : forall c, head (take 100 s3) = Some c ->
                    ((c =? SPACE)%N || (c =? UNDERSCORE)%N) = false).
  { intros c Hc. apply head_take in Hc.
    apply (strip_chars_head _ s2 c Hc). }
  split; [|split].
  - intros Hc. apply Hhead in Hc. discriminate.
  - intros Hc. apply Hhead in Hc. discriminate.
  - intros Hne. exfalso. apply (Hne s). reflexivity.
Qed.

Example sanitize_on_sample :
  @sanitize_filename_component RefLib (VStr (U "  Cuenta Número: 123/456 __ Ahorro (CRC) "))
  = U "Cuenta Numero_ 123_456 _ Ahorro _CRC"
  /\ @sanitize_filename_component RefLib (VStr (U "_ _x")) = U "x"
  /\ last (@sanitize_filename_component RefLib (VStr (replicate 99 97%N ++ U " b")))
     = Some SPACE.
Proof. vm_compute. repeat split; reflexivity. Qed.

(** ** The table of a statement of case 7 *)

Lemma before_gap_short (empty : nat -> bool) (rows : list nat) :
  length rows <= 2 -> before_gap empty rows = rows.
Proof.
  destruct rows as [|a [|b [|c rest]]]; simpl; intros Hl; try reflexivity; lia.
Qed.

Lemma before_gap_cons_keep (empty : nat -> bool) (a : nat) (rest : list nat) :
  empty a = false -> before_gap empty (a :: rest) = a :: before_gap empty rest.
Proof.
  intros Ha. destruct rest as [|b [|c rest]]; simpl; try reflexivity.
  rewrite Ha. reflexivity.
Qed.

Lemma before_gap_prefix (empty : nat -> bool) (rows : list nat) :
  exists rest,
    rows = before_gap empty rows ++ rest
    /\ (rest = []
        \/ exists a b c post,
             rest = a :: b :: c :: post
             /\ empty a = true /\ empty b = true /\ empty c = true).
Proof.
  induction rows as [|a rest IH].
  - exists []. split; [reflexivity | left; reflexivity].
  - destruct rest as [|b [|c post]].
    + exists []. split; [reflexivity | left; reflexivity].
    + exists []. split; [reflexivity | left; reflexivity].
    + change (before_gap empty (a :: b :: c :: post))
        with (if empty a && empty b && empty c then []
              else a :: before_gap empty (b :: c :: post)).
      destruct (empty a && empty b && empty c) eqn:E.
      * apply andb_true_iff in E as [E Ec]. apply andb_true_iff in E as [Ea Eb].
        exists (a :: b :: c :: post). split; [reflexivity|].
        right. exists a, b, c, post. repeat split; assumption.
      * destruct IH as (r & Hr & Hor). exists r. split; [|exact Hor].
        simpl app. f_equal. exact Hr.
Qed.

Lemma scan_table_cons (build : nat -> row_data * bool) (r : nat) (rest : list nat)
    (streak : nat) :
  streak < 3 ->
  scan_table build (r :: rest) streak
  = if snd (build r) then scan_table build rest (S streak)
    else fst (build r) :: scan_table build rest 0.
Proof.
  intros Hs. cbn [scan_table].
  replace (3 <=? streak) with false by (symmetry; apply Nat.leb_gt; lia).
  destruct (build r) as [row empty]. reflexivity.
Qed.

Lemma scan_table_stopped (build : nat -> row_data * bool) (rows : list nat)
    (streak : nat) :
  3 <= streak -> scan_table build rows streak = [].
Proof.
  intros Hs. destruct rows as [|r rest]; [reflexivity|]. cbn [scan_table].
  replace (3 <=? streak) with true by (symmetry; apply Nat.leb_le; lia).
  reflexivity.
Qed.

Lemma scan_table_before_gap (build : nat -> row_data * bool) (rows prev : list nat) :
  forallb (fun r => snd (build r)) prev = true ->
  length prev < 3 ->
  scan_table build rows (length prev)
  = map (fun r => fst (build r))
      (List.filter (fun r => negb (snd (build r)))
         (before_gap (fun r => snd (build r)) (prev ++ rows))).
Proof.
  revert prev. induction rows as [|r rest IH]; intros prev Hprev Hlen.
  - rewrite app_nil_r, before_gap_short by lia. simpl.
    rewrite filter_none; [reflexivity|].
    intros x Hx. rewrite forallb_forall in Hprev. rewrite (Hprev x Hx). reflexivity.
  - rewrite scan_table_cons by exact Hlen.
    destruct (build r) as [row_data empty] eqn:Eb.
    cbn [fst snd].
    destruct empty.
    + destruct (Nat.eq_dec (length prev) 2) as [E2|N2].
      * destruct prev as [|a [|b [|c prev]]]; simpl in E2; try lia.
        simpl in Hprev. apply andb_true_iff in Hprev as [Ha Hb].
        apply andb_true_iff in Hb as [Hb _].
        simpl app.
        change (before_gap (fun r0 => snd (build r0)) (a :: b :: r :: rest))
          with (if snd (build a) && snd (build b) && snd (build r) then []
                else a :: before_gap (fun r0 => snd (build r0)) (b :: r :: rest)).
        rewrite Ha, Hb, Eb. simpl.
        apply scan_table_stopped. lia.
      * specialize (IH (prev ++ [r])).
        rewrite length_app in IH. simpl in IH.
        replace (length prev + 1) with (S (length prev)) in IH by lia.
        rewrite <- app_assoc in IH. simpl in IH. apply IH; [|lia].
        rewrite forallb_app, Hprev. simpl. rewrite Eb. reflexivity.
    + specialize (IH [] eq_refl ltac:(simpl; lia)). simpl in IH. rewrite IH.
      assert (Er : snd (build r) = false) by (rewrite Eb; reflexivity).
      assert (Hkeep :
        map (fun r0 => fst (build r0))
          (List.filter (fun r0 => negb (snd (build r0)))
             (before_gap (fun r0 => snd (build r0)) (r :: rest)))
        = row_data
            :: map (fun r0 => fst (build r0))
                 (List.filter (fun r0 => negb (snd (build r0)))
                    (before_gap (fun r0 => snd (build r0)) rest))).
      { rewrite before_gap_cons_keep by exact Er.
        simpl. rewrite Er. simpl. rewrite Eb. reflexivity. }
      destruct prev as [|a [|b [|c prev]]]; simpl in Hlen; try lia.
      * simpl app. symmetry. exact Hkeep.
      * simpl in Hprev. apply andb_true_iff in Hprev as [Ha _].
        simpl app.
        assert (Eg : before_gap (fun r0 => snd (build r0)) (a :: r :: rest)
                     = a :: before_gap (fun r0 => snd (build r0)) (r :: rest)).
        { destruct rest as [|c rest]; [reflexivity|].
          change (before_gap (fun r0 => snd (build r0)) (a :: r :: c :: rest))
            with (if snd (build a) && snd (build r) && snd (build c) then []
                  else a :: before_gap (fun r0 => snd (build r0)) (r :: c :: rest)).
          rewrite Er, andb_false_r. reflexivity. }
        rewrite Eg. simpl List.filter. rewrite Ha. simpl negb. cbv iota.
        symmetry. exact Hkeep.
      * simpl in Hprev. apply andb_true_iff in Hprev as [Ha Hb].
        apply andb_true_iff in Hb as [Hb _].
        simpl app.
        assert (Eg : before_gap (fun r0 => snd (build r0)) (a :: b :: r :: rest)
                     = a :: b :: before_gap (fun r0 => snd (build r0)) (r :: rest)).
        { change (before_gap (fun r0 => snd (build r0)) (a :: b :: r :: rest))
            with (if snd (build a) && snd (build b) && snd (build r) then []
                  else a :: before_gap (fun r0 => snd (build r0)) (b :: r :: rest)).
          rewrite Er, andb_false_r. f_equal.
          destruct rest as [|c rest]; [reflexivity|].
          change (before_gap (fun r0 => snd (build r0)) (b :: r :: c :: rest))
            with (if snd (build b) && snd (build r) && snd (build c) then []
                  else b :: before_gap (fun r0 => snd (build r0)) (r :: c :: rest)).
          rewrite Er, andb_false_r. reflexivity. }
        rewrite Eg. simpl List.filter. rewrite Ha, Hb. simpl negb. cbv iota.
        symmetry. exact Hkeep.
Qed.

Lemma table_row_required `{PyLib} (ws : worksheet) (hm : header_map) (r : nat)
    (header : string) :
  In header HEADERS ->
  fst (table_row ws hm r) !! header = Some (required_value ws hm r header).
Proof.
  intros Hin. unfold table_row. cbn [fst fold_left HEADERS OPTIONAL_HEADERS].
  unfold HEADERS in Hin. simpl in Hin.
  destruct Hin as [<-|[<-|[<-|[<-|[<-|[<-|[]]]]]]];
    repeat (rewrite lookup_insert_ne by (unfold K_REVISAR; discriminate));
    apply lookup_insert_eq.
Qed.

Lemma table_row_optional `{PyLib} (ws : worksheet) (hm : header_map) (r : nat) :
  fst (table_row ws hm r) !! "Código"%string
  = Some (optional_value ws hm r "Código"%string)
  /\ fst (table_row ws hm r) !! K_REVISAR = Some (VStr []).
Proof.
  unfold table_row. cbn [fst fold_left HEADERS OPTIONAL_HEADERS]. split.
  - rewrite lookup_insert_ne by (unfold K_REVISAR; discriminate).
    apply lookup_insert_eq.
  - apply lookup_insert_eq.
Qed.

(** X14. Case 7 reads the rows below the header row up to the first three
    empty rows in a row, or to the end of the sheet: the rows it returns
    are the rows of that part that are not empty, in their order, and
    nothing below three empty rows is read.  A row is empty when its six
    required values are blank; a row that is read holds, under each
    required title, the value of the column of that title ([None] when the
    sheet has no such column), under "Código" the value of that column (the
    empty string when there is none) and under "Revisar" the empty string. *)
Theorem table_rows_stop_after_three_empty_rows (L : PyLib) (ws : worksheet) :
  let header_map := snd (find_header_row ws) in
  let read := before_gap (empty_row7 ws) (data_rows7 ws) in
  extract_table_rows ws
  = map (fun r => fst (table_row ws header_map r))
      (List.filter (fun r => negb (empty_row7 ws r)) read)
  /\ (exists rest,
        data_rows7 ws = read ++ rest
        /\ (rest = []
            \/ exists a b c post,
                 rest = a :: b :: c :: post
                 /\ empty_row7 ws a = true /\ empty_row7 ws b = true
                 /\ empty_row7 ws c = true))
  /\ (forall r header,
        In header HEADERS ->
        fst (table_row ws header_map r) !! header
        = Some (match header_column header_map header with
                | Some col_idx => cell ws r col_idx
                | None => VNone
                end))
  /\ (forall r,
        fst (table_row ws header_map r) !! "Código"%string
        = Some (match header_column header_map "Código"%string with
                | Some col_idx => cell ws r col_idx
                | None => VStr []
                end)
        /\ fst (table_row ws header_map r) !! "Revisar"%string = Some (VStr [])).
Proof.
  intros header_map read. split; [|split; [|split]].
  - unfold extract_table_rows, read, data_rows7, header_map, empty_row7.
    destruct (find_header_row ws) as [hr hm] eqn:E. cbn [fst snd].
    destruct (valid_column hr) as [r0|]; [|reflexivity].
    destruct hm as [|p hm]; [reflexivity|].
    exact (scan_table_before_gap (table_row ws (p :: hm))
             (seq (r0 + 1) (max_row ws - r0)) [] eq_refl ltac:(simpl; lia)).
  - exact (before_gap_prefix (empty_row7 ws) (data_rows7 ws)).
  - intros r header Hin. exact (table_row_required ws header_map r header Hin).
  - intros r. exact (table_row_optional ws header_map r).
Qed.

Example table_rows_on_sample :
  map (fun row => row_get row K_DESCRIPCION)
    (@extract_table_rows RefLib sample_statement7)
  = [VStr (U "Retiro"); VStr (U "Depósito")]
  /\ map (fun row => row_get row K_CODIGO)
       (@extract_table_rows RefLib sample_statement7)
     = [VStr []; VStr []]
  /\ @data_rows7 RefLib sample_statement7 = [3; 4; 5; 6; 7; 8; 9].
Proof. vm_compute. repeat split; reflexivity. Qed.

(** ** The header row of a statement of case 7 *)

Lemma target_headers_nonempty `{PyLib} : 1 <= length target_headers.
Proof.
  assert (Hin : simplify_header (VStr (ustr_of_key "Fecha")) ∈ target_headers).
  { unfold target_headers. apply elem_of_remove_dups.
    unfold HEADERS. simpl. left. }
  destruct target_headers; [inversion Hin | simpl; lia].
Qed.

Lemma header_matches_count `{PyLib} (ws : worksheet) (r : nat) :
  header_matches ws r
  = length (List.filter (target_cell ws r) (seq 1 (max_column ws))).
Proof.
  unfold header_matches, header_scan.
  assert (Hgen : forall cols acc,
    snd (fold_left
      (fun acc col_idx =>
         match cell ws r col_idx with
         | VStr s =>
             let simplified := simplify_header (VStr s) in
             if ustr_eqb simplified [] then acc
             else
               (hm_set simplified col_idx (fst acc),
                if bool_decide (simplified ∈ target_headers) then S (snd acc)
                else snd acc)
         | _ => acc
         end) cols acc)
    = snd acc + length (List.filter (target_cell ws r) cols)).
  { induction cols as [|c cols IH]; intros acc; [simpl; lia|].
    cbn [fold_left List.filter]. rewrite IH. unfold target_cell at 2.
    destruct (cell ws r c) as [|s|q|b|d|o|t]; cbn [length]; try lia.
    cbv zeta.
    destruct (ustr_eqb (simplify_header (VStr s)) []); cbn [negb andb length];
      [lia|].
    destruct (bool_decide (simplify_header (VStr s) ∈ target_headers));
      cbn [snd length]; lia. }
  rewrite Hgen. reflexivity.
Qed.

Lemma find_header_loop_spec `{PyLib} (ws : worksheet) (rows : list nat) :
  forall br bm hm,
  exists done rest,
    rows = done ++ rest
    /\ (rest = []
        \/ exists s, last done = Some s
                     /\ header_matches ws s = length target_headers)
    /\ ((find_header_loop ws rows (br, bm, hm) = (br, bm, hm)
         /\ forall x, In x done -> header_matches ws x <= bm)
        \/ exists pre r post,
             done = pre ++ r :: post
             /\ find_header_loop ws rows (br, bm, hm)
                = (Some r, header_matches ws r, fst (header_scan ws r))
             /\ bm < header_matches ws r
             /\ (forall x, In x pre -> header_matches ws x < header_matches ws r)
             /\ (forall x, In x post -> header_matches ws x <= header_matches ws r)).
Proof.
  induction rows as [|row rows IH]; intros br bm hm.
  - exists [], []. split; [reflexivity|]. split; [left; reflexivity|].
    left. split; [reflexivity|]. intros x [].
  - cbn [find_header_loop]. unfold header_matches in *.
    destruct (header_scan ws row) as [current_map matches] eqn:Es.
    cbn [fst snd].
    assert (Em : snd (header_scan ws row) = matches) by (rewrite Es; reflexivity).
    assert (Ec : fst (header_scan ws row) = current_map) by (rewrite Es; reflexivity).
    destruct (matches =? length target_headers) eqn:Estop.
    + apply Nat.eqb_eq in Estop.
      exists [row], rows. split; [reflexivity|].
      split; [right; exists row; split; [reflexivity | congruence]|].
      destruct (bm <? matches) eqn:Eb.
      * apply Nat.ltb_lt in Eb. right. exists [], row, [].
        split; [reflexivity|]. rewrite Em, Ec.
        split; [reflexivity|]. split; [exact Eb|].
        split; intros x [].
      * apply Nat.ltb_ge in Eb. left. split; [reflexivity|].
        intros x [<-|[]]. rewrite Em. exact Eb.
    + destruct (bm <? matches) eqn:Eb.
      * apply Nat.ltb_lt in Eb.
        destruct (IH (Some row) matches current_map)
          as (done & rest & Hrows & Hrest & Hres).
        exists (row :: done), rest. split; [simpl; congruence|].
        split.
        { destruct Hrest as [->|(s & Hs & Hm)]; [left; reflexivity|].
          right. exists s. split; [|exact Hm].
          destruct done as [|d done]; [discriminate|]. exact Hs. }
        right. destruct Hres as [[Eq Hle]|(pre & r & post & Hd & Eq & Hlt & Hpre & Hpost)].
        -- exists [], row, done. split; [reflexivity|]. rewrite Em, Ec.
           split; [exact Eq|]. split; [exact Eb|].
           split; [intros x [] | exact Hle].
        -- exists (row :: pre), r, post. split; [simpl; congruence|].
           split; [exact Eq|]. split; [lia|].
           split; [|exact Hpost].
           intros x [<-|Hx]; [rewrite Em; exact Hlt | exact (Hpre x Hx)].
      * apply Nat.ltb_ge in Eb.
        destruct (IH br bm hm) as (done & rest & Hrows & Hrest & Hres).
        exists (row :: done), rest. split; [simpl; congruence|].
        split.
        { destruct Hrest as [->|(s & Hs & Hm)]; [left; reflexivity|].
          right. exists s. split; [|exact Hm].
          destruct done as [|d done]; [discriminate|]. exact Hs. }
        destruct Hres as [[Eq Hle]|(pre & r & post & Hd & Eq & Hlt & Hpre & Hpost)].
        -- left. split; [exact Eq|].
           intros x [<-|Hx]; [rewrite Em; exact Eb | exact (Hle x Hx)].
        -- right. exists (row :: pre), r, post. split; [simpl; congruence|].
           split; [exact Eq|]. split; [exact Hlt|].
           split; [|exact Hpost].
           intros x [<-|Hx]; [rewrite Em; lia | exact (Hpre x Hx)].
Qed.

Lemma seq_split_parts (a n : nat) (pre suf : list nat) :
  seq a n = pre ++ suf ->
  pre = seq a (length pre) /\ suf = seq (a + length pre) (n - length pre)
  /\ length pre <= n.
Proof.
  intros E.
  assert (Hlen : length pre <= n).
  { apply (f_equal (@length nat)) in E. rewrite length_seq, length_app in E. lia. }
  replace n with (length pre + (n - length pre)) in E at 1 by lia.
  rewrite seq_app in E.
  apply app_inj_1 in E as [E1 E2]; [|rewrite length_seq; reflexivity].
  repeat split; [symmetry; exact E1 | symmetry; exact E2 | exact Hlen].
Qed.

Lemma last_seq (a k : nat) : last (seq a (S k)) = Some (a + k).
Proof. rewrite seq_S. apply last_snoc. Qed.

(** X15. Case 7 looks for the header row among the first 80 rows of the
    sheet, counting in each row the text cells whose simplified text is one
    of the seven titles.  The row it returns has at least one such cell and
    strictly more of them than every row above it; a row below it has at
    most as many, unless the search had stopped before reaching it at a
    row with exactly as many matches as there are titles.  The header map
    is the one of the returned row.  No row is returned exactly when no
    row that was looked at has a match. *)
Theorem header_row_is_the_first_best_match (L : PyLib) (ws : worksheet) :
  let limit := Nat.min (max_row ws) 80 in
  (forall r,
     header_matches ws r
     = length (List.filter (target_cell ws r) (seq 1 (max_column ws))))
  /\ match find_header_row ws with
     | (Some r, hm) =>
         1 <= r <= limit
         /\ hm = fst (header_scan ws r)
         /\ 1 <= header_matches ws r
         /\ (forall r', 1 <= r' < r -> header_matches ws r' < header_matches ws r)
         /\ (forall r', r < r' <= limit ->
               header_matches ws r' <= header_matches ws r
               \/ exists s, r <= s < r'
                            /\ header_matches ws s = length target_headers)
     | (None, hm) =>
         hm = [] /\ forall r, 1 <= r <= limit -> header_matches ws r = 0
     end.
Proof.
  intros limit. split; [exact (header_matches_count ws)|].
  unfold find_header_row. fold limit.
  destruct (find_header_loop_spec ws (seq 1 limit) None 0 [])
    as (done & rest & Hrows & Hrest & Hres).
  destruct (seq_split_parts 1 limit done rest Hrows) as (Hdone & Hrst & Hlen).
  destruct Hres as [[Eq Hle]|(pre & r & post & Hd & Eq & Hlt & Hpre & Hpost)].
  - rewrite Eq. cbn [valid_column]. split; [reflexivity|].
    assert (Hall : rest = []).
    { destruct Hrest as [->|(s & Hs & Hm)]; [reflexivity|].
      assert (Hin : In s done).
      { destruct done as [|d done] using rev_ind; [discriminate|].
        rewrite last_snoc in Hs. injection Hs as <-.
        apply in_or_app. right. left. reflexivity. }
      specialize (Hle s Hin). pose proof target_headers_nonempty. lia. }
    rewrite Hall, app_nil_r in Hrows.
    intros x Hx.
    assert (Hin : In x done) by (rewrite <- Hrows; apply in_seq; lia).
    specialize (Hle x Hin). lia.
  - rewrite Eq.
    pose proof Hdone as Hlast.
    rewrite Hd in Hdone.
    destruct (seq_split_parts 1 (length (pre ++ r :: post)) pre (r :: post)
                (eq_sym Hdone)) as (Hp & Hrp & Hlp).
    rewrite <- Hd in Hrp, Hlp.
    assert (Hr : r = 1 + length pre /\ post = seq (2 + length pre) (length post)).
    { assert (El : length done - length pre = S (length post)).
      { rewrite Hd, length_app. simpl. lia. }
      rewrite El in Hrp. simpl in Hrp. injection Hrp as Hr Hpo.
      split; [exact Hr | exact Hpo]. }
    destruct Hr as [Hr Hpo].
    assert (Hdl : length done = length pre + S (length post)).
    { rewrite Hd, length_app. reflexivity. }
    assert (Hv : valid_column (Some r) = Some r).
    { rewrite Hr. reflexivity. }
    rewrite Hv.
    replace (header_matches ws r =? 0) with false
      by (symmetry; apply Nat.eqb_neq; lia).
    split; [lia|]. split; [reflexivity|]. split; [lia|]. split.
    + intros r' Hr'. apply Hpre. rewrite Hp. apply in_seq. lia.
    + intros r' Hr'.
      destruct (Nat.le_gt_cases r' (length done)) as [Hin|Hout].
      * left. apply Hpost. rewrite Hpo. apply in_seq. lia.
      * right.
        destruct Hrest as [->|(s & Hs & Hm)].
        { exfalso. rewrite app_nil_r in Hrows.
          apply (f_equal (@length nat)) in Hrows. rewrite length_seq in Hrows. lia. }
        exists s. split; [|exact Hm].
        rewrite Hlast, Hdl in Hs.
        replace (length pre + S (length post))
          with (S (length pre + length post)) in Hs by lia.
        rewrite last_seq in Hs. injection Hs as <-. lia.
Qed.

Example header_row_on_sample :
  @find_header_row RefLib
    [ [VStr (U "Banco"); VNone; VNone];
      [VStr (U "Fecha"); VStr (U "Detalle"); VNone];
      [VStr (U " FECHA "); VStr (U "Descripción"); VStr (U "Débitos"); VNum 5];
      [VStr (U "Fecha"); VStr (U "Descripción"); VStr (U "Saldo"); VStr (U "Nota")] ]
  = (Some 3, [(U "fecha", 1); (U "descripcion", 2); (U "debitos", 3)])
  /\ length (@target_headers RefLib) = 7.
Proof. vm_compute. split; reflexivity. Qed.

(** ** The rows of the redesigned workbook (case 7) *)

Section Redesign7Lemmas.
Context {L : PyLib}.





End Redesign7Lemmas.


(** ** The replies of cases 1 and 7 *)

Section Replies.
Context {L : PyLib} {artifact : Type}.

Lemma collect_redesigned_fold (redesign : option source7 -> @redesign7 artifact)
    (attachments : list (option source7)) (acc : list artifact * nat) :
  fold_left
    (fun acc attachment =>
       match redesign attachment with
       | CORRUPTED => (fst acc, S (snd acc))
       | Files result => (fst acc ++ result, snd acc)
       | NoFiles => acc
       end)
    attachments acc
  = (fst acc ++ flat_map files_of7 (map redesign attachments),
     snd acc + length (List.filter is_corrupted7 (map redesign attachments))).
Proof.
  revert acc. induction attachments as [|a rest IH]; intros [files n].
  - simpl. rewrite app_nil_r, Nat.add_0_r. reflexivity.
  - cbn [fold_left map flat_map List.filter]. rewrite IH.
    destruct (redesign a) as [| |result]; cbn [fst snd files_of7 is_corrupted7 app length].
    + f_equal. lia.
    + reflexivity.
    + rewrite <- app_assoc. reflexivity.
Qed.

Lemma filter_length_pos {A} (f : A -> bool) (l : list A) :
  (0 <? length (List.filter f l)) = existsb f l.
Proof.
  induction l as [|x l IH]; [reflexivity|]. simpl.
  destruct (f x); [reflexivity|]. exact IH.
Qed.

Lemma flat_map_length_bound {A B} (f : A -> list B) (n : nat) (l : list A) :
  (forall a, length (f a) <= n) -> length (flat_map f l) <= n * length l.
Proof.
  intros Hf. induction l as [|a l IH]; simpl; [lia|].
  rewrite length_app. specialize (Hf a). lia.
Qed.

Lemma flat_map_nil_iff {A B} (f : A -> list B) (l : list A) :
  flat_map f l = [] <-> forall a, In a l -> f a = [].
Proof.
  induction l as [|a l IH]; simpl.
  - split; [intros _ x [] | reflexivity].
  - split.
    + intros H. apply app_eq_nil in H as [Ha Hl].
      intros x [<-|Hx]; [exact Ha | apply IH; assumption].
    + intros H. rewrite (H a (or_introl eq_refl)). simpl.
      apply IH. intros x Hx. apply H. right. exact Hx.
Qed.

Lemma fold_extend {A B} (f : A -> option (list B)) (l : list A) (acc : list B) :
  fold_left
    (fun acc a => match f a with Some r => acc ++ r | None => acc end) l acc
  = acc ++ flat_map (fun a => default [] (f a)) l.
Proof.
  revert acc. induction l as [|a l IH]; intros acc; simpl.
  - rewrite app_nil_r. reflexivity.
  - rewrite IH. destruct (f a) as [r|]; simpl; [rewrite <- app_assoc|]; reflexivity.
Qed.

Lemma flat_map_map_list {A B C} (f : A -> B) (g : B -> list C) (l : list A) :
  flat_map g (map f l) = flat_map (fun a => g (f a)) l.
Proof.
  induction l as [|a l IH]; simpl; [reflexivity|]. rewrite IH. reflexivity.
Qed.

Lemma process_email7_eq (codification : codification_rules)
    (debit_map credit_map : code_map) (override_rules : list (ustr * ustr))
    (render : list row_data -> option (artifact * option artifact))
    (excel_attachments : list (option source7))
    (date_range : option (datetime * datetime)) :
  let results :=
    map (fun attachment =>
           redesign_excel_attachment7 codification debit_map credit_map
             override_rules render attachment date_range) excel_attachments in
  let files := flat_map files_of7 results in
  process_email7 codification debit_map credit_map override_rules render
    excel_attachments date_range
  = (if existsb is_corrupted7 results then CorruptedFileResponse
     else match files with
          | [] => NoResponse7
          | _ => Response7 files
          end).
Proof.
  intros results files. subst files results.
  unfold process_email7.
  destruct excel_attachments as [|a rest] eqn:Ea; [reflexivity|]. rewrite <- Ea.
  unfold collect_redesigned.
  pose proof (collect_redesigned_fold
                (fun attachment =>
                   redesign_excel_attachment7 codification debit_map credit_map
                     override_rules render attachment date_range)
                excel_attachments ([], 0)) as Hc.
  cbv beta in Hc. rewrite Hc. cbn [fst snd app Nat.add].
  rewrite filter_length_pos. reflexivity.
Qed.

Lemma redesign_files_bound (codification : codification_rules)
    (debit_map credit_map : code_map) (override_rules : list (ustr * ustr))
    (render : list row_data -> option (artifact * option artifact))
    (attachment : option source7) (date_range : option (datetime * datetime)) :
  length (files_of7 (redesign_excel_attachment7 codification debit_map credit_map
                       override_rules render attachment date_range)) <= 2.
Proof.
  unfold redesign_excel_attachment7.
  destruct attachment as [[| |ws]|]; simpl; try lia.
  destruct (redesigned_rows7 _ _ _ _ ws date_range) as [rows|]; simpl; [|lia].
  destruct (render rows) as [[workbook [summary|]]|]; simpl; lia.
Qed.

End Replies.

(** X17. The reply of case 7.  As soon as one Excel attachment is
    corrupt the reply is the message about corrupt files, without any
    attachment, whatever became of the other attachments.  Otherwise the
    reply carries the files of the attachments that could be redesigned,
    in the order of the attachments, at most two for each (the workbook
    and its summary), and there is no reply exactly when no attachment
    gave a file. *)
Theorem a_corrupt_attachment_takes_over_the_reply (L : PyLib) (artifact : Type)
    (codification : codification_rules) (debit_map credit_map : code_map)
    (override_rules : list (ustr * ustr))
    (render : list row_data -> option (artifact * option artifact))
    (excel_attachments : list (option source7))
    (date_range : option (datetime * datetime)) :
  let redesign := fun attachment =>
    redesign_excel_attachment7 codification debit_map credit_map override_rules render
      attachment date_range in
  let reply :=
    process_email7 codification debit_map credit_map override_rules render
      excel_attachments date_range in
  let results := map redesign excel_attachments in
  let files := flat_map files_of7 results in
  reply = (if existsb is_corrupted7 results then CorruptedFileResponse
           else match files with
                | [] => NoResponse7
                | _ => Response7 files
                end)
  /\ (In (Some Corrupt) excel_attachments -> reply = CorruptedFileResponse)
  /\ (reply = NoResponse7 <->
      forall attachment, In attachment excel_attachments ->
        redesign attachment = NoFiles)
  /\ length files <= 2 * length excel_attachments.
Proof.
  intros redesign reply results files.
  assert (Hreply : reply = (if existsb is_corrupted7 results then CorruptedFileResponse
                            else match files with
                                 | [] => NoResponse7
                                 | _ => Response7 files
                                 end)).
  { exact (process_email7_eq codification debit_map credit_map override_rules render
             excel_attachments date_range). }
  assert (Hfiles : forall a, redesign a <> CORRUPTED ->
            (files_of7 (redesign a) = [] <-> redesign a = NoFiles)).
  { intros a Hc. subst redesign. cbv beta in *.
    unfold redesign_excel_attachment7 in *.
    destruct a as [[| |ws]|]; try (split; reflexivity); try contradiction.
    destruct (redesigned_rows7 _ _ _ _ ws date_range) as [rows|]; [|split; reflexivity].
    destruct (render rows) as [[workbook summary]|]; [|split; reflexivity].
    split; discriminate. }
  split; [exact Hreply|]. split; [|split].
  - intros Hin. rewrite Hreply.
    replace (existsb is_corrupted7 results) with true; [reflexivity|].
    symmetry. apply existsb_exists. exists (redesign (Some Corrupt)).
    split; [apply in_map, Hin | reflexivity].
  - rewrite Hreply. destruct (existsb is_corrupted7 results) eqn:Ec.
    + split; [discriminate|]. intros Hall.
      apply existsb_exists in Ec as (r & Hr & Hc).
      apply in_map_iff in Hr as (a & <- & Ha). rewrite (Hall a Ha) in Hc. discriminate.
    + assert (Hnc : forall a, In a excel_attachments -> redesign a <> CORRUPTED).
      { intros a Ha Hc.
        assert (Ht : existsb is_corrupted7 results = true).
        { apply existsb_exists. exists (redesign a).
          split; [apply in_map, Ha | rewrite Hc; reflexivity]. }
        congruence. }
      assert (Hnil : files = [] <->
                forall a, In a excel_attachments -> redesign a = NoFiles).
      { subst files results. rewrite flat_map_nil_iff. split.
        - intros H a Ha. apply Hfiles; [apply Hnc, Ha|]. apply H, in_map, Ha.
        - intros H r Hr. apply in_map_iff in Hr as (a & <- & Ha).
          rewrite (H a Ha). reflexivity. }
      destruct files as [|f files'] eqn:Ef.
      * split; [intros _; apply Hnil; reflexivity | reflexivity].
      * split; [discriminate|]. intros H. apply Hnil in H. discriminate.
  - subst files results. rewrite flat_map_map_list.
    apply flat_map_length_bound. intros a. apply redesign_files_bound.
Qed.

(** X18. The reply of case 1 carries the files of the attachments that
    could be formatted, in the order of the attachments and at most two
    for each (the formatted workbook, then its summary); an attachment
    that could not be formatted is passed over and does not keep the
    others from being sent; there is no reply exactly when no attachment
    could be formatted. *)
Theorem reply_of_case1_carries_the_formatted_files (L : PyLib) (artifact : Type)
    (prepare : worksheet -> worksheet) (finish : worksheet -> option artifact)
    (summarize : artifact -> option artifact)
    (excel_attachments : list (option worksheet))
    (date_range : option (datetime * datetime)) :
  let enhance := fun attachment =>
    enhance_excel_attachment1 prepare finish summarize attachment date_range in
  let reply := process_email1 prepare finish summarize excel_attachments date_range in
  let files := flat_map (fun attachment => default [] (enhance attachment))
                 excel_attachments in
  reply = match files with
          | [] => NoResponse
          | _ => Response files
          end
  /\ (reply = NoResponse <->
      forall attachment, In attachment excel_attachments -> enhance attachment = None)
  /\ length files <= 2 * length excel_attachments.
Proof.
  intros enhance reply files.
  assert (Hreply : reply = match files with
                           | [] => NoResponse
                           | _ => Response files
                           end).
  { subst reply files. unfold process_email1.
    destruct excel_attachments as [|a rest] eqn:Ea; [reflexivity|]. rewrite <- Ea.
    pose proof (fold_extend enhance excel_attachments []) as Hf.
    subst enhance. cbv beta in Hf. rewrite Hf. reflexivity. }
  assert (Hsome : forall a, default [] (enhance a) = [] <-> enhance a = None).
  { intros a. subst enhance. cbv beta. unfold enhance_excel_attachment1.
    destruct a as [data_rows|]; [|split; reflexivity].
    destruct (create_formatted_workbook1 prepare finish data_rows date_range)
      as [workbook|]; [|split; reflexivity].
    split; discriminate. }
  split; [exact Hreply|]. split.
  - rewrite Hreply.
    assert (Hnil : files = [] <->
              forall a, In a excel_attachments -> enhance a = None).
    { subst files. rewrite flat_map_nil_iff. split.
      - intros H a Ha. apply Hsome, H, Ha.
      - intros H a Ha. apply Hsome, H, Ha. }
    destruct files as [|f files'] eqn:Ef.
    + split; [intros _; apply Hnil; reflexivity | reflexivity].
    + split; [discriminate|]. intros H. apply Hnil in H. discriminate.
  - subst files. apply flat_map_length_bound. intros a.
    subst enhance. cbv beta. unfold enhance_excel_attachment1.
    destruct a as [data_rows|]; simpl; [|lia].
    destruct (create_formatted_workbook1 prepare finish data_rows date_range)
      as [workbook|]; simpl; [|lia].
    destruct (summarize workbook); simpl; lia.
Qed.

(** ** The accounting summaries *)

Lemma Qgtb_true_iff (a b : Q) : Qgtb a b = true <-> (b < a)%Q.
Proof.
  unfold Qgtb. rewrite negb_true_iff. split.
  - intros H. apply Qnot_le_lt. intros Hle. apply Qle_bool_iff in Hle. congruence.
  - intros H. destruct (Qle_bool a b) eqn:E; [|reflexivity].
    apply Qle_bool_iff in E. exfalso. exact (Qlt_not_le _ _ H E).
Qed.

Lemma Qgtb_false_iff (a b : Q) : Qgtb a b = false <-> (a <= b)%Q.
Proof.
  unfold Qgtb. rewrite negb_false_iff. apply Qle_bool_iff.
Qed.

Lemma fold_append_some {A B} (f : A -> option B) (l : list A) (acc : list B) :
  fold_left (fun acc x => match f x with Some y => acc ++ [y] | None => acc end) l acc
  = acc ++ omap f l.
Proof.
  revert acc. induction l as [|x l IH]; intros acc.
  - simpl. rewrite app_nil_r. reflexivity.
  - change (omap f (x :: l))
      with (match f x with Some y => y :: omap f l | None => omap f l end).
    cbn [fold_left]. rewrite IH.
    destruct (f x) as [y|]; [rewrite <- app_assoc|]; reflexivity.
Qed.

Lemma omap_filter_lookup {A B} (f : A -> option B) (l : list A) :
  length (omap f l) = length (List.filter (fun x => bool_decide (is_Some (f x))) l)
  /\ forall i x,
       List.filter (fun x => bool_decide (is_Some (f x))) l !! i = Some x ->
       exists y, omap f l !! i = Some y /\ f x = Some y.
Proof.
  induction l as [|a l [IHl IHi]].
  - split; [reflexivity|]. intros i x H. destruct i; discriminate.
  - change (omap f (a :: l))
      with (match f a with Some y => y :: omap f l | None => omap f l end).
    cbn [List.filter].
    destruct (f a) as [y|] eqn:Ea.
    + rewrite bool_decide_eq_true_2 by eauto. split; [simpl; lia|].
      intros [|i] x H; simpl in H.
      * injection H as <-. exists y. split; [reflexivity | exact Ea].
      * exact (IHi i x H).
    + rewrite bool_decide_eq_false_2 by (intros [z Hz]; discriminate).
      split; [exact IHl | exact IHi].
Qed.

Section SummaryLemmas.
Context {L : PyLib}.

Lemma is_positive_is_nonzero (amount : option Q) :
  is_positive amount = true -> is_nonzero amount = true.
Proof.
  destruct amount as [q|]; simpl; [|discriminate].
  rewrite !Qgtb_true_iff. intros H.
  apply (Qlt_le_trans _ q); [exact H | apply Qle_Qabs].
Qed.

Lemma is_zero_not_nonzero (amount : option Q) :
  is_zero amount = true -> is_nonzero amount = false.
Proof.
  destruct amount as [q|]; simpl; [|reflexivity].
  rewrite negb_true_iff. intros H. apply Qgtb_false_iff.
  apply Qlt_le_weak, Qnot_le_lt. intros Hle. apply Qle_bool_iff in Hle. congruence.
Qed.

Lemma summary_amount1_is_some (credit debit : option Q) :
  bool_decide (is_Some (summary_amount1 credit debit))
  = is_nonzero credit || is_nonzero debit.
Proof.
  unfold summary_amount1.
  destruct (is_positive credit) eqn:Pc.
  { rewrite (is_positive_is_nonzero credit Pc).
    destruct credit; [reflexivity | discriminate]. }
  destruct (is_positive debit) eqn:Pd.
  { rewrite (is_positive_is_nonzero debit Pd), orb_true_r.
    destruct debit; [reflexivity | discriminate]. }
  destruct (is_nonzero credit) eqn:Nc.
  { destruct credit; [reflexivity | discriminate]. }
  destruct (is_nonzero debit) eqn:Nd.
  { destruct debit; [reflexivity | discriminate]. }
  reflexivity.
Qed.

Lemma summary_amount1_some (credit debit : option Q) (amount : Q) :
  summary_amount1 credit debit = Some amount ->
  (EPS < Qabs amount)%Q
  /\ (credit = Some amount \/ debit = Some amount)
  /\ (is_positive credit = true -> credit = Some amount)
  /\ (is_positive credit = false -> is_positive debit = true -> debit = Some amount)
  /\ (is_positive credit = false -> is_positive debit = false ->
      is_nonzero credit = true -> credit = Some amount).
Proof.
  unfold summary_amount1.
  destruct (is_positive credit) eqn:Pc.
  { intros ->. pose proof (is_positive_is_nonzero _ Pc) as Hn. simpl in Hn.
    apply Qgtb_true_iff in Hn. repeat split; auto; discriminate. }
  destruct (is_positive debit) eqn:Pd.
  { intros ->. pose proof (is_positive_is_nonzero _ Pd) as Hn. simpl in Hn.
    apply Qgtb_true_iff in Hn. repeat split; auto; discriminate. }
  destruct (is_nonzero credit) eqn:Nc.
  { intros ->. simpl in Nc. apply Qgtb_true_iff in Nc.
    repeat split; auto; discriminate. }
  destruct (is_nonzero debit) eqn:Nd; [|discriminate].
  intros ->. simpl in Nd. apply Qgtb_true_iff in Nd.
  repeat split; auto; discriminate.
Qed.

End SummaryLemmas.

(** X19. The accounting summary of case 1 is made when the formatted
    sheet has the columns of the code, the reference and the date and one
    of the two amount columns.  Below its five titles it lists, in their
    order, exactly the rows of the data region that have a credit or a
    debit further than 1e-9 from zero, so that no amount of the summary is
    zero; the amount is the credit when that is positive, else the debit
    when that is positive, else the one that is negative.  A row that the
    pass of the zero movements counts as zero is never listed. *)
Theorem summary_of_case1_lists_the_nonzero_movements (L : PyLib) (sheet : worksheet)
    (account_number : option ustr) :
  let listed := List.filter (moves1 sheet) (summary_rows1 sheet) in
  match create_summary_workbook1 sheet account_number with
  | None =>
      named_column sheet "codigo" = None
      \/ named_column sheet "referencia" = None
      \/ named_column sheet "fecha" = None
      \/ (named_column sheet "debitos" = None /\ named_column sheet "creditos" = None)
  | Some summary =>
      exists code_column reference_column date_column,
        named_column sheet "codigo" = Some code_column
        /\ named_column sheet "referencia" = Some reference_column
        /\ named_column sheet "fecha" = Some date_column
        /\ head summary = Some SUMMARY_HEADERS
        /\ length summary = S (length listed)
        /\ forall i row_idx, listed !! i = Some row_idx ->
             exists amount,
               summary !! S i
               = Some (summary_row_values1 sheet code_column reference_column
                         date_column account_number amount row_idx)
               /\ (EPS < Qabs amount)%Q
               /\ (credit_amount1 sheet row_idx = Some amount
                   \/ debit_amount1 sheet row_idx = Some amount)
               /\ (is_positive (credit_amount1 sheet row_idx) = true ->
                   credit_amount1 sheet row_idx = Some amount)
               /\ (is_positive (credit_amount1 sheet row_idx) = false ->
                   is_positive (debit_amount1 sheet row_idx) = true ->
                   debit_amount1 sheet row_idx = Some amount)
               /\ (is_positive (credit_amount1 sheet row_idx) = false ->
                   is_positive (debit_amount1 sheet row_idx) = false ->
                   is_nonzero (credit_amount1 sheet row_idx) = true ->
                   credit_amount1 sheet row_idx = Some amount)
  end
  /\ forall row_idx,
       zero_movement sheet (named_column sheet "debitos") (named_column sheet "creditos")
         row_idx = true ->
       moves1 sheet row_idx = false.
Proof.
  intros listed. split.
  - unfold create_summary_workbook1.
    change (valid_column (hm_get (U "codigo") (extract_header_map sheet (max_column sheet))))
      with (named_column sheet "codigo").
    change (valid_column (hm_get (U "referencia")
                            (extract_header_map sheet (max_column sheet))))
      with (named_column sheet "referencia").
    change (valid_column (hm_get (U "fecha") (extract_header_map sheet (max_column sheet))))
      with (named_column sheet "fecha").
    change (valid_column (hm_get (U "debitos") (extract_header_map sheet (max_column sheet))))
      with (named_column sheet "debitos").
    change (valid_column (hm_get (U "creditos")
                            (extract_header_map sheet (max_column sheet))))
      with (named_column sheet "creditos").
    destruct (named_column sheet "codigo") as [cc|] eqn:Ecc; [|left; reflexivity].
    destruct (named_column sheet "referencia") as [rc|] eqn:Erc;
      [|right; left; reflexivity].
    destruct (named_column sheet "fecha") as [dc|] eqn:Edc;
      [|right; right; left; reflexivity].
    set (amount_of := fun row_idx =>
           summary_amount1 (credit_amount1 sheet row_idx) (debit_amount1 sheet row_idx)).
    set (row_of := fun row_idx =>
           match amount_of row_idx with
           | Some amount =>
               Some (summary_row_values1 sheet cc rc dc account_number amount row_idx)
           | None => None
           end).
    assert (Hfold :
      fold_left
        (fun summary_ws row_idx =>
           match summary_amount1
                   (optional_amount sheet row_idx (named_column sheet "creditos"))
                   (optional_amount sheet row_idx (named_column sheet "debitos")) with
           | Some amount =>
               summary_ws
                 ++ [summary_row_values1 sheet cc rc dc account_number amount row_idx]
           | None => summary_ws
           end)
        (summary_rows1 sheet) [SUMMARY_HEADERS]
      = SUMMARY_HEADERS :: omap row_of (summary_rows1 sheet)).
    { change (SUMMARY_HEADERS :: omap row_of (summary_rows1 sheet))
        with ([SUMMARY_HEADERS] ++ omap row_of (summary_rows1 sheet)).
      rewrite <- (fold_append_some row_of (summary_rows1 sheet) [SUMMARY_HEADERS]).
      apply fold_left_pointwise. intros acc r. unfold row_of, amount_of,
        credit_amount1, debit_amount1.
      destruct (summary_amount1 _ _); reflexivity. }
    assert (Hlisted : listed
                      = List.filter (fun r => bool_decide (is_Some (row_of r)))
                          (summary_rows1 sheet)).
    { subst listed. apply filter_ext_In_list. intros r _. unfold moves1.
      rewrite <- summary_amount1_is_some. unfold row_of, amount_of.
      destruct (summary_amount1 _ _) as [a|].
      - rewrite !bool_decide_eq_true_2 by eauto. reflexivity.
      - rewrite !bool_decide_eq_false_2 by (intros [z Hz]; discriminate). reflexivity. }
    destruct (omap_filter_lookup row_of (summary_rows1 sheet)) as [Hlen Hidx].
    rewrite <- Hlisted in Hlen, Hidx.
    assert (Hsome : forall summary,
      summary = SUMMARY_HEADERS :: omap row_of (summary_rows1 sheet) ->
      exists code_column reference_column date_column,
        Some cc = Some code_column /\ Some rc = Some reference_column
        /\ Some dc = Some date_column
        /\ head summary = Some SUMMARY_HEADERS
        /\ length summary = S (length listed)
        /\ forall i row_idx, listed !! i = Some row_idx ->
             exists amount,
               summary !! S i
               = Some (summary_row_values1 sheet code_column reference_column
                         date_column account_number amount row_idx)
               /\ (EPS < Qabs amount)%Q
               /\ (credit_amount1 sheet row_idx = Some amount
                   \/ debit_amount1 sheet row_idx = Some amount)
               /\ (is_positive (credit_amount1 sheet row_idx) = true ->
                   credit_amount1 sheet row_idx = Some amount)
               /\ (is_positive (credit_amount1 sheet row_idx) = false ->
                   is_positive (debit_amount1 sheet row_idx) = true ->
                   debit_amount1 sheet row_idx = Some amount)
               /\ (is_positive (credit_amount1 sheet row_idx) = false ->
                   is_positive (debit_amount1 sheet row_idx) = false ->
                   is_nonzero (credit_amount1 sheet row_idx) = true ->
                   credit_amount1 sheet row_idx = Some amount)).
    { intros summary ->. exists cc, rc, dc.
      split; [reflexivity|]. split; [reflexivity|]. split; [reflexivity|].
      split; [reflexivity|]. split; [simpl; rewrite Hlen; reflexivity|].
      intros i r Hi. destruct (Hidx i r Hi) as (y & Hy & Hr).
      unfold row_of, amount_of in Hr.
      destruct (summary_amount1 (credit_amount1 sheet r) (debit_amount1 sheet r))
        as [amount|] eqn:Ea; [|discriminate].
      injection Hr as <-. exists amount. split; [exact Hy|].
      exact (summary_amount1_some _ _ amount Ea). }
    destruct (named_column sheet "debitos") as [db|] eqn:Edb.
    + apply Hsome. exact Hfold.
    + destruct (named_column sheet "creditos") as [cr|] eqn:Ecr.
      * apply Hsome. exact Hfold.
      * right. right. right. split; reflexivity.
  - intros r Hz. unfold zero_movement in Hz. apply andb_true_iff in Hz as [Hd Hc].
    unfold moves1, credit_amount1, debit_amount1.
    rewrite (is_zero_not_nonzero _ Hd), (is_zero_not_nonzero _ Hc). reflexivity.
Qed.

Example summary1_on_sample :
  @create_summary_workbook1 RefLib sample_idle (Some (U "123"))
  = Some [ SUMMARY_HEADERS;
           [VStr (U "123"); VStr (U "WD"); VStr (U "REF1"); VNum 100;
            VDatetime (date_of 2025 10 15)];
           [VStr (U "123"); VStr (U "DP"); VStr (U "REF4"); VNum 50;
            VDatetime (date_of 2025 10 18)] ]
  /\ @create_summary_workbook1 RefLib sample_october None
     = Some [ SUMMARY_HEADERS;
              [VStr []; VStr (U "WD"); VStr (U "REF1"); VNum 100;
               VDatetime (date_of 2025 10 15)];
              [VStr []; VStr (U "3V"); VStr (U "REF1"); VNum 2;
               VDatetime (date_of 2025 10 16)];
              [VStr []; VStr (U "DP"); VStr (U "REF2"); VNum 50;
               VStr (U "sin fecha")] ]
  /\ @create_summary_workbook1 RefLib sample_undated None = None.
Proof. vm_compute. repeat split; reflexivity. Qed.

Section Summary7Lemmas.
Context {L : PyLib}.

Lemma summary_amount7_is_some (credit_value debit_value : value) :
  bool_decide (is_Some (summary_amount7 credit_value debit_value))
  = float_gt (to_number credit_value) 0
    || float_gt (to_number debit_value) 0
    || has_numeric_data credit_value
    || has_numeric_data debit_value.
Proof.
  unfold summary_amount7. cbv zeta.
  destruct (float_gt (to_number credit_value) 0); [reflexivity|].
  destruct (float_gt (to_number debit_value) 0); [reflexivity|].
  destruct (has_numeric_data credit_value);
    [destruct (float_gt (float_abs (to_number credit_value)) EPS); cbn [andb orb];
     [reflexivity|];
     destruct (has_numeric_data debit_value && float_gt (float_abs (to_number debit_value)) EPS);
     reflexivity|].
  cbn [andb orb].
  destruct (has_numeric_data debit_value); [|reflexivity].
  destruct (float_gt (float_abs (to_number debit_value)) EPS); reflexivity.
Qed.

Lemma summary_amount7_some (credit_value debit_value : value) (amount : pyfloat) :
  summary_amount7 credit_value debit_value = Some amount ->
  (amount = to_number credit_value \/ amount = to_number debit_value)
  /\ (float_gt (to_number credit_value) 0 = true -> amount = to_number credit_value)
  /\ (float_gt (to_number credit_value) 0 = false ->
      float_gt (to_number debit_value) 0 = true -> amount = to_number debit_value).
Proof.
  unfold summary_amount7. cbv zeta.
  destruct (float_gt (to_number credit_value) 0).
  { intros [= <-]. repeat split; auto; discriminate. }
  destruct (float_gt (to_number debit_value) 0).
  { intros [= <-]. repeat split; auto; discriminate. }
  intros H.
  assert (Ha : amount = to_number credit_value \/ amount = to_number debit_value).
  { destruct (has_numeric_data credit_value && _); [injection H as <-; auto|].
    destruct (has_numeric_data debit_value && _); [injection H as <-; auto|].
    destruct (has_numeric_data credit_value); [injection H as <-; auto|].
    destruct (has_numeric_data debit_value); [injection H as <-; auto|].
    discriminate. }
  repeat split; auto; discriminate.
Qed.

End Summary7Lemmas.

(** X20. The accounting summary of case 7 lists below its five titles, in
    their order, exactly the rows that have a credit or a debit above zero
    or numeric data in one of the two cells (a number further than 1e-9
    from zero, or a text with a digit); every row carries the account
    number read from the account line; the amount is the credit when
    that is above zero, else the debit when that is above zero, else one
    of the two.  No summary is made exactly when no row is listed. *)
Theorem summary_of_case7_lists_the_rows_with_amounts (L : PyLib)
    (data_rows : list row_data) (account_text : value) :
  let listed := List.filter moves7 data_rows in
  let credit := fun row => to_number (row_get row K_CREDITOS) in
  let debit := fun row => to_number (row_get row K_DEBITOS) in
  match create_summary_workbook7 data_rows account_text with
  | None => listed = []
  | Some summary =>
      listed <> []
      /\ head summary = Some SUMMARY_HEADERS
      /\ length summary = S (length listed)
      /\ forall i row, listed !! i = Some row ->
           exists amount,
             summary !! S i
             = Some (summary_row7 (extract_account_number7 account_text) amount row)
             /\ (amount = credit row \/ amount = debit row)
             /\ (float_gt (credit row) 0 = true -> amount = credit row)
             /\ (float_gt (credit row) 0 = false -> float_gt (debit row) 0 = true ->
                 amount = debit row)
  end.
Proof.
  intros listed credit debit.
  assert (Hm : create_summary_workbook7 data_rows account_text
               = let summary_ws :=
                   fold_left
                     (fun summary_ws row =>
                        match summary_amount7 (row_get row K_CREDITOS)
                                (row_get row K_DEBITOS) with
                        | Some amount =>
                            summary_ws
                              ++ [summary_row7 (extract_account_number7 account_text)
                                    amount row]
                        | None => summary_ws
                        end) data_rows [SUMMARY_HEADERS] in
                 if max_row summary_ws =? 1 then None else Some summary_ws).
  { unfold create_summary_workbook7. destruct data_rows; reflexivity. }
  rewrite Hm. clear Hm.
  set (row_of := fun row =>
         match summary_amount7 (row_get row K_CREDITOS) (row_get row K_DEBITOS) with
         | Some amount =>
             Some (summary_row7 (extract_account_number7 account_text) amount row)
         | None => None
         end).
  assert (Hfold :
    fold_left
      (fun summary_ws row =>
         match summary_amount7 (row_get row K_CREDITOS) (row_get row K_DEBITOS) with
         | Some amount =>
             summary_ws ++ [summary_row7 (extract_account_number7 account_text) amount row]
         | None => summary_ws
         end) data_rows [SUMMARY_HEADERS]
    = SUMMARY_HEADERS :: omap row_of data_rows).
  { change (SUMMARY_HEADERS :: omap row_of data_rows)
      with ([SUMMARY_HEADERS] ++ omap row_of data_rows).
    rewrite <- (fold_append_some row_of data_rows [SUMMARY_HEADERS]).
    apply fold_left_pointwise. intros acc r. unfold row_of.
    destruct (summary_amount7 _ _); reflexivity. }
  cbv zeta. rewrite Hfold.
  assert (Hlisted : listed
                    = List.filter (fun r => bool_decide (is_Some (row_of r))) data_rows).
  { subst listed. apply filter_ext_In_list. intros r _. unfold moves7.
    rewrite <- summary_amount7_is_some. unfold row_of.
    destruct (summary_amount7 _ _) as [a|].
    - rewrite !bool_decide_eq_true_2 by eauto. reflexivity.
    - rewrite !bool_decide_eq_false_2 by (intros [z Hz]; discriminate). reflexivity. }
  destruct (omap_filter_lookup row_of data_rows) as [Hlen Hidx].
  rewrite <- Hlisted in Hlen, Hidx.
  unfold max_row. cbn [length]. rewrite Hlen.
  destruct (Nat.eq_dec (length listed) 0) as [E0|N0].
  { rewrite E0. cbn [Nat.eqb]. apply length_zero_iff_nil, E0. }
  replace (S (length listed) =? 1) with false by (symmetry; apply Nat.eqb_neq; lia).
  split; [intros E; rewrite E in N0; apply N0; reflexivity|].
  split; [reflexivity|]. split; [simpl; rewrite Hlen; reflexivity|].
  intros i row Hi. destruct (Hidx i row Hi) as (y & Hy & Hr).
  unfold row_of in Hr.
  destruct (summary_amount7 (row_get row K_CREDITOS) (row_get row K_DEBITOS))
    as [amount|] eqn:Ea; [|discriminate].
  injection Hr as <-. exists amount. split; [exact Hy|].
  exact (summary_amount7_some _ _ amount Ea).
Qed.

(** ** The account number of case 7 *)

Section AccountNumber7.
Context {L : PyLib}.

Lemma digit_runs_step (c : N) (rest run : ustr) :
  digit_runs (c :: rest) run
  = if is_digit c then digit_runs rest (run ++ [c])
    else match run with
         | [] => digit_runs rest []
         | _ => run :: digit_runs rest []
         end.
Proof. reflexivity. Qed.

(** Every run that is found is a whole run of digits of the text. *)
Lemma digit_runs_sound (s : ustr) :
  forall run before r,
    Forall (fun c => is_digit c = true) run ->
    (forall c, last before = Some c -> is_digit c = false) ->
    In r (digit_runs s run) ->
    r <> [] /\ Forall (fun c => is_digit c = true) r
    /\ exists b a,
         before ++ run ++ s = b ++ r ++ a
         /\ (forall c, last b = Some c -> is_digit c = false)
         /\ (forall c, head a = Some c -> is_digit c = false).
Proof.
  induction s as [|c rest IH]; intros run before r Hrun Hb Hin.
  - simpl in Hin. destruct run as [|x run]; [destruct Hin|].
    destruct Hin as [<-|[]]. split; [discriminate|]. split; [exact Hrun|].
    exists before, []. split; [reflexivity|]. split; [exact Hb|]. intros c [=].
  - rewrite digit_runs_step in Hin. destruct (is_digit c) eqn:Ec.
    + destruct (IH (run ++ [c]) before r) as (Hne & Hd & b & a & E & Hb' & Ha');
        [apply Forall_app; split; [exact Hrun | repeat constructor; exact Ec]
        | exact Hb | exact Hin |].
      split; [exact Hne|]. split; [exact Hd|]. exists b, a.
      split; [|split; assumption]. rewrite <- E, <- app_assoc. reflexivity.
    + assert (Hrest : In r (digit_runs rest []) ->
                r <> [] /\ Forall (fun c => is_digit c = true) r
                /\ exists b a,
                     before ++ run ++ c :: rest = b ++ r ++ a
                     /\ (forall c, last b = Some c -> is_digit c = false)
                     /\ (forall c, head a = Some c -> is_digit c = false)).
      { intros Hr.
        destruct (IH [] (before ++ run ++ [c]) r) as (Hne & Hd & b & a & E & Hb' & Ha');
          [constructor | | exact Hr |].
        { intros x Hx. rewrite !app_assoc, last_snoc in Hx. injection Hx as <-. exact Ec. }
        split; [exact Hne|]. split; [exact Hd|]. exists b, a.
        split; [|split; assumption]. rewrite <- E. simpl.
        rewrite <- !app_assoc. reflexivity. }
      destruct run as [|x run]; [exact (Hrest Hin)|].
      destruct Hin as [<-|Hin]; [|exact (Hrest Hin)].
      split; [discriminate|]. split; [exact Hrun|].
      exists before, (c :: rest). split; [reflexivity|]. split; [exact Hb|].
      intros y [= <-]. exact Ec.
Qed.

Lemma digit_runs_digits (r s run : ustr) :
  Forall (fun c => is_digit c = true) r ->
  digit_runs (r ++ s) run = digit_runs s (run ++ r).
Proof.
  revert run. induction r as [|c r IH]; intros run Hr.
  - rewrite app_nil_r. reflexivity.
  - inversion Hr as [|? ? Hc Hr']; subst. simpl app. rewrite digit_runs_step, Hc.
    rewrite IH by exact Hr'. rewrite <- app_assoc. reflexivity.
Qed.

Lemma digit_runs_split (x : ustr) (c : N) (y run : ustr) :
  is_digit c = false ->
  digit_runs (x ++ c :: y) run = digit_runs (x ++ [c]) run ++ digit_runs y [].
Proof.
  intros Hc. revert run. induction x as [|a x IH]; intros run.
  - simpl app. rewrite !digit_runs_step, Hc. destruct run; reflexivity.
  - simpl app. rewrite !digit_runs_step. destruct (is_digit a).
    + apply IH.
    + destruct run; rewrite IH; reflexivity.
Qed.

(** Every whole run of digits of the text is found. *)
Lemma digit_runs_complete (text r : ustr) :
  r <> [] -> Forall (fun c => is_digit c = true) r -> whole_run r text ->
  In r (digit_runs text []).
Proof.
  intros Hne Hr (b & a & -> & Hb & Ha).
  assert (Htail : In r (digit_runs (r ++ a) [])).
  { rewrite digit_runs_digits by exact Hr. simpl app.
    destruct a as [|c a].
    - simpl. destruct r; [contradiction | left; reflexivity].
    - rewrite digit_runs_step, (Ha c eq_refl).
      destruct r; [contradiction | left; reflexivity]. }
  destruct b as [|x b] using rev_ind; [exact Htail|].
  rewrite <- app_assoc. simpl app.
  rewrite digit_runs_split by (apply Hb, last_snoc).
  apply in_or_app. right. exact Htail.
Qed.

Lemma digit_runs_none (s run : ustr) :
  digit_runs s run = [] -> run = [] /\ Forall (fun c => is_digit c = false) s.
Proof.
  revert run. induction s as [|c rest IH]; intros run H.
  - simpl in H. destruct run; [split; [reflexivity | constructor] | discriminate].
  - rewrite digit_runs_step in H. destruct (is_digit c) eqn:Ec.
    + destruct (IH _ H) as [E _]. destruct run; discriminate.
    + destruct run; [|discriminate].
      destruct (IH _ H) as [_ Hf]. split; [reflexivity|].
      constructor; assumption.
Qed.

Lemma longest_spec (others : list ustr) :
  forall first,
    In (longest first others) (first :: others)
    /\ forall x, In x (first :: others) -> length x <= length (longest first others).
Proof.
  unfold longest. induction others as [|y others IH]; intros first.
  - simpl. split; [left; reflexivity|]. intros x [<-|[]]. lia.
  - cbn [fold_left]. destruct (length first <? length y) eqn:E.
    + apply Nat.ltb_lt in E. destruct (IH y) as [Hin Hmax]. split.
      * right. exact Hin.
      * intros x [<-|Hx]; [|exact (Hmax x Hx)].
        specialize (Hmax y (or_introl eq_refl)). lia.
    + apply Nat.ltb_ge in E. destruct (IH first) as [Hin Hmax]. split.
      * destruct Hin as [Hf|Hin]; [left; exact Hf | right; right; exact Hin].
      * intros x [<-|[<-|Hx]].
        -- apply Hmax. left. reflexivity.
        -- specialize (Hmax first (or_introl eq_refl)). lia.
        -- apply Hmax. right. exact Hx.
Qed.

End AccountNumber7.

(** X21. The account number of case 7 is a longest run of digits of the
    account text: it is made of digits, it stands in the text between two
    characters that are not digits (or the ends), and no run of digits
    of the text is longer.  It is empty when the text is empty or has no
    digit. *)
Theorem account_number_of_case7_is_a_longest_run_of_digits (L : PyLib)
    (account_text : value) :
  let text := py_str account_text in
  let account := extract_account_number7 account_text in
  (truthy account_text = false -> account = [])
  /\ (truthy account_text = true ->
      (account = [] /\ Forall (fun c => is_digit c = false) text)
      \/ (account <> []
          /\ Forall (fun c => is_digit c = true) account
          /\ whole_run account text
          /\ forall run,
               run <> [] -> Forall (fun c => is_digit c = true) run ->
               whole_run run text -> length run <= length account)).
Proof.
  intros text account. subst account. unfold extract_account_number7. fold text.
  split.
  - intros ->. reflexivity.
  - intros ->. cbn [negb].
    destruct (digit_runs text []) as [|first others] eqn:Er.
    + left. split; [reflexivity|]. exact (proj2 (digit_runs_none text [] Er)).
    + right. destruct (longest_spec others first) as [Hin Hmax].
      rewrite <- Er in Hin.
      destruct (digit_runs_sound text [] [] (longest first others))
        as (Hne & Hd & b & a & E & Hb & Ha);
        [constructor | intros c [=] | exact Hin |].
      split; [exact Hne|]. split; [exact Hd|].
      split; [exists b, a; split; [exact E | split; assumption]|].
      intros run Hrne Hrd Hw. apply Hmax. rewrite <- Er.
      apply digit_runs_complete; assumption.
Qed.

Example account_number7_on_sample :
  @extract_account_number7 RefLib (VStr (U "Cuenta: CR05 0116 10200012345678 (CRC)"))
  = U "10200012345678"
  /\ @extract_account_number7 RefLib (VStr (U "12-34-5")) = U "12"
  /\ @extract_account_number7 RefLib (VStr (U "sin cuenta")) = []
  /\ @extract_account_number7 RefLib VNone = [].
Proof. vm_compute. repeat split; reflexivity. Qed.

Example summary7_on_sample :
  @create_summary_workbook7 RefLib
    [ <[K_FECHA := VStr (U "01/02/2024")]> (<[K_DOCUMENTO := VStr (U "11")]>
        (<[K_CODIGO := VStr (U " WD ")]> (<[K_DEBITOS := VNum 20]>
           (<[K_CREDITOS := VNone]> ∅))));
      <[K_FECHA := VStr (U "02/02/2024")]> (<[K_DEBITOS := VNum 0]>
        (<[K_CREDITOS := VNone]> ∅));
      <[K_FECHA := VStr (U "pendiente")]> (<[K_DEBITOS := VStr (U "0.00")]>
        (<[K_CREDITOS := VStr []]> ∅)) ]
    (VStr (U "Cuenta 10200012345678"))
  = Some [ SUMMARY_HEADERS;
           [VStr (U "10200012345678"); VStr (U "WD"); VStr (U "11"); VNum 20;
            VDatetime (date_of 2024 2 1)];
           [VStr (U "10200012345678"); VStr []; VStr []; VNum 0;
            VStr (U "pendiente")] ].
Proof. vm_compute. reflexivity. Qed.

(** ** Rows to review *)

Section HighlightLemmas.
Context {L : PyLib}.

Lemma filter_matches_row (normalize : value -> ustr) (nf : list ustr) (ws : worksheet)
    (r dc : nat) :
  filter_matches normalize nf (cell ws r dc) = true -> 1 <= r.
Proof.
  destruct r as [|r]; [|lia]. simpl. discriminate.
Qed.

Lemma highlight_fold (normalize : value -> ustr) (nf : list ustr) (dc : nat)
    (rc : option nat) (ws0 : worksheet) (rows : list nat) :
  (forall c, rc = Some c -> 1 <= c) ->
  List.NoDup rows ->
  forall ws acc,
    (forall r c, In r rows -> cell ws r c = cell ws0 r c) ->
    let flagged :=
      List.filter (fun r => filter_matches normalize nf (cell ws0 r dc)) rows in
    let out := fold_left (highlight_step normalize nf dc rc) rows (ws, acc) in
    snd out = acc ++ flagged
    /\ forall r c,
         cell (fst out) r c
         = if row_in flagged r && bool_decide (rc = Some c) then VStr REVISAR
           else cell ws r c.
Proof.
  intros Hrc. induction 1 as [|i rest Hi _ IH]; intros ws acc Hagree.
  - simpl. split; [rewrite app_nil_r; reflexivity | reflexivity].
  - assert (Hi' : ~ In i rest) by exact Hi.
    cbn zeta. cbn [fold_left List.filter].
    set (ws' := match rc with
                | Some review_column => set_cell ws i review_column (VStr REVISAR)
                | None => ws
                end).
    assert (Estep : highlight_step normalize nf dc rc (ws, acc) i
                    = if filter_matches normalize nf (cell ws0 i dc)
                      then (ws', acc ++ [i]) else (ws, acc)).
    { unfold highlight_step. cbn [fst snd].
      rewrite (Hagree i dc (or_introl eq_refl)). reflexivity. }
    rewrite Estep. clear Estep.
    destruct (filter_matches normalize nf (cell ws0 i dc)) eqn:Em.
    + pose proof (filter_matches_row normalize nf ws0 i dc Em) as Hpos.
      assert (Hother : forall r c, r <> i -> cell ws' r c = cell ws r c).
      { intros r c Hne. subst ws'. destruct rc as [c'|]; [|reflexivity].
        apply cell_set_cell_other. left. congruence. }
      destruct (IH ws' (acc ++ [i])) as [IHs IHc].
      { intros r c Hr. rewrite Hother by (intros ->; contradiction).
        apply Hagree. right. exact Hr. }
      cbv zeta in IHs, IHc. split.
      * rewrite IHs, <- app_assoc. reflexivity.
      * intros r c. rewrite IHc. unfold row_in. cbn [existsb].
        fold (row_in (List.filter
                        (fun r0 => filter_matches normalize nf (cell ws0 r0 dc)) rest) r).
        destruct (Nat.eqb_spec r i) as [->|Hne].
        -- rewrite row_in_false
             by (intros Hin; apply filter_In in Hin as [Hin _]; contradiction).
           cbn [orb andb]. subst ws'. destruct rc as [c'|].
           ++ rewrite cell_set_cell by (first [exact Hpos | apply Hrc; reflexivity]).
              rewrite Nat.eqb_refl. cbn [andb].
              destruct (Nat.eqb_spec c c') as [->|Hc].
              ** rewrite bool_decide_eq_true_2 by reflexivity. reflexivity.
              ** rewrite bool_decide_eq_false_2 by congruence. reflexivity.
           ++ rewrite bool_decide_eq_false_2 by discriminate. reflexivity.
        -- cbn [orb]. rewrite (Hother r c Hne). reflexivity.
    + destruct (IH ws acc) as [IHs IHc].
      { intros r c Hr. apply Hagree. right. exact Hr. }
      exact (conj IHs IHc).
Qed.

Lemma normalize_filters_app (normalize : value -> ustr) (f1 f2 : list ustr) :
  normalize_filters normalize (f1 ++ f2)
  = normalize_filters normalize f1 ++ normalize_filters normalize f2.
Proof.
  unfold normalize_filters. rewrite map_app. apply List.filter_app.
Qed.

Lemma filter_matches_more (normalize : value -> ustr) (nf more : list ustr) (v : value) :
  filter_matches normalize nf v = true ->
  filter_matches normalize (nf ++ more) v = true.
Proof.
  unfold filter_matches. destruct (is_blank v); [discriminate|]. cbv zeta.
  destruct (ustr_eqb _ []); [discriminate|].
  rewrite existsb_app. intros ->. reflexivity.
Qed.

End HighlightLemmas.

(** X22. The pass that marks the rows to review in cases 1 and 2 goes
    through the rows from [start_row] to [end_row] once there is a
    description column.  The rows it highlights are, in their order,
    exactly those whose description, normalised, contains one of the
    normalised filters that are not empty; in those rows the cell of the
    review column, when there is one, becomes ["Revisar"], and no other
    cell of the sheet changes.  A longer list of filters highlights at
    least the same rows. *)
Theorem rows_to_review_in_cases_1_and_2 (L : PyLib) (filters : list ustr)
    (ws : worksheet) (hm : header_map) (start_row end_row : option nat) :
  let out := highlight_rows_by_filters1 filters ws hm start_row end_row in
  let flagged := flagged_rows1 filters ws hm start_row end_row in
  let review_column := valid_column (hm_get (U "revisar") hm) in
  snd out = flagged
  /\ (forall r c,
        cell (fst out) r c
        = if row_in flagged r && bool_decide (review_column = Some c) then VStr REVISAR
          else cell ws r c)
  /\ (forall more r,
        In r flagged -> In r (flagged_rows1 (filters ++ more) ws hm start_row end_row)).
Proof.
  intros out flagged review_column. subst out flagged.
  unfold highlight_rows_by_filters1, flagged_rows1.
  assert (Hrc : forall c, review_column = Some c -> 1 <= c).
  { intros c. subst review_column. unfold valid_column.
    destruct (hm_get _ hm) as [[|n]|]; intros [=]. lia. }
  split; [|split].
  - destruct (valid_column start_row) as [s|]; [|reflexivity].
    destruct (valid_column end_row) as [e|]; [|reflexivity].
    destruct (valid_column (hm_get (U "descripcion") hm)) as [dc|] eqn:Edc.
    + destruct (e <? s) eqn:Ese.
      * apply Nat.ltb_lt in Ese. cbn [snd]. symmetry. apply filter_none.
        intros r Hr. apply In_row_range in Hr. lia.
      * destruct (normalize_filters normalize_text filters) as [|f nf] eqn:Enf.
        { cbn [snd]. symmetry. apply filter_none. intros r _.
          unfold filter_matches. destruct (is_blank _); [reflexivity|]. cbv zeta.
          destruct (ustr_eqb _ []); reflexivity. }
        exact (proj1 (highlight_fold normalize_text (f :: nf) dc review_column ws
                        (row_range s e) Hrc (NoDup_row_range s e) ws []
                        (fun r c _ => eq_refl))).
    + destruct (e <? s); [reflexivity|].
      destruct (normalize_filters normalize_text filters); reflexivity.
  - intros r c.
    destruct (valid_column start_row) as [s|]; [|reflexivity].
    destruct (valid_column end_row) as [e|]; [|reflexivity].
    destruct (valid_column (hm_get (U "descripcion") hm)) as [dc|] eqn:Edc.
    + destruct (e <? s) eqn:Ese.
      * apply Nat.ltb_lt in Ese. cbn [fst].
        rewrite filter_none; [reflexivity|].
        intros x Hx. apply In_row_range in Hx. lia.
      * destruct (normalize_filters normalize_text filters) as [|f nf] eqn:Enf.
        { cbn [fst]. rewrite filter_none; [reflexivity|]. intros x _.
          unfold filter_matches. destruct (is_blank _); [reflexivity|]. cbv zeta.
          destruct (ustr_eqb _ []); reflexivity. }
        exact (proj2 (highlight_fold normalize_text (f :: nf) dc review_column ws
                        (row_range s e) Hrc (NoDup_row_range s e) ws []
                        (fun r c _ => eq_refl)) r c).
    + destruct (e <? s); [reflexivity|].
      destruct (normalize_filters normalize_text filters); reflexivity.
  - intros more r.
    destruct (valid_column start_row) as [s|]; [|intros []].
    destruct (valid_column end_row) as [e|]; [|intros []].
    destruct (valid_column (hm_get (U "descripcion") hm)) as [dc|]; [|intros []].
    rewrite !filter_In. intros [Hr Hm]. split; [exact Hr|].
    rewrite normalize_filters_app. apply filter_matches_more, Hm.
Qed.

(** X23. The pass that marks the rows to review in case 7 highlights, in
    their order, exactly the rows from [start_row] to [end_row] whose
    description (third column), normalised without spaces, contains one
    of the normalised filters that are not empty; in those rows the
    eighth cell becomes ["Revisar"], and no other cell of the sheet
    changes.  A longer list of filters highlights at least the same
    rows. *)
Theorem rows_to_review_in_case_7 (L : PyLib) (filters : list ustr)
    (ws : worksheet) (start_row end_row : nat) :
  let out := highlight_rows_by_filters7 filters ws start_row end_row in
  let flagged := flagged_rows7 filters ws start_row end_row in
  snd out = flagged
  /\ (forall r c,
        cell (fst out) r c
        = if row_in flagged r && (c =? REVIEW_COLUMN7) then VStr REVISAR
          else cell ws r c)
  /\ (forall more r,
        In r flagged -> In r (flagged_rows7 (filters ++ more) ws start_row end_row)).
Proof.
  intros out flagged. subst out flagged.
  unfold highlight_rows_by_filters7, flagged_rows7.
  assert (Hrc : forall c, Some REVIEW_COLUMN7 = Some c -> 1 <= c).
  { intros c [= <-]. unfold REVIEW_COLUMN7. lia. }
  assert (Hdec : forall c, bool_decide (Some REVIEW_COLUMN7 = Some c) = (c =? REVIEW_COLUMN7)).
  { intros c. destruct (Nat.eqb_spec c REVIEW_COLUMN7) as [->|Hne].
    - apply bool_decide_eq_true_2. reflexivity.
    - apply bool_decide_eq_false_2. congruence. }
  assert (Hnone : forall v, filter_matches normalize_text7 [] v = false).
  { intros v. unfold filter_matches. destruct (is_blank v); [reflexivity|]. cbv zeta.
    destruct (ustr_eqb _ []); reflexivity. }
  split; [|split].
  - destruct (normalize_filters normalize_text7 filters) as [|f nf] eqn:Enf.
    + cbn [snd]. symmetry. apply filter_none. intros r _. apply Hnone.
    + exact (proj1 (highlight_fold normalize_text7 (f :: nf) DESCRIPTION_COLUMN7
                      (Some REVIEW_COLUMN7) ws (row_range start_row end_row) Hrc
                      (NoDup_row_range start_row end_row) ws []
                      (fun r c _ => eq_refl))).
  - intros r c. rewrite <- Hdec.
    destruct (normalize_filters normalize_text7 filters) as [|f nf] eqn:Enf.
    + cbn [fst]. rewrite filter_none; [reflexivity|]. intros x _. apply Hnone.
    + exact (proj2 (highlight_fold normalize_text7 (f :: nf) DESCRIPTION_COLUMN7
                      (Some REVIEW_COLUMN7) ws (row_range start_row end_row) Hrc
                      (NoDup_row_range start_row end_row) ws []
                      (fun r c _ => eq_refl)) r c).
  - intros more r. rewrite !filter_In. intros [Hr Hm]. split; [exact Hr|].
    rewrite normalize_filters_app. apply filter_matches_more, Hm.
Qed.

Example rows_to_review_on_sample :
  snd (@highlight_rows_by_filters1 RefLib [U "  "; U "CAJERO"; U "depósito"]
         sample_october (sample_header_map ++ [(U "revisar", 7)]) (Some 16) (Some 18))
  = [16; 18]
  /\ map (fun r => cell (fst (@highlight_rows_by_filters1 RefLib [U "CAJERO"]
                          sample_october (sample_header_map ++ [(U "revisar", 7)])
                          (Some 16) (Some 18))) r 7) [16; 17; 18]
     = [VStr (U "Revisar"); VNone; VNone]
  /\ snd (@highlight_rows_by_filters7 RefLib [U "retiro cajero"]
            [ []; [VNone; VNone; VStr (U "RETIROCAJERO 24h")];
              [VNone; VNone; VStr (U "Retiro  en caja")] ] 1 3)
     = [2].
Proof. vm_compute. repeat split; reflexivity. Qed.

(** ** The review column *)

Lemma find_app_list {A} (f : A -> bool) (l1 l2 : list A) :
  List.find f (l1 ++ l2)
  = match List.find f l1 with
    | Some x => Some x
    | None => List.find f l2
    end.
Proof.
  induction l1 as [|x l1 IH]; simpl; [reflexivity|].
  destruct (f x); [reflexivity | exact IH].
Qed.

Lemma find_unique {A} (f : A -> bool) (l : list A) (x : A) :
  In x l -> f x = true -> (forall y, In y l -> f y = true -> y = x) ->
  List.find f l = Some x.
Proof.
  intros Hin Hx Huniq. destruct (List.find f l) as [y|] eqn:E.
  - apply find_some in E as [Hy Hf]. f_equal. apply Huniq; assumption.
  - exfalso. pose proof (find_none f l E x Hin) as H. congruence.
Qed.

Lemma nth_drop_list {A} (k i : nat) (l : list A) (d : A) :
  nth i (drop k l) d = nth (k + i) l d.
Proof.
  revert l. induction k as [|k IH]; intros l; [reflexivity|].
  destruct l as [|x l]; [destruct i; reflexivity|]. simpl. apply IH.
Qed.

Lemma hm_get_set_same (k : ustr) (c : nat) (hm : header_map) :
  hm_get k (hm_set k c hm) = Some c.
Proof.
  unfold hm_get, hm_set. destruct (existsb _ hm) eqn:E.
  - induction hm as [|[k' c'] hm IH]; [discriminate|]. simpl in E. simpl.
    destruct (ustr_eqb k' k) eqn:Ek; simpl.
    + rewrite ustr_eqb_refl. reflexivity.
    + rewrite Ek. apply IH. exact E.
  - induction hm as [|[k' c'] hm IH]; simpl.
    + rewrite ustr_eqb_refl. reflexivity.
    + simpl in E. apply orb_false_iff in E as [Ek E]. rewrite Ek. apply IH, E.
Qed.

Lemma hm_get_set_other (k k' : ustr) (c : nat) (hm : header_map) :
  k <> k' -> hm_get k (hm_set k' c hm) = hm_get k hm.
Proof.
  intros Hne. unfold hm_get, hm_set.
  assert (Hk : ustr_eqb k' k = false) by (apply ustr_eqb_neq; congruence).
  destruct (existsb _ hm).
  - f_equal. induction hm as [|[k1 c1] hm IH]; [reflexivity|]. simpl.
    destruct (ustr_eqb k1 k') eqn:E1; simpl.
    + apply ustr_eqb_eq in E1. subst k1. rewrite Hk. exact IH.
    + destruct (ustr_eqb k1 k); [reflexivity | exact IH].
  - f_equal. rewrite find_app_list. simpl. rewrite Hk.
    destruct (List.find _ hm); reflexivity.
Qed.

Section ReviewColumnLemmas.
Context {L : PyLib}.

Lemma hm_get_header_fold (ws : worksheet) (k : ustr) (cols : list nat) :
  k <> [] ->
  forall acc,
    hm_get k
      (fold_left
         (fun headers col_idx =>
            match cell ws HEADER_ROW col_idx with
            | VStr s =>
                let normalized := normalize_text (VStr s) in
                if ustr_eqb normalized [] then headers
                else hm_set normalized col_idx headers
            | _ => headers
            end) cols acc)
    = match List.find (fun c => ustr_eqb (header_key ws c) k) (rev cols) with
      | Some c => Some c
      | None => hm_get k acc
      end.
Proof.
  intros Hk. induction cols as [|x cols IH]; intros acc; [reflexivity|].
  cbn [fold_left rev]. rewrite IH, find_app_list.
  destruct (List.find _ (rev cols)) as [c|]; [reflexivity|].
  cbn [List.find]. unfold header_key.
  assert (Hempty : ustr_eqb [] k = false) by (apply ustr_eqb_neq; congruence).
  destruct (cell ws HEADER_ROW x) as [|s|q|b|d|o|t]; rewrite ?Hempty; try reflexivity.
  cbv zeta. destruct (ustr_eqb (normalize_text (VStr s)) []) eqn:En.
  - apply ustr_eqb_eq in En. rewrite En, Hempty. reflexivity.
  - destruct (ustr_eqb (normalize_text (VStr s)) k) eqn:Ek.
    + apply ustr_eqb_eq in Ek. rewrite Ek. apply hm_get_set_same.
    + apply hm_get_set_other. apply ustr_eqb_neq in Ek. congruence.
Qed.

(** The column of a key is the last column of the header row that has
    the key. *)
Lemma hm_get_extract_header_map (ws : worksheet) (n : nat) (k : ustr) :
  k <> [] -> HEADER_ROW <= max_row ws ->
  hm_get k (extract_header_map ws n)
  = List.find (fun c => ustr_eqb (header_key ws c) k) (rev (seq 1 n)).
Proof.
  intros Hk Hrows. unfold extract_header_map.
  replace (max_row ws <? HEADER_ROW) with false by (symmetry; apply Nat.ltb_ge; exact Hrows).
  pose proof (hm_get_header_fold ws k (seq 1 n) Hk []) as Hfold.
  etransitivity; [exact Hfold|].
  destruct (List.find _ (rev (seq 1 n))); reflexivity.
Qed.

Lemma cell_insert_cols (ws : worksheet) (p r c : nat) :
  1 <= p ->
  cell (insert_cols ws p) r c
  = if c <? p then cell ws r c
    else if c =? p then VNone
    else cell ws r (c - 1).
Proof.
  intros Hp. destruct r as [|r].
  { simpl. destruct (c <? p); [reflexivity|]. destruct (c =? p); reflexivity. }
  destruct c as [|c].
  { replace (0 <? p) with true by (symmetry; apply Nat.ltb_lt; lia). reflexivity. }
  unfold cell at 1. unfold insert_cols.
  set (f := fun row : list value =>
              if length row <? p then row
              else take (p - 1) row ++ VNone :: drop (p - 1) row).
  assert (Hf : f [] = []).
  { unfold f. simpl. replace (0 <? p) with true by (symmetry; apply Nat.ltb_lt; lia).
    reflexivity. }
  replace (nth r (map f ws) []) with (nth r (map f ws) (f []))
    by (rewrite Hf; reflexivity).
  rewrite (map_nth f ws [] r).
  set (row := nth r ws []).
  assert (Hcell : forall j, cell ws (S r) (S j) = nth j row VNone) by reflexivity.
  unfold f. destruct (Nat.ltb_spec (length row) p) as [Hshort|Hlong].
  - destruct (Nat.ltb_spec (S c) p) as [H1|H1]; [rewrite Hcell; reflexivity|].
    rewrite (nth_overflow row) by lia.
    destruct (Nat.eqb_spec (S c) p) as [H2|H2]; [reflexivity|].
    destruct c as [|c]; [lia|]. simpl Nat.sub. rewrite Hcell.
    symmetry. apply nth_overflow. lia.
  - assert (Hlt : length (take (p - 1) row) = p - 1) by (rewrite length_take; lia).
    destruct (Nat.ltb_spec (S c) p) as [H1|H1].
    + rewrite app_nth1 by lia. rewrite nth_take by lia. rewrite Hcell. reflexivity.
    + rewrite app_nth2 by lia. rewrite Hlt.
      destruct (Nat.eqb_spec (S c) p) as [H2|H2].
      * replace (c - (p - 1)) with 0 by lia. reflexivity.
      * destruct c as [|c]; [lia|]. simpl Nat.sub. rewrite Hcell.
        replace (S c - (p - 1)) with (S (c - (p - 1))) by lia. simpl.
        rewrite nth_drop_list. f_equal. lia.
Qed.

Lemma max_row_insert_cols (ws : worksheet) (p : nat) :
  max_row (insert_cols ws p) = max_row ws.
Proof. unfold max_row, insert_cols. apply length_map. Qed.

End ReviewColumnLemmas.

Section ReviewColumnCases.
Context {L : PyLib}.

Lemma named_column_find (ws : worksheet) (title : string) :
  U title <> [] -> HEADER_ROW <= max_row ws ->
  named_column ws title
  = List.find (fun c => ustr_eqb (header_key ws c) (U title))
      (rev (seq 1 (max_column ws))).
Proof.
  intros Hk Hrows. unfold named_column.
  rewrite (hm_get_extract_header_map ws (max_column ws) (U title) Hk Hrows).
  destruct (List.find _ _) as [c|] eqn:E; [|reflexivity].
  apply find_some in E as [Hin _]. rewrite <- in_rev in Hin. apply in_seq in Hin. destruct c as [|c]; [lia | reflexivity].
Qed.

Lemma named_column_none (ws : worksheet) (title : string) :
  U title <> [] -> HEADER_ROW <= max_row ws ->
  named_column ws title = None ->
  forall c, header_key ws c <> U title.
Proof.
  intros Hk Hrows Hnone c Hc.
  rewrite (named_column_find ws title Hk Hrows) in Hnone.
  destruct (Nat.le_gt_cases c (max_column ws)) as [Hle|Hgt].
  - destruct c as [|c].
    + unfold header_key in Hc. simpl in Hc. congruence.
    + pose proof (find_none _ _ Hnone (S c)) as Hf. cbv beta in Hf.
      rewrite Hc, ustr_eqb_refl in Hf.
      assert (In (S c) (rev (seq 1 (max_column ws)))).
      { rewrite <- in_rev. apply in_seq. lia. }
      specialize (Hf H). discriminate.
  - unfold header_key in Hc. rewrite (cell_beyond_max_column ws HEADER_ROW c Hgt) in Hc.
    congruence.
Qed.

Lemma ensure_review_column_cases (ws : worksheet) :
  (max_row ws < HEADER_ROW /\ ensure_review_column ws = (ws, None))
  \/ (HEADER_ROW <= max_row ws
      /\ exists review_column,
           named_column ws "revisar" = Some review_column
           /\ ensure_review_column ws = (ws, Some review_column))
  \/ (HEADER_ROW <= max_row ws
      /\ named_column ws "revisar" = None /\ named_column ws "creditos" = None
      /\ ensure_review_column ws = (ws, None))
  \/ (HEADER_ROW <= max_row ws
      /\ named_column ws "revisar" = None
      /\ exists credit_column,
           named_column ws "creditos" = Some credit_column
           /\ 1 <= credit_column
           /\ ensure_review_column ws
              = (set_cell (insert_cols ws (credit_column + 1)) HEADER_ROW
                   (credit_column + 1) (VStr REVISAR),
                 Some (credit_column + 1))).
Proof.
  unfold ensure_review_column.
  change (valid_column (hm_get (U "revisar") (extract_header_map ws (max_column ws))))
    with (named_column ws "revisar").
  change (valid_column (hm_get (U "creditos") (extract_header_map ws (max_column ws))))
    with (named_column ws "creditos").
  destruct (Nat.ltb_spec (max_row ws) HEADER_ROW) as [Hlt|Hge]; [left; split; auto|].
  right. destruct (named_column ws "revisar") as [rc|] eqn:Er.
  { left. split; [exact Hge|]. exists rc. split; reflexivity. }
  right. destruct (named_column ws "creditos") as [cr|] eqn:Ec.
  - right. split; [exact Hge|]. split; [reflexivity|]. exists cr.
    split; [reflexivity|]. split; [|reflexivity].
    unfold named_column, valid_column in Ec.
    destruct (hm_get _ _) as [[|n]|]; try discriminate. injection Ec as <-. lia.
  - left. repeat split; auto.
Qed.

Lemma review_column_added (ws : worksheet) (cr : nat) :
  normalize_text (VStr REVISAR) = U "revisar" ->
  HEADER_ROW <= max_row ws -> 1 <= cr ->
  named_column ws "revisar" = None ->
  let out := set_cell (insert_cols ws (cr + 1)) HEADER_ROW (cr + 1) (VStr REVISAR) in
  HEADER_ROW <= max_row out
  /\ named_column out "revisar" = Some (cr + 1)
  /\ forall r c,
       cell out r c
       = if (r =? HEADER_ROW) && (c =? cr + 1) then VStr REVISAR
         else if c <? cr + 1 then cell ws r c
         else if c =? cr + 1 then VNone
         else cell ws r (c - 1).
Proof.
  intros Hnorm Hrows Hcr Hnone out.
  assert (Hk : U "revisar" <> []) by (vm_compute; discriminate).
  assert (Hcells : forall r c,
            cell out r c
            = if (r =? HEADER_ROW) && (c =? cr + 1) then VStr REVISAR
              else if c <? cr + 1 then cell ws r c
              else if c =? cr + 1 then VNone
              else cell ws r (c - 1)).
  { intros r c. subst out.
    rewrite cell_set_cell by (unfold HEADER_ROW; lia).
    destruct ((r =? HEADER_ROW) && (c =? cr + 1)); [reflexivity|].
    apply cell_insert_cols. lia. }
  assert (Hmr : HEADER_ROW <= max_row out).
  { subst out. rewrite max_row_set_cell; rewrite max_row_insert_cols; exact Hrows. }
  assert (Hhead : cell out HEADER_ROW (cr + 1) = VStr REVISAR).
  { rewrite Hcells, !Nat.eqb_refl. reflexivity. }
  assert (Hmc : cr + 1 <= max_column out).
  { destruct (Nat.le_gt_cases (cr + 1) (max_column out)) as [H|H]; [exact H|].
    rewrite (cell_beyond_max_column out HEADER_ROW (cr + 1) H) in Hhead. discriminate. }
  split; [exact Hmr|]. split; [|exact Hcells].
  rewrite (named_column_find out "revisar" Hk Hmr).
  apply find_unique.
  - rewrite <- in_rev. apply in_seq. lia.
  - unfold header_key. rewrite Hhead, Hnorm. apply ustr_eqb_refl.
  - intros y _ Hy. apply ustr_eqb_eq in Hy.
    destruct (Nat.eq_dec y (cr + 1)) as [E|Hne]; [exact E|]. exfalso.
    unfold header_key in Hy. rewrite Hcells in Hy.
    replace (y =? cr + 1) with false in Hy by (symmetry; apply Nat.eqb_neq; exact Hne).
    rewrite andb_false_r in Hy.
    destruct (y <? cr + 1).
    + exact (named_column_none ws "revisar" Hk Hrows Hnone y Hy).
    + exact (named_column_none ws "revisar" Hk Hrows Hnone (y - 1) Hy).
Qed.

End ReviewColumnCases.

(** X24. The review column of case 1 is added once.  When the header row
    has no column ["Revisar"] but has the credit column, a column is
    inserted right after the credits: the cells to its left stay, the
    cells from there on move one column to the right, and the new column
    is empty but for its title in the header row.  The column returned
    is then the column of ["Revisar"] in the new sheet, so that a second
    call returns the same column and leaves the sheet as it is.  A sheet
    with less than 14 rows, or with neither column, is left as it is. *)
Theorem review_column_is_added_once (L : PyLib) (ws : worksheet) :
  normalize_text (VStr REVISAR) = U "revisar" ->
  let out := ensure_review_column ws in
  ensure_review_column (fst out) = out
  /\ match snd out with
     | None =>
         fst out = ws
         /\ (max_row ws < HEADER_ROW
             \/ (named_column ws "revisar" = None /\ named_column ws "creditos" = None))
     | Some review_column =>
         named_column (fst out) "revisar" = Some review_column
         /\ ((named_column ws "revisar" = Some review_column /\ fst out = ws)
             \/ (named_column ws "revisar" = None
                 /\ named_column ws "creditos" = Some (review_column - 1)
                 /\ 2 <= review_column
                 /\ forall r c,
                      cell (fst out) r c
                      = if (r =? HEADER_ROW) && (c =? review_column) then VStr REVISAR
                        else if c <? review_column then cell ws r c
                        else if c =? review_column then VNone
                        else cell ws r (c - 1)))
     end.
Proof.
  intros Hnorm out. subst out.
  destruct (ensure_review_column_cases ws)
    as [[Hlt E]|[(Hge & rc & Hrc & E)|[(Hge & Hr & Hc & E)|(Hge & Hr & cr & Hc & Hcr & E)]]];
    rewrite E; cbn [fst snd].
  - split; [exact E|]. split; [reflexivity | left; exact Hlt].
  - split; [exact E|]. split; [exact Hrc | left; split; [exact Hrc | reflexivity]].
  - split; [exact E|]. split; [reflexivity | right; split; assumption].
  - destruct (review_column_added ws cr Hnorm Hge Hcr Hr) as (Hmr & Hnamed & Hcells).
    cbv zeta in Hmr, Hnamed, Hcells.
    set (ws' := set_cell (insert_cols ws (cr + 1)) HEADER_ROW (cr + 1) (VStr REVISAR)) in *.
    split.
    + destruct (ensure_review_column_cases ws')
        as [[Hlt' E']|[(_ & rc' & Hrc' & E')|[(_ & Hr' & _ & _)|(_ & Hr' & _)]]].
      * lia.
      * rewrite E'. rewrite Hnamed in Hrc'. injection Hrc' as <-. reflexivity.
      * rewrite Hnamed in Hr'. discriminate.
      * rewrite Hnamed in Hr'. discriminate.
    + split; [exact Hnamed|]. right. split; [exact Hr|].
      replace (cr + 1 - 1) with cr by lia. split; [exact Hc|]. split; [lia|].
      exact Hcells.
Qed.

Lemma review_column_is_added_once_witness :
  @normalize_text RefLib (VStr REVISAR) = U "revisar"
  /\ @ensure_review_column RefLib (fst (@ensure_review_column RefLib sample_october))
     = @ensure_review_column RefLib sample_october.
Proof.
  assert (H : @normalize_text RefLib (VStr REVISAR) = U "revisar")
    by (vm_compute; reflexivity).
  split; [exact H|].
  exact (proj1 (review_column_is_added_once RefLib sample_october H)).
Defined.

Example review_column_on_sample :
  snd (@ensure_review_column RefLib sample_october) = Some 7
  /\ map (cell (fst (@ensure_review_column RefLib sample_october)) HEADER_ROW)
       [5; 6; 7; 8]
     = [VStr (U "Débitos"); VStr (U "Créditos"); VStr (U "Revisar"); VNone]
  /\ @ensure_review_column RefLib
       (sample_sheet [] ++ [[VNone; VNone]])
     = (replicate 13 [] ++ [sample_header ++ [VStr (U "Revisar")]; []] ++ [[VNone; VNone]],
        Some 7).
Proof. vm_compute. repeat split; reflexivity. Qed.

(** ** The date range of the subject *)

Section DateRangeLemmas.
Context {L : PyLib}.

Lemma findall_skip (match_at : ustr -> option nat) (s : ustr) (k : nat) :
  findall match_at s k = findall match_at (drop k s) 0.
Proof.
  revert k. induction s as [|c s IH]; intros [|k]; try reflexivity.
  simpl. apply IH.
Qed.

(** The first match is the leftmost one, and the search goes on after
    it. *)
Lemma findall_first (match_at : ustr -> option nat) :
  (forall t n, match_at t = Some n -> 1 <= n <= length t) ->
  forall s,
    match findall match_at s 0 with
    | [] => forall i, i < length s -> match_at (drop i s) = None
    | x :: xs =>
        exists pre rest,
          s = pre ++ x ++ rest
          /\ match_at (x ++ rest) = Some (length x)
          /\ (forall i, i < length pre -> match_at (drop i s) = None)
          /\ findall match_at rest 0 = xs
    end.
Proof.
  intros Hbound. induction s as [|c s IH].
  - simpl. intros i Hi. lia.
  - cbn [findall]. destruct (match_at (c :: s)) as [n|] eqn:Em.
    + destruct (Hbound _ _ Em) as [Hn1 Hn2]. destruct n as [|n]; [lia|].
      exists [], (drop (S n) (c :: s)).
      assert (Hlen : length (take (S n) (c :: s)) = S n) by (rewrite length_take; lia).
      split; [exact (eq_sym (take_drop (S n) (c :: s)))|].
      split; [rewrite take_drop, Hlen; exact Em|].
      split; [intros i Hi; simpl in Hi; lia|].
      symmetry. exact (findall_skip match_at s n).
    + destruct (findall match_at s 0) as [|x xs].
      * intros [|i] Hi; [exact Em|]. simpl in Hi. apply IH. lia.
      * destruct IH as (pre & rest & -> & Hx & Hpre & Hrest).
        exists (c :: pre), rest. split; [reflexivity|]. split; [exact Hx|].
        split; [|exact Hrest].
        intros [|i] Hi; [exact Em|]. simpl in Hi. apply Hpre. lia.
Qed.

Lemma date_at_length (day month : nat) (s : ustr) :
  date_at day month s = true -> day + 1 + month + 1 + 4 <= length s.
Proof.
  unfold date_at. intros H.
  apply andb_true_iff in H as [_ H]. unfold digits_at in H.
  apply andb_true_iff in H as [H _]. apply Nat.leb_le in H.
  rewrite length_drop in H. lia.
Qed.

Lemma match_date1_bound (t : ustr) (n : nat) :
  match_date1 t = Some n -> 1 <= n <= length t.
Proof.
  unfold match_date1. destruct (date_at 2 2 t) eqn:E; [|discriminate].
  intros [= <-]. apply date_at_length in E. lia.
Qed.

Lemma match_date7_bound (t : ustr) (n : nat) :
  match_date7 t = Some n -> 1 <= n <= length t.
Proof.
  unfold match_date7.
  destruct (date_at 2 2 t) eqn:E1; [intros [= <-]; apply date_at_length in E1; lia|].
  destruct (date_at 2 1 t) eqn:E2; [intros [= <-]; apply date_at_length in E2; lia|].
  destruct (date_at 1 2 t) eqn:E3; [intros [= <-]; apply date_at_length in E3; lia|].
  destruct (date_at 1 1 t) eqn:E4; [intros [= <-]; apply date_at_length in E4; lia|].
  discriminate.
Qed.

Lemma date_range_of_spec (match_at : ustr -> option nat) (subject : ustr) :
  (forall t n, match_at t = Some n -> 1 <= n <= length t) ->
  match date_range_of match_at subject with
  | Some (start, end_) =>
      exists pre first mid second post,
        subject = pre ++ first ++ mid ++ second ++ post
        /\ match_at (first ++ mid ++ second ++ post) = Some (length first)
        /\ match_at (second ++ post) = Some (length second)
        /\ strptime first DMY = Some start
        /\ strptime second DMY = Some end_
        /\ (forall i, i < length pre -> match_at (drop i subject) = None)
        /\ (forall i, i < length mid -> match_at (drop i (mid ++ second ++ post)) = None)
  | None =>
      length (findall match_at subject 0) < 2
      \/ exists first second others,
           findall match_at subject 0 = first :: second :: others
           /\ (strptime first DMY = None \/ strptime second DMY = None)
  end.
Proof.
  intros Hbound. unfold date_range_of.
  assert (Hempty : findall match_at [] 0 = []) by reflexivity.
  destruct subject as [|c0 subject0] eqn:Es; [left; simpl; lia|]. rewrite <- Es.
  clear Es c0 subject0.
  pose proof (findall_first match_at Hbound subject) as H1.
  destruct (findall match_at subject 0) as [|first [|second others]] eqn:Ef.
  - left. simpl. lia.
  - left. simpl. lia.
  - destruct H1 as (pre & rest & Hs & Hm1 & Hpre & Hrest).
    pose proof (findall_first match_at Hbound rest) as H2. rewrite Hrest in H2.
    destruct H2 as (mid & post & Hr & Hm2 & Hmid & _).
    destruct (strptime first DMY) as [start|] eqn:E1.
    + destruct (strptime second DMY) as [end_|] eqn:E2.
      * exists pre, first, mid, second, post. subst rest.
        repeat split; assumption.
      * right. exists first, second, others. split; [reflexivity | right; exact E2].
    + right. exists first, second, others. split; [reflexivity | left; exact E1].
Qed.

End DateRangeLemmas.

(** X25. The date range that cases 1 and 2 read from the subject.  The
    two dates are the first two texts of the shape dd/mm/yyyy, from left
    to right and without overlap: no such text starts before the first
    one, nor between the end of the first and the start of the second.
    The first is the start and the second the end, as they stand; what
    follows the second is not looked at.  There is no range when the
    subject has less than two such texts, or when one of the first two
    is not a date. *)
Theorem date_range_of_the_subject_in_cases_1_and_2 (L : PyLib) (subject : ustr) :
  match extract_date_range1 subject with
  | Some (start, end_) =>
      exists pre first mid second post,
        subject = pre ++ first ++ mid ++ second ++ post
        /\ length first = 10 /\ date_at 2 2 (first ++ mid ++ second ++ post) = true
        /\ length second = 10 /\ date_at 2 2 (second ++ post) = true
        /\ strptime first DMY = Some start
        /\ strptime second DMY = Some end_
        /\ (forall i, i < length pre -> date_at 2 2 (drop i subject) = false)
        /\ (forall i, i < length mid ->
              date_at 2 2 (drop i (mid ++ second ++ post)) = false)
  | None =>
      length (findall match_date1 subject 0) < 2
      \/ exists first second others,
           findall match_date1 subject 0 = first :: second :: others
           /\ (strptime first DMY = None \/ strptime second DMY = None)
  end.
Proof.
  pose proof (date_range_of_spec match_date1 subject match_date1_bound) as H.
  unfold extract_date_range1.
  destruct (date_range_of match_date1 subject) as [[start end_]|]; [|exact H].
  destruct H as (pre & first & mid & second & post & Hs & Hm1 & Hm2 & E1 & E2 & Hpre & Hmid).
  assert (Hshape : forall t n, match_date1 t = Some n -> n = 10 /\ date_at 2 2 t = true).
  { intros t n. unfold match_date1. destruct (date_at 2 2 t); [|discriminate].
    intros [= <-]. split; reflexivity. }
  assert (Hnone : forall t, match_date1 t = None -> date_at 2 2 t = false).
  { intros t. unfold match_date1. destruct (date_at 2 2 t); [discriminate|reflexivity]. }
  destruct (Hshape _ _ Hm1) as [L1 D1]. destruct (Hshape _ _ Hm2) as [L2 D2].
  exists pre, first, mid, second, post.
  split; [exact Hs|]. split; [exact L1|]. split; [exact D1|].
  split; [exact L2|]. split; [exact D2|]. split; [exact E1|]. split; [exact E2|].
  split; intros i Hi; apply Hnone; auto.
Qed.

(** X26. The date range that case 7 reads from the subject: as in cases
    1 and 2, but the day and the month may have one digit or two, the
    longer reading being tried first.  The two dates are the first two
    such texts from left to right, without overlap; there is no range
    when the subject has less than two of them or when one of the first
    two is not a date. *)
Theorem date_range_of_the_subject_in_case_7 (L : PyLib) (subject : ustr) :
  match extract_date_range7 subject with
  | Some (start, end_) =>
      exists pre first mid second post,
        subject = pre ++ first ++ mid ++ second ++ post
        /\ match_date7 (first ++ mid ++ second ++ post) = Some (length first)
        /\ match_date7 (second ++ post) = Some (length second)
        /\ 8 <= length first <= 10 /\ 8 <= length second <= 10
        /\ strptime first DMY = Some start
        /\ strptime second DMY = Some end_
        /\ (forall i day month, i < length pre ->
              In day [1; 2] -> In month [1; 2] ->
              date_at day month (drop i subject) = false)
        /\ (forall i day month, i < length mid ->
              In day [1; 2] -> In month [1; 2] ->
              date_at day month (drop i (mid ++ second ++ post)) = false)
  | None =>
      length (findall match_date7 subject 0) < 2
      \/ exists first second others,
           findall match_date7 subject 0 = first :: second :: others
           /\ (strptime first DMY = None \/ strptime second DMY = None)
  end.
Proof.
  pose proof (date_range_of_spec match_date7 subject match_date7_bound) as H.
  unfold extract_date_range7.
  destruct (date_range_of match_date7 subject) as [[start end_]|]; [|exact H].
  destruct H as (pre & first & mid & second & post & Hs & Hm1 & Hm2 & E1 & E2 & Hpre & Hmid).
  assert (Hlen : forall t n, match_date7 t = Some n -> 8 <= n <= 10).
  { intros t n. unfold match_date7.
    repeat (destruct (date_at _ _ t); [intros [= <-]; lia|]). discriminate. }
  assert (Hnone : forall t day month, match_date7 t = None ->
            In day [1; 2] -> In month [1; 2] -> date_at day month t = false).
  { intros t day month. unfold match_date7.
    destruct (date_at 2 2 t) eqn:E22; [discriminate|].
    destruct (date_at 2 1 t) eqn:E21; [discriminate|].
    destruct (date_at 1 2 t) eqn:E12; [discriminate|].
    destruct (date_at 1 1 t) eqn:E11; [discriminate|].
    intros _ [<-|[<-|[]]] [<-|[<-|[]]]; assumption. }
  exists pre, first, mid, second, post.
  split; [exact Hs|]. split; [exact Hm1|]. split; [exact Hm2|].
  split; [exact (Hlen _ _ Hm1)|]. split; [exact (Hlen _ _ Hm2)|].
  split; [exact E1|]. split; [exact E2|].
  split; intros i day month Hi Hd Hmo; apply Hnone; auto.
Qed.

Example date_range_on_sample :
  @extract_date_range1 RefLib (U "Estado de cuenta 01/10/2025 al 31/10/2025 (final)")
  = Some (date_of 2025 10 1, date_of 2025 10 31)
  /\ @extract_date_range1 RefLib (U "Del 31/10/2025 al 01/10/2025")
     = Some (date_of 2025 10 31, date_of 2025 10 1)
  /\ @extract_date_range1 RefLib (U "Del 1/10/2025 al 31/10/2025") = None
  /\ @extract_date_range7 RefLib (U "Del 1/10/2025 al 31/10/2025")
     = Some (date_of 2025 10 1, date_of 2025 10 31)
  /\ @extract_date_range1 RefLib (U "Del 31/02/2025 al 01/03/2025") = None
  /\ findall (@match_date1 RefLib) (U "x111/10/20255 01/01/2024") 0
     = [U "11/10/2025"; U "01/01/2024"].
Proof. vm_compute. repeat split; reflexivity. Qed.

(** ** The code maps of the configuration *)

Lemma dict_set_In {V : Type} (k : ustr) (v : V) (d : list (ustr * V)) (p : ustr * V) :
  In p (dict_set k v d) -> p = (k, v) \/ In p d.
Proof.
  unfold dict_set. destruct (existsb _ d).
  - rewrite in_map_iff. intros [q [Hq Hin]].
    destruct (ustr_eqb (fst q) k); [left; congruence | right; congruence].
  - rewrite in_app_iff. simpl. intuition.
Qed.

Lemma dict_set_has {V : Type} (k : ustr) (v : V) (d : list (ustr * V)) :
  In (k, v) (dict_set k v d).
Proof.
  unfold dict_set. destruct (existsb _ d) eqn:E.
  - apply existsb_exists in E as [q [Hq Hk]]. apply in_map_iff. exists q.
    rewrite Hk. split; [reflexivity | exact Hq].
  - apply in_or_app. right. left. reflexivity.
Qed.

Lemma dict_set_keys {V : Type} (k : ustr) (v : V) (d : list (ustr * V)) :
  List.NoDup (map fst d) -> List.NoDup (map fst (dict_set k v d)).
Proof.
  intros Hnd. unfold dict_set. destruct (existsb _ d) eqn:E.
  - replace (map fst (map (fun p => if ustr_eqb (fst p) k then (k, v) else p) d))
      with (map fst d); [exact Hnd|].
    rewrite map_map. apply map_ext. intros [k' v']. simpl.
    destruct (ustr_eqb k' k) eqn:Ek; [|reflexivity].
    apply ustr_eqb_eq in Ek. simpl. congruence.
  - rewrite map_app. simpl. apply NoDup_ListNoDup, NoDup_app.
    split; [apply NoDup_ListNoDup, Hnd|].
    split; [|apply NoDup_singleton].
    intros x Hx Hin. apply list_elem_of_In in Hin. destruct Hin as [<-|[]].
    apply list_elem_of_In in Hx.
    apply in_map_iff in Hx as [[k' v'] [Hk Hq]]. simpl in Hk. subst k'.
    assert (Ht : existsb (fun p => ustr_eqb (fst p) k) d = true).
    { apply existsb_exists. exists (k, v'). split; [exact Hq | apply ustr_eqb_refl]. }
    congruence.
Qed.

Lemma dict_set_fresh {V : Type} (k : ustr) (v : V) (d : list (ustr * V)) :
  ~ In k (map fst d) -> dict_set k v d = d ++ [(k, v)].
Proof.
  intros Hk. unfold dict_set. destruct (existsb _ d) eqn:E; [|reflexivity].
  exfalso. apply Hk. apply existsb_exists in E as [[k' v'] [Hq Hk']].
  simpl in Hk'. apply ustr_eqb_eq in Hk'. subst k'.
  apply in_map_iff. exists (k, v'). split; [reflexivity | exact Hq].
Qed.

Section CodeMapLemmas.
Context {L : PyLib}.

Lemma clean_code_dict_fold (items : list (value * value)) :
  forall acc,
    List.NoDup (map fst acc) ->
    let d := fold_left
               (fun d entry =>
                  match clean_code_entry entry with
                  | Some (k, v) => dict_set k v d
                  | None => d
                  end) items acc in
    List.NoDup (map fst d)
    /\ forall p, In p d ->
         In p acc \/ exists entry, In entry items /\ clean_code_entry entry = Some p.
Proof.
  induction items as [|entry items IH]; intros acc Hnd.
  - simpl. split; [exact Hnd | intros p Hp; left; exact Hp].
  - cbn [fold_left]. cbv zeta.
    destruct (clean_code_entry entry) as [[k v]|] eqn:Ee.
    + destruct (IH (dict_set k v acc) (dict_set_keys k v acc Hnd)) as [H1 H2].
      split; [exact H1|]. intros p Hp. destruct (H2 p Hp) as [Hin|(e & He & Hc)].
      * apply dict_set_In in Hin as [->|Hin]; [|left; exact Hin].
        right. exists entry. split; [left; reflexivity | exact Ee].
      * right. exists e. split; [right; exact He | exact Hc].
    + destruct (IH acc Hnd) as [H1 H2]. split; [exact H1|].
      intros p Hp. destruct (H2 p Hp) as [Hin|(e & He & Hc)]; [left; exact Hin|].
      right. exists e. split; [right; exact He | exact Hc].
Qed.

Lemma clean_code_dict_spec (items : list (value * value)) :
  List.NoDup (map fst (clean_code_dict items))
  /\ forall p, In p (clean_code_dict items) ->
       exists entry, In entry items /\ clean_code_entry entry = Some p.
Proof.
  destruct (clean_code_dict_fold items [] (List.NoDup_nil _)) as [H1 H2].
  split; [exact H1|]. intros p Hp. destruct (H2 p Hp) as [[]|H]. exact H.
Qed.

Lemma clean_code_entry_clean (entry : value * value) (k v : ustr) :
  clean_code_laws ->
  clean_code_entry entry = Some (k, v) ->
  clean_code k /\ clean_code v
  /\ clean_code_entry (VStr k, VStr v) = Some (k, v).
Proof.
  intros [L1 L2]. unfold clean_code_entry. cbv zeta.
  destruct (ustr_eqb (strip (py_str (fst entry))) []) eqn:Ek; [discriminate|].
  destruct (ustr_eqb (strip (py_str (snd entry))) []) eqn:Ev; [discriminate|].
  cbn [negb andb]. intros [= <- <-].
  apply ustr_eqb_neq in Ek, Ev.
  pose proof (L2 _ Ek) as Nk. pose proof (L2 _ Ev) as Nv.
  assert (Hne : forall s, strip s <> [] -> s <> []).
  { intros s Hs ->. apply Hs. reflexivity. }
  split; [split; [exact (Hne _ Nk) | apply L1]|].
  split; [split; [exact (Hne _ Nv) | apply L1]|].
  cbn [fst snd py_str].
  replace (ustr_eqb (strip (upper (strip (py_str (fst entry))))) []) with false
    by (symmetry; apply ustr_eqb_neq; exact Nk).
  replace (ustr_eqb (strip (upper (strip (py_str (snd entry))))) []) with false
    by (symmetry; apply ustr_eqb_neq; exact Nv).
  cbn [negb andb]. rewrite !L1. reflexivity.
Qed.

(** Cleaning the items of a cleaned dictionary gives the dictionary
    back. *)
Lemma clean_code_dict_rebuild (d : list (ustr * ustr)) :
  (forall p, In p d -> clean_code_entry (VStr (fst p), VStr (snd p)) = Some p) ->
  forall acc,
    List.NoDup (map fst (acc ++ d)) ->
    fold_left
      (fun d entry =>
         match clean_code_entry entry with
         | Some (k, v) => dict_set k v d
         | None => d
         end) (map (fun p => (VStr (fst p), VStr (snd p))) d) acc
    = acc ++ d.
Proof.
  induction d as [|[k v] d IH]; intros Hd acc Hnd.
  - simpl. rewrite app_nil_r. reflexivity.
  - cbn [map fold_left]. rewrite (Hd (k, v) (or_introl eq_refl)).
    assert (Hfresh : ~ In k (map fst acc)).
    { rewrite map_app in Hnd. simpl in Hnd.
      apply List.NoDup_remove_2 in Hnd. intros Hin. apply Hnd.
      apply in_or_app. left. exact Hin. }
    rewrite (dict_set_fresh k v acc Hfresh).
    rewrite IH.
    + rewrite <- app_assoc. reflexivity.
    + intros p Hp. apply Hd. right. exact Hp.
    + rewrite <- app_assoc. exact Hnd.
Qed.

Lemma clean_code_dict_idempotent (items : list (value * value)) :
  clean_code_laws ->
  clean_code_dict
    (map (fun p => (VStr (fst p), VStr (snd p))) (clean_code_dict items))
  = clean_code_dict items.
Proof.
  intros Hlaws. destruct (clean_code_dict_spec items) as [Hnd Hfrom].
  unfold clean_code_dict at 1.
  rewrite (clean_code_dict_rebuild (clean_code_dict items)); [reflexivity| |exact Hnd].
  intros [k v] Hp. destruct (Hfrom _ Hp) as (entry & _ & Hc).
  exact (proj2 (proj2 (clean_code_entry_clean entry k v Hlaws Hc))).
Qed.

Lemma ref_clean_code_laws : @clean_code_laws RefLib.
Proof.
  split; [exact ref_code_law|].
  intros s Hs. simpl. unfold Ref.upper.
  rewrite (strip_map Ref.upper_char (strip s) ref_upper_char_space), strip_idempotent.
  intros H. apply Hs. destruct (strip s); [reflexivity | discriminate].
Qed.

End CodeMapLemmas.

(** X27. The code maps of the configuration.  What a pass is handed out
    from a dictionary of the file has clean codes only: every key and
    every code is text that is not empty and that stripping and upper
    case leave as it is, and comes from an item of the file; when two
    items give the same key, the later one gives the code.  What the
    setter saves is read back as the cleaned mapping, and the maps of the
    other cases are read as before; nothing is saved when the file holds
    something else than a dictionary under the category. *)
Theorem code_maps_are_stored_clean (L : PyLib) (defaults : code_map)
    (category : stored_category) (case_key : string) (mapping : list (value * value)) :
  clean_code_laws ->
  (forall cases items k v,
     category = Category cases -> cases !! case_key = Some (Dict items) ->
     get_code_map defaults category case_key !! k = Some v ->
     clean_code k /\ clean_code v
     /\ exists entry, In entry items /\ clean_code_entry entry = Some (k, v))
  /\ (forall items entry k v,
        clean_code_entry entry = Some (k, v) ->
        code_map_of (clean_code_dict (items ++ [entry])) !! k = Some v)
  /\ match set_code_map category case_key mapping with
     | Some saved =>
         get_code_map defaults saved case_key = code_map_of (clean_code_dict mapping)
         /\ forall other, other <> case_key ->
              get_code_map defaults saved other = get_code_map defaults category other
     | None => category = NotACategory
     end.
Proof.
  intros Hlaws. split; [|split].
  - intros cases items k v -> Hstored Hget. unfold get_code_map in Hget.
    rewrite Hstored in Hget. unfold code_map_of in Hget.
    apply elem_of_list_to_map_2 in Hget. apply list_elem_of_In in Hget.
    destruct (proj2 (clean_code_dict_spec items) _ Hget) as (entry & Hin & Hc).
    destruct (clean_code_entry_clean entry k v Hlaws Hc) as (Ck & Cv & _).
    split; [exact Ck|]. split; [exact Cv|]. exists entry. split; assumption.
  - intros items entry k v Hc. unfold code_map_of.
    apply elem_of_list_to_map_1.
    + apply NoDup_ListNoDup. apply (proj1 (clean_code_dict_spec (items ++ [entry]))).
    + apply list_elem_of_In. unfold clean_code_dict. rewrite fold_left_app.
      cbn [fold_left]. rewrite Hc. apply dict_set_has.
  - unfold set_code_map. destruct category as [| |cases]; [|reflexivity|].
    + split.
      * unfold get_code_map. rewrite lookup_insert_eq.
        rewrite (clean_code_dict_idempotent mapping Hlaws). reflexivity.
      * intros other Hne. unfold get_code_map.
        rewrite lookup_insert_ne by congruence. rewrite lookup_empty. reflexivity.
    + split.
      * unfold get_code_map. rewrite lookup_insert_eq.
        rewrite (clean_code_dict_idempotent mapping Hlaws). reflexivity.
      * intros other Hne. unfold get_code_map.
        rewrite lookup_insert_ne by congruence. reflexivity.
Qed.

Lemma code_maps_are_stored_clean_witness :
  @clean_code_laws RefLib
  /\ @code_map_of
       (@clean_code_dict RefLib
          [(VStr (U " wd "), VStr (U "t/d")); (VStr (U "WD"), VStr (U "T/C"))])
     !! U "WD" = Some (U "T/C").
Proof.
  assert (H : @clean_code_laws RefLib) by exact ref_clean_code_laws.
  split; [exact H|].
  exact (proj1 (proj2 (code_maps_are_stored_clean RefLib ∅ Missing "case1"%string [] H))
           [(VStr (U " wd "), VStr (U "t/d"))] (VStr (U "WD"), VStr (U "T/C"))
           (U "WD") (U "T/C") eq_refl).
Defined.

Example code_maps_on_sample :
  @clean_code_dict RefLib
    [ (VStr (U " wd "), VStr (U "t/d")); (VStr (U "  "), VStr (U "X"));
      (VStr (U "3v"), VNum 7); (VStr (U "WD"), VStr (U " t/c ")) ]
  = [ (U "WD", U "T/C"); (U "3V", U "7") ]
  /\ @get_code_map RefLib DEFAULT_POSITIVE_DEBIT_CODES Missing "case7" !! U "3V"
     = Some (U "O/D")
  /\ @get_code_map RefLib DEFAULT_POSITIVE_DEBIT_CODES
       (Category (<["case7"%string := NotADict]> ∅)) "case7" = ∅.
Proof. vm_compute. repeat split; reflexivity. Qed.

(** ** The codification rules of the configuration *)

Lemma omap_cons_list {A B} (f : A -> option B) (x : A) (l : list A) :
  omap f (x :: l) = match f x with Some y => y :: omap f l | None => omap f l end.
Proof. reflexivity. Qed.

Lemma omap_omap_list {A B C} (f : A -> option B) (g : B -> option C) (l : list A) :
  omap g (omap f l) = omap (fun x => match f x with Some y => g y | None => None end) l.
Proof.
  induction l as [|x l IH]; [reflexivity|].
  rewrite !omap_cons_list. destruct (f x) as [y|]; [|exact IH].
  rewrite omap_cons_list, IH. reflexivity.
Qed.

Lemma omap_ext_list {A B} (f g : A -> option B) (l : list A) :
  (forall x, f x = g x) -> omap f l = omap g l.
Proof.
  intros H. induction l as [|x l IH]; [reflexivity|].
  rewrite !omap_cons_list, H, IH. reflexivity.
Qed.

Section CodificationRulesLemmas.
Context {L : PyLib}.

Lemma clean_entries_omap (entries : list stored_rule) :
  clean_entries (Some entries)
  = omap (fun item =>
            match item with
            | Rule (VStr search_text) (VStr code) =>
                if negb (ustr_eqb (strip search_text) []) && negb (ustr_eqb (strip code) [])
                then Some (strip search_text, strip code)
                else None
            | _ => None
            end) entries.
Proof.
  unfold clean_entries.
  rewrite <- (app_nil_l (omap _ entries)), <- fold_append_some.
  apply fold_left_pointwise. intros cleaned item.
  destruct item as [|[|s|q|b|d|o|t] code]; try reflexivity.
  destruct code as [|c|q|b|d|o|t]; try reflexivity.
  cbv zeta. destruct (negb (ustr_eqb (strip s) []) && negb (ustr_eqb (strip c) []));
    reflexivity.
Qed.

Lemma prepare_entries_omap (entries : list (ustr * ustr)) :
  prepare_entries entries
  = omap (fun item =>
            if negb (ustr_eqb (normalize_text7 (VStr (fst item))) [])
               && negb (ustr_eqb (strip (snd item)) [])
            then Some (normalize_text7 (VStr (fst item)), strip (snd item))
            else None) entries.
Proof.
  unfold prepare_entries.
  rewrite <- (app_nil_l (omap _ entries)), <- fold_append_some.
  apply fold_left_pointwise. intros prepared item. cbv zeta.
  destruct (negb (ustr_eqb (normalize_text7 (VStr (fst item))) [])
            && negb (ustr_eqb (strip (snd item)) [])); reflexivity.
Qed.

Lemma prepared_entries (entries : option (list stored_rule)) :
  prepare_entries (clean_entries entries) = omap prepared_rule (default [] entries).
Proof.
  destruct entries as [entries|]; [|reflexivity]. cbn [default].
  rewrite clean_entries_omap, prepare_entries_omap, omap_omap_list.
  apply omap_ext_list. intros item. unfold prepared_rule.
  destruct item as [|[|s|q|b|d|o|t] code]; try reflexivity.
  destruct code as [|c|q|b|d|o|t]; try reflexivity.
  destruct (ustr_eqb (strip s) []); [reflexivity|].
  destruct (ustr_eqb (strip c) []) eqn:Ec; [reflexivity|].
  cbn [negb andb fst snd]. rewrite strip_idempotent, Ec. cbn [negb].
  destruct (ustr_eqb (normalize_text7 (VStr (strip s))) []); reflexivity.
Qed.

Lemma prepared_rule_clean (item : stored_rule) (rule : ustr * ustr) :
  prepared_rule item = Some rule ->
  fst rule <> [] /\ snd rule <> [] /\ strip (snd rule) = snd rule.
Proof.
  unfold prepared_rule.
  destruct item as [|[|s|q|b|d|o|t] code]; try discriminate.
  destruct code as [|c|q|b|d|o|t]; try discriminate.
  destruct (ustr_eqb (strip s) []); [discriminate|].
  destruct (ustr_eqb (strip c) []) eqn:Ec; [discriminate|].
  destruct (ustr_eqb (normalize_text7 (VStr (strip s))) []) eqn:En; [discriminate|].
  cbn [negb andb]. intros [= <-]. cbn [fst snd].
  apply ustr_eqb_neq in Ec, En.
  split; [exact En|]. split; [exact Ec | apply strip_idempotent].
Qed.

Lemma prepared_rules_clean (entries : list stored_rule) (rule : ustr * ustr) :
  In rule (omap prepared_rule entries) ->
  fst rule <> [] /\ snd rule <> [] /\ strip (snd rule) = snd rule.
Proof.
  intros Hin. apply list_elem_of_In in Hin.
  apply list_elem_of_omap in Hin as (item & _ & Hp).
  exact (prepared_rule_clean item rule Hp).
Qed.

Lemma match_codification_first_occurring (nd : ustr) (rules : list (ustr * ustr)) :
  (forall rule, In rule rules -> fst rule <> [] /\ snd rule <> []) ->
  match_codification nd rules = first_occurring nd rules.
Proof.
  unfold first_occurring. induction rules as [|[search_text code] rules IH]; intros H.
  - reflexivity.
  - destruct (H (search_text, code) (or_introl eq_refl)) as [Hs Hc]. cbn [fst snd] in *.
    cbn [match_codification List.find fst].
    replace (ustr_eqb search_text []) with false by (symmetry; apply ustr_eqb_neq; exact Hs).
    replace (ustr_eqb code []) with false by (symmetry; apply ustr_eqb_neq; exact Hc).
    cbn [negb andb]. destruct (contains search_text nd); [reflexivity|].
    apply IH. intros rule Hr. apply H. right. exact Hr.
Qed.

End CodificationRulesLemmas.

(** X28. The codification rules of case 7 as the pass gets them from the
    file.  An item of the file gives a rule when its search text and its
    code are texts that are not blank and the search text, stripped and
    normalised, is not empty; the rule is then that normalised text with
    the stripped code, and the rules keep the order of the file.  So no
    rule of the pass has an empty search text or an empty code, and the
    code that matching gives is simply the code of the first rule whose
    search text occurs in the description.  The rules cannot be read
    when the file holds something else than a dictionary for them. *)
Theorem codification_rules_are_prepared (L : PyLib) (stored : stored_rules) :
  match get_codification_rules stored with
  | None => stored = NotRules
  | Some rules =>
      exists debit credit,
        stored = Rules debit credit
        /\ credit_rules rules = omap prepared_rule (default [] credit)
        /\ debit_rules rules = omap prepared_rule (default [] debit)
        /\ (forall rule, In rule (credit_rules rules ++ debit_rules rules) ->
              fst rule <> [] /\ snd rule <> [] /\ strip (snd rule) = snd rule)
        /\ (forall normalized_description,
              match_codification normalized_description (credit_rules rules)
              = first_occurring normalized_description (credit_rules rules))
        /\ (forall normalized_description,
              match_codification normalized_description (debit_rules rules)
              = first_occurring normalized_description (debit_rules rules))
  end.
Proof.
  unfold get_codification_rules, get_case7_codification_rules.
  destruct stored as [|debit credit]; [reflexivity|].
  exists debit, credit. cbn [credit_rules debit_rules].
  rewrite !prepared_entries.
  split; [reflexivity|]. split; [reflexivity|]. split; [reflexivity|].
  assert (Hclean : forall entries rule,
            In rule (omap prepared_rule (default [] entries)) ->
            fst rule <> [] /\ snd rule <> [] /\ strip (snd rule) = snd rule).
  { intros entries rule. apply prepared_rules_clean. }
  split.
  { intros rule Hin. apply in_app_or in Hin as [Hin|Hin]; eapply Hclean; exact Hin. }
  split; intros nd; apply match_codification_first_occurring;
    intros rule Hin; destruct (Hclean _ rule Hin) as (H1 & H2 & _); split; assumption.
Qed.

Example codification_rules_on_sample :
  @get_codification_rules RefLib
    (Rules
       (Some [ Rule (VStr (U " Pago Luz ")) (VStr (U " T/D "));
               Rule (VStr (U "   ")) (VStr (U "X"));
               NotARule;
               Rule (VStr (U "retiro")) (VNum 5) ])
       None)
  = Some (mk_rules [] [(U "pagoluz", U "T/D")])
  /\ @get_codification_rules RefLib NotRules = None.
Proof. vm_compute. split; reflexivity. Qed.
